(** * Vanguard: the statistical aggregation layer and the mock-data generator

    A shallow embedding of [analyzers.py] (the two analysis engines
    [LolAnalyzer] and [ValorantAnalyzer]) and of [mock_data.py] (the
    [MockDataGenerator]), followed by the properties the specification
    states about them.  Further on: the data path of [loaders.py] (the
    statistics service is a parameter), and from [utils.py] and
    [agent.py] the colour of a metric, the rows of the objective
    timeline and the lane the mock report singles out.

    Conventions of the embedding.
    - Python [int] is [Z].  Python [float] (and [numpy.float64]) is an exact
      rational [Q], kept in lowest terms so that equal numbers are equal
      terms; binary rounding error of the hardware is not modelled.  What
      is stated of a reported float leaves room for that error: a rate is
      stated to lie within half a decimal step, plus [float_slack], of the
      exact quotient, and only numbers that binary floating point holds
      exactly are stated as equalities.  A float that may be infinite or
      NaN (a number sent by the statistics service, the arguments of the
      colour thresholds) is a [pyfloat].
    - A Python [dict] is an association list in insertion order, a
      [collections.Counter] likewise (the order decides [max] ties).
    - A raised exception is the [Raise] branch of [result].
    - The analyzers are embedded twice: as functions of the match list,
      and as programs on a store of shared objects (modules [Store],
      [LolStore], [ValorantStore]), where lists and dictionaries are
      cells that a method could overwrite.
    - The process-wide random source is an explicit stream of raw draws,
      the wall clock an explicit day number. *)

From Stdlib Require Import ZArith QArith Qabs List String Ascii Bool Lia.
From Stdlib Require Import DecimalString Lqa.
Import ListNotations.

Open Scope string_scope.
Open Scope list_scope.
Open Scope Z_scope.

Infix "+++" := String.append (right associativity, at level 60).

(* ================================================================= *)
(** ** Python values                                                  *)
(* ================================================================= *)

Module Py.

(** Exceptions that the modelled code can raise. *)
Inductive exn : Type :=
| KeyError (key : string)
| ValueError
| IndexError
| OverflowError
| ZeroDivisionError.

Inductive result (A : Type) : Type :=
| Ok (a : A)
| Raise (e : exn).
Arguments Ok {A} a.
Arguments Raise {A} e.

(** A Python number: [int] or [float]. *)
Inductive num : Type :=
| NInt (z : Z)
| NFloat (q : Q).

Definition flt (q : Q) : num := NFloat (Qred q).

Definition num_to_Q (n : num) : Q :=
  match n with
  | NInt z => inject_Z z
  | NFloat q => q
  end.

Definition Qltb (a b : Q) : bool := negb (Qle_bool b a).

(** [x != 0] and [x > c] on numbers. *)
Definition num_nonzero (n : num) : bool := negb (Qeq_bool (num_to_Q n) 0).
Definition num_gt (n : num) (c : Q) : bool := Qltb c (num_to_Q n).

(** Round half to even, to the nearest integer. *)
Definition round_half_even (q : Q) : Z :=
  let n := Qnum q in
  let d := Zpos (Qden q) in
  let f := n / d in
  let r2 := 2 * (n mod d) in
  if r2 <? d then f
  else if d <? r2 then f + 1
  else if Z.even f then f else f + 1.

Definition pow10 (nd : nat) : Z := 10 ^ Z.of_nat nd.

(** [round(x, ndigits)] for [ndigits >= 0]: an [int] is returned
    unchanged, a [float] is rounded half-even at that decimal place. *)
Definition py_round (x : num) (ndigits : nat) : num :=
  match x with
  | NInt z => NInt z
  | NFloat q =>
      flt (inject_Z (round_half_even (q * inject_Z (pow10 ndigits)))
           / inject_Z (pow10 ndigits))
  end.

(** [int(x)]: truncation toward zero. *)
Definition py_int (x : num) : Z :=
  match x with
  | NInt z => z
  | NFloat q => Z.quot (Qnum q) (Zpos (Qden q))
  end.

(** [max(a, b, c)] on numbers (the first maximal argument is returned). *)
Definition num_max2 (a b : num) : num :=
  if Qltb (num_to_Q a) (num_to_Q b) then b else a.
Definition num_max3 (a b c : num) : num := num_max2 (num_max2 a b) c.

(** [numpy.mean] of a non-empty list of integers. *)
Definition sumZ (l : list Z) : Z := fold_left Z.add l 0.
Definition np_mean (l : list Z) : num :=
  flt (inject_Z (sumZ l) / inject_Z (Z.of_nat (List.length l))).

(** [(a / b * 100) if b > 0 else 0] on integer counts, the pattern every
    rate of the analyzers is written in. *)
Definition percent_or_zero (a b : Z) : num :=
  if b >? 0 then flt (inject_Z a / inject_Z b * 100) else NInt 0.

(** *** String formatting *)

Definition str_of_Z (z : Z) : string := NilZero.string_of_int (Z.to_int z).

Fixpoint zero_pad (width : nat) (s : string) : string :=
  match width - String.length s with
  | O => s
  | S _ => match width with
           | O => s
           | S w => "0" +++ zero_pad w s
           end
  end%nat.

(** [f"{x:.Nf}"]: fixed-point notation with [nd] decimals. *)
Definition fmt_fixed (nd : nat) (x : num) : string :=
  let q := num_to_Q x in
  let neg := Qltb q 0 in
  let scaled := round_half_even (Qabs q * inject_Z (pow10 nd)) in
  let int_part := scaled / pow10 nd in
  let frac_part := scaled mod pow10 nd in
  (if neg then "-" else "") +++ str_of_Z int_part +++
  match nd with
  | O => ""
  | _ => "." +++ zero_pad nd (str_of_Z frac_part)
  end.

(** [f"{n:+d}"]: a signed decimal integer. *)
Definition fmt_signed (z : Z) : string :=
  if z <? 0 then str_of_Z z else "+" +++ str_of_Z z.

(** *** Dictionaries and counters *)

#[local] Unset Elimination Schemes.
Inductive pyval : Type :=
| PNum (n : num)
| PStr (s : string)
| PList (l : list pyval)
| PDict (d : list (string * pyval)).
#[local] Set Elimination Schemes.

Definition PInt (z : Z) : pyval := PNum (NInt z).

Section Dict.
Context {V : Type}.

Fixpoint dict_get (k : string) (d : list (string * V)) : option V :=
  match d with
  | [] => None
  | (k', v) :: d' => if String.eqb k k' then Some v else dict_get k d'
  end.

(** [d[k] = v]: overwrite in place, or append a new key last. *)
Fixpoint dict_set (k : string) (v : V) (d : list (string * V))
  : list (string * V) :=
  match d with
  | [] => [(k, v)]
  | (k', v') :: d' =>
      if String.eqb k k' then (k', v) :: d' else (k', v') :: dict_set k v d'
  end.

(** [d[k]], raising [KeyError] on a missing key. *)
Definition dict_getitem (k : string) (d : list (string * V)) : result V :=
  match dict_get k d with
  | Some v => Ok v
  | None => Raise (KeyError k)
  end.

Definition dict_keys (d : list (string * V)) : list string := map fst d.
End Dict.

Definition counter := list (string * Z).

(** [c.get(k, 0)] *)
Definition counter_get (k : string) (c : counter) : Z :=
  match dict_get k c with
  | Some n => n
  | None => 0
  end.

(** [c[k] += 1] *)
Definition counter_incr (k : string) (c : counter) : counter :=
  dict_set k (counter_get k c + 1) c.

(** [Counter(iterable)] *)
Definition counter_of (l : list string) : counter :=
  fold_left (fun c k => counter_incr k c) l [].

(** [max(c, key=c.get)] on a non-empty counter: the first key, in
    insertion order, whose count is maximal.  [default] stands for the
    caller's own handling of the empty counter. *)
Fixpoint counter_argmax_from (best : string) (bestn : Z) (c : counter)
  : string :=
  match c with
  | [] => best
  | (k, n) :: c' =>
      if bestn <? n then counter_argmax_from k n c'
      else counter_argmax_from best bestn c'
  end.

Definition counter_argmax (default : string) (c : counter) : string :=
  match c with
  | [] => default
  | (k, n) :: c' => counter_argmax_from k n c'
  end.

End Py.
Import Py.

(* ================================================================= *)
(** ** League of Legends: match schema and [LolAnalyzer]              *)
(* ================================================================= *)

Module Lol.

Record kill : Type := mk_kill {
  k_timestamp : Z;
  killer : string;
  victim : string;
  k_x : Z;
  k_y : Z;
  is_first_blood : bool
}.

(** A dragon, herald or baron capture; only dragons carry a sub-type. *)
Record objective : Type := mk_objective {
  o_timestamp : Z;
  o_team : string;
  dragon_type : option string;
  o_x : Z;
  o_y : Z
}.

Record gold_update : Type := mk_gold_update {
  g_timestamp : Z;
  team_gold : Z;
  enemy_gold : Z;
  gold_difference : Z
}.

Record jungle_position : Type := mk_jungle_position {
  j_timestamp : Z;
  j_x : Z;
  j_y : Z;
  lane : string
}.

(** One match dictionary.  [date] is the proleptic Gregorian ordinal of
    the ISO date string the source stores. *)
Record lol_match : Type := mk_match {
  match_id : string;
  date : Z;
  team : string;
  opponent : string;
  won : bool;
  duration : Z;
  kills : list kill;
  dragons : list objective;
  barons : list objective;
  heralds : list objective;
  gold_updates : list gold_update;
  jungle_positions : list jungle_position
}.

(** The analyzer object: its two attributes. *)
Record analyzer : Type := mk_analyzer {
  matches : list lol_match;
  team_name : string
}.

(** [LolAnalyzer.__init__] *)
Definition init (ms : list lol_match) : analyzer :=
  {| matches := ms;
     team_name := match ms with
                  | m :: _ => team m
                  | [] => "Unknown"
                  end |}.

(** *** [calculate_jungle_proximity] *)

(** The loop [for match in self.matches: all_positions.extend(...)]. *)
Definition all_positions (self : analyzer) : list jungle_position :=
  fold_left (fun acc m => acc ++ jungle_positions m) (matches self) [].

Definition lane_counter (self : analyzer) : counter :=
  counter_of (map lane (all_positions self)).

(** The local [top_percent], [mid_percent], [bot_percent] of the
    non-empty branch: [(lane_counter.get(label, 0) / total) * 100]. *)
Definition lane_percent (label : string) (self : analyzer) : num :=
  flt (inject_Z (counter_get label (lane_counter self))
       / inject_Z (Z.of_nat (List.length (all_positions self))) * 100).

Definition calculate_jungle_proximity (self : analyzer) : pyval :=
  match all_positions self with
  | [] =>
      PDict [ ("top_lane_percent", PInt 0);
              ("mid_lane_percent", PInt 0);
              ("bot_lane_percent", PInt 0);
              ("positions", PList []) ]
  | _ :: _ =>
      let total := Z.of_nat (List.length (all_positions self)) in
      let top_percent := lane_percent "Top" self in
      let mid_percent := lane_percent "Mid" self in
      let bot_percent := lane_percent "Bot" self in
      let heatmap_data :=
        PDict [ ("x", PList (map (fun pos => PInt (j_x pos)) (all_positions self)));
                ("y", PList (map (fun pos => PInt (j_y pos)) (all_positions self)));
                ("lane", PList (map (fun pos => PStr (lane pos)) (all_positions self))) ] in
      PDict [ ("top_lane_percent", PNum (py_round top_percent 1));
              ("mid_lane_percent", PNum (py_round mid_percent 1));
              ("bot_lane_percent", PNum (py_round bot_percent 1));
              ("total_samples", PInt total);
              ("heatmap_data", heatmap_data);
              ("insight",
               PStr ("Jungler focuses "
                     +++ fmt_fixed 1 (num_max3 top_percent mid_percent bot_percent)
                     +++ "% on "
                     +++ counter_argmax "" (lane_counter self)
                     +++ " lane")) ]
  end.

(** *** [calculate_objective_control] *)

(** [for ev in events: total += 1; if ev["team"] == self.team_name: mine += 1],
    the inner loop used for dragons, heralds and barons. *)
Definition tally (name : string) (events : list objective) (acc : Z * Z)
  : Z * Z :=
  fold_left (fun '(total, mine) ev =>
               (total + 1, if String.eqb (o_team ev) name then mine + 1 else mine))
            events acc.

Record objective_acc : Type := mk_acc {
  first_dragons : Z;
  first_dragons_taken : Z;
  total_dragons : Z;
  team_dragons : Z;
  total_heralds : Z;
  team_heralds : Z
}.

(** The body of the first [for match in self.matches] loop. *)
Definition objective_step (name : string) (acc : objective_acc) (m : lol_match)
  : objective_acc :=
  let '(fd, fdt) :=
    match dragons m with
    | d0 :: _ =>
        (first_dragons acc + 1,
         if String.eqb (o_team d0) name
         then first_dragons_taken acc + 1 else first_dragons_taken acc)
    | [] => (first_dragons acc, first_dragons_taken acc)
    end in
  let '(td, tmd) := tally name (dragons m) (total_dragons acc, team_dragons acc) in
  let '(th, tmh) := tally name (heralds m) (total_heralds acc, team_heralds acc) in
  mk_acc fd fdt td tmd th tmh.

Definition objective_loop (self : analyzer) : objective_acc :=
  fold_left (objective_step (team_name self)) (matches self)
            (mk_acc 0 0 0 0 0 0).

(** The second loop, over barons. *)
Definition baron_loop (self : analyzer) : Z * Z :=
  fold_left (fun acc m => tally (team_name self) (barons m) acc)
            (matches self) (0, 0).

(** The local [first_dragon_rate]. *)
Definition first_dragon_rate (self : analyzer) : num :=
  let acc := objective_loop self in
  percent_or_zero (first_dragons_taken acc) (first_dragons acc).

Definition calculate_objective_control (self : analyzer) : pyval :=
  let acc := objective_loop self in
  let first_dragon_rate := first_dragon_rate self in
  let overall_dragon_rate := percent_or_zero (team_dragons acc) (total_dragons acc) in
  let herald_rate := percent_or_zero (team_heralds acc) (total_heralds acc) in
  let '(total_barons, team_barons) := baron_loop self in
  let baron_rate := percent_or_zero team_barons total_barons in
  PDict [ ("first_dragon_rate", PNum (py_round first_dragon_rate 1));
          ("overall_dragon_rate", PNum (py_round overall_dragon_rate 1));
          ("herald_control_rate", PNum (py_round herald_rate 1));
          ("baron_control_rate", PNum (py_round baron_rate 1));
          ("total_dragons", PInt (total_dragons acc));
          ("team_dragons", PInt (team_dragons acc));
          ("total_heralds", PInt (total_heralds acc));
          ("team_heralds", PInt (team_heralds acc));
          ("total_barons", PInt total_barons);
          ("team_barons", PInt team_barons);
          ("insight",
           PStr ((if num_gt first_dragon_rate 70 then "DOMINATES" else "STRUGGLES WITH")
                 +++ " early objective control ("
                 +++ fmt_fixed 0 first_dragon_rate
                 +++ "% first dragon rate)")) ].

(** *** [calculate_gold_efficiency] *)

Record gold_buckets : Type := mk_buckets {
  gold_at_10 : list Z;
  gold_at_15 : list Z;
  gold_at_20 : list Z
}.

(** The body of [for update in gold_updates]. *)
Definition gold_step (b : gold_buckets) (update : gold_update) : gold_buckets :=
  let timestamp := g_timestamp update in
  let gold_diff := gold_difference update in
  if (9 * 60 <=? timestamp) && (timestamp <=? 11 * 60) then
    mk_buckets (gold_at_10 b ++ [gold_diff]) (gold_at_15 b) (gold_at_20 b)
  else if (14 * 60 <=? timestamp) && (timestamp <=? 16 * 60) then
    mk_buckets (gold_at_10 b) (gold_at_15 b ++ [gold_diff]) (gold_at_20 b)
  else if (19 * 60 <=? timestamp) && (timestamp <=? 21 * 60) then
    mk_buckets (gold_at_10 b) (gold_at_15 b) (gold_at_20 b ++ [gold_diff])
  else b.

Definition gold_loop (self : analyzer) : gold_buckets :=
  fold_left (fun b m => fold_left gold_step (gold_updates m) b)
            (matches self) (mk_buckets [] [] []).

(** [np.mean(l) if l else 0] *)
Definition mean_or_zero (l : list Z) : num :=
  match l with
  | [] => NInt 0
  | _ :: _ => np_mean l
  end.

Definition avg_gold_10 (self : analyzer) : num := mean_or_zero (gold_at_10 (gold_loop self)).
Definition avg_gold_15 (self : analyzer) : num := mean_or_zero (gold_at_15 (gold_loop self)).
Definition avg_gold_20 (self : analyzer) : num := mean_or_zero (gold_at_20 (gold_loop self)).

(** The local [growth_rate]:
    [growth_rate = 0]
    [if avg_gold_10 != 0 and avg_gold_15 != 0:]
    [    growth_rate = ((avg_gold_15 - avg_gold_10) / 5) * 60  # Gold per minute] *)
Definition growth_rate (self : analyzer) : num :=
  if num_nonzero (avg_gold_10 self) && num_nonzero (avg_gold_15 self) then
    flt ((num_to_Q (avg_gold_15 self) - num_to_Q (avg_gold_10 self)) / 5 * 60)
  else NInt 0.

Definition calculate_gold_efficiency (self : analyzer) : pyval :=
  let b := gold_loop self in
  PDict [ ("gold_diff_at_10min", PNum (py_round (avg_gold_10 self) 0));
          ("gold_diff_at_15min", PNum (py_round (avg_gold_15 self) 0));
          ("gold_diff_at_20min", PNum (py_round (avg_gold_20 self) 0));
          ("gold_growth_rate", PNum (py_round (growth_rate self) 0));
          ("samples_at_10", PInt (Z.of_nat (List.length (gold_at_10 b))));
          ("samples_at_15", PInt (Z.of_nat (List.length (gold_at_15 b))));
          ("samples_at_20", PInt (Z.of_nat (List.length (gold_at_20 b))));
          ("insight",
           PStr ((if num_gt (avg_gold_15 self) 0 then "Strong" else "Weak")
                 +++ " mid-game scaling ("
                 +++ fmt_signed (py_int (avg_gold_15 self))
                 +++ "g @ 15min)")) ].

(** *** [get_complete_analysis] *)

Definition get_complete_analysis (self : analyzer) : pyval :=
  let wins := Z.of_nat (List.length (filter won (matches self))) in
  let total_matches := Z.of_nat (List.length (matches self)) in
  let win_rate := percent_or_zero wins total_matches in
  let avg_game_duration := mean_or_zero (map duration (matches self)) in
  PDict [ ("team_name", PStr (team_name self));
          ("matches_analyzed", PInt total_matches);
          ("win_rate", PNum (py_round win_rate 1));
          ("avg_game_duration_minutes",
           PNum (py_round (flt (num_to_Q avg_game_duration / 60)) 1));
          ("jungle_proximity", calculate_jungle_proximity self);
          ("objective_control", calculate_objective_control self);
          ("gold_efficiency", calculate_gold_efficiency self) ].

End Lol.


(* ================================================================= *)
(** ** VALORANT: match schema and [ValorantAnalyzer]                  *)
(* ================================================================= *)

Module Valorant.

Record coords : Type := mk_coords { c_x : Z; c_y : Z }.

(** One round dictionary.  [spike_site] is [None] for Python's [None]. *)
Record round_data : Type := mk_round {
  round_number : Z;
  winner : string;
  team_loadout_value : Z;
  enemy_loadout_value : Z;
  is_team_eco : bool;
  is_enemy_eco : bool;
  spike_planted : bool;
  spike_site : option string;
  spike_coords : option coords;
  first_blood_team : string;
  first_blood_location : coords;
  round_duration : Z
}.

Record val_match : Type := mk_match {
  match_id : string;
  date : Z;
  team : string;
  opponent : string;
  team_score : Z;
  enemy_score : Z;
  won : bool;
  map_name : string;
  rounds : list round_data
}.

Record analyzer : Type := mk_analyzer {
  matches : list val_match;
  team_name : string
}.

(** [ValorantAnalyzer.__init__] *)
Definition init (ms : list val_match) : analyzer :=
  {| matches := ms;
     team_name := match ms with
                  | m :: _ => team m
                  | [] => "Unknown"
                  end |}.

(** [for match in self.matches: for round_data in match.get("rounds", [])]:
    the nested loop every metric group runs, as a fold of its body. *)
Definition for_rounds {S : Type} (body : S -> round_data -> S)
  (self : analyzer) (s0 : S) : S :=
  fold_left (fun s m => fold_left body (rounds m) s) (matches self) s0.

(** *** [calculate_opening_duel_winrate] *)

Record duel_acc : Type := mk_duel {
  total_rounds : Z;
  team_first_bloods : Z;
  rounds_won_with_fb : Z;
  rounds_won_without_fb : Z
}.

Definition duel_step (name : string) (a : duel_acc) (r : round_data) : duel_acc :=
  let got_first_blood := String.eqb (first_blood_team r) name in
  let won_round := String.eqb (winner r) name in
  if got_first_blood then
    mk_duel (total_rounds a + 1) (team_first_bloods a + 1)
            (if won_round then rounds_won_with_fb a + 1 else rounds_won_with_fb a)
            (rounds_won_without_fb a)
  else
    mk_duel (total_rounds a + 1) (team_first_bloods a)
            (rounds_won_with_fb a)
            (if won_round then rounds_won_without_fb a + 1
             else rounds_won_without_fb a).

Definition duel_loop (self : analyzer) : duel_acc :=
  for_rounds (duel_step (team_name self)) self (mk_duel 0 0 0 0).

(** The locals [fb_rate] and [fb_conversion]. *)
Definition fb_rate (self : analyzer) : num :=
  let a := duel_loop self in
  percent_or_zero (team_first_bloods a) (total_rounds a).

Definition fb_conversion (self : analyzer) : num :=
  let a := duel_loop self in
  percent_or_zero (rounds_won_with_fb a) (team_first_bloods a).

Definition calculate_opening_duel_winrate (self : analyzer) : pyval :=
  let a := duel_loop self in
  PDict [ ("first_blood_rate", PNum (py_round (fb_rate self) 1));
          ("first_blood_conversion", PNum (py_round (fb_conversion self) 1));
          ("rounds_with_first_blood", PInt (team_first_bloods a));
          ("rounds_won_with_fb", PInt (rounds_won_with_fb a));
          ("rounds_won_without_fb", PInt (rounds_won_without_fb a));
          ("total_rounds", PInt (total_rounds a));
          ("insight",
           PStr ((if num_gt (fb_rate self) 55 then "ELITE" else "AVERAGE")
                 +++ " opening duelist ("
                 +++ fmt_fixed 1 (fb_rate self)
                 +++ "% FB rate, "
                 +++ fmt_fixed 1 (fb_conversion self)
                 +++ "% conversion)")) ].

(** *** [calculate_site_bias] *)

(** Truthiness of [round_data.get("spike_site")]: [None] and the empty
    string are false. *)
Definition truthy_site (s : option string) : option string :=
  match s with
  | Some site => if String.eqb site "" then None else Some site
  | None => None
  end.

Definition site_step (name : string) (acc : counter * counter) (r : round_data)
  : counter * counter :=
  let '(site_attacks, site_wins) := acc in
  match truthy_site (spike_site r) with
  | Some site =>
      (counter_incr site site_attacks,
       if String.eqb (winner r) name then counter_incr site site_wins
       else site_wins)
  | None => acc
  end.

Definition site_loop (self : analyzer) : counter * counter :=
  for_rounds (site_step (team_name self)) self ([], []).

(** The body of [for site in ["A", "B", "C"]], filling the two
    dictionaries [site_percentages] and [site_win_rates]. *)
Definition site_rates_step (site_attacks site_wins : counter) (total_attacks : Z)
  (acc : list (string * pyval) * list (string * pyval)) (site : string)
  : list (string * pyval) * list (string * pyval) :=
  let '(site_percentages, site_win_rates) := acc in
  let attacks := counter_get site site_attacks in
  let wins := counter_get site site_wins in
  (dict_set ("site_" +++ site +++ "_percent")
     (if total_attacks >? 0
      then PNum (py_round (flt (inject_Z attacks / inject_Z total_attacks * 100)) 1)
      else PInt 0)
     site_percentages,
   dict_set ("site_" +++ site +++ "_winrate")
     (if attacks >? 0
      then PNum (py_round (flt (inject_Z wins / inject_Z attacks * 100)) 1)
      else PInt 0)
     site_win_rates).

(** [{**a, **b}]: the keys of [b] written into [a] in order. *)
Definition dict_update (a b : list (string * pyval)) : list (string * pyval) :=
  fold_left (fun d kv => dict_set (fst kv) (snd kv) d) b a.

Definition pyval_num (v : pyval) : num :=
  match v with
  | PNum n => n
  | _ => NInt 0
  end.

Definition calculate_site_bias (self : analyzer) : result pyval :=
  let '(site_attacks, site_wins) := site_loop self in
  let total_attacks := sumZ (map snd site_attacks) in
  let '(site_percentages, site_win_rates) :=
    fold_left (site_rates_step site_attacks site_wins total_attacks)
              ["A"; "B"; "C"] ([], []) in
  let favorite_site := counter_argmax "Unknown" site_attacks in
  match dict_getitem ("site_" +++ favorite_site +++ "_percent") site_percentages with
  | Raise e => Raise e
  | Ok favorite_percent =>
      Ok (PDict
            (dict_update (dict_update [] site_percentages) site_win_rates
             ++ [ ("total_spike_plants", PInt total_attacks);
                  ("favorite_site", PStr favorite_site);
                  ("favorite_site_attacks", PInt (counter_get favorite_site site_attacks));
                  ("site_attack_distribution",
                   PDict (map (fun kv => (fst kv, PInt (snd kv))) site_attacks));
                  ("insight",
                   PStr ("HEAVILY favors " +++ favorite_site +++ "-Site ("
                         +++ fmt_fixed 0 (pyval_num favorite_percent)
                         +++ "% of attacks)")) ]))
  end.

(** *** [calculate_eco_conversion] *)

Record eco_acc : Type := mk_eco {
  eco_rounds : Z;
  eco_wins : Z;
  force_rounds : Z;
  force_wins : Z;
  full_buy_rounds : Z;
  full_buy_wins : Z
}.

Definition eco_step (name : string) (a : eco_acc) (r : round_data) : eco_acc :=
  let team_loadout := team_loadout_value r in
  let won_round := String.eqb (winner r) name in
  if team_loadout <? 2000 then
    mk_eco (eco_rounds a + 1) (if won_round then eco_wins a + 1 else eco_wins a)
           (force_rounds a) (force_wins a) (full_buy_rounds a) (full_buy_wins a)
  else if (2000 <=? team_loadout) && (team_loadout <? 3500) then
    mk_eco (eco_rounds a) (eco_wins a)
           (force_rounds a + 1) (if won_round then force_wins a + 1 else force_wins a)
           (full_buy_rounds a) (full_buy_wins a)
  else
    mk_eco (eco_rounds a) (eco_wins a) (force_rounds a) (force_wins a)
           (full_buy_rounds a + 1)
           (if won_round then full_buy_wins a + 1 else full_buy_wins a).

Definition eco_loop (self : analyzer) : eco_acc :=
  for_rounds (eco_step (team_name self)) self (mk_eco 0 0 0 0 0 0).

(** The locals [eco_conversion_rate], [force_winrate], [full_buy_winrate]. *)
Definition eco_conversion_rate (self : analyzer) : num :=
  percent_or_zero (eco_wins (eco_loop self)) (eco_rounds (eco_loop self)).
Definition force_winrate (self : analyzer) : num :=
  percent_or_zero (force_wins (eco_loop self)) (force_rounds (eco_loop self)).
Definition full_buy_winrate (self : analyzer) : num :=
  percent_or_zero (full_buy_wins (eco_loop self)) (full_buy_rounds (eco_loop self)).

Definition calculate_eco_conversion (self : analyzer) : pyval :=
  let a := eco_loop self in
  PDict [ ("eco_conversion_rate", PNum (py_round (eco_conversion_rate self) 1));
          ("eco_rounds_played", PInt (eco_rounds a));
          ("eco_rounds_won", PInt (eco_wins a));
          ("force_buy_winrate", PNum (py_round (force_winrate self) 1));
          ("force_rounds_played", PInt (force_rounds a));
          ("full_buy_winrate", PNum (py_round (full_buy_winrate self) 1));
          ("full_buy_rounds_played", PInt (full_buy_rounds a));
          ("insight",
           PStr ((if num_gt (eco_conversion_rate self) 20 then "DANGEROUS" else "PREDICTABLE")
                 +++ " on eco rounds ("
                 +++ fmt_fixed 1 (eco_conversion_rate self)
                 +++ "% win rate)")) ].

(** *** [get_complete_analysis] *)

(** [sum(len(match["rounds"]) for match in self.matches)] *)
Definition total_rounds_played (self : analyzer) : Z :=
  sumZ (map (fun m => Z.of_nat (List.length (rounds m))) (matches self)).

(** [sum(sum(1 for r in match["rounds"] if r["winner"] == self.team_name) ...)] *)
Definition team_rounds_won (self : analyzer) : Z :=
  sumZ (map (fun m =>
               Z.of_nat (List.length
                 (filter (fun r => String.eqb (winner r) (team_name self)) (rounds m))))
            (matches self)).

Definition get_complete_analysis (self : analyzer) : result pyval :=
  let total_matches := Z.of_nat (List.length (matches self)) in
  let wins := Z.of_nat (List.length (filter won (matches self))) in
  let win_rate := percent_or_zero wins total_matches in
  let total_rounds := total_rounds_played self in
  let round_win_rate := percent_or_zero (team_rounds_won self) total_rounds in
  let opening_duel_stats := calculate_opening_duel_winrate self in
  match calculate_site_bias self with
  | Raise e => Raise e
  | Ok site_bias_stats =>
      let economy_stats := calculate_eco_conversion self in
      Ok (PDict [ ("team_name", PStr (team_name self));
                  ("matches_analyzed", PInt total_matches);
                  ("match_win_rate", PNum (py_round win_rate 1));
                  ("round_win_rate", PNum (py_round round_win_rate 1));
                  ("total_rounds_played", PInt total_rounds);
                  ("opening_duel_stats", opening_duel_stats);
                  ("site_bias_stats", site_bias_stats);
                  ("economy_stats", economy_stats) ])
  end.

End Valorant.

(* ================================================================= *)
(** ** The random source and the clock                                *)
(* ================================================================= *)

Module Random.

(** The state of the random source: an infinite stream of raw draws and
    the position of the next one.  Every function of the [random] module
    consumes exactly one raw draw; quantifying over the stream covers
    every state the source can be in. *)
Record rng : Type := mk_rng {
  raw : nat -> Z;
  pos : nat
}.

(** A computation that draws random numbers and may raise. *)
Definition Gen (A : Type) : Type := rng -> result (A * rng).

Definition ret {A : Type} (a : A) : Gen A := fun r => Ok (a, r).

Definition bind {A B : Type} (m : Gen A) (f : A -> Gen B) : Gen B :=
  fun r =>
    match m r with
    | Ok (a, r') => f a r'
    | Raise e => Raise e
    end.

Definition raise {A : Type} (e : exn) : Gen A := fun _ => Raise e.

Definition lift {A : Type} (x : result A) : Gen A :=
  fun r =>
    match x with
    | Ok a => Ok (a, r)
    | Raise e => Raise e
    end.

Definition draw : Gen Z :=
  fun r => Ok (raw r (pos r), mk_rng (raw r) (S (pos r))).

End Random.
Import Random.

Declare Scope gen_scope.
Delimit Scope gen_scope with gen.
Notation "x <- m ;; k" := (bind m (fun x => k))
  (at level 61, m at next level, right associativity) : gen_scope.
Notation "' pat <- m ;; k" := (bind m (fun x => match x with pat => k end))
  (at level 61, pat pattern, m at next level, right associativity) : gen_scope.
Open Scope gen_scope.

Module PyRandom.

(** [random.random()]: a float in [[0, 1)] with 53 bits. *)
Definition random : Gen Q :=
  k <- draw ;; ret (Qred (inject_Z (k mod 2 ^ 53) / inject_Z (2 ^ 53))).

(** [random.randint(a, b)]: an integer in [[a, b]]; [ValueError] on an
    empty range. *)
Definition randint (a b : Z) : Gen Z :=
  if b <? a then raise ValueError
  else k <- draw ;; ret (a + k mod (b - a + 1)).

(** [random.choice(seq)]: [IndexError] on an empty sequence. *)
Definition choice {A : Type} (seq : list A) : Gen A :=
  match seq with
  | [] => raise IndexError
  | x :: _ =>
      k <- draw ;;
      ret (nth (Z.to_nat (k mod Z.of_nat (List.length seq))) seq x)
  end.

(** [random.random() < p] *)
Definition random_lt (p : Q) : Gen bool :=
  u <- random ;; ret (Qltb u p).

End PyRandom.
Import PyRandom.

Module PyBuiltins.

(** [range(start, stop)] and [range(start, stop, step)] for [step > 0]. *)
Definition range (start stop : Z) : list Z :=
  map (fun i => start + Z.of_nat i) (seq 0 (Z.to_nat (stop - start))).

Definition range_step (start stop step : Z) : list Z :=
  map (fun i => start + Z.of_nat i * step)
      (seq 0 (Z.to_nat ((stop - start + step - 1) / step))).

(** [for x in xs: body], the loop state threaded through the body. *)
Fixpoint for_loop {A S : Type} (xs : list A) (body : S -> A -> Gen S) (s : S)
  : Gen S :=
  match xs with
  | [] => ret s
  | x :: xs' => s' <- body s x ;; for_loop xs' body s'
  end.

(** [sorted(l, key=...)]: the stable sort, written as insertion from the
    right so that equal keys keep their original order. *)
Section Sorted.
Context {A : Type} (key : A -> Z).

Fixpoint insert_by (x : A) (l : list A) : list A :=
  match l with
  | [] => [x]
  | y :: l' => if key x <=? key y then x :: y :: l' else y :: insert_by x l'
  end.

Fixpoint sorted (l : list A) : list A :=
  match l with
  | [] => []
  | x :: l' => insert_by x (sorted l')
  end.
End Sorted.

(** [a / b] on integers: true division. *)
Definition truediv (a b : Z) : result Q :=
  if b =? 0 then Raise ZeroDivisionError
  else Ok (Qred (inject_Z a / inject_Z b)).

Definition MAXORDINAL : Z := 3652059.

(** [datetime.now() - timedelta(days=days)], on the day number of the
    date ([date.toordinal()], 1 for 0001-01-01): [timedelta] refuses
    more than 999999999 days, and the difference must be a date the
    [datetime] type can hold. *)
Definition datetime_sub_days (today days : Z) : result Z :=
  if 999999999 <? Z.abs days then Raise OverflowError
  else if (0 <? today - days) && (today - days <=? MAXORDINAL)
       then Ok (today - days)
       else Raise OverflowError.

End PyBuiltins.
Import PyBuiltins.

(* ================================================================= *)
(** ** [MockDataGenerator]                                            *)
(* ================================================================= *)

Module MockData.

Definition LOL_MAP_SIZE : Z := 14820.
Definition VALORANT_MAP_SIZE : Z := 100.

Section Generator.

(** The day number [datetime.now()] falls on during the call. *)
Variable today : Z.

(** *** [generate_lol_match_data] *)

Definition lol_kill (team_name : string) (game_duration : Z)
  (kills : list Lol.kill) (k : Z) : Gen (list Lol.kill) :=
  timestamp <- randint 180 game_duration ;;
  x <- randint 1000 (LOL_MAP_SIZE - 1000) ;;
  y <- randint 1000 (LOL_MAP_SIZE - 1000) ;;
  ret (kills ++ [Lol.mk_kill timestamp team_name "Enemy Team" x y (k =? 0)]).

Definition dragon_spawn_times : list Z :=
  [300; 600; 900; 1200; 1500; 1800; 2100; 2400].

Definition who (team_name : string) (taken_by_team : bool) : string :=
  if taken_by_team then team_name else "Enemy Team".

Definition lol_dragon (team_name : string) (won : bool) (game_duration : Z)
  (dragons : list Lol.objective) (spawn_time : Z) : Gen (list Lol.objective) :=
  if spawn_time <? game_duration then
    spawned <- random_lt 0.8 ;;
    if spawned : bool then
      taken_by_team <- random_lt (if won then 0.75 else 0.35) ;;
      offset <- randint 0 120 ;;
      dragon_type <- choice ["Cloud"; "Infernal"; "Ocean"; "Mountain"; "Elder"] ;;
      ret (dragons ++ [Lol.mk_objective (spawn_time + offset)
                         (who team_name taken_by_team)
                         (Some dragon_type) 9800 4200])
    else ret dragons
  else ret dragons.

Definition lol_baron (team_name : string) (won : bool) (game_duration : Z)
  (barons : list Lol.objective) (b : Z) : Gen (list Lol.objective) :=
  timestamp <- randint 1200 (game_duration - 60) ;;
  taken_by_team <- random_lt (if won then 0.8 else 0.2) ;;
  ret (barons ++ [Lol.mk_objective timestamp (who team_name taken_by_team)
                    None 5200 10400]).

Definition lol_herald (team_name : string) (won : bool) (game_duration : Z)
  (heralds : list Lol.objective) (h : Z) : Gen (list Lol.objective) :=
  timestamp <- randint 480 (Z.min 1185 game_duration) ;;
  taken_by_team <- random_lt (if won then 0.7 else 0.3) ;;
  ret (heralds ++ [Lol.mk_objective timestamp (who team_name taken_by_team)
                     None 5200 10400]).

Definition lol_gold (base_gold_advantage : Z)
  (gold_updates : list Lol.gold_update) (minute : Z) : Gen (list Lol.gold_update) :=
  variance <- randint (-300) 300 ;;
  let gold_diff := base_gold_advantage + variance + minute * 50 in
  ret (gold_updates ++ [Lol.mk_gold_update (minute * 60)
                          (15000 + minute * 300 + gold_diff)
                          (15000 + minute * 300)
                          gold_diff]).

Definition lol_jungle (game_duration : Z)
  (jungle_positions : list Lol.jungle_position) (i : Z)
  : Gen (list Lol.jungle_position) :=
  timestamp <- randint 0 game_duration ;;
  lane_bias <- random ;;
  '(x, y, lane) <-
    (if Qltb lane_bias 0.35 then
       x <- randint 1000 7000 ;; y <- randint 10000 14000 ;; ret (x, y, "Top")
     else if Qltb lane_bias 0.70 then
       x <- randint 5000 10000 ;; y <- randint 5000 10000 ;; ret (x, y, "Mid")
     else
       x <- randint 8000 14000 ;; y <- randint 1000 5000 ;; ret (x, y, "Bot")) ;;
  ret (jungle_positions ++ [Lol.mk_jungle_position timestamp x y lane]).

(** The body of [for match_id in range(1, num_matches + 1)]. *)
Definition lol_match_body (team_name : string)
  (matches : list Lol.lol_match) (match_id : Z) : Gen (list Lol.lol_match) :=
  match_date <- lift (datetime_sub_days today (match_id * 3)) ;;
  won <- random_lt 0.7 ;;
  game_duration <- randint 1500 2400 ;;
  num_kills <- (if won : bool then randint 15 35 else randint 8 20) ;;
  kills <- for_loop (range 0 num_kills) (lol_kill team_name game_duration) [] ;;
  dragons <- for_loop dragon_spawn_times
               (lol_dragon team_name won game_duration) [] ;;
  barons <-
    (if game_duration >? 1200 then
       num_barons <- randint 0 2 ;;
       for_loop (range 0 num_barons) (lol_baron team_name won game_duration) []
     else ret []) ;;
  heralds <-
    (if game_duration >? 480 then
       num_heralds <- randint 0 2 ;;
       for_loop (range 0 num_heralds) (lol_herald team_name won game_duration) []
     else ret []) ;;
  let base_gold_advantage := if won then 500 else -500 in
  gold_updates <- for_loop (range_step 5 (game_duration / 60 + 1) 5)
                    (lol_gold base_gold_advantage) [] ;;
  num_position_samples <- randint 100 200 ;;
  jungle_positions <- for_loop (range 0 num_position_samples)
                        (lol_jungle game_duration) [] ;;
  ret (matches ++
       [Lol.mk_match ("LOL_" +++ str_of_Z match_id)
          match_date
          team_name
          ("Team_" +++ str_of_Z match_id)
          won
          game_duration
          (sorted Lol.k_timestamp kills)
          (sorted Lol.o_timestamp dragons)
          (sorted Lol.o_timestamp barons)
          (sorted Lol.o_timestamp heralds)
          (sorted Lol.g_timestamp gold_updates)
          (sorted Lol.j_timestamp jungle_positions)]).

Definition generate_lol_match_data (team_name : string) (num_matches : Z)
  : Gen (list Lol.lol_match) :=
  for_loop (range 1 (num_matches + 1)) (lol_match_body team_name) [].

(** *** [generate_valorant_match_data] *)

(** [random.choice([randint(800, 1500), randint(2000, 3000), randint(3500, 5000)])]:
    the three candidates are drawn first, then one is chosen. *)
Definition loadout_value : Gen Z :=
  eco <- randint 800 1500 ;;
  force <- randint 2000 3000 ;;
  full <- randint 3500 5000 ;;
  choice [eco; force; full].

Definition val_round (team_name : string) (team_rounds_won total_rounds : Z)
  (rounds : list Valorant.round_data) (round_num : Z)
  : Gen (list Valorant.round_data) :=
  u <- random ;;
  p <- lift (truediv team_rounds_won total_rounds) ;;
  let round_won := Qltb u p in
  '(team_loadout_value, enemy_loadout_value) <-
    (if (round_num =? 1) || (round_num =? 13) then ret (800, 800)
     else t <- loadout_value ;; e <- loadout_value ;; ret (t, e)) ;;
  let sites := ["A"; "B"; "C"] in
  spike_planted <- random_lt 0.85 ;;
  spike_site <- (if spike_planted : bool
                 then s <- choice sites ;; ret (Some s)
                 else ret None) ;;
  spike_coords <-
    (match spike_site with
     | Some site =>
         if String.eqb site "A" then
           x <- randint 20 35 ;; y <- randint 40 55 ;;
           ret (Some (Valorant.mk_coords x y))
         else if String.eqb site "B" then
           x <- randint 55 70 ;; y <- randint 20 35 ;;
           ret (Some (Valorant.mk_coords x y))
         else
           x <- randint 40 55 ;; y <- randint 60 75 ;;
           ret (Some (Valorant.mk_coords x y))
     | None => ret None
     end) ;;
  first_blood_team <- choice [team_name; "Enemy Team"] ;;
  fb_x <- randint 10 90 ;;
  fb_y <- randint 10 90 ;;
  let is_team_eco := team_loadout_value <? 2000 in
  let is_enemy_eco := enemy_loadout_value <? 2000 in
  round_duration <- randint 30 100 ;;
  ret (rounds ++
       [Valorant.mk_round round_num
          (if round_won then team_name else "Enemy Team")
          team_loadout_value enemy_loadout_value
          is_team_eco is_enemy_eco
          spike_planted spike_site spike_coords
          first_blood_team (Valorant.mk_coords fb_x fb_y)
          round_duration]).

Definition val_match_body (team_name : string)
  (matches : list Valorant.val_match) (match_id : Z)
  : Gen (list Valorant.val_match) :=
  match_date <- lift (datetime_sub_days today (match_id * 2)) ;;
  favoured <- random_lt 0.7 ;;
  team_rounds_won <- (if favoured : bool then randint 13 15 else randint 8 12) ;;
  enemy_rounds_won <- (if team_rounds_won <? 13 then ret 13 else randint 8 12) ;;
  let total_rounds := team_rounds_won + enemy_rounds_won in
  let won := team_rounds_won >? enemy_rounds_won in
  rounds <- for_loop (range 1 (total_rounds + 1))
              (val_round team_name team_rounds_won total_rounds) [] ;;
  map_name <- choice ["Ascent"; "Bind"; "Haven"; "Split"; "Icebox";
                      "Breeze"; "Fracture"] ;;
  ret (matches ++
       [Valorant.mk_match ("VAL_" +++ str_of_Z match_id)
          match_date
          team_name
          ("Team_" +++ str_of_Z match_id)
          team_rounds_won
          enemy_rounds_won
          won
          map_name
          rounds]).

Definition generate_valorant_match_data (team_name : string) (num_matches : Z)
  : Gen (list Valorant.val_match) :=
  for_loop (range 1 (num_matches + 1)) (val_match_body team_name) [].

End Generator.

End MockData.

(* ================================================================= *)
(** ** Vocabulary of the specification                                *)
(* ================================================================= *)

(** The number of elements of [l] that satisfy [p]. *)
Definition count {A : Type} (p : A -> bool) (l : list A) : Z :=
  Z.of_nat (List.length (filter p l)).

(** The value stored under key [k] of a result dictionary. *)
Definition field (k : string) (v : pyval) : option pyval :=
  match v with
  | PDict d => dict_get k d
  | _ => None
  end.

Definition has_key (k : string) (v : pyval) : bool :=
  match field k v with
  | Some _ => true
  | None => false
  end.

(** The number stored under key [k] (0 when there is none). *)
Definition reported (k : string) (v : pyval) : Q :=
  match field k v with
  | Some (PNum n) => num_to_Q n
  | _ => 0%Q
  end.

(** The room a bound on a reported number leaves for binary floating
    point.  The analyzers compute in double precision, the embedding in
    exact rationals; the two differ by far less than this on every
    quotient of counts, so a bound stated with it holds of both. *)
Definition float_slack : Q := 1 # 1000000000.

(** [v] is [part / whole * 100] reported to one decimal: within half a
    step of the exact percentage. *)
Definition is_percent_of (v : Q) (part whole : Z) : Prop :=
  (Qabs (v - inject_Z part / inject_Z whole * 100) <= (1 # 20) + float_slack)%Q.

(** Three reported percentages add up to 100 within one step. *)
Definition sum_to_hundred (a b c : Q) : Prop :=
  (Qabs (a + b + c - 100) <= (1 # 10) + float_slack)%Q.

Module LolSpec.
Import Lol.

(** "Matches with any dragon" and "matches whose chronologically first
    dragon is credited to the analyzed team", in the words of the
    specification. *)
Definition has_dragon (m : lol_match) : bool :=
  match dragons m with
  | [] => false
  | _ :: _ => true
  end.

Definition team_took_first_dragon (name : string) (m : lol_match) : bool :=
  match dragons m with
  | first :: _ => String.eqb (o_team first) name
  | [] => false
  end.

(** Every jungle-position sample of every match. *)
Definition samples (self : analyzer) : list jungle_position :=
  flat_map jungle_positions (matches self).

(** How many samples carry the lane label [label]. *)
Definition lane_count (label : string) (self : analyzer) : Z :=
  count (fun p => String.eqb (lane p) label) (samples self).

(** The schema's closed set of lane labels. *)
Definition lane_in_schema (p : jungle_position) : Prop :=
  lane p = "Top" \/ lane p = "Mid" \/ lane p = "Bot".

(** Timestamps of the event lists of a match, against its duration. *)
Definition within (m : lol_match) (t : Z) : Prop := 0 <= t <= duration m.

Definition timed {E : Type} (timestamp : E -> Z) (m : lol_match) (events : list E)
  : Prop :=
  Forall (fun e => within m (timestamp e)) events.

(** Every event list but the dragons lies within the match. *)
Definition timed_but_dragons (m : lol_match) : Prop :=
  timed k_timestamp m (kills m)
  /\ timed o_timestamp m (heralds m)
  /\ timed o_timestamp m (barons m)
  /\ timed g_timestamp m (gold_updates m)
  /\ timed j_timestamp m (jungle_positions m).

(** The dragons start inside the match and end at most [slack] seconds
    after it. *)
Definition dragons_within_slack (slack : Z) (m : lol_match) : Prop :=
  Forall (fun d => 0 <= o_timestamp d <= duration m + slack) (dragons m).

(** What one generated match is known to satisfy. *)
Definition generated_match_ok (team_name : string) (m : lol_match) : Prop :=
  team m = team_name
  /\ 1500 <= duration m <= 2400
  /\ timed_but_dragons m
  /\ dragons_within_slack 119 m.

End LolSpec.

Module ValorantSpec.
Import Valorant.

(** Every round of every match, in iteration order. *)
Definition all_rounds (self : analyzer) : list round_data :=
  flat_map rounds (matches self).

Definition got_first_blood (name : string) (r : round_data) : bool :=
  String.eqb (first_blood_team r) name.

Definition won_round (name : string) (r : round_data) : bool :=
  String.eqb (winner r) name.

Definition is_eco (r : round_data) : bool := team_loadout_value r <? 2000.
Definition is_force (r : round_data) : bool :=
  (2000 <=? team_loadout_value r) && (team_loadout_value r <? 3500).
Definition is_full_buy (r : round_data) : bool := 3500 <=? team_loadout_value r.

(** What one generated match is known to satisfy. *)
Definition generated_match_ok (team_name : string) (m : val_match) : Prop :=
  team m = team_name
  /\ 8 <= team_score m <= 15
  /\ 8 <= enemy_score m <= 13
  /\ Z.of_nat (List.length (rounds m)) = team_score m + enemy_score m.

End ValorantSpec.

(** Total correctness of a generator computation: from every state of
    the random source it returns, and its value satisfies [P]. *)
Definition returns {A : Type} (m : Gen A) (P : A -> Prop) : Prop :=
  forall r, exists a r', m r = Ok (a, r') /\ P a.

(** The computation raises [e] from every state of the random source. *)
Definition raises {A : Type} (m : Gen A) (e : exn) : Prop :=
  forall r, m r = Raise e.

(* ================================================================= *)
(** ** Sample inputs                                                  *)
(* ================================================================= *)

Module Samples.

(** A LoL match that carries nothing but a list of gold snapshots. *)
Definition gold_match (snapshots : list (Z * Z)) : Lol.lol_match :=
  Lol.mk_match "LOL_1" 739920 "Cloud9" "Team_1" true 1800 [] [] [] []
    (map (fun s => Lol.mk_gold_update (fst s) 0 0 (snd s)) snapshots) [].

(** +100 gold at 10:00 and +200 gold at 15:00. *)
Definition gold_sample : list Lol.lol_match :=
  [gold_match [(600, 100); (900, 200)]].

(** A LoL match with the given outcome whose dragons were taken, in
    order, by the listed teams. *)
Definition dragon_match (won : bool) (takers : list string) : Lol.lol_match :=
  Lol.mk_match "LOL_1" 739920 "Cloud9" "Team_1" won 1800 []
    (map (fun t => Lol.mk_objective 400 t (Some "Cloud") 9800 4200) takers)
    [] [] [] [].

(** Five matches, four wins, the team first to a dragon in three. *)
Definition five_matches : list Lol.lol_match :=
  [ dragon_match true ["Cloud9"; "Enemy Team"];
    dragon_match true ["Enemy Team"; "Cloud9"];
    dragon_match true ["Cloud9"];
    dragon_match false ["Enemy Team"];
    dragon_match true ["Cloud9"; "Cloud9"] ].

(** A LoL match that carries only jungle samples with these lanes. *)
Definition jungle_match (lanes : list string) : Lol.lol_match :=
  Lol.mk_match "LOL_1" 739920 "Cloud9" "Team_1" true 1800 [] [] [] [] []
    (map (fun l => Lol.mk_jungle_position 10 5000 5000 l) lanes).

Definition three_lanes : list Lol.lol_match :=
  [jungle_match ["Top"; "Mid"; "Bot"]].

(** A VALORANT round with the given winner, loadout, site and first blood. *)
Definition a_round (winner : string) (loadout : Z) (site : option string)
  (first_blood : string) : Valorant.round_data :=
  Valorant.mk_round 1 winner loadout loadout (loadout <? 2000) (loadout <? 2000)
    (match site with Some _ => true | None => false end) site None
    first_blood (Valorant.mk_coords 50 50) 60.

Definition val_match_of (rs : list Valorant.round_data) : Valorant.val_match :=
  Valorant.mk_match "VAL_1" 739921 "Cloud9" "Team_1" 13 7 true "Bind" rs.

(** Twenty rounds: first blood in ten of them, eight of those won. *)
Definition twenty_rounds : list Valorant.val_match :=
  [ val_match_of
      (repeat (a_round "Cloud9" 4000 (Some "A") "Cloud9") 8
       ++ repeat (a_round "Enemy Team" 4000 (Some "B") "Cloud9") 2
       ++ repeat (a_round "Cloud9" 2500 None "Enemy Team") 5
       ++ repeat (a_round "Enemy Team" 800 (Some "C") "Enemy Team") 5) ].

(** A random source whose draws are all the least value, except that the
    second draw (the game duration) is one above its minimum and draw 66
    (the offset of the fifth dragon) is 120. *)
Definition late_dragon_source : rng :=
  mk_rng (fun i => if Nat.eqb i 1 then 1 else if Nat.eqb i 66 then 120 else 0) 0.

(** The day number of 2026-11-03. *)
Definition a_day : Z := 739923.

End Samples.

From Stdlib Require Import Sorted Permutation.

(* ================================================================= *)
(** ** Entry points and further vocabulary                            *)
(* ================================================================= *)

(** The two convenience functions at the end of [analyzers.py]. *)
Definition analyze_lol_team (matches : list Lol.lol_match) : pyval :=
  Lol.get_complete_analysis (Lol.init matches).

Definition analyze_valorant_team (matches : list Valorant.val_match)
  : result pyval :=
  Valorant.get_complete_analysis (Valorant.init matches).

(** The two convenience functions at the end of [mock_data.py]. *)
Definition get_lol_mock_data (today : Z) (team_name : string) (num_matches : Z)
  : Gen (list Lol.lol_match) :=
  MockData.generate_lol_match_data today team_name num_matches.

Definition get_valorant_mock_data (today : Z) (team_name : string)
  (num_matches : Z) : Gen (list Valorant.val_match) :=
  MockData.generate_valorant_match_data today team_name num_matches.

(** The value found by following [path] through nested dictionaries. *)
Fixpoint report_at (path : list string) (v : pyval) : option pyval :=
  match path with
  | [] => Some v
  | k :: path' =>
      match field k v with
      | Some v' => report_at path' v'
      | None => None
      end
  end.

(** A number lies between 0 and 100. *)
Definition is_percentage (q : Q) : Prop := (0 <= q <= 100)%Q.

Module LolEvents.
Import Lol.

(** Every event of one kind over all matches, in iteration order. *)
Definition all_dragons (self : analyzer) : list objective :=
  flat_map dragons (matches self).
Definition all_heralds (self : analyzer) : list objective :=
  flat_map heralds (matches self).
Definition all_barons (self : analyzer) : list objective :=
  flat_map barons (matches self).
Definition all_updates (self : analyzer) : list gold_update :=
  flat_map gold_updates (matches self).

(** The event is credited to the team called [name]. *)
Definition credited (name : string) (ev : objective) : bool :=
  String.eqb (o_team ev) name.

(** The snapshot falls into the closed window [[lo, hi]] (seconds). *)
Definition in_window (lo hi : Z) (u : gold_update) : bool :=
  (lo <=? g_timestamp u) && (g_timestamp u <=? hi).

(** The differentials of the snapshots of a window, in iteration order. *)
Definition window_values (lo hi : Z) (self : analyzer) : list Z :=
  map gold_difference (filter (in_window lo hi) (all_updates self)).

End LolEvents.

Module ValorantEvents.
Import Valorant ValorantSpec.

(** The round counts as a plant on [site]. *)
Definition planted_on (site : string) (r : round_data) : bool :=
  match truthy_site (spike_site r) with
  | Some s => String.eqb s site
  | None => false
  end.

(** The round counts as a plant at all. *)
Definition planted (r : round_data) : bool :=
  match truthy_site (spike_site r) with
  | Some _ => true
  | None => false
  end.

(** Every plant of the round is on a site the analyzer reports. *)
Definition site_in_schema (r : round_data) : Prop :=
  match truthy_site (spike_site r) with
  | Some s => s = "A" \/ s = "B" \/ s = "C"
  | None => True
  end.

(** The site labels of the plants among [rs], in iteration order. *)
Definition plant_sites (rs : list round_data) : list string :=
  flat_map (fun r => match truthy_site (spike_site r) with
                     | Some s => [s]
                     | None => []
                     end) rs.

(** The plurality label of the site counter, as the method picks it. *)
Definition favorite_site (self : analyzer) : string :=
  counter_argmax "Unknown" (fst (site_loop self)).

End ValorantEvents.

(** The distinct labels of a sequence, in the order of their first
    occurrence: the key order of a [Counter] fed with the sequence. *)
Definition first_seen (labels : list string) : list string :=
  fold_left (fun seen x => if existsb (String.eqb x) seen then seen else seen ++ [x])
            labels [].

(** [fav] is the plurality label of [labels]: no label occurs more often,
    and every label that occurs as often was first seen later. *)
Definition plurality (fav : string) (labels : list string) : Prop :=
  exists earlier later,
    first_seen labels = earlier ++ fav :: later
    /\ (forall k, In k earlier ->
                  count (String.eqb k) labels < count (String.eqb fav) labels)
    /\ (forall k, In k later ->
                  count (String.eqb k) labels <= count (String.eqb fav) labels).

Module MoreSamples.

(** One VALORANT match of three rounds, two of them planted on a site
    labelled "D". *)
Definition off_schema_rounds : list Valorant.val_match :=
  [ Samples.val_match_of
      [ Samples.a_round "Cloud9" 4000 (Some "D") "Cloud9";
        Samples.a_round "Enemy Team" 4000 (Some "A") "Cloud9";
        Samples.a_round "Cloud9" 800 (Some "D") "Enemy Team" ] ].

(** One VALORANT match of two rounds without a plant. *)
Definition no_plant_rounds : list Valorant.val_match :=
  [ Samples.val_match_of
      [ Samples.a_round "Cloud9" 4000 None "Cloud9";
        Samples.a_round "Enemy Team" 800 None "Enemy Team" ] ].

End MoreSamples.

(* ================================================================= *)
(** ** What the generator is known to produce                         *)
(* ================================================================= *)

Module Generated.

(** Non-decreasing in [key]. *)
Definition sorted_by {E : Type} (key : E -> Z) (l : list E) : Prop :=
  StronglySorted (fun a b => key a <= key b) l.

(** A team label is the analyzed team or the sentinel opponent. *)
Definition own_or_enemy (team label : string) : Prop :=
  label = team \/ label = "Enemy Team".

Definition kill_ok (team : string) (duration : Z) (k : Lol.kill) : Prop :=
  Lol.killer k = team /\ Lol.victim k = "Enemy Team"
  /\ 180 <= Lol.k_timestamp k <= duration
  /\ 1000 <= Lol.k_x k <= 13820 /\ 1000 <= Lol.k_y k <= 13820.

Definition dragon_ok (team : string) (duration : Z) (d : Lol.objective) : Prop :=
  own_or_enemy team (Lol.o_team d)
  /\ (exists spawn, In spawn MockData.dragon_spawn_times /\ spawn < duration
                    /\ spawn <= Lol.o_timestamp d <= spawn + 120)
  /\ (exists kind, Lol.dragon_type d = Some kind
                   /\ In kind ["Cloud"; "Infernal"; "Ocean"; "Mountain"; "Elder"])
  /\ Lol.o_x d = 9800 /\ Lol.o_y d = 4200.

Definition baron_ok (team : string) (duration : Z) (b : Lol.objective) : Prop :=
  own_or_enemy team (Lol.o_team b)
  /\ 1200 <= Lol.o_timestamp b <= duration - 60
  /\ Lol.dragon_type b = None /\ Lol.o_x b = 5200 /\ Lol.o_y b = 10400.

Definition herald_ok (team : string) (h : Lol.objective) : Prop :=
  own_or_enemy team (Lol.o_team h)
  /\ 480 <= Lol.o_timestamp h <= 1185
  /\ Lol.dragon_type h = None /\ Lol.o_x h = 5200 /\ Lol.o_y h = 10400.

(** The snapshot taken at [minute]. *)
Definition gold_ok (won : bool) (minute : Z) (u : Lol.gold_update) : Prop :=
  Lol.g_timestamp u = minute * 60
  /\ Lol.enemy_gold u = 15000 + minute * 300
  /\ Lol.team_gold u = Lol.enemy_gold u + Lol.gold_difference u
  /\ (if won then 500 else -500) - 300 + minute * 50 <= Lol.gold_difference u
     <= (if won then 500 else -500) + 300 + minute * 50.

Definition jungle_ok (duration : Z) (p : Lol.jungle_position) : Prop :=
  0 <= Lol.j_timestamp p <= duration
  /\ ((Lol.lane p = "Top" /\ 1000 <= Lol.j_x p <= 7000
       /\ 10000 <= Lol.j_y p <= 14000)
      \/ (Lol.lane p = "Mid" /\ 5000 <= Lol.j_x p <= 10000
          /\ 5000 <= Lol.j_y p <= 10000)
      \/ (Lol.lane p = "Bot" /\ 8000 <= Lol.j_x p <= 14000
          /\ 1000 <= Lol.j_y p <= 5000)).

(** The LoL match generated for [match_id]. *)
Record lol_generated (today : Z) (team : string) (match_id : Z)
  (m : Lol.lol_match) : Prop := {
  lg_id : Lol.match_id m = "LOL_" +++ str_of_Z match_id;
  lg_date : Lol.date m = today - match_id * 3;
  lg_team : Lol.team m = team;
  lg_opponent : Lol.opponent m = "Team_" +++ str_of_Z match_id;
  lg_duration : 1500 <= Lol.duration m <= 2400;
  lg_sorted :
    sorted_by Lol.k_timestamp (Lol.kills m)
    /\ sorted_by Lol.o_timestamp (Lol.dragons m)
    /\ sorted_by Lol.o_timestamp (Lol.barons m)
    /\ sorted_by Lol.o_timestamp (Lol.heralds m)
    /\ sorted_by Lol.g_timestamp (Lol.gold_updates m)
    /\ sorted_by Lol.j_timestamp (Lol.jungle_positions m);
  lg_kills : Forall (kill_ok team (Lol.duration m)) (Lol.kills m);
  lg_kill_count :
    if Lol.won m then 15 <= Z.of_nat (List.length (Lol.kills m)) <= 35
    else 8 <= Z.of_nat (List.length (Lol.kills m)) <= 20;
  lg_first_blood : count Lol.is_first_blood (Lol.kills m) = 1;
  lg_dragons : Forall (dragon_ok team (Lol.duration m)) (Lol.dragons m);
  lg_dragon_count : Z.of_nat (List.length (Lol.dragons m)) <= 8;
  lg_barons : Forall (baron_ok team (Lol.duration m)) (Lol.barons m);
  lg_baron_count : Z.of_nat (List.length (Lol.barons m)) <= 2;
  lg_heralds : Forall (herald_ok team) (Lol.heralds m);
  lg_herald_count : Z.of_nat (List.length (Lol.heralds m)) <= 2;
  lg_gold :
    Forall2 (gold_ok (Lol.won m))
            (range_step 5 (Lol.duration m / 60 + 1) 5) (Lol.gold_updates m);
  lg_jungle : Forall (jungle_ok (Lol.duration m)) (Lol.jungle_positions m);
  lg_jungle_count :
    100 <= Z.of_nat (List.length (Lol.jungle_positions m)) <= 200
}.

(** The three spending tiers of [loadout_value]. *)
Definition loadout_band (v : Z) : Prop :=
  800 <= v <= 1500 \/ 2000 <= v <= 3000 \/ 3500 <= v <= 5000.

(** The plant area of a site. *)
Definition site_box (site : string) (c : Valorant.coords) : Prop :=
  (site = "A" /\ 20 <= Valorant.c_x c <= 35 /\ 40 <= Valorant.c_y c <= 55)
  \/ (site = "B" /\ 55 <= Valorant.c_x c <= 70 /\ 20 <= Valorant.c_y c <= 35)
  \/ (site = "C" /\ 40 <= Valorant.c_x c <= 55 /\ 60 <= Valorant.c_y c <= 75).

(** The round generated for [round_num]. *)
Record round_generated (team : string) (round_num : Z)
  (r : Valorant.round_data) : Prop := {
  rg_num_ok : Valorant.round_number r = round_num;
  rg_winner : own_or_enemy team (Valorant.winner r);
  rg_first_blood : own_or_enemy team (Valorant.first_blood_team r);
  rg_pistol :
    round_num = 1 \/ round_num = 13 ->
    Valorant.team_loadout_value r = 800 /\ Valorant.enemy_loadout_value r = 800;
  rg_loadouts :
    loadout_band (Valorant.team_loadout_value r)
    /\ loadout_band (Valorant.enemy_loadout_value r);
  rg_eco_flags :
    Valorant.is_team_eco r = (Valorant.team_loadout_value r <? 2000)
    /\ Valorant.is_enemy_eco r = (Valorant.enemy_loadout_value r <? 2000);
  rg_spike :
    match Valorant.spike_site r, Valorant.spike_coords r with
    | Some site, Some c => Valorant.spike_planted r = true /\ site_box site c
    | None, None => Valorant.spike_planted r = false
    | _, _ => False
    end;
  rg_first_blood_location :
    10 <= Valorant.c_x (Valorant.first_blood_location r) <= 90
    /\ 10 <= Valorant.c_y (Valorant.first_blood_location r) <= 90;
  rg_duration_ok : 30 <= Valorant.round_duration r <= 100
}.

(** The VALORANT match generated for [match_id]. *)
Record val_generated (today : Z) (team : string) (match_id : Z)
  (m : Valorant.val_match) : Prop := {
  vg_id : Valorant.match_id m = "VAL_" +++ str_of_Z match_id;
  vg_date : Valorant.date m = today - match_id * 2;
  vg_team : Valorant.team m = team;
  vg_opponent : Valorant.opponent m = "Team_" +++ str_of_Z match_id;
  vg_scores :
    (13 <= Valorant.team_score m <= 15 /\ 8 <= Valorant.enemy_score m <= 12
     /\ Valorant.won m = true)
    \/ (8 <= Valorant.team_score m <= 12 /\ Valorant.enemy_score m = 13
        /\ Valorant.won m = false);
  vg_map :
    In (Valorant.map_name m)
       ["Ascent"; "Bind"; "Haven"; "Split"; "Icebox"; "Breeze"; "Fracture"];
  vg_rounds :
    Forall2 (round_generated team)
            (range 1 (Valorant.team_score m + Valorant.enemy_score m + 1))
            (Valorant.rounds m)
}.

End Generated.

(* ================================================================= *)
(** ** Floats with their special values                               *)
(* ================================================================= *)

Module PyFloat.

(** A Python float as the comparisons see it: a finite number, an
    infinity or NaN.  (An [int] argument is a finite number too.) *)
Inductive pyfloat : Type :=
| Finite (q : Q)
| Infinity (negative : bool)
| NaN.

(** [a <= b]: false whenever one side is NaN. *)
Definition fle (a b : pyfloat) : bool :=
  match a, b with
  | NaN, _ | _, NaN => false
  | Infinity true, _ => true
  | _, Infinity false => true
  | Infinity false, _ => false
  | _, Infinity true => false
  | Finite x, Finite y => Qle_bool x y
  end.

(** [a >= b] *)
Definition fge (a b : pyfloat) : bool := fle b a.

(** [-a] *)
Definition fneg (a : pyfloat) : pyfloat :=
  match a with
  | Finite q => Finite (- q)
  | Infinity negative => Infinity (negb negative)
  | NaN => NaN
  end.

End PyFloat.

(* ================================================================= *)
(** ** [loaders.py]                                                   *)
(* ================================================================= *)

Module Loaders.

(** One entry of [stats_data["game"]["wins"]], with the two keys the
    loader reads: whether [w["value"] == True], and the percentage, a
    JSON number (which Python reads as a finite number, an infinity or
    NaN). *)
Record win_entry : Type := mk_win {
  value : bool;
  percentage : PyFloat.pyfloat
}.

(** A match dictionary of either game, as the generators build it. *)
Inductive match_dict : Type :=
| LolMatch (m : Lol.lol_match)
| ValorantMatch (m : Valorant.val_match).

Definition match_id (m : match_dict) : string :=
  match m with
  | LolMatch m => Lol.match_id m
  | ValorantMatch m => Valorant.match_id m
  end.

Definition team (m : match_dict) : string :=
  match m with
  | LolMatch m => Lol.team m
  | ValorantMatch m => Valorant.team m
  end.

Definition won (m : match_dict) : bool :=
  match m with
  | LolMatch m => Lol.won m
  | ValorantMatch m => Valorant.won m
  end.

Definition is_lol (m : match_dict) : bool :=
  match m with
  | LolMatch _ => true
  | ValorantMatch _ => false
  end.

(** [match["won"] = b] *)
Definition set_won (b : bool) (m : match_dict) : match_dict :=
  match m with
  | LolMatch m =>
      LolMatch (Lol.mk_match (Lol.match_id m) (Lol.date m) (Lol.team m)
                  (Lol.opponent m) b (Lol.duration m) (Lol.kills m)
                  (Lol.dragons m) (Lol.barons m) (Lol.heralds m)
                  (Lol.gold_updates m) (Lol.jungle_positions m))
  | ValorantMatch m =>
      ValorantMatch (Valorant.mk_match (Valorant.match_id m) (Valorant.date m)
                       (Valorant.team m) (Valorant.opponent m)
                       (Valorant.team_score m) (Valorant.enemy_score m) b
                       (Valorant.map_name m) (Valorant.rounds m))
  end.

(** [next((w["percentage"] for w in wins_data if w["value"] == True), 50.0)] *)
Fixpoint real_win_pct (wins_data : list win_entry) : PyFloat.pyfloat :=
  match wins_data with
  | [] => PyFloat.Finite 50
  | w :: ws => if value w then percentage w else real_win_pct ws
  end.

(** [s.replace(old, "")] for a non-empty [old]: the occurrences of [old]
    are found from the left and do not overlap; [skip] characters of the
    occurrence found last are still to be dropped. *)
Fixpoint remove_from (old : string) (skip : nat) (s : string) : string :=
  match s with
  | EmptyString => EmptyString
  | String c s' =>
      match skip with
      | S k => remove_from old k s'
      | O => if String.prefix old s
             then remove_from old (String.length old - 1) s'
             else String c (remove_from old O s')
      end
  end.

Definition str_remove (old s : string) : string := remove_from old O s.

(** *** [random.shuffle] *)

(** [random._randbelow(n)] for [n > 0]. *)
Definition randbelow (n : Z) : Gen Z :=
  k <- draw ;; ret (k mod n).

(** [x[i] = a] for [i] in range. *)
Fixpoint set_item {A : Type} (i : nat) (a : A) (x : list A) : list A :=
  match x, i with
  | [], _ => []
  | _ :: x', O => a :: x'
  | b :: x', S i' => b :: set_item i' a x'
  end.

(** [x[i], x[j] = x[j], x[i]]; [IndexError] out of range. *)
Definition swap {A : Type} (i j : nat) (x : list A) : result (list A) :=
  match nth_error x j, nth_error x i with
  | Some xj, Some xi => Ok (set_item j xi (set_item i xj x))
  | _, _ => Raise IndexError
  end.

(** [for i in reversed(range(1, len(x))): j = randbelow(i + 1); swap] *)
Definition shuffle {A : Type} (x : list A) : Gen (list A) :=
  for_loop (rev (range 1 (Z.of_nat (List.length x))))
           (fun x i => j <- randbelow (i + 1) ;;
                       lift (swap (Z.to_nat i) (Z.to_nat j) x))
           x.

(** *** [GridDataLoader] *)

Record loader : Type := mk_loader {
  api_key : option string;
  use_mock : bool
}.

(** [not api_key]: the key is [None] or the empty string. *)
Definition no_key (k : option string) : bool :=
  match k with
  | Some (String _ _) => false
  | _ => true
  end.

Definition init (api_key : option string) (use_mock : bool) : result loader :=
  if negb use_mock && no_key api_key then Raise ValueError
  else Ok (mk_loader api_key use_mock).

Section Loader.

(** The day number of [datetime.now()]. *)
Variable today : Z.

(** [int(len(matches) * (real_win_pct / 100.0))] in double precision:
    the integer, or the exception [int] raises when the product is
    infinite ([OverflowError]) or NaN ([ValueError]). *)
Variable int_of_product : Z -> PyFloat.pyfloat -> result Z.

(** [_fetch_team_statistics]: what the statistics service answers for a
    team id and a game; [None] on any error, on missing statistics and on
    a game count of zero.  Of an answer the loader reads the wins list. *)
Variable fetch_team_statistics : loader -> string -> string -> option (list win_entry).

(** The loop that rewrites the [won] flags. *)
Definition relabel_step (num_wins_expected : Z) (st : Z * list match_dict)
  (m : match_dict) : Z * list match_dict :=
  let (num_wins_applied, done) := st in
  if num_wins_applied <? num_wins_expected
  then (num_wins_applied + 1, done ++ [set_won true m])
  else (num_wins_applied, done ++ [set_won false m]).

Definition relabel (num_wins_expected : Z) (matches : list match_dict)
  : list match_dict :=
  snd (fold_left (relabel_step num_wins_expected) matches (0, [])).

Definition transform_stats_to_matches (wins_data : list win_entry)
  (team_name : string) (num_matches : Z) (game_type : string)
  : Gen (list match_dict) :=
  let real_win_pct := real_win_pct wins_data in
  matches <- (if String.eqb game_type "lol"
              then ms <- MockData.generate_lol_match_data today team_name num_matches ;;
                   ret (map LolMatch ms)
              else ms <- MockData.generate_valorant_match_data today team_name
                           num_matches ;;
                   ret (map ValorantMatch ms)) ;;
  num_wins_expected <-
    lift (int_of_product (Z.of_nat (List.length matches)) real_win_pct) ;;
  shuffle (relabel num_wins_expected matches).

(** The mock data of the game, as both fall-backs return it. *)
Definition mock_matches (team_name : string) (num_matches : Z)
  (game_type : string) : Gen (list match_dict) :=
  if String.eqb game_type "lol"
  then ms <- get_lol_mock_data today team_name num_matches ;; ret (map LolMatch ms)
  else ms <- get_valorant_mock_data today team_name num_matches ;;
       ret (map ValorantMatch ms).

Definition fetch_from_grid_api (self : loader) (team_name : string)
  (num_matches : Z) (game_type : string) : Gen (list match_dict) :=
  if no_key (api_key self) then raise ValueError
  else if String.prefix "TeamID:" team_name then
    let team_id := str_remove "TeamID:" team_name in
    match fetch_team_statistics self team_id game_type with
    | None => mock_matches team_name num_matches game_type
    | Some wins_data =>
        let display_name := "Team " +++ team_id in
        transform_stats_to_matches wins_data display_name num_matches game_type
    end
  else mock_matches team_name num_matches game_type.

Definition load_lol_matches (self : loader) (team_name : string)
  (num_matches : Z) : Gen (list match_dict) :=
  if use_mock self
  then ms <- get_lol_mock_data today team_name num_matches ;; ret (map LolMatch ms)
  else fetch_from_grid_api self team_name num_matches "lol".

Definition load_valorant_matches (self : loader) (team_name : string)
  (num_matches : Z) : Gen (list match_dict) :=
  if use_mock self
  then ms <- get_valorant_mock_data today team_name num_matches ;;
       ret (map ValorantMatch ms)
  else fetch_from_grid_api self team_name num_matches "valorant".

End Loader.

End Loaders.

(** What the relabelling loop leaves in the list: the match at position
    [i] (from 0) is won exactly when [i] is below the expected wins. *)
Fixpoint relabelled (num_wins_expected : Z) (i : Z)
  (matches : list Loaders.match_dict) : list Loaders.match_dict :=
  match matches with
  | [] => []
  | m :: ms =>
      Loaders.set_won (i <? num_wins_expected) m
      :: relabelled num_wins_expected (i + 1) ms
  end.

(** A match dictionary is the one generated for [id], its [won] flag
    apart: some flag makes it a generated match. *)
Definition generated_but_won (today : Z) (team : string) (id : Z)
  (m : Loaders.match_dict) : Prop :=
  match m with
  | Loaders.LolMatch m =>
      exists b, Generated.lol_generated today team id
                  (Lol.mk_match (Lol.match_id m) (Lol.date m) (Lol.team m)
                     (Lol.opponent m) b (Lol.duration m) (Lol.kills m)
                     (Lol.dragons m) (Lol.barons m) (Lol.heralds m)
                     (Lol.gold_updates m) (Lol.jungle_positions m))
  | Loaders.ValorantMatch m =>
      exists b, Generated.val_generated today team id
                  (Valorant.mk_match (Valorant.match_id m) (Valorant.date m)
                     (Valorant.team m) (Valorant.opponent m)
                     (Valorant.team_score m) (Valorant.enemy_score m) b
                     (Valorant.map_name m) (Valorant.rounds m))
  end.

(** The identifier prefix of the game's generator. *)
Definition id_prefix (game_type : string) : string :=
  if String.eqb game_type "lol" then "LOL_" else "VAL_".

(** The match dictionary generated for [id] by the generator of
    [game_type], its [won] flag apart. *)
Definition numbered (today : Z) (team_name game_type : string) (id : Z)
  (m : Loaders.match_dict) : Prop :=
  generated_but_won today team_name id m
  /\ Loaders.match_id m = id_prefix game_type +++ str_of_Z id
  /\ Loaders.is_lol m = String.eqb game_type "lol".

(** [num_matches] matches of [game_type], all under [team_name]. *)
Definition loaded (team_name game_type : string) (num_matches : Z)
  (out : list Loaders.match_dict) : Prop :=
  Z.of_nat (List.length out) = num_matches
  /\ Forall (fun m => Loaders.is_lol m = String.eqb game_type "lol"
                      /\ Loaders.team m = team_name) out.

(* ================================================================= *)
(** ** [utils.py]                                                     *)
(* ================================================================= *)

Module Utils.
Import PyFloat.

Definition green : string := "#51cf66".
Definition red : string := "#ff6b6b".
Definition orange : string := "#ffa94d".

(** [get_color_by_performance] *)
Definition get_color_by_performance (value threshold_good threshold_bad : pyfloat)
  (higher_is_better : bool) : string :=
  if higher_is_better then
    if fge value threshold_good then "#51cf66"
    else if fle value threshold_bad then "#ff6b6b"
    else "#ffa94d"
  else
    if fle value threshold_good then "#51cf66"
    else if fge value threshold_bad then "#ff6b6b"
    else "#ffa94d".

(** One entry of the local [all_objectives] of
    [create_objective_timeline]. *)
Record timeline_row : Type := mk_row {
  row_match : string;
  row_timestamp : Q;
  row_type : string;
  row_team : string;
  row_specific : string
}.

(** [match.get(key, [])] for the three event lists; a VALORANT match has
    none of them. *)
Definition events_of (key : Lol.lol_match -> list Lol.objective)
  (m : Loaders.match_dict) : list Lol.objective :=
  match m with
  | Loaders.LolMatch m => key m
  | Loaders.ValorantMatch _ => []
  end.

Definition row_of (team_name match_label type : string)
  (specific : Lol.objective -> string) (ev : Lol.objective) : timeline_row :=
  mk_row match_label
         (Qred (inject_Z (Lol.o_timestamp ev) / 60))
         type
         (if String.eqb (Lol.o_team ev) team_name then "Captured" else "Lost")
         (specific ev).

(** The body of [for match_idx, match in enumerate(matches)]. *)
Definition match_rows (team_name : string) (match_idx : Z)
  (m : Loaders.match_dict) : list timeline_row :=
  let match_label := "Match " +++ str_of_Z (match_idx + 1) in
  map (row_of team_name match_label "Dragon"
         (fun dragon => match Lol.dragon_type dragon with
                        | Some kind => kind
                        | None => "Dragon"
                        end))
      (events_of Lol.dragons m)
  ++ map (row_of team_name match_label "Herald" (fun _ => "Rift Herald"))
         (events_of Lol.heralds m)
  ++ map (row_of team_name match_label "Baron" (fun _ => "Baron Nashor"))
         (events_of Lol.barons m).

(** The list [all_objectives] the timeline is drawn from. *)
Definition all_objectives (matches : list Loaders.match_dict)
  (team_name : string) : list timeline_row :=
  flat_map (fun im => match_rows team_name (fst im) (snd im))
           (combine (range 0 (Z.of_nat (List.length matches))) matches).

End Utils.

(** The timeline entry is of kind [type] and labelled [label]. *)
Definition is_row (type label : string) (r : Utils.timeline_row) : bool :=
  String.eqb (Utils.row_type r) type && String.eqb (Utils.row_team r) label.

(* ================================================================= *)
(** ** [agent.py]: the lane the mock report singles out               *)
(* ================================================================= *)

Module Agent.

(** [stats_dict.get(key, {})] *)
Definition get_dict (k : string) (stats_dict : pyval) : pyval :=
  match field k stats_dict with
  | Some d => d
  | None => PDict []
  end.

(** [min(pairs, key=lambda x: x[1])]: the first pair with the least
    number. *)
Definition min_by_value (first : string * Q) (rest : list (string * Q))
  : string * Q :=
  fold_left (fun best x => if Qltb (snd x) (snd best) then x else best)
            rest first.

(** The local [weakest_lane] of [_generate_mock_report]; each percentage
    is [jungle_data.get(key, 0)]. *)
Definition weakest_lane (stats_dict : pyval) : string :=
  let jungle_data := get_dict "jungle_proximity" stats_dict in
  fst (min_by_value ("Top", reported "top_lane_percent" jungle_data)
         [("Mid", reported "mid_lane_percent" jungle_data);
          ("Bot", reported "bot_lane_percent" jungle_data)]).

End Agent.

(** The percentage a jungle report holds for a lane. *)
Definition lane_share (jungle_data : pyval) (lane : string) : Q :=
  if String.eqb lane "Top" then reported "top_lane_percent" jungle_data
  else if String.eqb lane "Mid" then reported "mid_lane_percent" jungle_data
  else reported "bot_lane_percent" jungle_data.

(** The label the timeline gives a capture. *)
Definition row_label (captured : bool) : string :=
  if captured then "Captured" else "Lost".

(** [a < b] on floats that are not NaN. *)
Definition strictly_below (a b : PyFloat.pyfloat) : Prop :=
  PyFloat.fle a b = true /\ PyFloat.fle b a = false.

(** The one way a load can fail: statistics were found for a
    "TeamID:..." request and [int] raises [e] on their win percentage. *)
Definition int_fails (int_of_product : Z -> PyFloat.pyfloat -> result Z)
  (fetch_team_statistics :
     Loaders.loader -> string -> string -> option (list Loaders.win_entry))
  (self : Loaders.loader) (team_name : string) (num_matches : Z)
  (game_type : string) (e : exn) : Prop :=
  String.prefix "TeamID:" team_name = true
  /\ exists wins_data,
      fetch_team_statistics self (Loaders.str_remove "TeamID:" team_name)
                            game_type
      = Some wins_data
      /\ int_of_product num_matches (Loaders.real_win_pct wins_data) = Raise e.

(** [int(n * (pct / 100.0))] on a percentage small enough for the
    product to be exact: the truncated product, [OverflowError] on an
    infinite product and [ValueError] on NaN (which [0 * inf] is). *)
Definition int_of_small_product (n : Z) (pct : PyFloat.pyfloat) : result Z :=
  match pct with
  | PyFloat.Finite q => Ok (py_int (flt (inject_Z n * (q / 100))))
  | PyFloat.Infinity _ => if n =? 0 then Raise ValueError else Raise OverflowError
  | PyFloat.NaN => Raise ValueError
  end.

(* ================================================================= *)
(** ** The object store: the analyzers on shared objects              *)
(* ================================================================= *)

(** Python hands lists and dictionaries around by reference: the list
    given to [__init__] is the caller's own, and so is every dictionary
    and list inside it.  To ask what a method call does to them, the
    methods of [analyzers.py] are embedded a second time, on an explicit
    store of objects.  Every list and dictionary is a cell of the store
    and a value holds a reference to it; [list.append], [list.extend]
    and item assignment overwrite the cell they are applied to, whoever
    else holds a reference to it.  Integers, strings and the numbers a
    method computes are immutable and stay values, and so does what a
    method returns: the dictionary its [return] builds is new, and is
    given with its content, as the other embedding gives it. *)
Module Store.

Definition loc : Type := nat.

Inductive value : Type :=
| VNone
| VBool (b : bool)
| VNum (n : num)
| VStr (s : string)
| VRef (l : loc).

Inductive object : Type :=
| OList (items : list value)
| ODict (entries : list (string * value)).

(** The store: the cell of reference [l] is the [l]-th one; a new
    object is put behind the last. *)
Definition heap : Type := list object.

(** A computation on the store.  It returns or raises, and leaves a
    store behind either way.  [None]: the store is not laid out as the
    match schema says (a reference to nothing, or a value of another
    kind than the schema's where the kind matters); what Python does
    then depends on the value it finds, and the methods are specified on
    the stores that follow the schema. *)
Definition Store (A : Type) : Type := heap -> option (result A * heap).

Definition ret {A : Type} (a : A) : Store A := fun h => Some (Ok a, h).

Definition bind {A B : Type} (m : Store A) (f : A -> Store B) : Store B :=
  fun h =>
    match m h with
    | Some (Ok a, h') => f a h'
    | Some (Raise e, h') => Some (Raise e, h')
    | None => None
    end.

Definition throw {A : Type} (e : exn) : Store A := fun h => Some (Raise e, h).

Definition off_schema {A : Type} : Store A := fun _ => None.

(** [try: ... except Exception], with the outcome handed to the caller. *)
Definition attempt {A : Type} (m : Store A) : Store (result A) :=
  fun h =>
    match m h with
    | Some (r, h') => Some (Ok r, h')
    | None => None
    end.

(** What a computation returns or raises from a given store. *)
Definition outcome {A : Type} (m : Store A) (h : heap) : option (result A) :=
  match m h with
  | Some (r, _) => Some r
  | None => None
  end.

(** A list display, a dictionary display, [Counter()]: a new object. *)
Definition alloc (o : object) : Store value :=
  fun h => Some (Ok (VRef (List.length h)), h ++ [o]).

Definition load (v : value) : Store object :=
  fun h =>
    match v with
    | VRef l =>
        match nth_error h l with
        | Some o => Some (Ok o, h)
        | None => None
        end
    | _ => None
    end.

Fixpoint replace (l : loc) (o : object) (h : heap) : heap :=
  match h, l with
  | [], _ => []
  | _ :: h', O => o :: h'
  | x :: h', S l' => x :: replace l' o h'
  end.

(** Overwriting the object behind a reference. *)
Definition store (v : value) (o : object) : Store unit :=
  fun h =>
    match v with
    | VRef l =>
        match nth_error h l with
        | Some _ => Some (Ok tt, replace l o h)
        | None => None
        end
    | _ => None
    end.

(** From the store [h], [m] returns or raises as [Q] says, and leaves a
    store as [Q] says. *)
Definition runs {A : Type} (m : Store A) (Q : result A -> heap -> Prop)
  (h : heap) : Prop :=
  exists r h', m h = Some (r, h') /\ Q r h'.

(** An integer as a stored value. *)
Definition VInt (z : Z) : value := VNum (NInt z).

End Store.

Declare Scope store_scope.
Delimit Scope store_scope with store.
Notation "x <- m ;; k" := (Store.bind m (fun x => k))
  (at level 61, m at next level, right associativity) : store_scope.
Notation "' pat <- m ;; k" :=
  (Store.bind m (fun x => match x with pat => k end))
  (at level 61, pat pattern, m at next level, right associativity) : store_scope.

(** The operations of Python the analyzers use on stored objects. *)
Module PyStore.
Import Store.
Local Open Scope store_scope.

Definition items_of (v : value) : Store (list value) :=
  o <- load v ;;
  match o with
  | OList items => ret items
  | ODict _ => off_schema
  end.

Definition entries_of (v : value) : Store (list (string * value)) :=
  o <- load v ;;
  match o with
  | ODict entries => ret entries
  | OList _ => off_schema
  end.

Definition str_of (v : value) : Store string :=
  match v with
  | VStr s => ret s
  | _ => off_schema
  end.

Definition int_of (v : value) : Store Z :=
  match v with
  | VNum (NInt z) => ret z
  | _ => off_schema
  end.

(** A number or a string as it appears in a returned dictionary. *)
Definition plain (v : value) : Store pyval :=
  match v with
  | VNum n => ret (PNum n)
  | VStr s => ret (PStr s)
  | _ => off_schema
  end.

(** [d[key]] *)
Definition getitem (d : value) (key : string) : Store value :=
  entries <- entries_of d ;;
  match dict_get key entries with
  | Some v => ret v
  | None => throw (KeyError key)
  end.

(** [d.get(key, default)] *)
Definition get (d : value) (key : string) (default : value) : Store value :=
  entries <- entries_of d ;;
  match dict_get key entries with
  | Some v => ret v
  | None => ret default
  end.

(** [d[key] = v] *)
Definition setitem (d : value) (key : string) (v : value) : Store unit :=
  entries <- entries_of d ;;
  store d (ODict (dict_set key v entries)).

(** [self.name], on the dictionary of the instance. *)
Definition getattr (self : value) (name : string) : Store value :=
  entries <- entries_of self ;;
  match dict_get name entries with
  | Some v => ret v
  | None => off_schema
  end.

(** [self.name = v] *)
Definition setattr (self : value) (name : string) (v : value) : Store unit :=
  setitem self name v.

(** [l[i]] *)
Definition index (l : value) (i : nat) : Store value :=
  items <- items_of l ;;
  match nth_error items i with
  | Some v => ret v
  | None => throw IndexError
  end.

(** [l.append(v)] *)
Definition append (l v : value) : Store unit :=
  items <- items_of l ;;
  store l (OList (items ++ [v])).

(** [l.extend(src)] *)
Definition extend (l src : value) : Store unit :=
  new <- items_of src ;;
  items <- items_of l ;;
  store l (OList (items ++ new)).

(** [len(l)] *)
Definition len (l : value) : Store Z :=
  items <- items_of l ;;
  ret (Z.of_nat (List.length items)).

(** The truth value of [v], as [if v] and [not v] take it. *)
Definition truthy (v : value) : Store bool :=
  match v with
  | VNone => ret false
  | VBool b => ret b
  | VNum n => ret (num_nonzero n)
  | VStr s => ret (negb (String.eqb s ""))
  | VRef _ =>
      o <- load v ;;
      match o with
      | OList [] | ODict [] => ret false
      | _ => ret true
      end
  end.

Definition number (v : value) : option Q :=
  match v with
  | VBool b => Some (if b then 1 else 0)%Q
  | VNum n => Some (num_to_Q n)
  | _ => None
  end.

(** [a == b] on strings, numbers, booleans and [None]; lists and
    dictionaries, which compare by content, are not compared by the
    analyzers on a store that follows the schema. *)
Definition equals (a b : value) : Store bool :=
  match a, b with
  | VRef _, _ | _, VRef _ => off_schema
  | VStr s, VStr t => ret (String.eqb s t)
  | VNone, VNone => ret true
  | _, _ =>
      match number a, number b with
      | Some x, Some y => ret (Qeq_bool x y)
      | _, _ => ret false
      end
  end.

(** [for x in xs: s = body(s, x)] over the items in hand. *)
Fixpoint for_each {A S : Type} (xs : list A) (body : S -> A -> Store S) (s : S)
  : Store S :=
  match xs with
  | [] => ret s
  | x :: xs' => s' <- body s x ;; for_each xs' body s'
  end.

(** [for x in l], the locals the body rebinds threaded as [s].  The
    items are those of the list when the loop starts: no loop of the
    analyzers writes to the list it runs over. *)
Definition for_in {S : Type} (l : value) (body : S -> value -> Store S) (s : S)
  : Store S :=
  items <- items_of l ;;
  for_each items body s.

(** The counts of a [Counter], in insertion order. *)
Definition counts_of (c : value) : Store counter :=
  entries <- entries_of c ;;
  for_each entries
    (fun acc kv => n <- int_of (snd kv) ;; ret (acc ++ [(fst kv, n)])) [].

(** [c[key] += 1] on a [Counter], where a missing key counts 0. *)
Definition counter_add1 (c : value) (key : string) : Store unit :=
  now <- get c key (VInt 0) ;;
  n <- int_of now ;;
  setitem c key (VInt (n + 1)).

(** [c.get(key, 0)] *)
Definition get_count (c : value) (key : string) : Store Z :=
  now <- get c key (VInt 0) ;;
  int_of now.

(** The entries of a dictionary of numbers and strings, as they appear
    in a returned dictionary ([**d], [dict(d)]). *)
Definition plain_entries (d : value) : Store (list (string * pyval)) :=
  entries <- entries_of d ;;
  for_each entries
    (fun acc kv => p <- plain (snd kv) ;; ret (acc ++ [(fst kv, p)])) [].

(** The integers of a list, as [numpy.mean] reads them. *)
Definition ints_of (l : value) : Store (list Z) :=
  for_in l (fun acc v => z <- int_of v ;; ret (acc ++ [z])) [].

End PyStore.

(** [LolAnalyzer] on the store. *)
Module LolStore.
Import Store PyStore Lol.
Local Open Scope store_scope.

(** [LolAnalyzer(matches)]: the new instance, and [__init__] on it. *)
Definition init (matches : value) : Store value :=
  self <- alloc (ODict []) ;;
  _ <- setattr self "matches" matches ;;
  nonempty <- truthy matches ;;
  team_name <- (if nonempty : bool
                then m0 <- index matches 0 ;; getitem m0 "team"
                else ret (VStr "Unknown")) ;;
  _ <- setattr self "team_name" team_name ;;
  ret self.

Definition calculate_jungle_proximity (self : value) : Store pyval :=
  all_positions <- alloc (OList []) ;;
  matches <- getattr self "matches" ;;
  _ <- for_in matches
         (fun _ m =>
            default <- alloc (OList []) ;;
            positions <- get m "jungle_positions" default ;;
            extend all_positions positions) tt ;;
  nonempty <- truthy all_positions ;;
  if negb nonempty then
    ret (PDict [ ("top_lane_percent", PInt 0);
                 ("mid_lane_percent", PInt 0);
                 ("bot_lane_percent", PInt 0);
                 ("positions", PList []) ])
  else
    lane_counter <- alloc (ODict []) ;;
    _ <- for_in all_positions
           (fun _ pos =>
              lane <- getitem pos "lane" ;;
              key <- str_of lane ;;
              counter_add1 lane_counter key) tt ;;
    total <- len all_positions ;;
    top <- get_count lane_counter "Top" ;;
    let top_percent := flt (inject_Z top / inject_Z total * 100) in
    mid <- get_count lane_counter "Mid" ;;
    let mid_percent := flt (inject_Z mid / inject_Z total * 100) in
    bot <- get_count lane_counter "Bot" ;;
    let bot_percent := flt (inject_Z bot / inject_Z total * 100) in
    xs <- for_in all_positions
            (fun acc pos => x <- getitem pos "x" ;; p <- plain x ;;
                            ret (acc ++ [p])) [] ;;
    ys <- for_in all_positions
            (fun acc pos => y <- getitem pos "y" ;; p <- plain y ;;
                            ret (acc ++ [p])) [] ;;
    lanes <- for_in all_positions
               (fun acc pos => lane <- getitem pos "lane" ;; p <- plain lane ;;
                               ret (acc ++ [p])) [] ;;
    let heatmap_data := PDict [ ("x", PList xs); ("y", PList ys);
                                ("lane", PList lanes) ] in
    counts <- counts_of lane_counter ;;
    ret (PDict [ ("top_lane_percent", PNum (py_round top_percent 1));
                 ("mid_lane_percent", PNum (py_round mid_percent 1));
                 ("bot_lane_percent", PNum (py_round bot_percent 1));
                 ("total_samples", PInt total);
                 ("heatmap_data", heatmap_data);
                 ("insight",
                  PStr ("Jungler focuses "
                        +++ fmt_fixed 1 (num_max3 top_percent mid_percent bot_percent)
                        +++ "% on "
                        +++ counter_argmax "" counts
                        +++ " lane")) ]).

(** [for ev in events: total += 1; if ev["team"] == self.team_name: mine += 1] *)
Definition tally (self events : value) (acc : Z * Z) : Store (Z * Z) :=
  for_in events
    (fun '(total, mine) ev =>
       team <- getitem ev "team" ;;
       team_name <- getattr self "team_name" ;;
       same <- equals team team_name ;;
       ret (total + 1, if same : bool then mine + 1 else mine)) acc.

(** The body of the first [for match in self.matches] loop of
    [calculate_objective_control]. *)
Definition objective_step (self : value) (acc : objective_acc) (m : value)
  : Store objective_acc :=
  default <- alloc (OList []) ;;
  dragons <- get m "dragons" default ;;
  any <- truthy dragons ;;
  '(fd, fdt) <-
    (if any : bool then
       first <- index dragons 0 ;;
       team <- getitem first "team" ;;
       team_name <- getattr self "team_name" ;;
       same <- equals team team_name ;;
       ret (first_dragons acc + 1,
            if same : bool
            then first_dragons_taken acc + 1 else first_dragons_taken acc)
     else ret (first_dragons acc, first_dragons_taken acc)) ;;
  '(td, tmd) <- tally self dragons (total_dragons acc, team_dragons acc) ;;
  default <- alloc (OList []) ;;
  heralds <- get m "heralds" default ;;
  '(th, tmh) <- tally self heralds (total_heralds acc, team_heralds acc) ;;
  ret (mk_acc fd fdt td tmd th tmh).

Definition calculate_objective_control (self : value) : Store pyval :=
  matches <- getattr self "matches" ;;
  acc <- for_in matches (objective_step self) (mk_acc 0 0 0 0 0 0) ;;
  let first_dragon_rate :=
    percent_or_zero (first_dragons_taken acc) (first_dragons acc) in
  let overall_dragon_rate := percent_or_zero (team_dragons acc) (total_dragons acc) in
  let herald_rate := percent_or_zero (team_heralds acc) (total_heralds acc) in
  matches <- getattr self "matches" ;;
  '(total_barons, team_barons) <-
    for_in matches
      (fun acc m =>
         default <- alloc (OList []) ;;
         barons <- get m "barons" default ;;
         tally self barons acc) (0, 0) ;;
  let baron_rate := percent_or_zero team_barons total_barons in
  ret (PDict [ ("first_dragon_rate", PNum (py_round first_dragon_rate 1));
               ("overall_dragon_rate", PNum (py_round overall_dragon_rate 1));
               ("herald_control_rate", PNum (py_round herald_rate 1));
               ("baron_control_rate", PNum (py_round baron_rate 1));
               ("total_dragons", PInt (total_dragons acc));
               ("team_dragons", PInt (team_dragons acc));
               ("total_heralds", PInt (total_heralds acc));
               ("team_heralds", PInt (team_heralds acc));
               ("total_barons", PInt total_barons);
               ("team_barons", PInt team_barons);
               ("insight",
                PStr ((if num_gt first_dragon_rate 70
                       then "DOMINATES" else "STRUGGLES WITH")
                      +++ " early objective control ("
                      +++ fmt_fixed 0 first_dragon_rate
                      +++ "% first dragon rate)")) ]).

(** The body of [for update in gold_updates]. *)
Definition gold_step (gold_at_10 gold_at_15 gold_at_20 update : value)
  : Store unit :=
  stamp <- getitem update "timestamp" ;;
  gold_diff <- getitem update "gold_difference" ;;
  timestamp <- int_of stamp ;;
  if (9 * 60 <=? timestamp) && (timestamp <=? 11 * 60) then
    append gold_at_10 gold_diff
  else if (14 * 60 <=? timestamp) && (timestamp <=? 16 * 60) then
    append gold_at_15 gold_diff
  else if (19 * 60 <=? timestamp) && (timestamp <=? 21 * 60) then
    append gold_at_20 gold_diff
  else ret tt.

Definition calculate_gold_efficiency (self : value) : Store pyval :=
  gold_at_10 <- alloc (OList []) ;;
  gold_at_15 <- alloc (OList []) ;;
  gold_at_20 <- alloc (OList []) ;;
  matches <- getattr self "matches" ;;
  _ <- for_in matches
         (fun _ m =>
            default <- alloc (OList []) ;;
            gold_updates <- get m "gold_updates" default ;;
            for_in gold_updates
              (fun _ update => gold_step gold_at_10 gold_at_15 gold_at_20 update)
              tt) tt ;;
  at_10 <- ints_of gold_at_10 ;;
  let avg_gold_10 := mean_or_zero at_10 in
  at_15 <- ints_of gold_at_15 ;;
  let avg_gold_15 := mean_or_zero at_15 in
  at_20 <- ints_of gold_at_20 ;;
  let avg_gold_20 := mean_or_zero at_20 in
  let growth_rate :=
    if num_nonzero avg_gold_10 && num_nonzero avg_gold_15 then
      flt ((num_to_Q avg_gold_15 - num_to_Q avg_gold_10) / 5 * 60)
    else NInt 0 in
  ret (PDict [ ("gold_diff_at_10min", PNum (py_round avg_gold_10 0));
               ("gold_diff_at_15min", PNum (py_round avg_gold_15 0));
               ("gold_diff_at_20min", PNum (py_round avg_gold_20 0));
               ("gold_growth_rate", PNum (py_round growth_rate 0));
               ("samples_at_10", PInt (Z.of_nat (List.length at_10)));
               ("samples_at_15", PInt (Z.of_nat (List.length at_15)));
               ("samples_at_20", PInt (Z.of_nat (List.length at_20)));
               ("insight",
                PStr ((if num_gt avg_gold_15 0 then "Strong" else "Weak")
                      +++ " mid-game scaling ("
                      +++ fmt_signed (py_int avg_gold_15)
                      +++ "g @ 15min)")) ]).

Definition get_complete_analysis (self : value) : Store pyval :=
  matches <- getattr self "matches" ;;
  wins <- for_in matches
            (fun wins m =>
               won <- getitem m "won" ;;
               yes <- truthy won ;;
               ret (if yes : bool then wins + 1 else wins)) 0 ;;
  matches <- getattr self "matches" ;;
  total_matches <- len matches ;;
  let win_rate := percent_or_zero wins total_matches in
  matches <- getattr self "matches" ;;
  any <- truthy matches ;;
  avg_game_duration <-
    (if any : bool then
       matches <- getattr self "matches" ;;
       durations <- for_in matches
                      (fun acc m =>
                         duration <- getitem m "duration" ;;
                         seconds <- int_of duration ;;
                         ret (acc ++ [seconds])) [] ;;
       ret (np_mean durations)
     else ret (NInt 0)) ;;
  team_name <- getattr self "team_name" ;;
  name <- plain team_name ;;
  jungle_proximity <- calculate_jungle_proximity self ;;
  objective_control <- calculate_objective_control self ;;
  gold_efficiency <- calculate_gold_efficiency self ;;
  ret (PDict [ ("team_name", name);
               ("matches_analyzed", PInt total_matches);
               ("win_rate", PNum (py_round win_rate 1));
               ("avg_game_duration_minutes",
                PNum (py_round (flt (num_to_Q avg_game_duration / 60)) 1));
               ("jungle_proximity", jungle_proximity);
               ("objective_control", objective_control);
               ("gold_efficiency", gold_efficiency) ]).

(** The public methods of the object. *)
Inductive method : Type :=
| JungleProximity
| ObjectiveControl
| GoldEfficiency
| CompleteAnalysis.

Definition call (self : value) (m : method) : Store pyval :=
  match m with
  | JungleProximity => calculate_jungle_proximity self
  | ObjectiveControl => calculate_objective_control self
  | GoldEfficiency => calculate_gold_efficiency self
  | CompleteAnalysis => get_complete_analysis self
  end.

(** A caller's sequence of method calls on one analyzer object, each
    outcome kept, the store handed from each call to the next. *)
Fixpoint run (self : value) (calls : list method)
  : Store (list (result pyval)) :=
  match calls with
  | [] => ret []
  | c :: calls' =>
      r <- attempt (call self c) ;;
      rs <- run self calls' ;;
      ret (r :: rs)
  end.

End LolStore.

(** [ValorantAnalyzer] on the store. *)
Module ValorantStore.
Import Store PyStore Valorant.
Local Open Scope store_scope.

(** [ValorantAnalyzer(matches)]: the new instance, and [__init__] on it. *)
Definition init (matches : value) : Store value :=
  self <- alloc (ODict []) ;;
  _ <- setattr self "matches" matches ;;
  nonempty <- truthy matches ;;
  team_name <- (if nonempty : bool
                then m0 <- index matches 0 ;; getitem m0 "team"
                else ret (VStr "Unknown")) ;;
  _ <- setattr self "team_name" team_name ;;
  ret self.

(** [for match in self.matches: for round_data in match.get("rounds", [])] *)
Definition for_rounds {S : Type} (self : value) (body : S -> value -> Store S)
  (s0 : S) : Store S :=
  matches <- getattr self "matches" ;;
  for_in matches
    (fun s m =>
       default <- alloc (OList []) ;;
       rounds <- get m "rounds" default ;;
       for_in rounds body s) s0.

(** [round_data[key] == self.team_name] *)
Definition is_team (self round_data : value) (key : string) : Store bool :=
  label <- getitem round_data key ;;
  team_name <- getattr self "team_name" ;;
  equals label team_name.

Definition duel_step (self : value) (a : duel_acc) (round_data : value)
  : Store duel_acc :=
  got_first_blood <- is_team self round_data "first_blood_team" ;;
  won_round <- is_team self round_data "winner" ;;
  ret (if got_first_blood : bool then
         mk_duel (total_rounds a + 1) (team_first_bloods a + 1)
                 (if won_round : bool
                  then rounds_won_with_fb a + 1 else rounds_won_with_fb a)
                 (rounds_won_without_fb a)
       else
         mk_duel (total_rounds a + 1) (team_first_bloods a)
                 (rounds_won_with_fb a)
                 (if won_round : bool
                  then rounds_won_without_fb a + 1
                  else rounds_won_without_fb a)).

Definition calculate_opening_duel_winrate (self : value) : Store pyval :=
  a <- for_rounds self (duel_step self) (mk_duel 0 0 0 0) ;;
  let fb_rate := percent_or_zero (team_first_bloods a) (total_rounds a) in
  let fb_conversion :=
    percent_or_zero (rounds_won_with_fb a) (team_first_bloods a) in
  ret (PDict [ ("first_blood_rate", PNum (py_round fb_rate 1));
               ("first_blood_conversion", PNum (py_round fb_conversion 1));
               ("rounds_with_first_blood", PInt (team_first_bloods a));
               ("rounds_won_with_fb", PInt (rounds_won_with_fb a));
               ("rounds_won_without_fb", PInt (rounds_won_without_fb a));
               ("total_rounds", PInt (total_rounds a));
               ("insight",
                PStr ((if num_gt fb_rate 55 then "ELITE" else "AVERAGE")
                      +++ " opening duelist ("
                      +++ fmt_fixed 1 fb_rate
                      +++ "% FB rate, "
                      +++ fmt_fixed 1 fb_conversion
                      +++ "% conversion)")) ]).

Definition site_step (self site_attacks site_wins : value) (round_data : value)
  : Store unit :=
  spike_site <- get round_data "spike_site" VNone ;;
  planted <- truthy spike_site ;;
  if planted : bool then
    site <- str_of spike_site ;;
    _ <- counter_add1 site_attacks site ;;
    won_round <- is_team self round_data "winner" ;;
    if won_round : bool then counter_add1 site_wins site else ret tt
  else ret tt.

(** The body of [for site in ["A", "B", "C"]]. *)
Definition site_rates_step (site_attacks site_wins : value) (total_attacks : Z)
  (site_percentages site_win_rates : value) (site : string) : Store unit :=
  attacks <- get_count site_attacks site ;;
  wins <- get_count site_wins site ;;
  _ <- setitem site_percentages ("site_" +++ site +++ "_percent")
         (VNum (if total_attacks >? 0
                then py_round (flt (inject_Z attacks / inject_Z total_attacks * 100)) 1
                else NInt 0)) ;;
  setitem site_win_rates ("site_" +++ site +++ "_winrate")
    (VNum (if attacks >? 0
           then py_round (flt (inject_Z wins / inject_Z attacks * 100)) 1
           else NInt 0)).

Definition calculate_site_bias (self : value) : Store pyval :=
  site_attacks <- alloc (ODict []) ;;
  site_wins <- alloc (ODict []) ;;
  _ <- for_rounds self
         (fun _ round_data => site_step self site_attacks site_wins round_data)
         tt ;;
  attacks <- counts_of site_attacks ;;
  let total_attacks := sumZ (map snd attacks) in
  site_percentages <- alloc (ODict []) ;;
  site_win_rates <- alloc (ODict []) ;;
  _ <- for_each ["A"; "B"; "C"]
         (fun _ site =>
            site_rates_step site_attacks site_wins total_attacks
                            site_percentages site_win_rates site) tt ;;
  any <- truthy site_attacks ;;
  let favorite_site := if any : bool then counter_argmax "" attacks else "Unknown" in
  percentages <- plain_entries site_percentages ;;
  win_rates <- plain_entries site_win_rates ;;
  favorite_site_attacks <- get_count site_attacks favorite_site ;;
  site_attack_distribution <- plain_entries site_attacks ;;
  favorite_percent <-
    getitem site_percentages ("site_" +++ favorite_site +++ "_percent") ;;
  favorite_percent <- plain favorite_percent ;;
  ret (PDict
         (dict_update (dict_update [] percentages) win_rates
          ++ [ ("total_spike_plants", PInt total_attacks);
               ("favorite_site", PStr favorite_site);
               ("favorite_site_attacks", PInt favorite_site_attacks);
               ("site_attack_distribution", PDict site_attack_distribution);
               ("insight",
                PStr ("HEAVILY favors " +++ favorite_site +++ "-Site ("
                      +++ fmt_fixed 0 (pyval_num favorite_percent)
                      +++ "% of attacks)")) ])).

Definition eco_step (self : value) (a : eco_acc) (round_data : value)
  : Store eco_acc :=
  loadout <- getitem round_data "team_loadout_value" ;;
  won_round <- is_team self round_data "winner" ;;
  team_loadout <- int_of loadout ;;
  ret (if team_loadout <? 2000 then
         mk_eco (eco_rounds a + 1)
                (if won_round : bool then eco_wins a + 1 else eco_wins a)
                (force_rounds a) (force_wins a) (full_buy_rounds a) (full_buy_wins a)
       else if (2000 <=? team_loadout) && (team_loadout <? 3500) then
         mk_eco (eco_rounds a) (eco_wins a)
                (force_rounds a + 1)
                (if won_round : bool then force_wins a + 1 else force_wins a)
                (full_buy_rounds a) (full_buy_wins a)
       else
         mk_eco (eco_rounds a) (eco_wins a) (force_rounds a) (force_wins a)
                (full_buy_rounds a + 1)
                (if won_round : bool then full_buy_wins a + 1 else full_buy_wins a)).

Definition calculate_eco_conversion (self : value) : Store pyval :=
  a <- for_rounds self (eco_step self) (mk_eco 0 0 0 0 0 0) ;;
  let eco_conversion_rate := percent_or_zero (eco_wins a) (eco_rounds a) in
  let force_winrate := percent_or_zero (force_wins a) (force_rounds a) in
  let full_buy_winrate := percent_or_zero (full_buy_wins a) (full_buy_rounds a) in
  ret (PDict [ ("eco_conversion_rate", PNum (py_round eco_conversion_rate 1));
               ("eco_rounds_played", PInt (eco_rounds a));
               ("eco_rounds_won", PInt (eco_wins a));
               ("force_buy_winrate", PNum (py_round force_winrate 1));
               ("force_rounds_played", PInt (force_rounds a));
               ("full_buy_winrate", PNum (py_round full_buy_winrate 1));
               ("full_buy_rounds_played", PInt (full_buy_rounds a));
               ("insight",
                PStr ((if num_gt eco_conversion_rate 20
                       then "DANGEROUS" else "PREDICTABLE")
                      +++ " on eco rounds ("
                      +++ fmt_fixed 1 eco_conversion_rate
                      +++ "% win rate)")) ]).

Definition get_complete_analysis (self : value) : Store pyval :=
  matches <- getattr self "matches" ;;
  total_matches <- len matches ;;
  matches <- getattr self "matches" ;;
  wins <- for_in matches
            (fun wins m =>
               won <- getitem m "won" ;;
               yes <- truthy won ;;
               ret (if yes : bool then wins + 1 else wins)) 0 ;;
  let win_rate := percent_or_zero wins total_matches in
  matches <- getattr self "matches" ;;
  total_rounds <- for_in matches
                    (fun total m =>
                       rounds <- getitem m "rounds" ;;
                       n <- len rounds ;;
                       ret (total + n)) 0 ;;
  matches <- getattr self "matches" ;;
  team_rounds_won <-
    for_in matches
      (fun total m =>
         rounds <- getitem m "rounds" ;;
         n <- for_in rounds
                (fun n r =>
                   won_round <- is_team self r "winner" ;;
                   ret (if won_round : bool then n + 1 else n)) 0 ;;
         ret (total + n)) 0 ;;
  let round_win_rate := percent_or_zero team_rounds_won total_rounds in
  team_name <- getattr self "team_name" ;;
  name <- plain team_name ;;
  opening_duel_stats <- calculate_opening_duel_winrate self ;;
  site_bias_stats <- calculate_site_bias self ;;
  economy_stats <- calculate_eco_conversion self ;;
  ret (PDict [ ("team_name", name);
               ("matches_analyzed", PInt total_matches);
               ("match_win_rate", PNum (py_round win_rate 1));
               ("round_win_rate", PNum (py_round round_win_rate 1));
               ("total_rounds_played", PInt total_rounds);
               ("opening_duel_stats", opening_duel_stats);
               ("site_bias_stats", site_bias_stats);
               ("economy_stats", economy_stats) ]).

Inductive method : Type :=
| OpeningDuelWinrate
| SiteBias
| EcoConversion
| CompleteAnalysis.

Definition call (self : value) (m : method) : Store pyval :=
  match m with
  | OpeningDuelWinrate => calculate_opening_duel_winrate self
  | SiteBias => calculate_site_bias self
  | EcoConversion => calculate_eco_conversion self
  | CompleteAnalysis => get_complete_analysis self
  end.

(** A caller's sequence of method calls on one analyzer object, each
    outcome kept (a raised exception caught), the store handed from each
    call to the next. *)
Fixpoint run (self : value) (calls : list method)
  : Store (list (result pyval)) :=
  match calls with
  | [] => ret []
  | c :: calls' =>
      r <- attempt (call self c) ;;
      rs <- run self calls' ;;
      ret (r :: rs)
  end.

End ValorantStore.

(** A store that follows the match schema, as far as the analyzers read
    it: which stored objects stand for which matches. *)
Module Schema.
Import Store.

(** The object behind [v]. *)
Definition holds (h : heap) (v : value) (o : object) : Prop :=
  exists l, v = VRef l /\ nth_error h l = Some o.

(** [v] is a list whose items stand for [xs]. *)
Definition list_of {X : Type} (R : value -> X -> Prop) (h : heap) (v : value)
  (xs : list X) : Prop :=
  exists items, holds h v (OList items) /\ Forall2 R items xs.

(** The list under [key], or no such key for the empty list: the
    analyzers read it with [d.get(key, [])]. *)
Definition optional_list_of {X : Type} (R : value -> X -> Prop) (h : heap)
  (d : list (string * value)) (key : string) (xs : list X) : Prop :=
  (dict_get key d = None /\ xs = [])
  \/ exists v, dict_get key d = Some v /\ list_of R h v xs.

Definition objective_at (h : heap) (v : value) (ev : Lol.objective) : Prop :=
  exists d, holds h v (ODict d)
            /\ dict_get "team" d = Some (VStr (Lol.o_team ev)).

Definition gold_update_at (h : heap) (v : value) (u : Lol.gold_update) : Prop :=
  exists d, holds h v (ODict d)
            /\ dict_get "timestamp" d = Some (VInt (Lol.g_timestamp u))
            /\ dict_get "gold_difference" d = Some (VInt (Lol.gold_difference u)).

Definition jungle_position_at (h : heap) (v : value) (p : Lol.jungle_position)
  : Prop :=
  exists d, holds h v (ODict d)
            /\ dict_get "x" d = Some (VInt (Lol.j_x p))
            /\ dict_get "y" d = Some (VInt (Lol.j_y p))
            /\ dict_get "lane" d = Some (VStr (Lol.lane p)).

Definition lol_match_at (h : heap) (v : value) (m : Lol.lol_match) : Prop :=
  exists d, holds h v (ODict d)
            /\ dict_get "team" d = Some (VStr (Lol.team m))
            /\ dict_get "won" d = Some (VBool (Lol.won m))
            /\ dict_get "duration" d = Some (VInt (Lol.duration m))
            /\ optional_list_of (objective_at h) h d "dragons" (Lol.dragons m)
            /\ optional_list_of (objective_at h) h d "heralds" (Lol.heralds m)
            /\ optional_list_of (objective_at h) h d "barons" (Lol.barons m)
            /\ optional_list_of (gold_update_at h) h d "gold_updates"
                                (Lol.gold_updates m)
            /\ optional_list_of (jungle_position_at h) h d "jungle_positions"
                                (Lol.jungle_positions m).

(** [round_data.get("spike_site")]: the site, [None], or no such key. *)
Definition site_at (d : list (string * value)) (site : option string) : Prop :=
  match site with
  | Some s => dict_get "spike_site" d = Some (VStr s)
  | None => dict_get "spike_site" d = Some VNone
            \/ dict_get "spike_site" d = None
  end.

Definition round_at (h : heap) (v : value) (r : Valorant.round_data) : Prop :=
  exists d, holds h v (ODict d)
            /\ dict_get "winner" d = Some (VStr (Valorant.winner r))
            /\ dict_get "first_blood_team" d
               = Some (VStr (Valorant.first_blood_team r))
            /\ dict_get "team_loadout_value" d
               = Some (VInt (Valorant.team_loadout_value r))
            /\ site_at d (Valorant.spike_site r).

Definition val_match_at (h : heap) (v : value) (m : Valorant.val_match) : Prop :=
  exists d rounds,
    holds h v (ODict d)
    /\ dict_get "team" d = Some (VStr (Valorant.team m))
    /\ dict_get "won" d = Some (VBool (Valorant.won m))
    /\ dict_get "rounds" d = Some rounds
    /\ list_of (round_at h) h rounds (Valorant.rounds m).

(** The analyzer object behind [self]: its two attributes. *)
Definition analyzer_at (h : heap) (self matches : value) (team_name : string)
  : Prop :=
  exists d, holds h self (ODict d)
            /\ dict_get "matches" d = Some matches
            /\ dict_get "team_name" d = Some (VStr team_name).

(** The entries of a [Counter] that holds the counts [c]. *)
Definition counts (c : counter) : list (string * value) :=
  map (fun kv => (fst kv, VInt (snd kv))) c.

(** The entries of a dictionary that holds the numbers [d]. *)
Definition numbers (d : list (string * num)) : list (string * value) :=
  map (fun kv => (fst kv, VNum (snd kv))) d.

(** Every object of [h] is in [h'], at its place and with its content. *)
Definition unchanged (h h' : heap) : Prop :=
  firstn (List.length h) h' = h.

End Schema.


(** A store with one match list of each game: one LoL match with a
    dragon, a gold snapshot and a jungle sample, and one VALORANT match
    of one round. *)
Module StoredSamples.
Import Store.

Definition a_store : heap :=
  [ OList [VRef 1%nat];
    ODict [ ("team", VStr "Cloud9"); ("won", VBool true);
            ("duration", VInt 1800); ("dragons", VRef 2%nat);
            ("gold_updates", VRef 4%nat); ("jungle_positions", VRef 6%nat) ];
    OList [VRef 3%nat];
    ODict [ ("timestamp", VInt 400); ("team", VStr "Cloud9") ];
    OList [VRef 5%nat];
    ODict [ ("timestamp", VInt 600); ("gold_difference", VInt 500) ];
    OList [VRef 7%nat];
    ODict [ ("timestamp", VInt 30); ("x", VInt 1); ("y", VInt 2);
            ("lane", VStr "Top") ];
    OList [VRef 9%nat];
    ODict [ ("team", VStr "Cloud9"); ("won", VBool true);
            ("rounds", VRef 10%nat) ];
    OList [VRef 11%nat];
    ODict [ ("winner", VStr "Cloud9"); ("first_blood_team", VStr "Cloud9");
            ("team_loadout_value", VInt 4000); ("spike_site", VStr "A") ] ].

(** The LoL list is the object 0, the VALORANT list the object 8. *)
Definition lol_list : value := VRef 0%nat.
Definition valorant_list : value := VRef 8%nat.

Definition lol_matches : list Lol.lol_match :=
  [ Lol.mk_match "LOL_1" 0 "Cloud9" "Team_1" true 1800 []
      [Lol.mk_objective 400 "Cloud9" None 0 0] [] []
      [Lol.mk_gold_update 600 0 0 500]
      [Lol.mk_jungle_position 30 1 2 "Top"] ].

Definition valorant_matches : list Valorant.val_match :=
  [ Valorant.mk_match "VAL_1" 0 "Cloud9" "Team_1" 13 8 true "Ascent"
      [ Valorant.mk_round 1 "Cloud9" 4000 4000 false false true (Some "A")
          None "Cloud9" (Valorant.mk_coords 0 0) 60 ] ].

End StoredSamples.

(* ================================================================= *)
(** ** Counting lemmas                                                *)
(* ================================================================= *)

Section Counting.
Context {A : Type}.

Lemma count_nil (p : A -> bool) : count p [] = 0.
Proof. reflexivity. Qed.

Lemma count_cons (p : A -> bool) (x : A) (l : list A) :
  count p (x :: l) = (if p x then 1 else 0) + count p l.
Proof.
  unfold count; simpl. destruct (p x); simpl List.length; lia.
Qed.

Lemma count_app (p : A -> bool) (l1 l2 : list A) :
  count p (l1 ++ l2) = count p l1 + count p l2.
Proof.
  unfold count. rewrite filter_app, length_app. lia.
Qed.

Lemma count_nonneg (p : A -> bool) (l : list A) : 0 <= count p l.
Proof. unfold count; lia. Qed.

Lemma count_le_length (p : A -> bool) (l : list A) :
  count p l <= Z.of_nat (List.length l).
Proof.
  induction l as [|x l IH]; [reflexivity|].
  rewrite count_cons. simpl List.length. destruct (p x); lia.
Qed.

Lemma count_true (l : list A) :
  count (fun _ => true) l = Z.of_nat (List.length l).
Proof.
  induction l as [|x l IH]; [reflexivity|].
  rewrite count_cons, IH. simpl List.length. lia.
Qed.
End Counting.

(** Counting is monotone in the predicate. *)
Lemma count_le_impl {A : Type} (p q : A -> bool) (l : list A) :
  (forall a, p a = true -> q a = true) -> count p l <= count q l.
Proof.
  intros H. induction l as [|a l IH]; [reflexivity|].
  rewrite !count_cons. specialize (H a).
  destruct (p a); [rewrite (H eq_refl)|destruct (q a)]; lia.
Qed.

(** A nested loop over the matches is one loop over the concatenation. *)
Lemma fold_left_flat_map {A B S : Type} (f : A -> list B) (body : S -> B -> S)
  (l : list A) (s : S) :
  fold_left (fun acc a => fold_left body (f a) acc) l s
  = fold_left body (flat_map f l) s.
Proof.
  revert s. induction l as [|a l IH]; intros s; simpl; [reflexivity|].
  rewrite fold_left_app. apply IH.
Qed.

(* ================================================================= *)
(** ** Rounding                                                       *)
(* ================================================================= *)

Section Rounding.

(** Rounding to the nearest integer moves a number by at most 1/2. *)
Lemma round_half_even_bound (q : Q) :
  (q - (1 # 2) <= inject_Z (round_half_even q) <= q + (1 # 2))%Q.
Proof.
  destruct q as [n d]. unfold round_half_even, Qle. cbn [Qnum Qden].
  pose proof (Z.div_mod n (Z.pos d) ltac:(lia)) as Hdm.
  pose proof (Z.mod_pos_bound n (Z.pos d) ltac:(lia)) as Hr.
  set (f := n / Z.pos d) in *. set (r := n mod Z.pos d) in *.
  assert (Hcases :
    forall R, (R = f /\ 2 * r <= Z.pos d) \/ (R = f + 1 /\ Z.pos d <= 2 * r) ->
      Qnum ((n # d) - (1 # 2)) * QDen (inject_Z R)
      <= Qnum (inject_Z R) * QDen ((n # d) - (1 # 2))
      /\ Qnum (inject_Z R) * QDen ((n # d) + (1 # 2))
         <= Qnum ((n # d) + (1 # 2)) * QDen (inject_Z R)).
  { intros R HR. simpl. rewrite !Pos2Z.inj_mul.
    destruct HR as [[-> H]|[-> H]]; nia. }
  apply Hcases.
  destruct (Z.ltb_spec (2 * r) (Z.pos d)); [left; lia|].
  destruct (Z.ltb_spec (Z.pos d) (2 * r)); [right; lia|].
  destruct (Z.even f); [left|right]; lia.
Qed.

(** What [round(x, 1)] reports, as a number. *)
Lemma py_round_1_value (q : Q) :
  (num_to_Q (py_round (NFloat q) 1)
   == inject_Z (round_half_even (q * 10)) / 10)%Q.
Proof.
  unfold py_round, flt, num_to_Q. rewrite Qred_correct. reflexivity.
Qed.

(** Rounding to one decimal moves a number by at most 0.05. *)
Lemma py_round_1_close (q : Q) :
  (Qabs (num_to_Q (py_round (NFloat q) 1) - q) <= 1 # 20)%Q.
Proof.
  rewrite py_round_1_value.
  pose proof (round_half_even_bound (q * 10)) as [Hl Hu].
  set (R := inject_Z (round_half_even (q * 10))) in *.
  apply Qabs_Qle_condition. unfold Qdiv.
  change (/ 10)%Q with (1 # 10)%Q. split; lra.
Qed.

(** A rate of the analyzers, as reported: 0 on an empty denominator,
    otherwise within half a step of the exact percentage. *)
Lemma reported_percent_zero (a : Z) :
  PNum (py_round (percent_or_zero a 0) 1) = PInt 0.
Proof. reflexivity. Qed.

Lemma reported_percent_close (a b : Z) :
  0 < b -> is_percent_of (num_to_Q (py_round (percent_or_zero a b) 1)) a b.
Proof.
  intros Hb. unfold percent_or_zero, is_percent_of, float_slack.
  destruct (Z.gtb_spec b 0) as [_|]; [|lia]. unfold flt.
  pose proof (py_round_1_close (Qred (inject_Z a / inject_Z b * 100))) as H.
  set (r := num_to_Q (py_round (NFloat (Qred (inject_Z a / inject_Z b * 100))) 1))
    in *.
  rewrite (Qred_correct (inject_Z a / inject_Z b * 100)) in H.
  set (x := (inject_Z a / inject_Z b * 100)%Q) in *.
  apply Qabs_Qle_condition in H. apply Qabs_Qle_condition. split; lra.
Qed.

End Rounding.

(* ================================================================= *)
(** ** LoL: objective control                                         *)
(* ================================================================= *)

Section ObjectiveControl.
Import Lol LolSpec.

(** The two first-dragon counters are untouched by the tallies that
    share their loop. *)
Lemma objective_step_first (name : string) (acc : objective_acc) (m : lol_match) :
  first_dragons (objective_step name acc m)
  = first_dragons acc + (if has_dragon m then 1 else 0)
  /\ first_dragons_taken (objective_step name acc m)
     = first_dragons_taken acc + (if team_took_first_dragon name m then 1 else 0).
Proof.
  unfold objective_step, has_dragon, team_took_first_dragon.
  destruct (tally name (dragons m) _) as [td tmd].
  destruct (tally name (heralds m) _) as [th tmh].
  destruct (dragons m) as [|d0 ds]; simpl.
  - split; lia.
  - destruct (String.eqb (o_team d0) name); simpl; split; lia.
Qed.

Lemma objective_fold_first (name : string) (ms : list lol_match) :
  forall acc,
    first_dragons (fold_left (objective_step name) ms acc)
    = first_dragons acc + count has_dragon ms
    /\ first_dragons_taken (fold_left (objective_step name) ms acc)
       = first_dragons_taken acc + count (team_took_first_dragon name) ms.
Proof.
  induction ms as [|m ms IH]; intros acc; simpl.
  - rewrite !count_nil. split; lia.
  - destruct (IH (objective_step name acc m)) as [H1 H2].
    destruct (objective_step_first name acc m) as [S1 S2].
    rewrite H1, H2, S1, S2, !count_cons. split; lia.
Qed.

Lemma objective_loop_first (self : analyzer) :
  first_dragons (objective_loop self) = count has_dragon (matches self)
  /\ first_dragons_taken (objective_loop self)
     = count (team_took_first_dragon (team_name self)) (matches self).
Proof.
  unfold objective_loop.
  destruct (objective_fold_first (team_name self) (matches self)
              (mk_acc 0 0 0 0 0 0)) as [H1 H2].
  rewrite H1, H2. simpl. split; lia.
Qed.

Lemma objective_control_reports (self : analyzer) :
  field "first_dragon_rate" (calculate_objective_control self)
  = Some (PNum (py_round (first_dragon_rate self) 1)).
Proof.
  unfold calculate_objective_control.
  destruct (baron_loop self) as [tb mb]. reflexivity.
Qed.

(** C4.  The first-dragon rate: the two counters of the loop are the
    number of matches with at least one dragon and the number of those
    whose first dragon (the head of the pre-sorted dragon list) went to
    the analyzed team; the dictionary reports 0 when no match has a
    dragon, and otherwise the quotient of the two times 100, to one
    decimal (within half a step of the exact percentage).  With five
    matches that all have dragons, three of them first taken by the
    team, the reported value is 60.0. *)
Theorem first_dragon_rate_spec (self : analyzer) :
  let taken := count (team_took_first_dragon (team_name self)) (matches self) in
  let any := count has_dragon (matches self) in
  let d := calculate_objective_control self in
  (first_dragons (objective_loop self) = any
   /\ first_dragons_taken (objective_loop self) = taken
   /\ 0 <= taken <= any)
  /\ (any = 0 -> field "first_dragon_rate" d = Some (PInt 0))
  /\ (0 < any -> is_percent_of (reported "first_dragon_rate" d) taken any)
  /\ (List.length (matches self) = 5%nat -> any = 5 -> taken = 3 ->
      field "first_dragon_rate" d = Some (PNum (NFloat 60))).
Proof.
  intros taken any d.
  destruct (objective_loop_first self) as [H1 H2]. fold any in H1. fold taken in H2.
  assert (Hfield : field "first_dragon_rate" d
                   = Some (PNum (py_round (percent_or_zero taken any) 1))).
  { subst d. rewrite objective_control_reports. unfold first_dragon_rate.
    rewrite H1, H2. reflexivity. }
  split; [|split; [|split]].
  - split; [exact H1|]. split; [exact H2|]. split; [apply count_nonneg|].
    apply count_le_impl. intros m. unfold team_took_first_dragon, has_dragon.
    destruct (dragons m); [discriminate|reflexivity].
  - intros H0. rewrite Hfield, H0. reflexivity.
  - intros Hpos. unfold reported. rewrite Hfield.
    apply reported_percent_close, Hpos.
  - intros _ Hany Htaken. rewrite Hfield, Hany, Htaken. reflexivity.
Qed.

Lemma first_dragon_rate_spec_witness :
  is_percent_of
    (reported "first_dragon_rate"
       (calculate_objective_control (init Samples.five_matches)))
    (count (team_took_first_dragon (team_name (init Samples.five_matches)))
           (matches (init Samples.five_matches)))
    (count has_dragon (matches (init Samples.five_matches)))
  /\ field "first_dragon_rate"
       (calculate_objective_control (init Samples.five_matches))
     = Some (PNum (NFloat 60)).
Proof.
  split.
  - apply (proj1 (proj2 (proj2 (first_dragon_rate_spec
                                  (init Samples.five_matches))))).
    reflexivity.
  - apply (proj2 (proj2 (proj2 (first_dragon_rate_spec
                                  (init Samples.five_matches)))));
      reflexivity.
Defined.
End ObjectiveControl.

(* ================================================================= *)
(** ** VALORANT: opening duels and economy                            *)
(* ================================================================= *)

Ltac case_compare :=
  repeat match goal with
         | |- context [?a <? ?b] => destruct (Z.ltb_spec a b)
         | |- context [?a <=? ?b] => destruct (Z.leb_spec a b)
         | |- context [?a >? ?b] => rewrite (Z.gtb_ltb a b)
         | |- context [?a =? ?b] => destruct (Z.eqb_spec a b)
         end.

Section ValorantRounds.
Import Valorant ValorantSpec.

Lemma for_rounds_all_rounds {S : Type} (body : S -> round_data -> S)
  (self : analyzer) (s0 : S) :
  for_rounds body self s0 = fold_left body (all_rounds self) s0.
Proof. apply fold_left_flat_map. Qed.

Lemma duel_fold (name : string) (rs : list round_data) :
  forall a,
    let a' := fold_left (duel_step name) rs a in
    total_rounds a' = total_rounds a + Z.of_nat (List.length rs)
    /\ team_first_bloods a' = team_first_bloods a + count (got_first_blood name) rs
    /\ rounds_won_with_fb a'
       = rounds_won_with_fb a
         + count (fun r => got_first_blood name r && won_round name r) rs.
Proof.
  induction rs as [|r rs IH]; intros a; cbn [fold_left].
  - rewrite !count_nil. simpl. repeat split; lia.
  - specialize (IH (duel_step name a r)). cbv zeta in IH.
    destruct IH as (H1 & H2 & H3). rewrite H1, H2, H3, !count_cons.
    change (List.length (r :: rs)) with (S (List.length rs)).
    unfold duel_step, got_first_blood, won_round.
    destruct (String.eqb (first_blood_team r) name),
             (String.eqb (winner r) name);
      cbn [total_rounds team_first_bloods rounds_won_with_fb andb];
      repeat split; lia.
Qed.

Lemma duel_loop_counts (self : analyzer) :
  let name := team_name self in
  total_rounds (duel_loop self) = Z.of_nat (List.length (all_rounds self))
  /\ team_first_bloods (duel_loop self)
     = count (got_first_blood name) (all_rounds self)
  /\ rounds_won_with_fb (duel_loop self)
     = count (fun r => got_first_blood name r && won_round name r)
             (all_rounds self).
Proof.
  unfold duel_loop. rewrite for_rounds_all_rounds.
  destruct (duel_fold (team_name self) (all_rounds self) (mk_duel 0 0 0 0))
    as (H1 & H2 & H3).
  simpl in *. rewrite H1, H2, H3. repeat split; lia.
Qed.

(** C5.  Over all rounds of all matches: the counters of the loop are
    the total rounds, the rounds whose first blood went to the analyzed
    team, and the rounds won among those.  The dictionary reports the
    first-blood rate as first-blood rounds / total rounds x 100 and the
    conversion as rounds won among them / first-blood rounds x 100, to
    one decimal (within half a step of the exact percentage), each 0 on
    an empty denominator.  First blood in 10 of 20 rounds with 8 of the
    10 won reports 50.0 and 80.0. *)
Theorem first_blood_rates_spec (self : analyzer) :
  let name := team_name self in
  let total := Z.of_nat (List.length (all_rounds self)) in
  let fbs := count (got_first_blood name) (all_rounds self) in
  let fb_wins := count (fun r => got_first_blood name r && won_round name r)
                       (all_rounds self) in
  let d := calculate_opening_duel_winrate self in
  (total_rounds (duel_loop self) = total
   /\ team_first_bloods (duel_loop self) = fbs
   /\ rounds_won_with_fb (duel_loop self) = fb_wins
   /\ 0 <= fb_wins <= fbs /\ fbs <= total)
  /\ (total = 0 -> field "first_blood_rate" d = Some (PInt 0))
  /\ (0 < total -> is_percent_of (reported "first_blood_rate" d) fbs total)
  /\ (fbs = 0 -> field "first_blood_conversion" d = Some (PInt 0))
  /\ (0 < fbs -> is_percent_of (reported "first_blood_conversion" d) fb_wins fbs)
  /\ (total = 20 -> fbs = 10 -> fb_wins = 8 ->
      field "first_blood_rate" d = Some (PNum (NFloat 50))
      /\ field "first_blood_conversion" d = Some (PNum (NFloat 80))).
Proof.
  intros name total fbs fb_wins d.
  destruct (duel_loop_counts self) as (H1 & H2 & H3).
  fold name in H2, H3. fold total in H1. fold fbs in H2. fold fb_wins in H3.
  assert (Hrate : field "first_blood_rate" d
                  = Some (PNum (py_round (percent_or_zero fbs total) 1))).
  { subst d. unfold calculate_opening_duel_winrate, fb_rate.
    rewrite H1, H2. reflexivity. }
  assert (Hconv : field "first_blood_conversion" d
                  = Some (PNum (py_round (percent_or_zero fb_wins fbs) 1))).
  { subst d. unfold calculate_opening_duel_winrate, fb_conversion.
    rewrite H2, H3. reflexivity. }
  split; [|split; [|split; [|split; [|split]]]].
  - split; [exact H1|]. split; [exact H2|]. split; [exact H3|].
    split; [split; [apply count_nonneg|]|apply count_le_length].
    apply count_le_impl. intros r Hr. apply andb_true_iff in Hr. apply Hr.
  - intros H0. rewrite Hrate, H0. reflexivity.
  - intros Hpos. unfold reported. rewrite Hrate.
    apply reported_percent_close, Hpos.
  - intros H0. rewrite Hconv, H0. reflexivity.
  - intros Hpos. unfold reported. rewrite Hconv.
    apply reported_percent_close, Hpos.
  - intros Ht Hf Hw. rewrite Hrate, Hconv, Ht, Hf, Hw. split; reflexivity.
Qed.

Lemma first_blood_rates_spec_witness :
  (is_percent_of
     (reported "first_blood_rate"
        (calculate_opening_duel_winrate (init Samples.twenty_rounds)))
     (count (got_first_blood (team_name (init Samples.twenty_rounds)))
            (all_rounds (init Samples.twenty_rounds)))
     (Z.of_nat (List.length (all_rounds (init Samples.twenty_rounds))))
   /\ is_percent_of
        (reported "first_blood_conversion"
           (calculate_opening_duel_winrate (init Samples.twenty_rounds)))
        (count (fun r => got_first_blood (team_name (init Samples.twenty_rounds)) r
                         && won_round (team_name (init Samples.twenty_rounds)) r)
               (all_rounds (init Samples.twenty_rounds)))
        (count (got_first_blood (team_name (init Samples.twenty_rounds)))
               (all_rounds (init Samples.twenty_rounds))))
  /\ field "first_blood_rate"
       (calculate_opening_duel_winrate (init Samples.twenty_rounds))
     = Some (PNum (NFloat 50))
  /\ field "first_blood_conversion"
       (calculate_opening_duel_winrate (init Samples.twenty_rounds))
     = Some (PNum (NFloat 80)).
Proof.
  pose proof (first_blood_rates_spec (init Samples.twenty_rounds))
    as (_ & _ & Hrate & _ & Hconv & Hscenario).
  split; [split|].
  - apply Hrate. reflexivity.
  - apply Hconv. reflexivity.
  - apply Hscenario; reflexivity.
Defined.

(** *** Economy buckets *)

Lemma bucket_trichotomy (r : round_data) :
  (if is_eco r then 1 else 0) + (if is_force r then 1 else 0)
  + (if is_full_buy r then 1 else 0) = 1.
Proof.
  unfold is_eco, is_force, is_full_buy.
  case_compare; simpl; lia.
Qed.

Lemma eco_fold (name : string) (rs : list round_data) :
  forall a,
    let a' := fold_left (eco_step name) rs a in
    eco_rounds a' = eco_rounds a + count is_eco rs
    /\ eco_wins a' = eco_wins a + count (fun r => is_eco r && won_round name r) rs
    /\ force_rounds a' = force_rounds a + count is_force rs
    /\ force_wins a'
       = force_wins a + count (fun r => is_force r && won_round name r) rs
    /\ full_buy_rounds a' = full_buy_rounds a + count is_full_buy rs
    /\ full_buy_wins a'
       = full_buy_wins a + count (fun r => is_full_buy r && won_round name r) rs.
Proof.
  induction rs as [|r rs IH]; intros a; cbn [fold_left].
  - rewrite !count_nil. repeat split; lia.
  - specialize (IH (eco_step name a r)). cbv zeta in IH.
    destruct IH as (H1 & H2 & H3 & H4 & H5 & H6).
    rewrite H1, H2, H3, H4, H5, H6, !count_cons.
    unfold eco_step, is_eco, is_force, is_full_buy, won_round.
    destruct (String.eqb (winner r) name);
      case_compare;
      cbn [eco_rounds eco_wins force_rounds force_wins full_buy_rounds
           full_buy_wins andb];
      repeat split; lia.
Qed.

Lemma eco_loop_counts (self : analyzer) :
  let name := team_name self in
  let rs := all_rounds self in
  eco_rounds (eco_loop self) = count is_eco rs
  /\ eco_wins (eco_loop self) = count (fun r => is_eco r && won_round name r) rs
  /\ force_rounds (eco_loop self) = count is_force rs
  /\ force_wins (eco_loop self) = count (fun r => is_force r && won_round name r) rs
  /\ full_buy_rounds (eco_loop self) = count is_full_buy rs
  /\ full_buy_wins (eco_loop self)
     = count (fun r => is_full_buy r && won_round name r) rs.
Proof.
  unfold eco_loop. rewrite for_rounds_all_rounds.
  destruct (eco_fold (team_name self) (all_rounds self) (mk_eco 0 0 0 0 0 0))
    as (H1 & H2 & H3 & H4 & H5 & H6).
  simpl in *. rewrite H1, H2, H3, H4, H5, H6. repeat split; lia.
Qed.

Lemma buckets_partition (rs : list round_data) :
  count is_eco rs + count is_force rs + count is_full_buy rs
  = Z.of_nat (List.length rs).
Proof.
  induction rs as [|r rs IH]; [reflexivity|].
  rewrite !count_cons. simpl List.length.
  pose proof (bucket_trichotomy r). lia.
Qed.

Lemma sumZ_from (l : list Z) : forall z, fold_left Z.add l z = z + sumZ l.
Proof.
  unfold sumZ. induction l as [|x l IH]; intros z; simpl; [lia|].
  rewrite (IH (z + x)), (IH x). lia.
Qed.

Lemma total_rounds_played_length (self : analyzer) :
  total_rounds_played self = Z.of_nat (List.length (all_rounds self)).
Proof.
  unfold total_rounds_played, all_rounds.
  induction (matches self) as [|m ms IH]; [reflexivity|].
  simpl. unfold sumZ in *. simpl. rewrite sumZ_from. unfold sumZ.
  rewrite IH, length_app. lia.
Qed.
End ValorantRounds.

Section Economy.
Import Valorant ValorantSpec.

(** C6.  The economy classification partitions the rounds.  A round is
    eco when the analyzed team's own loadout is below 2000, force when
    it is in [2000, 3500), full-buy from 3500 on, and exactly one of
    the three holds; the three round counters count those classes, and
    their sum is the total round count (the number of rounds, which is
    also what [get_complete_analysis] and the opening-duel loop count).
    The dictionary reports the counters; the win rate it reports for a
    bucket is 0 for an empty bucket and otherwise the bucket's wins /
    its rounds x 100 to one decimal (within half a step of the exact
    percentage). *)
Theorem economy_buckets_partition (self : analyzer) :
  let name := team_name self in
  let rs := all_rounds self in
  let a := eco_loop self in
  let d := calculate_eco_conversion self in
  let wins bucket := count (fun r => bucket r && won_round name r) rs in
  let rate_of key bucket :=
    (count bucket rs = 0 -> field key d = Some (PInt 0))
    /\ (0 < count bucket rs ->
        is_percent_of (reported key d) (wins bucket) (count bucket rs)) in
  (forall r,
      (is_eco r = true /\ is_force r = false /\ is_full_buy r = false)
      \/ (is_eco r = false /\ is_force r = true /\ is_full_buy r = false)
      \/ (is_eco r = false /\ is_force r = false /\ is_full_buy r = true))
  /\ (eco_rounds a = count is_eco rs
      /\ force_rounds a = count is_force rs
      /\ full_buy_rounds a = count is_full_buy rs)
  /\ (eco_wins a = wins is_eco
      /\ force_wins a = wins is_force
      /\ full_buy_wins a = wins is_full_buy)
  /\ (eco_rounds a + force_rounds a + full_buy_rounds a
      = Z.of_nat (List.length rs)
      /\ Z.of_nat (List.length rs) = total_rounds_played self
      /\ Z.of_nat (List.length rs) = total_rounds (duel_loop self))
  /\ (field "eco_rounds_played" d = Some (PInt (eco_rounds a))
      /\ field "eco_rounds_won" d = Some (PInt (eco_wins a))
      /\ field "force_rounds_played" d = Some (PInt (force_rounds a))
      /\ field "full_buy_rounds_played" d = Some (PInt (full_buy_rounds a)))
  /\ (rate_of "eco_conversion_rate" is_eco
      /\ rate_of "force_buy_winrate" is_force
      /\ rate_of "full_buy_winrate" is_full_buy).
Proof.
  intros name rs a d wins rate_of.
  destruct (eco_loop_counts self) as (H1 & H2 & H3 & H4 & H5 & H6).
  fold name rs a in H1, H2, H3, H4, H5, H6.
  split.
  { intros r. unfold is_eco, is_force, is_full_buy.
    case_compare; simpl; try lia; auto. }
  split; [auto|]. split; [auto|].
  split.
  { split; [|split].
    - rewrite H1, H3, H5. apply buckets_partition.
    - symmetry. apply total_rounds_played_length.
    - symmetry. apply (duel_loop_counts self). }
  split; [repeat split|].
  assert (Hrate : forall key bucket,
             field key d
             = Some (PNum (py_round (percent_or_zero (wins bucket)
                                                     (count bucket rs)) 1)) ->
             rate_of key bucket).
  { intros key bucket Hfield. subst rate_of. cbv beta. split.
    - intros H0. rewrite Hfield, H0. reflexivity.
    - intros Hpos. unfold reported. rewrite Hfield.
      apply reported_percent_close, Hpos. }
  split; [|split]; apply Hrate; subst d wins; cbv beta;
    unfold calculate_eco_conversion, eco_conversion_rate, force_winrate,
      full_buy_winrate; fold a; rewrite H1, H2, H3, H4, H5, H6; reflexivity.
Qed.
End Economy.

(* ================================================================= *)
(** ** Counters                                                       *)
(* ================================================================= *)

Section Counters.

Lemma dict_get_set {V : Type} (k x : string) (v : V) (d : list (string * V)) :
  dict_get k (dict_set x v d) = if String.eqb k x then Some v else dict_get k d.
Proof.
  induction d as [|[k' v'] d IH]; simpl; [reflexivity|].
  destruct (String.eqb_spec x k') as [->|Hx]; simpl.
  - destruct (String.eqb k k'); reflexivity.
  - destruct (String.eqb_spec k k') as [->|Hk].
    + destruct (String.eqb_spec k' x) as [->|_]; [contradiction|reflexivity].
    + exact IH.
Qed.

Lemma counter_get_incr (k x : string) (c : counter) :
  counter_get k (counter_incr x c)
  = counter_get k c + (if String.eqb k x then 1 else 0).
Proof.
  unfold counter_incr, counter_get at 1. rewrite dict_get_set.
  destruct (String.eqb_spec k x) as [->|_]; [reflexivity|].
  fold (counter_get k c). lia.
Qed.

Lemma counter_get_fold (k : string) (l : list string) :
  forall c,
    counter_get k (fold_left (fun c x => counter_incr x c) l c)
    = counter_get k c + count (String.eqb k) l.
Proof.
  induction l as [|x l IH]; intros c; cbn [fold_left].
  - rewrite count_nil. lia.
  - rewrite IH, counter_get_incr, count_cons. lia.
Qed.

Lemma counter_get_of (k : string) (l : list string) :
  counter_get k (counter_of l) = count (String.eqb k) l.
Proof.
  unfold counter_of. rewrite counter_get_fold. reflexivity.
Qed.

Lemma count_map {A B : Type} (f : A -> B) (p : B -> bool) (l : list A) :
  count p (map f l) = count (fun a => p (f a)) l.
Proof.
  induction l as [|a l IH]; [reflexivity|].
  cbn [map]. rewrite !count_cons, IH. reflexivity.
Qed.

Lemma count_ext {A : Type} (p q : A -> bool) (l : list A) :
  (forall a, p a = q a) -> count p l = count q l.
Proof.
  intros H. induction l as [|a l IH]; [reflexivity|].
  rewrite !count_cons, IH, H. reflexivity.
Qed.

End Counters.

(* ================================================================= *)
(** ** LoL: jungle proximity                                          *)
(* ================================================================= *)

Section JungleProximity.
Import Lol LolSpec.

Lemma fold_left_extend {A B : Type} (f : A -> list B) (l : list A) :
  forall acc, fold_left (fun acc a => acc ++ f a) l acc = acc ++ flat_map f l.
Proof.
  induction l as [|a l IH]; intros acc; simpl.
  - symmetry. apply app_nil_r.
  - rewrite IH. symmetry. apply app_assoc.
Qed.

Lemma all_positions_samples (self : analyzer) :
  all_positions self = samples self.
Proof.
  unfold all_positions, samples.
  apply (fold_left_extend jungle_positions (matches self) []).
Qed.

Lemma lane_counter_get (label : string) (self : analyzer) :
  counter_get label (lane_counter self) = lane_count label self.
Proof.
  unfold lane_counter, lane_count.
  rewrite counter_get_of, count_map, all_positions_samples.
  apply count_ext. intros p. apply String.eqb_sym.
Qed.

Lemma lane_percent_value (label : string) (self : analyzer) :
  lane_percent label self
  = flt (inject_Z (lane_count label self)
         / inject_Z (Z.of_nat (List.length (samples self))) * 100).
Proof.
  unfold lane_percent. rewrite lane_counter_get, all_positions_samples.
  reflexivity.
Qed.

(** Under the schema every sample is counted in exactly one lane. *)
Lemma lane_counts_total (l : list jungle_position) :
  Forall lane_in_schema l ->
  count (fun p => String.eqb (lane p) "Top") l
  + count (fun p => String.eqb (lane p) "Mid") l
  + count (fun p => String.eqb (lane p) "Bot") l
  = Z.of_nat (List.length l).
Proof.
  induction 1 as [|p l Hp _ IH]; [reflexivity|].
  rewrite !count_cons. change (List.length (p :: l)) with (S (List.length l)).
  destruct Hp as [-> | [-> | ->]]; simpl String.eqb; lia.
Qed.

(** The dictionary of the non-empty branch, entry by entry. *)
Lemma jungle_fields_nonempty (self : analyzer) :
  samples self <> [] ->
  field "top_lane_percent" (calculate_jungle_proximity self)
  = Some (PNum (py_round (lane_percent "Top" self) 1))
  /\ field "mid_lane_percent" (calculate_jungle_proximity self)
     = Some (PNum (py_round (lane_percent "Mid" self) 1))
  /\ field "bot_lane_percent" (calculate_jungle_proximity self)
     = Some (PNum (py_round (lane_percent "Bot" self) 1))
  /\ field "total_samples" (calculate_jungle_proximity self)
     = Some (PInt (Z.of_nat (List.length (samples self))))
  /\ has_key "heatmap_data" (calculate_jungle_proximity self) = true
  /\ has_key "insight" (calculate_jungle_proximity self) = true
  /\ has_key "positions" (calculate_jungle_proximity self) = false.
Proof.
  intros Hne. unfold calculate_jungle_proximity, has_key.
  rewrite all_positions_samples.
  destruct (samples self) as [|p ps]; [contradiction|].
  repeat split; reflexivity.
Qed.

Lemma jungle_empty (self : analyzer) :
  samples self = [] ->
  calculate_jungle_proximity self
  = PDict [ ("top_lane_percent", PInt 0);
            ("mid_lane_percent", PInt 0);
            ("bot_lane_percent", PInt 0);
            ("positions", PList []) ].
Proof.
  intros He. unfold calculate_jungle_proximity.
  rewrite all_positions_samples, He. reflexivity.
Qed.

(** One reported percentage is within 0.05 of ten times less than its
    rounded tenths. *)
Lemma reported_lane_percent (c total : Z) :
  exists R : Z,
    (num_to_Q (py_round (flt (inject_Z c / inject_Z total * 100)) 1)
     == inject_Z R / 10)%Q
    /\ (inject_Z c / inject_Z total * 1000 - (1 # 2) <= inject_Z R
        <= inject_Z c / inject_Z total * 1000 + (1 # 2))%Q.
Proof.
  unfold flt.
  exists (round_half_even (Qred (inject_Z c / inject_Z total * 100) * 10)).
  split; [apply py_round_1_value|].
  pose proof (round_half_even_bound
                (Qred (inject_Z c / inject_Z total * 100) * 10)) as H.
  set (R := inject_Z (round_half_even _)) in *.
  destruct H as [Hl Hu].
  rewrite (Qred_correct (inject_Z c / inject_Z total * 100)) in Hl, Hu.
  set (a := (inject_Z c / inject_Z total)%Q) in *. lra.
Qed.



(** C10.  Without any jungle-position sample the result has another
    shape than with samples: it holds the three lane percentages, all
    0, and an empty list under ["positions"], and it has none of the
    keys ["total_samples"], ["heatmap_data"], ["insight"], which every
    result computed from at least one sample has. *)
Theorem jungle_proximity_shape (self : analyzer) :
  let d := calculate_jungle_proximity self in
  (samples self = [] ->
   d = PDict [ ("top_lane_percent", PInt 0);
               ("mid_lane_percent", PInt 0);
               ("bot_lane_percent", PInt 0);
               ("positions", PList []) ]
   /\ has_key "total_samples" d = false
   /\ has_key "heatmap_data" d = false
   /\ has_key "insight" d = false)
  /\ (samples self <> [] ->
      has_key "total_samples" d = true
      /\ has_key "heatmap_data" d = true
      /\ has_key "insight" d = true).
Proof.
  intros d. split.
  - intros He. subst d. rewrite (jungle_empty self He). repeat split.
  - intros Hne.
    destruct (jungle_fields_nonempty self Hne) as (_ & _ & _ & Ht & Hh & Hi & _).
    subst d. unfold has_key at 1. rewrite Ht. auto.
Qed.

Lemma jungle_proximity_shape_witness :
  (has_key "total_samples" (calculate_jungle_proximity (init [])) = false
   /\ has_key "heatmap_data" (calculate_jungle_proximity (init [])) = false
   /\ has_key "insight" (calculate_jungle_proximity (init [])) = false)
  /\ (has_key "total_samples"
        (calculate_jungle_proximity (init Samples.three_lanes)) = true
      /\ has_key "heatmap_data"
           (calculate_jungle_proximity (init Samples.three_lanes)) = true
      /\ has_key "insight"
           (calculate_jungle_proximity (init Samples.three_lanes)) = true).
Proof.
  split.
  - apply (proj1 (jungle_proximity_shape (init []))). reflexivity.
  - apply (proj2 (jungle_proximity_shape (init Samples.three_lanes))).
    discriminate.
Defined.
End JungleProximity.

(* ================================================================= *)
(** ** LoL: gold efficiency                                           *)
(* ================================================================= *)

Section GoldEfficiency.
Import Lol LolSpec.

(** The zero guard: a zero average at 10 or at 15 minutes reports 0. *)
Lemma growth_rate_guard (self : analyzer) :
  num_nonzero (avg_gold_10 self) = false \/ num_nonzero (avg_gold_15 self) = false ->
  growth_rate self = NInt 0
  /\ field "gold_growth_rate" (calculate_gold_efficiency self) = Some (PInt 0).
Proof.
  intros H. assert (E : growth_rate self = NInt 0).
  { unfold growth_rate. destruct H as [-> | ->]; [reflexivity|].
    rewrite andb_false_r. reflexivity. }
  split; [exact E|]. simpl field. rewrite E. reflexivity.
Qed.

(** Past the guard the code multiplies the per-minute difference by 60:
    the value is twelve times the difference of the two averages. *)
Lemma growth_rate_twelve_fold (self : analyzer) :
  num_nonzero (avg_gold_10 self) = true ->
  num_nonzero (avg_gold_15 self) = true ->
  (num_to_Q (growth_rate self)
   == 12 * (num_to_Q (avg_gold_15 self) - num_to_Q (avg_gold_10 self)))%Q.
Proof.
  intros H10 H15. unfold growth_rate. rewrite H10, H15. cbn [andb].
  unfold flt, num_to_Q at 1. rewrite Qred_correct. field.
Qed.

(** C3, evaluated.  With +100 gold at 10:00 and +200 gold at 15:00 both
    bucket averages are non-zero and their two-point difference per
    minute is (200 - 100) / 5 = 20; the analyzer reports 1200. *)
Theorem growth_rate_reports_sixty_fold :
  let self := init Samples.gold_sample in
  avg_gold_10 self = NFloat 100
  /\ avg_gold_15 self = NFloat 200
  /\ flt ((200 - 100) / 5) = NFloat 20
  /\ field "gold_growth_rate" (calculate_gold_efficiency self)
     = Some (PNum (NFloat 1200))
  /\ field "gold_growth_rate" (calculate_gold_efficiency self)
     <> Some (PNum (NFloat 20)).
Proof.
  cbv zeta. repeat split; try reflexivity. discriminate.
Qed.
End GoldEfficiency.

(* ================================================================= *)
(** ** The empty match list                                           *)
(* ================================================================= *)

Section EmptyMatchList.

Lemma lol_empty_neutral :
  Lol.team_name (Lol.init []) = "Unknown"
  /\ Lol.calculate_jungle_proximity (Lol.init [])
     = PDict [ ("top_lane_percent", PInt 0); ("mid_lane_percent", PInt 0);
               ("bot_lane_percent", PInt 0); ("positions", PList []) ]
  /\ (forall k, In k ["first_dragon_rate"; "overall_dragon_rate";
                      "herald_control_rate"; "baron_control_rate";
                      "total_dragons"; "team_dragons"; "total_heralds";
                      "team_heralds"; "total_barons"; "team_barons"] ->
                field k (Lol.calculate_objective_control (Lol.init []))
                = Some (PInt 0))
  /\ (forall k, In k ["gold_diff_at_10min"; "gold_diff_at_15min";
                      "gold_diff_at_20min"; "gold_growth_rate";
                      "samples_at_10"; "samples_at_15"; "samples_at_20"] ->
                field k (Lol.calculate_gold_efficiency (Lol.init []))
                = Some (PInt 0))
  /\ field "win_rate" (Lol.get_complete_analysis (Lol.init [])) = Some (PInt 0)
  /\ field "matches_analyzed" (Lol.get_complete_analysis (Lol.init []))
     = Some (PInt 0)
  /\ field "avg_game_duration_minutes" (Lol.get_complete_analysis (Lol.init []))
     = Some (PNum (NFloat 0)).
Proof.
  repeat split; try reflexivity;
    intros k Hk; simpl in Hk;
    repeat (destruct Hk as [<- | Hk]; [reflexivity|]); contradiction.
Qed.

Lemma valorant_empty_other_methods :
  Valorant.team_name (Valorant.init []) = "Unknown"
  /\ (forall k, In k ["first_blood_rate"; "first_blood_conversion";
                      "rounds_with_first_blood"; "rounds_won_with_fb";
                      "rounds_won_without_fb"; "total_rounds"] ->
                field k (Valorant.calculate_opening_duel_winrate (Valorant.init []))
                = Some (PInt 0))
  /\ (forall k, In k ["eco_conversion_rate"; "eco_rounds_played";
                      "eco_rounds_won"; "force_buy_winrate";
                      "force_rounds_played"; "full_buy_winrate";
                      "full_buy_rounds_played"] ->
                field k (Valorant.calculate_eco_conversion (Valorant.init []))
                = Some (PInt 0)).
Proof.
  repeat split; try reflexivity;
    intros k Hk; simpl in Hk;
    repeat (destruct Hk as [<- | Hk]; [reflexivity|]); contradiction.
Qed.

(** Without a single planted spike the favourite site is ["Unknown"],
    and the insight string looks its percentage up under a key that
    was never written. *)
Lemma site_bias_no_plant (self : Valorant.analyzer) :
  Valorant.site_loop self = ([], []) ->
  Valorant.calculate_site_bias self = Raise (KeyError "site_Unknown_percent")
  /\ Valorant.get_complete_analysis self
     = Raise (KeyError "site_Unknown_percent").
Proof.
  intros H.
  assert (E : Valorant.calculate_site_bias self
              = Raise (KeyError "site_Unknown_percent")).
  { unfold Valorant.calculate_site_bias. rewrite H. reflexivity. }
  split; [exact E|].
  unfold Valorant.get_complete_analysis. rewrite E. reflexivity.
Qed.

(** C1, evaluated.  On the empty match list the team name is the
    sentinel, but [ValorantAnalyzer.calculate_site_bias] raises
    [KeyError], and so does [ValorantAnalyzer.get_complete_analysis],
    which calls it. *)
Theorem valorant_empty_list_raises :
  Valorant.team_name (Valorant.init []) = "Unknown"
  /\ Valorant.calculate_site_bias (Valorant.init [])
     = Raise (KeyError "site_Unknown_percent")
  /\ Valorant.get_complete_analysis (Valorant.init [])
     = Raise (KeyError "site_Unknown_percent").
Proof.
  split; [reflexivity|]. apply site_bias_no_plant. reflexivity.
Qed.
End EmptyMatchList.

(* ================================================================= *)
(** ** Reasoning about computations on the store                      *)
(* ================================================================= *)

Section StoreFacts.
Import Store PyStore Schema.

Lemma nth_error_replace_same (l : loc) (o : object) (h : heap) :
  (l < List.length h)%nat -> nth_error (replace l o h) l = Some o.
Proof.
  revert l. induction h as [|x h IH]; intros [|l] Hl; cbn in *;
    try lia; [reflexivity|]. apply IH. lia.
Qed.

Lemma nth_error_replace_other (l l' : loc) (o : object) (h : heap) :
  l <> l' -> nth_error (replace l o h) l' = nth_error h l'.
Proof.
  revert l l'. induction h as [|x h IH]; intros [|l] [|l'] Hne; cbn;
    try reflexivity; try congruence.
  apply IH. congruence.
Qed.

Lemma length_replace (l : loc) (o : object) (h : heap) :
  List.length (replace l o h) = List.length h.
Proof.
  revert l. induction h as [|x h IH]; intros [|l]; cbn; try reflexivity.
  rewrite IH. reflexivity.
Qed.

Lemma firstn_replace (n l : nat) (o : object) (h : heap) :
  (n <= l)%nat -> firstn n (replace l o h) = firstn n h.
Proof.
  revert n l. induction h as [|x h IH]; intros [|n] [|l] Hl; cbn;
    try reflexivity; try lia.
  rewrite IH by lia. reflexivity.
Qed.

Lemma unchanged_refl (h : heap) : unchanged h h.
Proof. unfold unchanged. apply firstn_all. Qed.

Lemma unchanged_length (h h' : heap) :
  unchanged h h' -> (List.length h <= List.length h')%nat.
Proof.
  unfold unchanged. intros H.
  destruct (Nat.le_gt_cases (List.length h) (List.length h')) as [|Hlt]; [assumption|].
  rewrite firstn_all2 in H by lia. subst. lia.
Qed.

Lemma unchanged_app (h h' : heap) (extra : heap) :
  unchanged h h' -> unchanged h (h' ++ extra).
Proof.
  intros H. pose proof (unchanged_length _ _ H) as Hlen.
  unfold unchanged in *. rewrite firstn_app.
  replace (List.length h - List.length h')%nat with 0%nat by lia.
  cbn [firstn]. rewrite app_nil_r. exact H.
Qed.

Lemma unchanged_replace (h h' : heap) (l : loc) (o : object) :
  unchanged h h' -> (List.length h <= l)%nat -> unchanged h (replace l o h').
Proof.
  unfold unchanged. intros H Hl. rewrite firstn_replace by exact Hl. exact H.
Qed.

Lemma unchanged_trans (h1 h2 h3 : heap) :
  unchanged h1 h2 -> unchanged h2 h3 -> unchanged h1 h3.
Proof.
  intros H12 H23. pose proof (unchanged_length _ _ H12) as Hlen.
  unfold unchanged in *.
  replace (List.length h1) with (Nat.min (List.length h1) (List.length h2))
    by lia.
  rewrite <- firstn_firstn, H23.
  replace (Nat.min (List.length h1) (List.length h2)) with (List.length h1)
    by lia.
  exact H12.
Qed.

Lemma unchanged_nth (h h' : heap) (l : loc) (o : object) :
  unchanged h h' -> nth_error h l = Some o -> nth_error h' l = Some o.
Proof.
  unfold unchanged. intros H Hl.
  assert (Hlt : (l < List.length h)%nat) by (apply nth_error_Some; congruence).
  rewrite <- H in Hl. rewrite nth_error_firstn in Hl.
  destruct (Nat.ltb_spec l (List.length h)); [exact Hl|lia].
Qed.

Lemma holds_unchanged (h h' : heap) (v : value) (o : object) :
  unchanged h h' -> holds h v o -> holds h' v o.
Proof.
  intros H (l & -> & Hl). exists l. split; [reflexivity|].
  eapply unchanged_nth; eassumption.
Qed.

Lemma holds_new (h : heap) (o : object) :
  holds (h ++ [o]) (VRef (List.length h)) o.
Proof.
  exists (List.length h). split; [reflexivity|].
  rewrite nth_error_app2 by lia. rewrite Nat.sub_diag. reflexivity.
Qed.

Lemma holds_app (h extra : heap) (v : value) (o : object) :
  holds h v o -> holds (h ++ extra) v o.
Proof.
  intros (l & -> & Hl). exists l. split; [reflexivity|].
  rewrite nth_error_app1; [exact Hl|]. apply nth_error_Some. congruence.
Qed.

Lemma holds_fun (h : heap) (v : value) (o o' : object) :
  holds h v o -> holds h v o' -> o = o'.
Proof. intros (l & -> & Hl) (l' & E & Hl'). injection E as <-. congruence. Qed.

End StoreFacts.

Section StoreRules.
Import Store PyStore Schema.
Context {A : Type}.

Lemma runs_ret (a : A) (Q : result A -> heap -> Prop) (h : heap) :
  Q (Ok a) h -> runs (Store.ret a) Q h.
Proof. intros H. exists (Ok a), h. split; [reflexivity|exact H]. Qed.

Lemma runs_throw (e : exn) (Q : result A -> heap -> Prop) (h : heap) :
  Q (Raise e) h -> runs (throw e) Q h.
Proof. intros H. exists (Raise e), h. split; [reflexivity|exact H]. Qed.

Lemma runs_bind {B : Type} (m : Store A) (f : A -> Store B)
  (Q : result B -> heap -> Prop) (h : heap) :
  runs m (fun r h' => match r with
                      | Ok a => runs (f a) Q h'
                      | Raise e => Q (Raise e) h'
                      end) h ->
  runs (Store.bind m f) Q h.
Proof.
  intros (r & h' & E & H). unfold runs, Store.bind. rewrite E.
  destruct r as [a|e]; [exact H|].
  exists (Raise e), h'. split; [reflexivity|exact H].
Qed.

Lemma runs_weaken (m : Store A) (P Q : result A -> heap -> Prop) (h : heap) :
  runs m P h -> (forall r h', P r h' -> Q r h') -> runs m Q h.
Proof. intros (r & h' & E & H) HPQ. exists r, h'. split; [exact E|auto]. Qed.

Lemma runs_fun (m : Store A) (P Q : result A -> heap -> Prop) (h : heap) :
  runs m P h -> runs m Q h -> runs m (fun r h' => P r h' /\ Q r h') h.
Proof.
  intros (r & h' & E & H) (r2 & h2 & E2 & H2).
  rewrite E in E2. injection E2 as <- <-.
  exists r, h'. auto.
Qed.

End StoreRules.

Section PrimitiveRules.
Import Store PyStore Schema.

Lemma runs_alloc (o : object) (Q : result value -> heap -> Prop) (h : heap) :
  Q (Ok (VRef (List.length h))) (h ++ [o]) -> runs (alloc o) Q h.
Proof. intros H. eexists _, _. split; [reflexivity|exact H]. Qed.

Lemma runs_load (v : value) (o : object) (Q : result object -> heap -> Prop)
  (h : heap) :
  holds h v o -> Q (Ok o) h -> runs (load v) Q h.
Proof.
  intros (l & -> & Hl) H. exists (Ok o), h. split; [|exact H].
  unfold load. rewrite Hl. reflexivity.
Qed.

Lemma runs_store (l : loc) (o o' : object) (Q : result unit -> heap -> Prop)
  (h : heap) :
  nth_error h l = Some o' -> Q (Ok tt) (replace l o h) ->
  runs (store (VRef l) o) Q h.
Proof.
  intros Hl H. exists (Ok tt), (replace l o h). split; [|exact H].
  unfold store. rewrite Hl. reflexivity.
Qed.

Lemma runs_items_of (v : value) (items : list value)
  (Q : result (list value) -> heap -> Prop) (h : heap) :
  holds h v (OList items) -> Q (Ok items) h -> runs (items_of v) Q h.
Proof.
  intros Hv H. unfold items_of. apply runs_bind.
  eapply runs_load; [exact Hv|]. apply runs_ret. exact H.
Qed.

Lemma runs_entries_of (v : value) (entries : list (string * value))
  (Q : result (list (string * value)) -> heap -> Prop) (h : heap) :
  holds h v (ODict entries) -> Q (Ok entries) h -> runs (entries_of v) Q h.
Proof.
  intros Hv H. unfold entries_of. apply runs_bind.
  eapply runs_load; [exact Hv|]. apply runs_ret. exact H.
Qed.

Lemma runs_getitem (d : value) (key : string) (entries : list (string * value))
  (v : value) (Q : result value -> heap -> Prop) (h : heap) :
  holds h d (ODict entries) -> dict_get key entries = Some v ->
  Q (Ok v) h -> runs (getitem d key) Q h.
Proof.
  intros Hd Hk H. unfold getitem. apply runs_bind.
  eapply runs_entries_of; [exact Hd|]. rewrite Hk. apply runs_ret. exact H.
Qed.

Lemma runs_getitem_missing (d : value) (key : string)
  (entries : list (string * value)) (Q : result value -> heap -> Prop)
  (h : heap) :
  holds h d (ODict entries) -> dict_get key entries = None ->
  Q (Raise (KeyError key)) h -> runs (getitem d key) Q h.
Proof.
  intros Hd Hk H. unfold getitem. apply runs_bind.
  eapply runs_entries_of; [exact Hd|]. rewrite Hk. apply runs_throw. exact H.
Qed.

Lemma runs_get (d : value) (key : string) (default : value)
  (entries : list (string * value)) (Q : result value -> heap -> Prop)
  (h : heap) :
  holds h d (ODict entries) ->
  Q (Ok (match dict_get key entries with
         | Some v => v
         | None => default
         end)) h ->
  runs (get d key default) Q h.
Proof.
  intros Hd H. unfold get. apply runs_bind.
  eapply runs_entries_of; [exact Hd|].
  destruct (dict_get key entries); apply runs_ret; exact H.
Qed.

Lemma runs_getattr (self : value) (name : string)
  (entries : list (string * value)) (v : value)
  (Q : result value -> heap -> Prop) (h : heap) :
  holds h self (ODict entries) -> dict_get name entries = Some v ->
  Q (Ok v) h -> runs (getattr self name) Q h.
Proof.
  intros Hd Hk H. unfold getattr. apply runs_bind.
  eapply runs_entries_of; [exact Hd|]. rewrite Hk. apply runs_ret. exact H.
Qed.

Lemma runs_setitem (l : loc) (key : string) (v : value)
  (entries : list (string * value)) (Q : result unit -> heap -> Prop)
  (h : heap) :
  nth_error h l = Some (ODict entries) ->
  Q (Ok tt) (replace l (ODict (dict_set key v entries)) h) ->
  runs (setitem (VRef l) key v) Q h.
Proof.
  intros Hl H. unfold setitem. apply runs_bind.
  eapply runs_entries_of; [exists l; split; [reflexivity|exact Hl]|].
  eapply runs_store; [exact Hl|exact H].
Qed.

Lemma runs_append (l : loc) (v : value) (items : list value)
  (Q : result unit -> heap -> Prop) (h : heap) :
  nth_error h l = Some (OList items) ->
  Q (Ok tt) (replace l (OList (items ++ [v])) h) ->
  runs (append (VRef l) v) Q h.
Proof.
  intros Hl H. unfold append. apply runs_bind.
  eapply runs_items_of; [exists l; split; [reflexivity|exact Hl]|].
  eapply runs_store; [exact Hl|exact H].
Qed.

Lemma runs_extend (l : loc) (src : value) (items new : list value)
  (Q : result unit -> heap -> Prop) (h : heap) :
  nth_error h l = Some (OList items) -> holds h src (OList new) ->
  Q (Ok tt) (replace l (OList (items ++ new)) h) ->
  runs (extend (VRef l) src) Q h.
Proof.
  intros Hl Hsrc H. unfold extend. apply runs_bind.
  eapply runs_items_of; [exact Hsrc|]. apply runs_bind.
  eapply runs_items_of; [exists l; split; [reflexivity|exact Hl]|].
  eapply runs_store; [exact Hl|exact H].
Qed.

Lemma runs_len (l : value) (items : list value)
  (Q : result Z -> heap -> Prop) (h : heap) :
  holds h l (OList items) -> Q (Ok (Z.of_nat (List.length items))) h ->
  runs (len l) Q h.
Proof.
  intros Hl H. unfold len. apply runs_bind.
  eapply runs_items_of; [exact Hl|]. apply runs_ret. exact H.
Qed.

Lemma runs_index (l : value) (i : nat) (items : list value) (v : value)
  (Q : result value -> heap -> Prop) (h : heap) :
  holds h l (OList items) -> nth_error items i = Some v ->
  Q (Ok v) h -> runs (index l i) Q h.
Proof.
  intros Hl Hi H. unfold index. apply runs_bind.
  eapply runs_items_of; [exact Hl|]. rewrite Hi. apply runs_ret. exact H.
Qed.

Lemma runs_truthy_list (l : value) (items : list value)
  (Q : result bool -> heap -> Prop) (h : heap) :
  holds h l (OList items) ->
  Q (Ok (match items with [] => false | _ :: _ => true end)) h ->
  runs (truthy l) Q h.
Proof.
  intros Hl H. destruct Hl as (loc & -> & Hloc). unfold truthy.
  apply runs_bind. eapply runs_load; [exists loc; split; [reflexivity|exact Hloc]|].
  destruct items; apply runs_ret; exact H.
Qed.

Lemma runs_truthy_dict (d : value) (entries : list (string * value))
  (Q : result bool -> heap -> Prop) (h : heap) :
  holds h d (ODict entries) ->
  Q (Ok (match entries with [] => false | _ :: _ => true end)) h ->
  runs (truthy d) Q h.
Proof.
  intros Hl H. destruct Hl as (loc & -> & Hloc). unfold truthy.
  apply runs_bind. eapply runs_load; [exists loc; split; [reflexivity|exact Hloc]|].
  destruct entries; apply runs_ret; exact H.
Qed.

(** A loop whose body does to the store and to the locals what [g] and
    [f] do to what they stand for. *)
Lemma runs_for_each {E S X G : Type} (R : E -> X -> Prop)
  (I : G -> heap -> Prop) (body : S -> E -> Store S)
  (f : S -> X -> S) (g : G -> X -> G) :
  (forall s gs e x h, R e x -> I gs h ->
     runs (body s e) (fun r h' => r = Ok (f s x) /\ I (g gs x) h') h) ->
  forall (items : list E) (xs : list X), Forall2 R items xs ->
  forall (s : S) (gs : G) (h : heap) (Q : result S -> heap -> Prop),
    I gs h ->
    (forall h', I (fold_left g xs gs) h' -> Q (Ok (fold_left f xs s)) h') ->
    runs (for_each items body s) Q h.
Proof.
  intros Hbody items xs Hall.
  induction Hall as [|e x items xs Hex Hall IH]; intros s gs h Q HI HQ.
  - apply runs_ret. apply HQ. exact HI.
  - cbn [for_each fold_left]. apply runs_bind.
    eapply runs_weaken; [apply (Hbody s gs e x h Hex HI)|].
    cbv beta. intros r h' [-> HI']. eapply IH; [exact HI'|exact HQ].
Qed.

Lemma runs_for_in {S X G : Type} (R : value -> X -> Prop)
  (I : G -> heap -> Prop) (body : S -> value -> Store S)
  (f : S -> X -> S) (g : G -> X -> G) (l : value) (items : list value)
  (xs : list X) (s : S) (gs : G) (h : heap) (Q : result S -> heap -> Prop) :
  holds h l (OList items) -> Forall2 R items xs ->
  (forall s gs e x h, R e x -> I gs h ->
     runs (body s e) (fun r h' => r = Ok (f s x) /\ I (g gs x) h') h) ->
  I gs h ->
  (forall h', I (fold_left g xs gs) h' -> Q (Ok (fold_left f xs s)) h') ->
  runs (for_in l body s) Q h.
Proof.
  intros Hl Hall Hbody HI HQ. unfold for_in. apply runs_bind.
  eapply runs_items_of; [exact Hl|].
  eapply runs_for_each; eassumption.
Qed.

End PrimitiveRules.

Section CounterRules.
Import Store PyStore Schema.

Lemma counts_get (key : string) (c : counter) :
  dict_get key (counts c) = option_map VInt (dict_get key c).
Proof.
  induction c as [|[k n] c IH]; [reflexivity|]. cbn.
  destruct (String.eqb key k); [reflexivity|exact IH].
Qed.

Lemma counts_set (key : string) (n : Z) (c : counter) :
  dict_set key (VInt n) (counts c) = counts (dict_set key n c).
Proof.
  induction c as [|[k m] c IH]; [reflexivity|]. cbn.
  destruct (String.eqb key k); [reflexivity|]. cbn. f_equal. exact IH.
Qed.

Lemma fold_left_snoc {X Y : Type} (k : X -> Y) (l : list X) (acc : list Y) :
  fold_left (fun acc x => acc ++ [k x]) l acc = acc ++ map k l.
Proof.
  revert acc. induction l as [|x l IH]; intros acc; cbn.
  - rewrite app_nil_r. reflexivity.
  - rewrite IH, <- app_assoc. reflexivity.
Qed.

Lemma fold_left_mapped {X Y S : Type} (k : X -> Y) (f : S -> Y -> S)
  (l : list X) (s : S) :
  fold_left f (map k l) s = fold_left (fun s x => f s (k x)) l s.
Proof. revert s. induction l as [|x l IH]; intros s; cbn; auto. Qed.

Lemma Forall2_nil_left {X Y : Type} (R : X -> Y -> Prop) (ys : list Y) :
  Forall2 R [] ys -> ys = [].
Proof. intros H. inversion H. reflexivity. Qed.

Lemma Forall2_cons_left {X Y : Type} (R : X -> Y -> Prop) (x : X)
  (xs : list X) (ys : list Y) :
  Forall2 R (x :: xs) ys -> exists y ys', ys = y :: ys'.
Proof. intros H. inversion H. eauto. Qed.

Lemma runs_get_count (c : loc) (key : string) (cnt : counter)
  (Q : result Z -> heap -> Prop) (h : heap) :
  nth_error h c = Some (ODict (counts cnt)) ->
  Q (Ok (counter_get key cnt)) h ->
  runs (get_count (VRef c) key) Q h.
Proof.
  intros Hc H. unfold get_count. apply runs_bind.
  eapply runs_get; [exists c; split; [reflexivity|exact Hc]|].
  rewrite counts_get. unfold counter_get in H.
  destruct (dict_get key cnt); apply runs_ret; exact H.
Qed.

Lemma runs_counter_add1 (c : loc) (key : string) (cnt : counter)
  (Q : result unit -> heap -> Prop) (h : heap) :
  nth_error h c = Some (ODict (counts cnt)) ->
  Q (Ok tt) (replace c (ODict (counts (counter_incr key cnt))) h) ->
  runs (counter_add1 (VRef c) key) Q h.
Proof.
  intros Hc H. unfold counter_add1. apply runs_bind.
  eapply runs_get; [exists c; split; [reflexivity|exact Hc]|].
  rewrite counts_get. apply runs_bind.
  assert (E : runs (int_of (match option_map VInt (dict_get key cnt) with
                            | Some v => v
                            | None => VInt 0
                            end))
                (fun r h' => r = Ok (counter_get key cnt) /\ h' = h) h).
  { unfold counter_get. destruct (dict_get key cnt); apply runs_ret; auto. }
  eapply runs_weaken; [exact E|]. cbv beta. intros r h' [-> ->].
  eapply runs_setitem; [exact Hc|]. rewrite counts_set. exact H.
Qed.

Lemma runs_counts_of (c : value) (cnt : counter)
  (Q : result counter -> heap -> Prop) (h : heap) :
  holds h c (ODict (counts cnt)) -> Q (Ok cnt) h ->
  runs (counts_of c) Q h.
Proof.
  intros Hc H. unfold counts_of. apply runs_bind.
  eapply runs_entries_of; [exact Hc|].
  eapply (runs_for_each (fun e x => e = (fst x, VInt (snd x)))
            (fun (_ : unit) h' => h' = h) _
            (fun acc x => acc ++ [x]) (fun _ _ => tt)) with (gs := tt) (xs := cnt).
  - intros s gs e [k n] h0 -> ->. cbn. apply runs_bind. apply runs_ret.
    apply runs_ret. split; reflexivity.
  - unfold counts. clear. induction cnt as [|x cnt IH]; cbn [map]; constructor; auto.
  - reflexivity.
  - intros h' ->. rewrite (fold_left_snoc (fun x => x)), map_id. exact H.
Qed.

End CounterRules.

Section OptionalLists.
Import Store PyStore Schema.

(** [d.get(key, [])], the empty list of the call just made. *)
Lemma runs_get_optional {X : Type} (R : value -> X -> Prop) (old : heap)
  (m : value) (d : list (string * value)) (key : string) (xs : list X)
  (h : heap) (Q : result value -> heap -> Prop) :
  holds old m (ODict d) -> optional_list_of R old d key xs ->
  unchanged old h ->
  (forall v items,
      holds (h ++ [OList []]) v (OList items) -> Forall2 R items xs ->
      Q (Ok v) (h ++ [OList []])) ->
  runs (get m key (VRef (List.length h))) Q (h ++ [OList []]).
Proof.
  intros Hm Hopt Hold HQ.
  eapply runs_get.
  - apply holds_app. eapply holds_unchanged; eassumption.
  - destruct Hopt as [[-> ->]|(v & -> & items & Hv & Hitems)].
    + apply (HQ _ []); [apply holds_new|constructor].
    + apply (HQ _ items); [|exact Hitems].
      apply holds_app. eapply holds_unchanged; eassumption.
Qed.

(** A loop over a list of the old store whose body leaves the old store
    as it is. *)
Lemma runs_for_in_old {S X : Type} (R : value -> X -> Prop) (old : heap)
  (body : S -> value -> Store S) (f : S -> X -> S) (l : value)
  (items : list value) (xs : list X) (s : S) (h : heap)
  (Q : result S -> heap -> Prop) :
  holds old l (OList items) -> Forall2 R items xs ->
  (forall s e x h (Q' : result S -> heap -> Prop),
      R e x -> unchanged old h ->
      (forall h', unchanged old h' -> Q' (Ok (f s x)) h') ->
      runs (body s e) Q' h) ->
  unchanged old h ->
  (forall h', unchanged old h' -> Q (Ok (fold_left f xs s)) h') ->
  runs (for_in l body s) Q h.
Proof.
  intros Hl Hall Hbody Hold HQ.
  eapply (runs_for_in R (fun (_ : unit) hh => unchanged old hh) body f
            (fun _ _ => tt)) with (gs := tt).
  - eapply holds_unchanged; eassumption.
  - exact Hall.
  - intros s0 gs e x h0 Hex Hh0. apply (Hbody s0 e x); [exact Hex|exact Hh0|].
    intros h' Hh'. split; [reflexivity|exact Hh'].
  - exact Hold.
  - intros h' Hh'. apply HQ. exact Hh'.
Qed.

(** A loop that reads the store and leaves all of it as it is. *)
Lemma runs_for_in_reading {S X : Type} (R : value -> X -> Prop)
  (body : S -> value -> Store S) (f : S -> X -> S) (l : value)
  (items : list value) (xs : list X) (s : S) (h : heap)
  (Q : result S -> heap -> Prop) :
  holds h l (OList items) -> Forall2 R items xs ->
  (forall s e x (Q' : result S -> heap -> Prop),
      R e x -> Q' (Ok (f s x)) h -> runs (body s e) Q' h) ->
  Q (Ok (fold_left f xs s)) h ->
  runs (for_in l body s) Q h.
Proof.
  intros Hl Hall Hbody HQ.
  eapply (runs_for_in R (fun (_ : unit) hh => hh = h) body f
            (fun _ _ => tt)) with (gs := tt).
  - exact Hl.
  - exact Hall.
  - intros s0 gs e x h0 Hex ->. apply (Hbody s0 e x); [exact Hex|].
    split; reflexivity.
  - reflexivity.
  - intros h' ->. exact HQ.
Qed.

Lemma runs_ints_of (l : value) (zs : list Z) (h : heap)
  (Q : result (list Z) -> heap -> Prop) :
  holds h l (OList (map VInt zs)) -> Q (Ok zs) h -> runs (ints_of l) Q h.
Proof.
  intros Hl HQ. unfold ints_of.
  eapply (runs_for_in_reading (fun v z => v = VInt z) _
            (fun acc z => acc ++ [z])) with (xs := zs).
  - exact Hl.
  - clear. induction zs; cbn [map]; constructor; auto.
  - intros s e x Q' -> H. change (int_of (VInt x)) with (Store.ret x).
    apply runs_bind, runs_ret, runs_ret. exact H.
  - rewrite (fold_left_snoc (fun z => z)), map_id. exact HQ.
Qed.

End OptionalLists.

Section LolRefinement.
Import Store PyStore Schema Lol.

Variable old : heap.
Variables self stored : value.
Variable ms : list lol_match.
Hypothesis Hself : analyzer_at old self stored (team_name (Lol.init ms)).
Hypothesis Hms : list_of (lol_match_at old) old stored ms.

Lemma runs_self_matches (h : heap) (Q : result value -> heap -> Prop) :
  unchanged old h -> Q (Ok stored) h -> runs (getattr self "matches") Q h.
Proof.
  intros Hold H. destruct Hself as (d & Hd & Hm & _).
  eapply runs_getattr; [eapply holds_unchanged; eassumption|exact Hm|exact H].
Qed.

Lemma runs_self_team_name (h : heap) (Q : result value -> heap -> Prop) :
  unchanged old h -> Q (Ok (VStr (team_name (Lol.init ms)))) h ->
  runs (getattr self "team_name") Q h.
Proof.
  intros Hold H. destruct Hself as (d & Hd & _ & Hn).
  eapply runs_getattr; [eapply holds_unchanged; eassumption|exact Hn|exact H].
Qed.

Lemma jungle_proximity_refines (h : heap) (Q : result pyval -> heap -> Prop) :
  unchanged old h ->
  (forall h', unchanged old h' ->
              Q (Ok (Lol.calculate_jungle_proximity (Lol.init ms))) h') ->
  runs (LolStore.calculate_jungle_proximity self) Q h.
Proof.
  intros Hold HQ. unfold LolStore.calculate_jungle_proximity.
  pose proof (unchanged_length _ _ Hold) as Hlen.
  apply runs_bind, runs_alloc.
  set (a := List.length h).
  apply runs_bind, runs_self_matches; [apply unchanged_app; exact Hold|].
  destruct Hms as (items & Hstored & Hitems).
  apply runs_bind.
  eapply (runs_for_in (lol_match_at old)
            (fun (acc : list jungle_position) hh =>
               unchanged old hh
               /\ exists vs, nth_error hh a = Some (OList vs)
                             /\ Forall2 (jungle_position_at old) vs acc)
            _ (fun _ _ => tt) (fun acc m => acc ++ jungle_positions m))
    with (gs := []).
  - apply holds_app. eapply holds_unchanged; eassumption.
  - exact Hitems.
  - intros [] acc v m hh Hm (Hhh & vs & Ha & Hvs).
    destruct Hm as (d & Hd & _ & _ & _ & _ & _ & _ & _ & Hjp).
    apply runs_bind, runs_alloc. apply runs_bind.
    eapply runs_get_optional; [exact Hd|exact Hjp|exact Hhh|].
    intros src new Hsrc Hnew.
    assert (Ha' : nth_error (hh ++ [OList []]) a = Some (OList vs)).
    { rewrite nth_error_app1; [exact Ha|]. apply nth_error_Some. congruence. }
    eapply runs_extend; [exact Ha'|exact Hsrc|].
    split; [reflexivity|]. split.
    + apply unchanged_replace; [apply unchanged_app; exact Hhh|]. subst a. lia.
    + exists (vs ++ new). split.
      * apply nth_error_replace_same. apply nth_error_Some. congruence.
      * apply Forall2_app; assumption.
  - split; [apply unchanged_app; exact Hold|]. exists []. split; [|constructor].
    subst a. rewrite nth_error_app2 by lia. rewrite Nat.sub_diag. reflexivity.
  - cbv beta. intros h1 (Hh1 & vs & Ha & Hvs).
    change (fold_left (fun acc m => acc ++ jungle_positions m) ms [])
      with (all_positions (Lol.init ms)) in Hvs.
    assert (Hlist : holds h1 (VRef a) (OList vs))
      by (exists a; split; [reflexivity|exact Ha]).
    apply runs_bind. eapply runs_truthy_list; [exact Hlist|].
    assert (Hpure : forall r h',
               unchanged old h' ->
               Lol.calculate_jungle_proximity (Lol.init ms) = r ->
               Q (Ok r) h') by (intros r h' Hh' <-; apply HQ; exact Hh').
    clear HQ.
    destruct vs as [|v0 vs0].
    { cbn [negb]. apply runs_ret. apply Hpure; [exact Hh1|].
      unfold Lol.calculate_jungle_proximity.
      inversion Hvs as [E|]. reflexivity. }
    cbn [negb].
    set (cells := v0 :: vs0) in *.
    assert (Hsome : all_positions (Lol.init ms) <> [])
      by (intros E; rewrite E in Hvs; inversion Hvs).
    clearbody cells. clear v0 vs0.
    apply runs_bind, runs_alloc.
    set (c := List.length h1).
    assert (Hac : a <> c).
    { subst c. assert (a < List.length h1)%nat by (apply nth_error_Some; congruence).
      lia. }
    pose proof (unchanged_length _ _ Hh1) as Hlen1.
    apply runs_bind.
    eapply (runs_for_in (jungle_position_at old)
              (fun (cnt : counter) hh =>
                 unchanged old hh
                 /\ nth_error hh a = Some (OList cells)
                 /\ nth_error hh c = Some (ODict (counts cnt)))
              _ (fun _ _ => tt) (fun cnt p => counter_incr (lane p) cnt))
      with (gs := []).
    + apply holds_app. exact Hlist.
    + exact Hvs.
    + intros [] cnt v p hh Hp (Hhh & Hcells & Hcnt).
      destruct Hp as (d & Hd & _ & _ & Hlane).
      apply runs_bind.
      eapply runs_getitem;
        [eapply holds_unchanged; eassumption|exact Hlane|].
      cbn [str_of]. apply runs_bind, runs_ret.
      eapply runs_counter_add1; [exact Hcnt|].
      split; [reflexivity|]. split; [|split].
      * apply unchanged_replace; [exact Hhh|]. subst c. lia.
      * rewrite nth_error_replace_other by congruence. exact Hcells.
      * apply nth_error_replace_same. apply nth_error_Some. congruence.
    + split; [apply unchanged_app; exact Hh1|]. split.
      * rewrite nth_error_app1; [exact Ha|]. apply nth_error_Some. congruence.
      * subst c. rewrite nth_error_app2 by lia. rewrite Nat.sub_diag. reflexivity.
    + cbv beta. intros h2 (Hh2 & Hcells & Hcnt).
      assert (Hcounter :
                fold_left (fun cnt p => counter_incr (lane p) cnt)
                          (all_positions (Lol.init ms)) []
                = lane_counter (Lol.init ms)).
      { unfold lane_counter, counter_of. rewrite fold_left_mapped. reflexivity. }
      rewrite Hcounter in Hcnt.
      assert (Hlist2 : holds h2 (VRef a) (OList cells))
        by (exists a; split; [reflexivity|exact Hcells]).
      apply runs_bind. eapply runs_len; [exact Hlist2|].
      rewrite (Forall2_length Hvs).
      apply runs_bind. eapply runs_get_count; [exact Hcnt|].
      apply runs_bind. eapply runs_get_count; [exact Hcnt|].
      apply runs_bind. eapply runs_get_count; [exact Hcnt|].
      assert (Hcolumn : forall (key : string) (k : jungle_position -> pyval)
                (Q' : result (list pyval) -> heap -> Prop),
                 (forall p v d, jungle_position_at old v p ->
                                holds old v (ODict d) ->
                                exists x, dict_get key d = Some x
                                          /\ plain x = Store.ret (k p)) ->
                 Q' (Ok (map k (all_positions (Lol.init ms)))) h2 ->
                 runs (for_in (VRef a)
                         (fun acc pos =>
                            Store.bind (getitem pos key)
                              (fun x => Store.bind (plain x)
                                 (fun p => Store.ret (acc ++ [p])))) [])
                      Q' h2).
      { intros key k Q' Hkey HQ'.
        eapply (runs_for_in (jungle_position_at old)
                  (fun (_ : unit) hh => hh = h2)
                  _ (fun acc p => acc ++ [k p]) (fun _ _ => tt))
          with (gs := tt).
        - exact Hlist2.
        - exact Hvs.
        - intros acc [] v p hh Hp ->.
          pose proof Hp as (d & Hd & _).
          destruct (Hkey p v d Hp Hd) as (x & Hx & Hplain).
          apply runs_bind.
          eapply runs_getitem;
            [eapply holds_unchanged; eassumption|exact Hx|].
          rewrite Hplain. apply runs_bind, runs_ret, runs_ret.
          split; reflexivity.
        - reflexivity.
        - intros h' ->. rewrite fold_left_snoc. exact HQ'. }
      apply runs_bind.
      apply (Hcolumn "x" (fun pos => PInt (j_x pos))).
      { intros p v d (d' & Hd' & Hx & _) Hd.
        pose proof (holds_fun _ _ _ _ Hd Hd') as E. injection E as ->.
        eexists. split; [exact Hx|reflexivity]. }
      apply runs_bind.
      apply (Hcolumn "y" (fun pos => PInt (j_y pos))).
      { intros p v d (d' & Hd' & _ & Hy & _) Hd.
        pose proof (holds_fun _ _ _ _ Hd Hd') as E. injection E as ->.
        eexists. split; [exact Hy|reflexivity]. }
      apply runs_bind.
      apply (Hcolumn "lane" (fun pos => PStr (lane pos))).
      { intros p v d (d' & Hd' & _ & _ & Hl) Hd.
        pose proof (holds_fun _ _ _ _ Hd Hd') as E. injection E as ->.
        eexists. split; [exact Hl|reflexivity]. }
      apply runs_bind.
      eapply runs_counts_of; [exists c; split; [reflexivity|exact Hcnt]|].
      apply runs_ret. apply Hpure; [exact Hh2|].
      unfold Lol.calculate_jungle_proximity.
      destruct (all_positions (Lol.init ms)) eqn:E; [congruence|].
      rewrite <- E. reflexivity.
Qed.

Lemma tally_refines (events : value) (items : list value)
  (evs : list objective) (acc : Z * Z) (h : heap)
  (Q : result (Z * Z) -> heap -> Prop) :
  unchanged old h -> holds h events (OList items) ->
  Forall2 (objective_at old) items evs ->
  Q (Ok (Lol.tally (team_name (Lol.init ms)) evs acc)) h ->
  runs (LolStore.tally self events acc) Q h.
Proof.
  intros Hold Hev Hitems HQ. unfold LolStore.tally, Lol.tally in *.
  eapply (runs_for_in_reading (objective_at old)); [exact Hev|exact Hitems| |exact HQ].
  intros [total mine] e ev Q' (d & Hd & Hteam) H.
  apply runs_bind.
  eapply runs_getitem; [eapply holds_unchanged; eassumption|exact Hteam|].
  apply runs_bind, runs_self_team_name; [exact Hold|].
  cbn [equals]. apply runs_bind, runs_ret, runs_ret. exact H.
Qed.

Lemma objective_step_refines (acc : objective_acc) (v : value) (m : lol_match)
  (h : heap) (Q : result objective_acc -> heap -> Prop) :
  lol_match_at old v m -> unchanged old h ->
  (forall h', unchanged old h' ->
              Q (Ok (Lol.objective_step (team_name (Lol.init ms)) acc m)) h') ->
  runs (LolStore.objective_step self acc v) Q h.
Proof.
  intros Hm Hold HQ.
  assert (Hpure : forall r h',
             unchanged old h' ->
             Lol.objective_step (team_name (Lol.init ms)) acc m = r ->
             Q (Ok r) h') by (intros r h' Hh' <-; apply HQ; exact Hh').
  clear HQ. unfold LolStore.objective_step.
  destruct Hm as (d & Hd & _ & _ & _ & Hdragons & Hheralds & _).
  apply runs_bind, runs_alloc. apply runs_bind.
  eapply runs_get_optional; [exact Hd|exact Hdragons|exact Hold|].
  intros dragons_v ditems Hdv Hditems.
  assert (Hold1 : unchanged old (h ++ [OList []]))
    by (apply unchanged_app; exact Hold).
  apply runs_bind. eapply runs_truthy_list; [exact Hdv|].
  apply runs_bind.
  assert (Hfirst :
            forall Q' : result (Z * Z) -> heap -> Prop,
              Q' (Ok (match dragons m with
                      | d0 :: _ =>
                          (first_dragons acc + 1,
                           if String.eqb (o_team d0) (team_name (Lol.init ms))
                           then first_dragons_taken acc + 1
                           else first_dragons_taken acc)
                      | [] => (first_dragons acc, first_dragons_taken acc)
                      end)) (h ++ [OList []]) ->
              runs (if match ditems with [] => false | _ :: _ => true end
                    then
                      Store.bind (index dragons_v 0)
                        (fun first =>
                           Store.bind (getitem first "team")
                             (fun team =>
                                Store.bind (getattr self "team_name")
                                  (fun team_name =>
                                     Store.bind (equals team team_name)
                                       (fun same : bool =>
                                          Store.ret
                                            (first_dragons acc + 1,
                                             if same
                                             then first_dragons_taken acc + 1
                                             else first_dragons_taken acc)))))
                    else Store.ret (first_dragons acc, first_dragons_taken acc))
                   Q' (h ++ [OList []])).
  { intros Q' H.
    destruct Hditems as [|v0 ev0 vs evs (d0 & Hd0 & Hteam0) Hrest].
    - apply runs_ret. exact H.
    - apply runs_bind. eapply runs_index; [exact Hdv|reflexivity|].
      apply runs_bind.
      eapply runs_getitem; [eapply holds_unchanged; eassumption|exact Hteam0|].
      apply runs_bind, runs_self_team_name; [exact Hold1|].
      cbn [equals]. apply runs_bind, runs_ret, runs_ret. exact H. }
  apply Hfirst. clear Hfirst.
  destruct (match dragons m with
            | d0 :: _ =>
                (first_dragons acc + 1,
                 if String.eqb (o_team d0) (team_name (Lol.init ms))
                 then first_dragons_taken acc + 1
                 else first_dragons_taken acc)
            | [] => (first_dragons acc, first_dragons_taken acc)
            end) as [fd fdt] eqn:Efirst.
  apply runs_bind.
  eapply tally_refines; [exact Hold1|exact Hdv|exact Hditems|].
  destruct (Lol.tally (team_name (Lol.init ms)) (dragons m)
              (total_dragons acc, team_dragons acc)) as [td tmd] eqn:Edragons.
  apply runs_bind, runs_alloc. apply runs_bind.
  eapply runs_get_optional; [exact Hd|exact Hheralds|exact Hold1|].
  intros heralds_v hitems Hhv Hhitems.
  apply runs_bind.
  eapply tally_refines;
    [apply unchanged_app; exact Hold1|exact Hhv|exact Hhitems|].
  destruct (Lol.tally (team_name (Lol.init ms)) (heralds m)
              (total_heralds acc, team_heralds acc)) as [th tmh] eqn:Eheralds.
  apply runs_ret. apply Hpure; [apply unchanged_app; exact Hold1|].
  unfold Lol.objective_step. rewrite Efirst, Edragons, Eheralds. reflexivity.
Qed.

Lemma objective_control_refines (h : heap) (Q : result pyval -> heap -> Prop) :
  unchanged old h ->
  (forall h', unchanged old h' ->
              Q (Ok (Lol.calculate_objective_control (Lol.init ms))) h') ->
  runs (LolStore.calculate_objective_control self) Q h.
Proof.
  intros Hold HQ. unfold LolStore.calculate_objective_control.
  destruct Hms as (items & Hstored & Hitems).
  apply runs_bind, runs_self_matches; [exact Hold|].
  apply runs_bind.
  eapply (runs_for_in_old (lol_match_at old) old _
            (Lol.objective_step (team_name (Lol.init ms))));
    [exact Hstored|exact Hitems| |exact Hold|].
  { intros s e x h0 Q' Hex Hh0 HQ'.
    apply (objective_step_refines s e x); assumption. }
  intros h1 Hh1.
  apply runs_bind, runs_self_matches; [exact Hh1|].
  apply runs_bind.
  eapply (runs_for_in_old (lol_match_at old) old _
            (fun acc m => Lol.tally (team_name (Lol.init ms)) (barons m) acc));
    [exact Hstored|exact Hitems| |exact Hh1|].
  { intros s e x h0 Q' (d & Hd & _ & _ & _ & _ & _ & Hbarons & _) Hh0 HQ'.
    apply runs_bind, runs_alloc. apply runs_bind.
    eapply runs_get_optional; [exact Hd|exact Hbarons|exact Hh0|].
    intros barons_v bitems Hbv Hbitems.
    eapply tally_refines;
      [apply unchanged_app; exact Hh0|exact Hbv|exact Hbitems|].
    apply HQ'. apply unchanged_app. exact Hh0. }
  intros h2 Hh2.
  assert (Hpure : forall r,
             Lol.calculate_objective_control (Lol.init ms) = r ->
             Q (Ok r) h2) by (intros r <-; apply HQ; exact Hh2).
  unfold Lol.calculate_objective_control, Lol.first_dragon_rate, baron_loop,
    objective_loop in Hpure.
  change (matches (Lol.init ms)) with ms in Hpure.
  destruct (fold_left
              (fun acc m => Lol.tally (team_name (Lol.init ms)) (barons m) acc)
              ms (0, 0)) as [total_barons team_barons].
  apply runs_ret. apply Hpure. reflexivity.
Qed.


Lemma gold_step_refines (a10 a15 a20 : loc) (b : gold_buckets) (v : value)
  (u : gold_update) (h : heap) (Q : result unit -> heap -> Prop) :
  (List.length old <= a10)%nat -> (a10 < a15)%nat -> (a15 < a20)%nat ->
  gold_update_at old v u ->
  unchanged old h ->
  nth_error h a10 = Some (OList (map VInt (gold_at_10 b))) ->
  nth_error h a15 = Some (OList (map VInt (gold_at_15 b))) ->
  nth_error h a20 = Some (OList (map VInt (gold_at_20 b))) ->
  (forall h',
      unchanged old h' ->
      nth_error h' a10 = Some (OList (map VInt (gold_at_10 (Lol.gold_step b u)))) ->
      nth_error h' a15 = Some (OList (map VInt (gold_at_15 (Lol.gold_step b u)))) ->
      nth_error h' a20 = Some (OList (map VInt (gold_at_20 (Lol.gold_step b u)))) ->
      Q (Ok tt) h') ->
  runs (LolStore.gold_step (VRef a10) (VRef a15) (VRef a20) v) Q h.
Proof.
  intros Hlo H12 H23 (d & Hd & Hstamp & Hdiff) Hold H10 H15 H20 HQ.
  unfold LolStore.gold_step.
  apply runs_bind.
  eapply runs_getitem; [eapply holds_unchanged; eassumption|exact Hstamp|].
  apply runs_bind.
  eapply runs_getitem; [eapply holds_unchanged; eassumption|exact Hdiff|].
  change (int_of (VInt (g_timestamp u))) with (Store.ret (g_timestamp u)).
  apply runs_bind, runs_ret.
  assert (L10 : (a10 < List.length h)%nat) by (apply nth_error_Some; congruence).
  assert (L15 : (a15 < List.length h)%nat) by (apply nth_error_Some; congruence).
  assert (L20 : (a20 < List.length h)%nat) by (apply nth_error_Some; congruence).
  unfold Lol.gold_step in HQ. cbv zeta in HQ.
  destruct ((9 * 60 <=? g_timestamp u) && (g_timestamp u <=? 11 * 60)).
  { eapply runs_append; [exact H10|]. apply HQ.
    - apply unchanged_replace; [exact Hold|exact Hlo].
    - cbn [gold_at_10]. rewrite map_app. apply nth_error_replace_same. exact L10.
    - cbn [gold_at_15]. rewrite nth_error_replace_other by lia. exact H15.
    - cbn [gold_at_20]. rewrite nth_error_replace_other by lia. exact H20. }
  destruct ((14 * 60 <=? g_timestamp u) && (g_timestamp u <=? 16 * 60)).
  { eapply runs_append; [exact H15|]. apply HQ.
    - apply unchanged_replace; [exact Hold|lia].
    - cbn [gold_at_10]. rewrite nth_error_replace_other by lia. exact H10.
    - cbn [gold_at_15]. rewrite map_app. apply nth_error_replace_same. exact L15.
    - cbn [gold_at_20]. rewrite nth_error_replace_other by lia. exact H20. }
  destruct ((19 * 60 <=? g_timestamp u) && (g_timestamp u <=? 21 * 60)).
  { eapply runs_append; [exact H20|]. apply HQ.
    - apply unchanged_replace; [exact Hold|lia].
    - cbn [gold_at_10]. rewrite nth_error_replace_other by lia. exact H10.
    - cbn [gold_at_15]. rewrite nth_error_replace_other by lia. exact H15.
    - cbn [gold_at_20]. rewrite map_app. apply nth_error_replace_same. exact L20. }
  apply runs_ret. apply HQ; assumption.
Qed.

Lemma gold_efficiency_refines (h : heap) (Q : result pyval -> heap -> Prop) :
  unchanged old h ->
  (forall h', unchanged old h' ->
              Q (Ok (Lol.calculate_gold_efficiency (Lol.init ms))) h') ->
  runs (LolStore.calculate_gold_efficiency self) Q h.
Proof.
  intros Hold HQ. unfold LolStore.calculate_gold_efficiency.
  pose proof (unchanged_length _ _ Hold) as Hlen.
  destruct Hms as (items & Hstored & Hitems).
  apply runs_bind, runs_alloc. apply runs_bind, runs_alloc.
  apply runs_bind, runs_alloc.
  rewrite !length_app. cbn [List.length].
  set (a10 := List.length h).
  replace (a10 + 1)%nat with (S a10) by lia.
  replace (S a10 + 1)%nat with (S (S a10)) by lia.
  set (h3 := ((h ++ [OList []]) ++ [OList []]) ++ [OList []]).
  assert (Hh3 : unchanged old h3) by (repeat apply unchanged_app; exact Hold).
  assert (E3 : h3 = h ++ [OList []; OList []; OList []])
    by (subst h3; rewrite <- !app_assoc; reflexivity).
  assert (H10 : nth_error h3 a10 = Some (OList []))
    by (rewrite E3, nth_error_app2 by lia; subst a10;
        rewrite Nat.sub_diag; reflexivity).
  assert (H15 : nth_error h3 (S a10) = Some (OList [])).
  { rewrite E3, nth_error_app2 by lia. subst a10.
    replace (S (List.length h) - List.length h)%nat with 1%nat by lia.
    reflexivity. }
  assert (H20 : nth_error h3 (S (S a10)) = Some (OList [])).
  { rewrite E3, nth_error_app2 by lia. subst a10.
    replace (S (S (List.length h)) - List.length h)%nat with 2%nat by lia.
    reflexivity. }
  clearbody h3. clear E3.
  apply runs_bind, runs_self_matches; [exact Hh3|].
  apply runs_bind.
  eapply (runs_for_in (lol_match_at old)
            (fun (b : gold_buckets) hh =>
               unchanged old hh
               /\ nth_error hh a10 = Some (OList (map VInt (gold_at_10 b)))
               /\ nth_error hh (S a10) = Some (OList (map VInt (gold_at_15 b)))
               /\ nth_error hh (S (S a10))
                  = Some (OList (map VInt (gold_at_20 b))))
            _ (fun _ _ => tt)
            (fun b m => fold_left Lol.gold_step (gold_updates m) b))
    with (gs := mk_buckets [] [] []).
  - eapply holds_unchanged; eassumption.
  - exact Hitems.
  - intros [] b v m hh (d & Hd & _ & _ & _ & _ & _ & _ & Hgold & _)
      (Hhh & B10 & B15 & B20).
    apply runs_bind, runs_alloc. apply runs_bind.
    eapply runs_get_optional; [exact Hd|exact Hgold|exact Hhh|].
    intros updates uitems Hupdates Huitems.
    eapply (runs_for_in (gold_update_at old)
              (fun (b : gold_buckets) hh =>
                 unchanged old hh
                 /\ nth_error hh a10 = Some (OList (map VInt (gold_at_10 b)))
                 /\ nth_error hh (S a10) = Some (OList (map VInt (gold_at_15 b)))
                 /\ nth_error hh (S (S a10))
                    = Some (OList (map VInt (gold_at_20 b))))
              _ (fun _ _ => tt) Lol.gold_step) with (gs := b).
    + exact Hupdates.
    + exact Huitems.
    + intros [] b0 e u h0 Hu (Hh0 & C10 & C15 & C20).
      apply (gold_step_refines a10 (S a10) (S (S a10)) b0 e u);
        try assumption; try lia.
      intros h' ? ? ? ?. split; [reflexivity|]. repeat split; assumption.
    + split; [apply unchanged_app; exact Hhh|].
      repeat split; (rewrite nth_error_app1;
                     [assumption|apply nth_error_Some; congruence]).
    + cbv beta. intros h' HI. split; [|exact HI].
      destruct (fold_left _ (gold_updates m) tt). reflexivity.
  - repeat split; assumption.
  - cbv beta. intros h4 (Hh4 & B10 & B15 & B20).
    change (fold_left (fun b m => fold_left Lol.gold_step (gold_updates m) b)
              ms (mk_buckets [] [] []))
      with (gold_loop (Lol.init ms)) in *.
    apply runs_bind.
    eapply runs_ints_of; [exists a10; split; [reflexivity|exact B10]|].
    apply runs_bind.
    eapply runs_ints_of; [exists (S a10); split; [reflexivity|exact B15]|].
    apply runs_bind.
    eapply runs_ints_of; [exists (S (S a10)); split; [reflexivity|exact B20]|].
    apply runs_ret. apply HQ. exact Hh4.
Qed.

Lemma count_if_fold {X : Type} (p : X -> bool) (l : list X) (n : Z) :
  fold_left (fun wins x => if p x then wins + 1 else wins) l n
  = n + Z.of_nat (List.length (filter p l)).
Proof.
  revert n. induction l as [|x l IH]; intros n; cbn [fold_left filter].
  - cbn. lia.
  - rewrite IH. destruct (p x); cbn [List.length]; lia.
Qed.

Lemma complete_analysis_refines (h : heap) (Q : result pyval -> heap -> Prop) :
  unchanged old h ->
  (forall h', unchanged old h' ->
              Q (Ok (Lol.get_complete_analysis (Lol.init ms))) h') ->
  runs (LolStore.get_complete_analysis self) Q h.
Proof.
  intros Hold HQ. unfold LolStore.get_complete_analysis.
  pose proof Hms as (items & Hstored & Hitems).
  assert (Hstored' : holds h stored (OList items))
    by (eapply holds_unchanged; eassumption).
  apply runs_bind, runs_self_matches; [exact Hold|].
  apply runs_bind.
  eapply (runs_for_in_reading (lol_match_at old) _
            (fun wins m => if won m then wins + 1 else wins));
    [exact Hstored'|exact Hitems| |].
  { intros s e m Q' (d & Hd & _ & Hwon & _) H.
    apply runs_bind.
    eapply runs_getitem; [eapply holds_unchanged; eassumption|exact Hwon|].
    cbn [truthy]. apply runs_bind, runs_ret, runs_ret. exact H. }
  rewrite count_if_fold, Z.add_0_l.
  apply runs_bind, runs_self_matches; [exact Hold|].
  apply runs_bind. eapply runs_len; [exact Hstored'|].
  rewrite (Forall2_length Hitems).
  apply runs_bind, runs_self_matches; [exact Hold|].
  apply runs_bind. eapply runs_truthy_list; [exact Hstored'|].
  apply runs_bind.
  assert (Hmean :
            forall Q' : result num -> heap -> Prop,
              Q' (Ok (mean_or_zero (map duration ms))) h ->
              runs (if match items with [] => false | _ :: _ => true end
                    then
                      Store.bind (getattr self "matches")
                        (fun matches =>
                           Store.bind
                             (for_in matches
                                (fun acc m =>
                                   Store.bind (getitem m "duration")
                                     (fun duration =>
                                        Store.bind (int_of duration)
                                          (fun seconds =>
                                             Store.ret (acc ++ [seconds]))))
                                [])
                             (fun durations => Store.ret (np_mean durations)))
                    else Store.ret (NInt 0)) Q' h).
  { intros Q' H. destruct items as [|v0 vs].
    - apply runs_ret. rewrite (Forall2_nil_left _ _ Hitems) in H. exact H.
    - apply runs_bind, runs_self_matches; [exact Hold|].
      apply runs_bind.
      eapply (runs_for_in_reading (lol_match_at old) _
                (fun acc m => acc ++ [duration m]));
        [exact Hstored'|exact Hitems| |].
      { intros s e m Q'' (d & Hd & _ & _ & Hduration & _) H'.
        apply runs_bind.
        eapply runs_getitem;
          [eapply holds_unchanged; eassumption|exact Hduration|].
        change (int_of (VInt (duration m))) with (Store.ret (duration m)).
        apply runs_bind, runs_ret, runs_ret. exact H'. }
      rewrite fold_left_snoc. apply runs_ret.
      destruct (Forall2_cons_left _ _ _ _ Hitems) as (m0 & ms' & E).
      cbn [app]. rewrite E in *. exact H. }
  apply Hmean. clear Hmean.
  apply runs_bind,
    runs_self_team_name; [exact Hold|].
  cbn [plain]. apply runs_bind, runs_ret.
  apply runs_bind.
  apply jungle_proximity_refines; [exact Hold|].
  intros h1 Hh1. apply runs_bind.
  apply objective_control_refines; [exact Hh1|].
  intros h2 Hh2. apply runs_bind.
  apply gold_efficiency_refines; [exact Hh2|].
  intros h3 Hh3. apply runs_ret. apply HQ. exact Hh3.
Qed.

End LolRefinement.

Section ValorantRefinement.
Import Store PyStore Schema Valorant.

Variable old : heap.
Variables self stored : value.
Variable ms : list val_match.
Hypothesis Hself : analyzer_at old self stored (team_name (Valorant.init ms)).
Hypothesis Hms : list_of (val_match_at old) old stored ms.

Lemma runs_val_matches (h : heap) (Q : result value -> heap -> Prop) :
  unchanged old h -> Q (Ok stored) h -> runs (getattr self "matches") Q h.
Proof.
  intros Hold H. destruct Hself as (d & Hd & Hm & _).
  eapply runs_getattr; [eapply holds_unchanged; eassumption|exact Hm|exact H].
Qed.

Lemma is_team_refines (v : value) (d : list (string * value)) (key label : string)
  (h : heap) (Q : result bool -> heap -> Prop) :
  holds old v (ODict d) -> dict_get key d = Some (VStr label) ->
  unchanged old h ->
  Q (Ok (String.eqb label (team_name (Valorant.init ms)))) h ->
  runs (ValorantStore.is_team self v key) Q h.
Proof.
  intros Hd Hkey Hold H. unfold ValorantStore.is_team.
  apply runs_bind.
  eapply runs_getitem; [eapply holds_unchanged; eassumption|exact Hkey|].
  apply runs_bind.
  destruct Hself as (ds & Hds & _ & Hn).
  eapply runs_getattr; [eapply holds_unchanged; eassumption|exact Hn|].
  cbn [equals]. apply runs_ret. exact H.
Qed.

(** The nested loop over the rounds, with what the body keeps in the
    store beside the old objects described by [I]. *)
Lemma for_rounds_refines {S G : Type} (I : G -> heap -> Prop)
  (body : S -> value -> Store S) (f : S -> round_data -> S)
  (g : G -> round_data -> G) (s : S) (gs : G) (h : heap)
  (Q : result S -> heap -> Prop) :
  (forall gs h o, I gs h -> I gs (h ++ [o])) ->
  (forall s gs v r h,
      round_at old v r -> unchanged old h -> I gs h ->
      runs (body s v)
           (fun res h' => res = Ok (f s r) /\ unchanged old h' /\ I (g gs r) h')
           h) ->
  unchanged old h -> I gs h ->
  (forall h', unchanged old h' ->
              I (Valorant.for_rounds g (Valorant.init ms) gs) h' ->
              Q (Ok (Valorant.for_rounds f (Valorant.init ms) s)) h') ->
  runs (ValorantStore.for_rounds self body s) Q h.
Proof.
  intros Hstable Hbody Hold HI HQ. unfold ValorantStore.for_rounds.
  destruct Hms as (items & Hstored & Hitems).
  apply runs_bind, runs_val_matches; [exact Hold|].
  eapply (runs_for_in (val_match_at old)
            (fun gs hh => unchanged old hh /\ I gs hh) _
            (fun s m => fold_left f (rounds m) s)
            (fun gs m => fold_left g (rounds m) gs)) with (gs := gs).
  - eapply holds_unchanged; eassumption.
  - exact Hitems.
  - intros s0 gs0 v m hh (d & rounds_v & Hd & _ & _ & Hrounds & ritems & Hrv & Hritems)
      [Hhh HIhh].
    apply runs_bind, runs_alloc. apply runs_bind.
    eapply runs_get;
      [apply holds_app; eapply holds_unchanged; eassumption|].
    rewrite Hrounds.
    eapply (runs_for_in (round_at old)
              (fun gs hh => unchanged old hh /\ I gs hh) _ f g) with (gs := gs0).
    + apply holds_app. eapply holds_unchanged; eassumption.
    + exact Hritems.
    + intros s1 gs1 e r h1 Hr [Hh1 HIh1].
      eapply runs_weaken; [apply (Hbody s1 gs1 e r h1 Hr Hh1 HIh1)|].
      cbv beta. intros res h' (-> & Hh' & HIh'). auto.
    + split; [apply unchanged_app; exact Hhh|apply Hstable; exact HIhh].
    + cbv beta. intros h' HIh'. split; [reflexivity|exact HIh'].
  - split; assumption.
  - cbv beta. intros h' [Hh' HIh']. apply HQ; assumption.
Qed.

(** The nested loop over the rounds when the body keeps nothing in the
    store. *)
Lemma for_rounds_reading {S : Type} (body : S -> value -> Store S)
  (f : S -> round_data -> S) (s : S) (h : heap)
  (Q : result S -> heap -> Prop) :
  (forall s v r h (Q' : result S -> heap -> Prop),
      round_at old v r -> unchanged old h ->
      (forall h', unchanged old h' -> Q' (Ok (f s r)) h') ->
      runs (body s v) Q' h) ->
  unchanged old h ->
  (forall h', unchanged old h' ->
              Q (Ok (Valorant.for_rounds f (Valorant.init ms) s)) h') ->
  runs (ValorantStore.for_rounds self body s) Q h.
Proof.
  intros Hbody Hold HQ.
  eapply (for_rounds_refines (fun (_ : unit) _ => True) body f (fun _ _ => tt))
    with (gs := tt).
  - trivial.
  - intros s0 gs0 v r h0 Hr Hh0 _. apply (Hbody s0 v r); [exact Hr|exact Hh0|].
    intros h' Hh'. auto.
  - exact Hold.
  - trivial.
  - intros h' Hh' _. apply HQ. exact Hh'.
Qed.

Lemma opening_duel_refines (h : heap) (Q : result pyval -> heap -> Prop) :
  unchanged old h ->
  (forall h', unchanged old h' ->
              Q (Ok (Valorant.calculate_opening_duel_winrate (Valorant.init ms)))
                h') ->
  runs (ValorantStore.calculate_opening_duel_winrate self) Q h.
Proof.
  intros Hold HQ. unfold ValorantStore.calculate_opening_duel_winrate.
  apply runs_bind.
  apply (for_rounds_reading _
           (Valorant.duel_step (team_name (Valorant.init ms))));
    [|exact Hold|].
  { intros a v r h0 Q' (d & Hd & Hwinner & Hfb & _) Hh0 HQ'.
    unfold ValorantStore.duel_step. apply runs_bind.
    eapply is_team_refines; [exact Hd|exact Hfb|exact Hh0|].
    apply runs_bind.
    eapply is_team_refines; [exact Hd|exact Hwinner|exact Hh0|].
    apply runs_ret. apply HQ'. exact Hh0. }
  intros h1 Hh1. apply runs_ret. apply HQ. exact Hh1.
Qed.

Lemma eco_conversion_refines (h : heap) (Q : result pyval -> heap -> Prop) :
  unchanged old h ->
  (forall h', unchanged old h' ->
              Q (Ok (Valorant.calculate_eco_conversion (Valorant.init ms))) h') ->
  runs (ValorantStore.calculate_eco_conversion self) Q h.
Proof.
  intros Hold HQ. unfold ValorantStore.calculate_eco_conversion.
  apply runs_bind.
  apply (for_rounds_reading _
           (Valorant.eco_step (team_name (Valorant.init ms))));
    [|exact Hold|].
  { intros a v r h0 Q' (d & Hd & Hwinner & _ & Hloadout & _) Hh0 HQ'.
    unfold ValorantStore.eco_step. apply runs_bind.
    eapply runs_getitem; [eapply holds_unchanged; eassumption|exact Hloadout|].
    apply runs_bind.
    eapply is_team_refines; [exact Hd|exact Hwinner|exact Hh0|].
    change (int_of (VInt (team_loadout_value r)))
      with (Store.ret (team_loadout_value r)).
    apply runs_bind, runs_ret. apply runs_ret. apply HQ'. exact Hh0. }
  intros h1 Hh1. apply runs_ret. apply HQ. exact Hh1.
Qed.

End ValorantRefinement.

Section NumberRules.
Import Store PyStore Schema.

Lemma numbers_get (key : string) (d : list (string * num)) :
  dict_get key (numbers d) = option_map VNum (dict_get key d).
Proof.
  induction d as [|[k n] d IH]; [reflexivity|]. cbn.
  destruct (String.eqb key k); [reflexivity|exact IH].
Qed.

Lemma numbers_set (key : string) (n : num) (d : list (string * num)) :
  dict_set key (VNum n) (numbers d) = numbers (dict_set key n d).
Proof.
  induction d as [|[k m] d IH]; [reflexivity|]. cbn.
  destruct (String.eqb key k); [reflexivity|]. cbn. f_equal. exact IH.
Qed.

Lemma shown_get (key : string) (d : list (string * num)) :
  dict_get key (map (fun kv => (fst kv, PNum (snd kv))) d)
  = option_map PNum (dict_get key d).
Proof.
  induction d as [|[k n] d IH]; [reflexivity|]. cbn.
  destruct (String.eqb key k); [reflexivity|exact IH].
Qed.

Lemma shown_set (key : string) (n : num) (d : list (string * num)) :
  dict_set key (PNum n) (map (fun kv => (fst kv, PNum (snd kv))) d)
  = map (fun kv => (fst kv, PNum (snd kv))) (dict_set key n d).
Proof.
  induction d as [|[k m] d IH]; [reflexivity|]. cbn.
  destruct (String.eqb key k); [reflexivity|]. cbn. f_equal. exact IH.
Qed.

Lemma counts_numbers (c : counter) :
  counts c = numbers (map (fun kv => (fst kv, NInt (snd kv))) c).
Proof. unfold counts, numbers. rewrite map_map. reflexivity. Qed.

Lemma runs_plain_numbers (d : value) (nums : list (string * num))
  (Q : result (list (string * pyval)) -> heap -> Prop) (h : heap) :
  holds h d (ODict (numbers nums)) ->
  Q (Ok (map (fun kv => (fst kv, PNum (snd kv))) nums)) h ->
  runs (plain_entries d) Q h.
Proof.
  intros Hd H. unfold plain_entries. apply runs_bind.
  eapply runs_entries_of; [exact Hd|].
  eapply (runs_for_each (fun e x => e = (fst x, VNum (snd x)))
            (fun (_ : unit) h' => h' = h) _
            (fun acc x => acc ++ [(fst x, PNum (snd x))]) (fun _ _ => tt))
    with (gs := tt) (xs := nums).
  - intros s gs e [k n] h0 -> ->. cbn. apply runs_bind. apply runs_ret.
    apply runs_ret. split; reflexivity.
  - unfold numbers. clear. induction nums as [|x nums IH]; cbn [map];
      constructor; auto.
  - reflexivity.
  - intros h' ->. rewrite fold_left_snoc. exact H.
Qed.

End NumberRules.

Section SiteBiasRefinement.
Import Store PyStore Schema Valorant.

Variable old : heap.
Variables self stored : value.
Variable ms : list val_match.
Hypothesis Hself : analyzer_at old self stored (team_name (Valorant.init ms)).
Hypothesis Hms : list_of (val_match_at old) old stored ms.

Lemma site_step_refines (sa sw : loc) (c1 c2 : counter) (v : value)
  (r : round_data) (h : heap) (Q : result unit -> heap -> Prop) :
  (List.length old <= sa)%nat -> (sa < sw)%nat ->
  round_at old v r -> unchanged old h ->
  nth_error h sa = Some (ODict (counts c1)) ->
  nth_error h sw = Some (ODict (counts c2)) ->
  (forall h',
      unchanged old h' ->
      nth_error h' sa
      = Some (ODict (counts (fst (Valorant.site_step
                                    (team_name (Valorant.init ms)) (c1, c2) r)))) ->
      nth_error h' sw
      = Some (ODict (counts (snd (Valorant.site_step
                                    (team_name (Valorant.init ms)) (c1, c2) r)))) ->
      Q (Ok tt) h') ->
  runs (ValorantStore.site_step self (VRef sa) (VRef sw) v) Q h.
Proof.
  intros Hlo Hlt (d & Hd & Hwinner & _ & _ & Hsite) Hold Ha Hw HQ.
  unfold ValorantStore.site_step, Valorant.site_step, truthy_site in *.
  apply runs_bind.
  eapply runs_get; [eapply holds_unchanged; eassumption|].
  assert (La : (sa < List.length h)%nat) by (apply nth_error_Some; congruence).
  assert (Lw : (sw < List.length h)%nat) by (apply nth_error_Some; congruence).
  destruct (spike_site r) as [s|]; cbn [site_at] in Hsite.
  - rewrite Hsite. cbn [truthy]. apply runs_bind, runs_ret.
    destruct (String.eqb s ""); cbn [negb].
    { apply runs_ret. apply HQ; assumption. }
    cbn [str_of]. apply runs_bind, runs_ret.
    apply runs_bind. eapply runs_counter_add1; [exact Ha|].
    assert (Hold' : unchanged old
                      (replace sa (ODict (counts (counter_incr s c1))) h))
      by (apply unchanged_replace; assumption).
    apply runs_bind.
    eapply is_team_refines; [exact Hself|exact Hd|exact Hwinner|exact Hold'|].
    destruct (String.eqb (winner r) (team_name (Valorant.init ms))).
    + eapply runs_counter_add1.
      { rewrite nth_error_replace_other by lia. exact Hw. }
      apply HQ; cbn [fst snd].
      * apply unchanged_replace; [exact Hold'|lia].
      * rewrite nth_error_replace_other by lia.
        apply nth_error_replace_same. exact La.
      * apply nth_error_replace_same. rewrite length_replace. exact Lw.
    + apply runs_ret. apply HQ; cbn [fst snd].
      * exact Hold'.
      * apply nth_error_replace_same. exact La.
      * rewrite nth_error_replace_other by lia. exact Hw.
  - assert (E : match dict_get "spike_site" d with
                | Some v0 => v0
                | None => VNone
                end = VNone)
      by (destruct Hsite as [-> | ->]; reflexivity).
    rewrite E. cbn [truthy]. apply runs_bind, runs_ret. apply runs_ret.
    apply HQ; assumption.
Qed.

Lemma site_rates_fold (site_attacks site_wins : counter) (total_attacks : Z)
  (sites : list string) (P W : list (string * num)) :
  fold_left (Valorant.site_rates_step site_attacks site_wins total_attacks)
    sites
    (map (fun kv => (fst kv, PNum (snd kv))) P,
     map (fun kv => (fst kv, PNum (snd kv))) W)
  = (map (fun kv => (fst kv, PNum (snd kv)))
       (fst (fold_left
               (fun gs site =>
                  (dict_set ("site_" +++ site +++ "_percent")
                     (if total_attacks >? 0
                      then py_round
                             (flt (inject_Z (counter_get site site_attacks)
                                   / inject_Z total_attacks * 100)) 1
                      else NInt 0) (fst gs),
                   dict_set ("site_" +++ site +++ "_winrate")
                     (if counter_get site site_attacks >? 0
                      then py_round
                             (flt (inject_Z (counter_get site site_wins)
                                   / inject_Z (counter_get site site_attacks)
                                   * 100)) 1
                      else NInt 0) (snd gs)))
               sites (P, W))),
     map (fun kv => (fst kv, PNum (snd kv)))
       (snd (fold_left
               (fun gs site =>
                  (dict_set ("site_" +++ site +++ "_percent")
                     (if total_attacks >? 0
                      then py_round
                             (flt (inject_Z (counter_get site site_attacks)
                                   / inject_Z total_attacks * 100)) 1
                      else NInt 0) (fst gs),
                   dict_set ("site_" +++ site +++ "_winrate")
                     (if counter_get site site_attacks >? 0
                      then py_round
                             (flt (inject_Z (counter_get site site_wins)
                                   / inject_Z (counter_get site site_attacks)
                                   * 100)) 1
                      else NInt 0) (snd gs)))
               sites (P, W)))).
Proof.
  revert P W. induction sites as [|site sites IH]; intros P W;
    [reflexivity|].
  cbn [fold_left fst snd]. rewrite <- IH. f_equal.
  unfold Valorant.site_rates_step. rewrite <- !shown_set. f_equal.
  - f_equal. destruct (total_attacks >? 0); reflexivity.
  - f_equal. destruct (counter_get site site_attacks >? 0); reflexivity.
Qed.


Lemma site_bias_refines (h : heap) (Q : result pyval -> heap -> Prop) :
  unchanged old h ->
  (forall h', unchanged old h' ->
              Q (Valorant.calculate_site_bias (Valorant.init ms)) h') ->
  runs (ValorantStore.calculate_site_bias self) Q h.
Proof.
  intros Hold HQ. unfold ValorantStore.calculate_site_bias.
  pose proof (unchanged_length _ _ Hold) as Hlen.
  assert (Hpure : forall r h',
             unchanged old h' ->
             Valorant.calculate_site_bias (Valorant.init ms) = r ->
             Q r h') by (intros r h' Hh' <-; apply HQ; exact Hh').
  clear HQ.
  apply runs_bind, runs_alloc. apply runs_bind, runs_alloc.
  rewrite length_app. cbn [List.length].
  set (sa := List.length h).
  replace (sa + 1)%nat with (S sa) by lia.
  set (h2 := (h ++ [ODict []]) ++ [ODict []]).
  assert (Hh2 : unchanged old h2) by (repeat apply unchanged_app; exact Hold).
  assert (E2 : h2 = h ++ [ODict []; ODict []])
    by (subst h2; rewrite <- !app_assoc; reflexivity).
  assert (Ha : nth_error h2 sa = Some (ODict (counts [])))
    by (rewrite E2, nth_error_app2 by lia; subst sa;
        rewrite Nat.sub_diag; reflexivity).
  assert (Hw : nth_error h2 (S sa) = Some (ODict (counts []))).
  { rewrite E2, nth_error_app2 by lia. subst sa.
    replace (S (List.length h) - List.length h)%nat with 1%nat by lia.
    reflexivity. }
  clearbody h2. clear E2.
  apply runs_bind.
  eapply (for_rounds_refines old self stored ms Hself Hms
            (fun (gs : counter * counter) hh =>
               nth_error hh sa = Some (ODict (counts (fst gs)))
               /\ nth_error hh (S sa) = Some (ODict (counts (snd gs))))
            _ (fun _ _ => tt)
            (Valorant.site_step (team_name (Valorant.init ms))))
    with (gs := ([], [])).
  - intros gs hh o [H1 H2].
    split; (rewrite nth_error_app1; [assumption|apply nth_error_Some; congruence]).
  - intros [] [c1 c2] v r hh Hr Hhh [H1 H2]. cbn [fst snd] in *.
    eapply site_step_refines; try eassumption; try lia.
    intros h' ? ? ?. split; [reflexivity|]. split; [assumption|].
    split; assumption.
  - exact Hh2.
  - split; assumption.
  - intros h3 Hh3 [Ha3 Hw3].
    change (Valorant.for_rounds
              (Valorant.site_step (team_name (Valorant.init ms)))
              (Valorant.init ms) ([], []))
      with (site_loop (Valorant.init ms)) in *.
    unfold Valorant.calculate_site_bias in Hpure.
    destruct (site_loop (Valorant.init ms)) as [site_attacks site_wins].
    cbn [fst snd] in *.
    apply runs_bind.
    eapply runs_counts_of; [exists sa; split; [reflexivity|exact Ha3]|].
    pose proof (unchanged_length _ _ Hh3) as Hlen3.
    assert (La3 : (sa < List.length h3)%nat)
      by (apply nth_error_Some; congruence).
    assert (Lw3 : (S sa < List.length h3)%nat)
      by (apply nth_error_Some; congruence).
    apply runs_bind, runs_alloc. apply runs_bind, runs_alloc.
    rewrite length_app. cbn [List.length].
    set (sp := List.length h3) in *.
    replace (sp + 1)%nat with (S sp) by lia.
    set (h5 := (h3 ++ [ODict []]) ++ [ODict []]).
    assert (Hh5 : unchanged old h5) by (repeat apply unchanged_app; exact Hh3).
    assert (E5 : h5 = h3 ++ [ODict []; ODict []])
      by (subst h5; rewrite <- !app_assoc; reflexivity).
    assert (Ha5 : nth_error h5 sa = Some (ODict (counts site_attacks)))
      by (rewrite E5, nth_error_app1 by lia; exact Ha3).
    assert (Hw5 : nth_error h5 (S sa) = Some (ODict (counts site_wins)))
      by (rewrite E5, nth_error_app1 by lia; exact Hw3).
    assert (Hp5 : nth_error h5 sp = Some (ODict (numbers [])))
      by (rewrite E5, nth_error_app2 by lia; subst sp;
          rewrite Nat.sub_diag; reflexivity).
    assert (Hr5 : nth_error h5 (S sp) = Some (ODict (numbers []))).
    { rewrite E5, nth_error_app2 by lia. subst sp.
      replace (S (List.length h3) - List.length h3)%nat with 1%nat by lia.
      reflexivity. }
    clearbody h5. clear E5.
    set (total_attacks := sumZ (map snd site_attacks)) in *.
    pose proof (site_rates_fold site_attacks site_wins total_attacks
                  ["A"; "B"; "C"] [] []) as Efold.
    change (map (fun kv : string * num => (fst kv, PNum (snd kv))) [])
      with (@nil (string * pyval)) in Efold.
    rewrite Efold in Hpure. clear Efold.
    apply runs_bind.
    match type of Hpure with
    | context [fold_left ?g ["A"; "B"; "C"] ([], [])] =>
        eapply (runs_for_each eq
                  (fun (gs : list (string * num) * list (string * num)) hh =>
                     unchanged old hh
                     /\ nth_error hh sa = Some (ODict (counts site_attacks))
                     /\ nth_error hh (S sa) = Some (ODict (counts site_wins))
                     /\ nth_error hh sp = Some (ODict (numbers (fst gs)))
                     /\ nth_error hh (S sp) = Some (ODict (numbers (snd gs))))
                  _ (fun _ _ => tt) g)
          with (gs := ([], [])) (xs := ["A"; "B"; "C"]);
          [| |repeat split; assumption|];
          [| repeat constructor |];
          [|destruct (fold_left g ["A"; "B"; "C"] ([], [])) as [P W]]
    end.
    + intros [] [P W] e site hh <- (Hhh & A & B & C & D). cbn [fst snd] in *.
      unfold ValorantStore.site_rates_step.
      apply runs_bind. eapply runs_get_count; [exact A|].
      apply runs_bind. eapply runs_get_count; [exact B|].
      assert (Lp : (sp < List.length hh)%nat)
        by (apply nth_error_Some; congruence).
      assert (Lr : (S sp < List.length hh)%nat)
        by (apply nth_error_Some; congruence).
      apply runs_bind. eapply runs_setitem; [exact C|].
      eapply runs_setitem.
      { rewrite nth_error_replace_other by lia. exact D. }
      rewrite !numbers_set.
      split; [reflexivity|]. split; [|split; [|split; [|split]]].
      * apply unchanged_replace; [apply unchanged_replace|]; [exact Hhh|lia..].
      * rewrite !nth_error_replace_other by lia. exact A.
      * rewrite !nth_error_replace_other by lia. exact B.
      * rewrite nth_error_replace_other by lia.
        apply nth_error_replace_same. exact Lp.
      * apply nth_error_replace_same. rewrite length_replace. exact Lr.
    + cbv beta. cbn [fst snd] in *.
      intros h6 (Hh6 & Ha6 & Hw6 & Hp6 & Hr6).
      apply runs_bind.
      eapply runs_truthy_dict; [exists sa; split; [reflexivity|exact Ha6]|].
      cbv beta iota zeta.
      assert (Efav : (if match counts site_attacks with
                         | [] => false
                         | _ :: _ => true
                         end
                      then counter_argmax "" site_attacks
                      else "Unknown")
                     = counter_argmax "Unknown" site_attacks)
        by (destruct site_attacks as [|[? ?] ?]; reflexivity).
      rewrite !Efav. clear Efav.
      set (favorite_site := counter_argmax "Unknown" site_attacks) in *.
      apply runs_bind.
      eapply runs_plain_numbers; [exists sp; split; [reflexivity|exact Hp6]|].
      apply runs_bind.
      eapply runs_plain_numbers; [exists (S sp); split; [reflexivity|exact Hr6]|].
      apply runs_bind. eapply runs_get_count; [exact Ha6|].
      apply runs_bind.
      eapply runs_plain_numbers.
      { exists sa. split; [reflexivity|]. rewrite <- counts_numbers. exact Ha6. }
      rewrite map_map. cbn [fst snd].
      unfold dict_getitem in Hpure. rewrite shown_get in Hpure.
      apply runs_bind.
      destruct (dict_get ("site_" +++ favorite_site +++ "_percent") P)
        as [n|] eqn:Efavorite.
      * eapply runs_getitem;
          [exists sp; split; [reflexivity|exact Hp6]| |].
        { rewrite numbers_get, Efavorite. reflexivity. }
        cbn [plain]. apply runs_bind, runs_ret. apply runs_ret.
        apply Hpure; [exact Hh6|]. reflexivity.
      * eapply runs_getitem_missing;
          [exists sp; split; [reflexivity|exact Hp6]| |].
        { rewrite numbers_get, Efavorite. reflexivity. }
        apply Hpure; [exact Hh6|]. reflexivity.
Qed.

End SiteBiasRefinement.

Section ValorantComplete.
Import Store PyStore Schema Valorant.

Variable old : heap.
Variables self stored : value.
Variable ms : list val_match.
Hypothesis Hself : analyzer_at old self stored (team_name (Valorant.init ms)).
Hypothesis Hms : list_of (val_match_at old) old stored ms.

Lemma val_complete_analysis_refines (h : heap)
  (Q : result pyval -> heap -> Prop) :
  unchanged old h ->
  (forall h', unchanged old h' ->
              Q (Valorant.get_complete_analysis (Valorant.init ms)) h') ->
  runs (ValorantStore.get_complete_analysis self) Q h.
Proof.
  intros Hold HQ. unfold ValorantStore.get_complete_analysis.
  pose proof Hms as (items & Hstored & Hitems).
  assert (Hstored' : holds h stored (OList items))
    by (eapply holds_unchanged; eassumption).
  assert (Hmatches : forall Q' : result value -> heap -> Prop,
             Q' (Ok stored) h -> runs (getattr self "matches") Q' h)
    by (intros Q' H; eapply runs_val_matches; eassumption).
  apply runs_bind, Hmatches.
  apply runs_bind. eapply runs_len; [exact Hstored'|].
  rewrite (Forall2_length Hitems).
  apply runs_bind, Hmatches.
  apply runs_bind.
  eapply (runs_for_in_reading (val_match_at old) _
            (fun wins m => if won m then wins + 1 else wins));
    [exact Hstored'|exact Hitems| |].
  { intros s e m Q' (d & rounds_v & Hd & _ & Hwon & _) H.
    apply runs_bind.
    eapply runs_getitem; [eapply holds_unchanged; eassumption|exact Hwon|].
    cbn [truthy]. apply runs_bind, runs_ret, runs_ret. exact H. }
  rewrite count_if_fold, Z.add_0_l.
  apply runs_bind, Hmatches.
  apply runs_bind.
  eapply (runs_for_in_reading (val_match_at old) _
            (fun total m => total + Z.of_nat (List.length (rounds m))));
    [exact Hstored'|exact Hitems| |].
  { intros s e m Q' (d & rounds_v & Hd & _ & _ & Hrounds & ritems & Hrv & Hritems) H.
    apply runs_bind.
    eapply runs_getitem; [eapply holds_unchanged; eassumption|exact Hrounds|].
    apply runs_bind.
    eapply runs_len; [eapply holds_unchanged; eassumption|].
    rewrite (Forall2_length Hritems). apply runs_ret. exact H. }
  rewrite <- (fold_left_mapped (fun m => Z.of_nat (List.length (rounds m))) Z.add).
  apply runs_bind, Hmatches.
  apply runs_bind.
  eapply (runs_for_in_reading (val_match_at old) _
            (fun total m =>
               total
               + Z.of_nat (List.length
                             (filter (fun r => String.eqb (winner r)
                                                 (team_name (Valorant.init ms)))
                                     (rounds m)))));
    [exact Hstored'|exact Hitems| |].
  { intros s e m Q' (d & rounds_v & Hd & _ & _ & Hrounds & ritems & Hrv & Hritems) H.
    apply runs_bind.
    eapply runs_getitem; [eapply holds_unchanged; eassumption|exact Hrounds|].
    apply runs_bind.
    eapply (runs_for_in_reading (round_at old) _
              (fun n r => if String.eqb (winner r) (team_name (Valorant.init ms))
                          then n + 1 else n));
      [eapply holds_unchanged; eassumption|exact Hritems| |].
    { intros n v r Q'' (dr & Hdr & Hwinner & _) H'.
      apply runs_bind.
      eapply is_team_refines; [exact Hself|exact Hdr|exact Hwinner|exact Hold|].
      apply runs_ret. exact H'. }
    rewrite count_if_fold, Z.add_0_l. apply runs_ret. exact H. }
  rewrite <- (fold_left_mapped
                (fun m => Z.of_nat (List.length
                             (filter (fun r => String.eqb (winner r)
                                                 (team_name (Valorant.init ms)))
                                     (rounds m)))) Z.add).
  apply runs_bind.
  destruct Hself as (ds & Hds & _ & Hn).
  eapply runs_getattr; [eapply holds_unchanged; eassumption|exact Hn|].
  cbn [plain]. apply runs_bind, runs_ret.
  apply runs_bind.
  eapply opening_duel_refines; [exact Hself|exact Hms|exact Hold|].
  intros h1 Hh1. apply runs_bind.
  eapply site_bias_refines; [exact Hself|exact Hms|exact Hh1|].
  intros h2 Hh2.
  assert (Hpure : forall r h',
             unchanged old h' ->
             Valorant.get_complete_analysis (Valorant.init ms) = r ->
             Q r h') by (intros r h' Hh' <-; apply HQ; exact Hh').
  unfold Valorant.get_complete_analysis in Hpure.
  destruct (Valorant.calculate_site_bias (Valorant.init ms)) as [site_bias|e].
  - apply runs_bind.
    eapply eco_conversion_refines; [exact Hself|exact Hms|exact Hh2|].
    intros h3 Hh3. apply runs_ret. apply Hpure; [exact Hh3|]. reflexivity.
  - apply Hpure; [exact Hh2|]. reflexivity.
Qed.

End ValorantComplete.

Section Initialisation.
Import Store PyStore Schema.

Lemma list_of_unchanged {X : Type} (R R' : value -> X -> Prop) (h h' : heap)
  (v : value) (xs : list X) :
  (forall e x, R e x -> R' e x) -> unchanged h h' ->
  list_of R h v xs -> list_of R' h' v xs.
Proof.
  intros HR Hh (items & Hv & Hitems). exists items. split.
  - eapply holds_unchanged; eassumption.
  - eapply Forall2_impl; [exact HR|exact Hitems].
Qed.

Lemma optional_list_of_unchanged {X : Type} (R R' : value -> X -> Prop)
  (h h' : heap) (d : list (string * value)) (key : string) (xs : list X) :
  (forall e x, R e x -> R' e x) -> unchanged h h' ->
  optional_list_of R h d key xs -> optional_list_of R' h' d key xs.
Proof.
  intros HR Hh [H|(v & Hv & Hlist)]; [left; exact H|right].
  exists v. split; [exact Hv|]. eapply list_of_unchanged; eassumption.
Qed.

Lemma objective_at_unchanged (h h' : heap) (v : value) (ev : Lol.objective) :
  unchanged h h' -> objective_at h v ev -> objective_at h' v ev.
Proof.
  intros Hh (d & Hd & H). exists d. split; [|exact H].
  eapply holds_unchanged; eassumption.
Qed.

Lemma gold_update_at_unchanged (h h' : heap) (v : value) (u : Lol.gold_update) :
  unchanged h h' -> gold_update_at h v u -> gold_update_at h' v u.
Proof.
  intros Hh (d & Hd & H). exists d. split; [|exact H].
  eapply holds_unchanged; eassumption.
Qed.

Lemma jungle_position_at_unchanged (h h' : heap) (v : value)
  (p : Lol.jungle_position) :
  unchanged h h' -> jungle_position_at h v p -> jungle_position_at h' v p.
Proof.
  intros Hh (d & Hd & H). exists d. split; [|exact H].
  eapply holds_unchanged; eassumption.
Qed.

Lemma lol_match_at_unchanged (h h' : heap) (v : value) (m : Lol.lol_match) :
  unchanged h h' -> lol_match_at h v m -> lol_match_at h' v m.
Proof.
  intros Hh (d & Hd & Ht & Hw & Hdu & H1 & H2 & H3 & H4 & H5).
  exists d. split; [eapply holds_unchanged; eassumption|].
  repeat split; try assumption;
    (eapply optional_list_of_unchanged; [|exact Hh|eassumption]);
    intros e x He;
    first [ eapply objective_at_unchanged; eassumption
          | eapply gold_update_at_unchanged; eassumption
          | eapply jungle_position_at_unchanged; eassumption ].
Qed.

Lemma round_at_unchanged (h h' : heap) (v : value) (r : Valorant.round_data) :
  unchanged h h' -> round_at h v r -> round_at h' v r.
Proof.
  intros Hh (d & Hd & H). exists d. split; [|exact H].
  eapply holds_unchanged; eassumption.
Qed.

Lemma val_match_at_unchanged (h h' : heap) (v : value) (m : Valorant.val_match) :
  unchanged h h' -> val_match_at h v m -> val_match_at h' v m.
Proof.
  intros Hh (d & rounds & Hd & Ht & Hw & Hr & Hrounds).
  exists d, rounds. split; [eapply holds_unchanged; eassumption|].
  repeat split; try assumption.
  eapply list_of_unchanged; [|exact Hh|exact Hrounds].
  intros e x He. eapply round_at_unchanged; eassumption.
Qed.

(** [__init__] on a list of the store: a new object with the two
    attributes, and nothing else written. *)
Lemma init_refines {X : Type} (R : value -> X -> Prop) (team_of : X -> string)
  (store : heap) (stored : value) (xs : list X)
  (Q : result value -> heap -> Prop) :
  (forall v x, R v x ->
     exists d, holds store v (ODict d)
               /\ dict_get "team" d = Some (VStr (team_of x))) ->
  list_of R store stored xs ->
  (forall self ready,
      unchanged store ready ->
      analyzer_at ready self stored
                  (match xs with
                   | x :: _ => team_of x
                   | [] => "Unknown"
                   end) ->
      Q (Ok self) ready) ->
  runs (LolStore.init stored) Q store.
Proof.
  intros HR (items & Hstored & Hitems) HQ. unfold LolStore.init, setattr.
  apply runs_bind, runs_alloc.
  set (l := List.length store).
  set (h1 := store ++ [ODict []]).
  assert (H1 : nth_error h1 l = Some (ODict []))
    by (subst h1 l; rewrite nth_error_app2 by lia;
        rewrite Nat.sub_diag; reflexivity).
  assert (Hh1 : unchanged store h1) by (apply unchanged_app, unchanged_refl).
  assert (L1 : (l < List.length h1)%nat) by (apply nth_error_Some; congruence).
  clearbody h1.
  apply runs_bind. eapply runs_setitem; [exact H1|].
  set (h2 := replace l (ODict (dict_set "matches" stored [])) h1).
  assert (H2 : nth_error h2 l = Some (ODict (dict_set "matches" stored [])))
    by (apply nth_error_replace_same; exact L1).
  assert (Hh2 : unchanged store h2)
    by (apply unchanged_replace; [exact Hh1|subst l; lia]).
  assert (L2 : (l < List.length h2)%nat) by (apply nth_error_Some; congruence).
  clearbody h2.
  apply runs_bind.
  eapply runs_truthy_list; [eapply holds_unchanged; eassumption|].
  apply runs_bind.
  assert (Hdone : forall name : string,
             runs (Store.bind (setitem (VRef l) "team_name" (VStr name))
                     (fun _ => Store.ret (VRef l)))
                  (fun r h' =>
                     exists self,
                       r = Ok self /\ unchanged store h'
                       /\ analyzer_at h' self stored name) h2).
  { intros name. apply runs_bind. eapply runs_setitem; [exact H2|].
    apply runs_ret. exists (VRef l). split; [reflexivity|]. split.
    - apply unchanged_replace; [exact Hh2|subst l; lia].
    - eexists. split; [exists l; split; [reflexivity|]|].
      + apply nth_error_replace_same. exact L2.
      + split; reflexivity. }
  destruct Hitems as [|v0 x0 vs xs' Hv0 Hrest].
  - apply runs_ret. eapply runs_weaken; [apply Hdone|].
    cbv beta. intros r h' (self & -> & Hh' & Hself). apply HQ; assumption.
  - destruct (HR v0 x0 Hv0) as (d & Hd & Hteam).
    apply runs_bind.
    eapply runs_index; [eapply holds_unchanged; eassumption|reflexivity|].
    eapply runs_getitem; [eapply holds_unchanged; eassumption|exact Hteam|].
    eapply runs_weaken; [apply Hdone|].
    cbv beta. intros r h' (self & -> & Hh' & Hself). apply HQ; assumption.
Qed.

End Initialisation.

(* ================================================================= *)
(** ** Purity of the analyzers                                        *)
(* ================================================================= *)

Section Purity.
Import Store PyStore Schema.

Lemma runs_attempt {A : Type} (m : Store A)
  (Q : result (result A) -> heap -> Prop) (h : heap) :
  runs m (fun r h' => Q (Ok r) h') h -> runs (attempt m) Q h.
Proof.
  intros (r & h' & E & H). exists (Ok r), h'. split; [|exact H].
  unfold attempt. rewrite E. reflexivity.
Qed.

Lemma runs_outcome {A : Type} (m : Store A) (r : result A) (P : heap -> Prop)
  (h : heap) :
  runs m (fun r' h' => r' = r /\ P h') h -> outcome m h = Some r.
Proof.
  intros (r' & h' & E & -> & _). unfold outcome. rewrite E. reflexivity.
Qed.

Lemma lol_call_refines (old : heap) (self stored : value)
  (ms : list Lol.lol_match) (c : LolStore.method) (h : heap)
  (Q : result pyval -> heap -> Prop) :
  analyzer_at old self stored (Lol.team_name (Lol.init ms)) ->
  list_of (lol_match_at old) old stored ms ->
  unchanged old h ->
  (forall h', unchanged old h' ->
              Q (Ok (match c with
                     | LolStore.JungleProximity =>
                         Lol.calculate_jungle_proximity (Lol.init ms)
                     | LolStore.ObjectiveControl =>
                         Lol.calculate_objective_control (Lol.init ms)
                     | LolStore.GoldEfficiency =>
                         Lol.calculate_gold_efficiency (Lol.init ms)
                     | LolStore.CompleteAnalysis =>
                         Lol.get_complete_analysis (Lol.init ms)
                     end)) h') ->
  runs (LolStore.call self c) Q h.
Proof.
  intros Hself Hms Hold HQ. destruct c; cbn [LolStore.call].
  - eapply jungle_proximity_refines; eassumption.
  - eapply objective_control_refines; eassumption.
  - eapply gold_efficiency_refines; eassumption.
  - eapply complete_analysis_refines; eassumption.
Qed.

Lemma valorant_call_refines (old : heap) (self stored : value)
  (ms : list Valorant.val_match) (c : ValorantStore.method) (h : heap)
  (Q : result pyval -> heap -> Prop) :
  analyzer_at old self stored (Valorant.team_name (Valorant.init ms)) ->
  list_of (val_match_at old) old stored ms ->
  unchanged old h ->
  (forall h', unchanged old h' ->
              Q (match c with
                 | ValorantStore.OpeningDuelWinrate =>
                     Ok (Valorant.calculate_opening_duel_winrate
                           (Valorant.init ms))
                 | ValorantStore.SiteBias =>
                     Valorant.calculate_site_bias (Valorant.init ms)
                 | ValorantStore.EcoConversion =>
                     Ok (Valorant.calculate_eco_conversion (Valorant.init ms))
                 | ValorantStore.CompleteAnalysis =>
                     Valorant.get_complete_analysis (Valorant.init ms)
                 end) h') ->
  runs (ValorantStore.call self c) Q h.
Proof.
  intros Hself Hms Hold HQ. destruct c; cbn [ValorantStore.call].
  - eapply opening_duel_refines; eassumption.
  - eapply site_bias_refines; eassumption.
  - eapply eco_conversion_refines; eassumption.
  - eapply val_complete_analysis_refines; eassumption.
Qed.

Lemma lol_run_steady (self : value) (ready : heap)
  (steady : LolStore.method -> result pyval) :
  (forall c h, unchanged ready h ->
     runs (LolStore.call self c)
          (fun r h' => r = steady c /\ unchanged ready h') h) ->
  forall calls h, unchanged ready h ->
    runs (LolStore.run self calls)
         (fun r h' => r = Ok (map steady calls) /\ unchanged ready h') h.
Proof.
  intros Hcall calls. induction calls as [|c calls IH]; intros h Hh.
  - apply runs_ret. split; [reflexivity|exact Hh].
  - cbn [LolStore.run map]. apply runs_bind, runs_attempt.
    eapply runs_weaken; [apply (Hcall c h Hh)|].
    cbv beta. intros r h1 [-> Hh1]. apply runs_bind.
    eapply runs_weaken; [apply (IH h1 Hh1)|].
    cbv beta. intros r h2 [-> Hh2]. apply runs_ret.
    split; [reflexivity|exact Hh2].
Qed.

Lemma valorant_run_steady (self : value) (ready : heap)
  (steady : ValorantStore.method -> result pyval) :
  (forall c h, unchanged ready h ->
     runs (ValorantStore.call self c)
          (fun r h' => r = steady c /\ unchanged ready h') h) ->
  forall calls h, unchanged ready h ->
    runs (ValorantStore.run self calls)
         (fun r h' => r = Ok (map steady calls) /\ unchanged ready h') h.
Proof.
  intros Hcall calls. induction calls as [|c calls IH]; intros h Hh.
  - apply runs_ret. split; [reflexivity|exact Hh].
  - cbn [ValorantStore.run map]. apply runs_bind, runs_attempt.
    eapply runs_weaken; [apply (Hcall c h Hh)|].
    cbv beta. intros r h1 [-> Hh1]. apply runs_bind.
    eapply runs_weaken; [apply (IH h1 Hh1)|].
    cbv beta. intros r h2 [-> Hh2]. apply runs_ret.
    split; [reflexivity|exact Hh2].
Qed.

(** A write is seen: [matches.append(...)] on the caller's list leaves
    a store in which that list is not what it was. *)
Lemma a_write_changes_the_store :
  exists h',
    append StoredSamples.lol_list (VRef 1%nat) StoredSamples.a_store
    = Some (Ok tt, h')
    /\ ~ unchanged StoredSamples.a_store h'.
Proof.
  eexists. split; [reflexivity|]. unfold unchanged. cbn. discriminate.
Qed.

(** C8.  Both aggregators are pure functions of their stored match
    list, on the store of objects where a method could overwrite the
    caller's list, a match dictionary or the analyzer's own attributes.
    Take any store and in it a match list that follows the schema.
    [__init__] returns a new analyzer and writes to no object of the
    store.  Then, for every sequence of public method calls on that
    analyzer, in any order and with any repetition (an exception of a
    call caught by the caller): the sequence runs to its end; every
    object that was in the store before the calls (the match list, each
    match and round dictionary, each list inside them, the analyzer) is
    in the store afterwards at its place and with its content; and each
    call returns or raises exactly what that method returns or raises
    when it is the first call on the fresh analyzer.  So the full
    analysis called twice gives the same output twice, and the order of
    the metric-group methods does not change their results. *)
Theorem analyzers_are_pure (store : heap) (lol_list valorant_list : value)
  (lol_matches : list Lol.lol_match)
  (valorant_matches : list Valorant.val_match) :
  list_of (lol_match_at store) store lol_list lol_matches ->
  list_of (val_match_at store) store valorant_list valorant_matches ->
  (exists self ready,
      LolStore.init lol_list store = Some (Ok self, ready)
      /\ unchanged store ready
      /\ forall calls,
           exists results final,
             LolStore.run self calls ready = Some (Ok results, final)
             /\ unchanged ready final
             /\ map Some results
                = map (fun c => outcome (LolStore.call self c) ready) calls)
  /\ (exists self ready,
         ValorantStore.init valorant_list store = Some (Ok self, ready)
         /\ unchanged store ready
         /\ forall calls,
              exists results final,
                ValorantStore.run self calls ready = Some (Ok results, final)
                /\ unchanged ready final
                /\ map Some results
                   = map (fun c => outcome (ValorantStore.call self c) ready)
                         calls).
Proof.
  intros Hlol Hval. split.
  - destruct (init_refines (lol_match_at store) Lol.team store lol_list
                lol_matches
                (fun r h' =>
                   exists self,
                     r = Ok self /\ unchanged store h'
                     /\ analyzer_at h' self lol_list
                                    (Lol.team_name (Lol.init lol_matches))))
      as (r & ready & Einit & self & -> & Hready & Hself).
    { intros v m (d & Hd & Ht & _). exists d. split; assumption. }
    { exact Hlol. }
    { intros self ready Hready Hself. exists self. repeat split; assumption. }
    exists self, ready. split; [exact Einit|]. split; [exact Hready|].
    assert (Hms : list_of (lol_match_at ready) ready lol_list lol_matches).
    { eapply list_of_unchanged; [|exact Hready|exact Hlol].
      intros e x He. eapply lol_match_at_unchanged; eassumption. }
    assert (Hcall : forall c h,
               unchanged ready h ->
               runs (LolStore.call self c)
                    (fun r h' =>
                       r = Ok (match c with
                               | LolStore.JungleProximity =>
                                   Lol.calculate_jungle_proximity
                                     (Lol.init lol_matches)
                               | LolStore.ObjectiveControl =>
                                   Lol.calculate_objective_control
                                     (Lol.init lol_matches)
                               | LolStore.GoldEfficiency =>
                                   Lol.calculate_gold_efficiency
                                     (Lol.init lol_matches)
                               | LolStore.CompleteAnalysis =>
                                   Lol.get_complete_analysis
                                     (Lol.init lol_matches)
                               end)
                       /\ unchanged ready h') h).
    { intros c h Hh. eapply lol_call_refines; [exact Hself|exact Hms|exact Hh|].
      intros h' Hh'. split; [reflexivity|exact Hh']. }
    intros calls.
    destruct (lol_run_steady self ready _ Hcall calls ready (unchanged_refl ready))
      as (r & final & Erun & -> & Hfinal).
    eexists _, final. split; [exact Erun|]. split; [exact Hfinal|].
    rewrite map_map. apply map_ext. intros c. symmetry.
    eapply runs_outcome. apply Hcall. apply unchanged_refl.
  - destruct (init_refines (val_match_at store) Valorant.team store
                valorant_list valorant_matches
                (fun r h' =>
                   exists self,
                     r = Ok self /\ unchanged store h'
                     /\ analyzer_at h' self valorant_list
                                    (Valorant.team_name
                                       (Valorant.init valorant_matches))))
      as (r & ready & Einit & self & -> & Hready & Hself).
    { intros v m (d & rounds & Hd & Ht & _). exists d. split; assumption. }
    { exact Hval. }
    { intros self ready Hready Hself. exists self. repeat split; assumption. }
    exists self, ready. split; [exact Einit|]. split; [exact Hready|].
    assert (Hms : list_of (val_match_at ready) ready valorant_list
                          valorant_matches).
    { eapply list_of_unchanged; [|exact Hready|exact Hval].
      intros e x He. eapply val_match_at_unchanged; eassumption. }
    assert (Hcall : forall c h,
               unchanged ready h ->
               runs (ValorantStore.call self c)
                    (fun r h' =>
                       r = match c with
                           | ValorantStore.OpeningDuelWinrate =>
                               Ok (Valorant.calculate_opening_duel_winrate
                                     (Valorant.init valorant_matches))
                           | ValorantStore.SiteBias =>
                               Valorant.calculate_site_bias
                                 (Valorant.init valorant_matches)
                           | ValorantStore.EcoConversion =>
                               Ok (Valorant.calculate_eco_conversion
                                     (Valorant.init valorant_matches))
                           | ValorantStore.CompleteAnalysis =>
                               Valorant.get_complete_analysis
                                 (Valorant.init valorant_matches)
                           end
                       /\ unchanged ready h') h).
    { intros c h Hh.
      eapply valorant_call_refines; [exact Hself|exact Hms|exact Hh|].
      intros h' Hh'. split; [reflexivity|exact Hh']. }
    intros calls.
    destruct (valorant_run_steady self ready _ Hcall calls ready
                (unchanged_refl ready))
      as (r & final & Erun & -> & Hfinal).
    eexists _, final. split; [exact Erun|]. split; [exact Hfinal|].
    rewrite map_map. apply map_ext. intros c. symmetry.
    eapply runs_outcome. apply Hcall. apply unchanged_refl.
Qed.

Lemma analyzers_are_pure_witness :
  (exists self ready,
      LolStore.init StoredSamples.lol_list StoredSamples.a_store
      = Some (Ok self, ready)
      /\ unchanged StoredSamples.a_store ready
      /\ forall calls,
           exists results final,
             LolStore.run self calls ready = Some (Ok results, final)
             /\ unchanged ready final
             /\ map Some results
                = map (fun c => outcome (LolStore.call self c) ready) calls)
  /\ (exists self ready,
         ValorantStore.init StoredSamples.valorant_list StoredSamples.a_store
         = Some (Ok self, ready)
         /\ unchanged StoredSamples.a_store ready
         /\ forall calls,
              exists results final,
                ValorantStore.run self calls ready = Some (Ok results, final)
                /\ unchanged ready final
                /\ map Some results
                   = map (fun c => outcome (ValorantStore.call self c) ready)
                         calls).
Proof.
  apply (analyzers_are_pure StoredSamples.a_store StoredSamples.lol_list
           StoredSamples.valorant_list StoredSamples.lol_matches
           StoredSamples.valorant_matches).
  - exists [VRef 1%nat]. split; [exists 0%nat; split; reflexivity|].
    constructor; [|constructor].
    eexists. split; [exists 1%nat; split; reflexivity|].
    split; [reflexivity|]. split; [reflexivity|]. split; [reflexivity|].
    split; [|split; [|split; [|split]]].
    + right. eexists. split; [reflexivity|].
      exists [VRef 3%nat]. split; [exists 2%nat; split; reflexivity|].
      constructor; [|constructor].
      eexists. split; [exists 3%nat; split; reflexivity|reflexivity].
    + left. split; reflexivity.
    + left. split; reflexivity.
    + right. eexists. split; [reflexivity|].
      exists [VRef 5%nat]. split; [exists 4%nat; split; reflexivity|].
      constructor; [|constructor].
      eexists. split; [exists 5%nat; split; reflexivity|].
      split; reflexivity.
    + right. eexists. split; [reflexivity|].
      exists [VRef 7%nat]. split; [exists 6%nat; split; reflexivity|].
      constructor; [|constructor].
      eexists. split; [exists 7%nat; split; reflexivity|].
      repeat split; reflexivity.
  - exists [VRef 9%nat]. split; [exists 8%nat; split; reflexivity|].
    constructor; [|constructor].
    eexists _, _. split; [exists 9%nat; split; reflexivity|].
    split; [reflexivity|]. split; [reflexivity|]. split; [reflexivity|].
    exists [VRef 11%nat]. split; [exists 10%nat; split; reflexivity|].
    constructor; [|constructor].
    eexists. split; [exists 11%nat; split; reflexivity|].
    repeat split; reflexivity.
Defined.

End Purity.


(* ================================================================= *)
(** ** Reasoning about generator computations                         *)
(* ================================================================= *)

Section GenRules.
Context {A B : Type}.

Lemma returns_ret (a : A) (P : A -> Prop) : P a -> returns (ret a) P.
Proof. intros H r. exists a, r. split; [reflexivity|exact H]. Qed.

Lemma returns_bind (m : Gen A) (f : A -> Gen B) (P : A -> Prop) (Q : B -> Prop) :
  returns m P -> (forall a, P a -> returns (f a) Q) -> returns (bind m f) Q.
Proof.
  intros Hm Hf r. destruct (Hm r) as (a & r1 & E & Ha).
  destruct (Hf a Ha r1) as (b & r2 & E2 & Hb).
  exists b, r2. unfold bind. rewrite E. auto.
Qed.

Lemma returns_weaken (m : Gen A) (P Q : A -> Prop) :
  returns m P -> (forall a, P a -> Q a) -> returns m Q.
Proof.
  intros Hm HPQ r. destruct (Hm r) as (a & r1 & E & Ha).
  exists a, r1. auto.
Qed.

Lemma returns_lift (a : A) (P : A -> Prop) : P a -> returns (lift (Ok a)) P.
Proof. intros H r. exists a, r. split; [reflexivity|exact H]. Qed.

Lemma raises_raise (e : exn) : raises (@raise A e) e.
Proof. intros r. reflexivity. Qed.

Lemma raises_lift (e : exn) : raises (@lift A (Raise e)) e.
Proof. intros r. reflexivity. Qed.

Lemma raises_bind (m : Gen A) (f : A -> Gen B) (e : exn) :
  raises m e -> raises (bind m f) e.
Proof. intros H r. unfold bind. rewrite (H r). reflexivity. Qed.

Lemma returns_not_raises (m : Gen A) (P : A -> Prop) (e : exn) :
  returns m P -> ~ raises m e.
Proof.
  intros Hm Hr. destruct (Hm (mk_rng (fun _ => 0) 0)) as (a & r1 & E & _).
  rewrite Hr in E. discriminate.
Qed.
End GenRules.

Section RandomRules.

Lemma returns_draw : returns draw (fun _ => True).
Proof. intros r. eexists _, _. split; [reflexivity|exact I]. Qed.

Lemma returns_random : returns random (fun _ => True).
Proof.
  unfold random. eapply returns_bind; [apply returns_draw|].
  intros k _. apply returns_ret. exact I.
Qed.

Lemma returns_random_lt (p : Q) : returns (random_lt p) (fun _ => True).
Proof.
  unfold random_lt. eapply returns_bind; [apply returns_random|].
  intros u _. apply returns_ret. exact I.
Qed.

(** [randint] never fails on a non-empty range and stays inside it. *)
Lemma returns_randint (a b : Z) :
  a <= b -> returns (randint a b) (fun v => a <= v <= b).
Proof.
  intros Hab. unfold randint.
  destruct (Z.ltb_spec b a); [lia|].
  eapply returns_bind; [apply returns_draw|].
  intros k _. apply returns_ret.
  pose proof (Z.mod_pos_bound k (b - a + 1) ltac:(lia)). lia.
Qed.

Lemma returns_choice {A : Type} (seq : list A) :
  seq <> [] -> returns (choice seq) (fun v => In v seq).
Proof.
  intros Hne. unfold choice. destruct seq as [|x xs]; [contradiction|].
  eapply returns_bind; [apply returns_draw|].
  intros k _. apply returns_ret.
  apply nth_In.
  pose proof (Z.mod_pos_bound k (Z.of_nat (List.length (x :: xs)))
                ltac:(simpl List.length; lia)).
  lia.
Qed.

End RandomRules.

Section LoopRules.
Context {A S : Type}.

(** The loop rule: an invariant of the loop state, indexed by the
    elements already visited. *)
Lemma returns_for_loop_from (I : list A -> S -> Prop) (body : S -> A -> Gen S)
  (all : list A) :
  (forall pre x post s, all = pre ++ x :: post -> I pre s ->
                        returns (body s x) (I (pre ++ [x]))) ->
  forall xs pre s, all = pre ++ xs -> I pre s ->
                   returns (for_loop xs body s) (I all).
Proof.
  intros Hbody. induction xs as [|x xs IH]; intros pre s Hall Hs; cbn [for_loop].
  - apply returns_ret. rewrite Hall, app_nil_r. exact Hs.
  - eapply returns_bind; [apply (Hbody pre x xs s Hall Hs)|].
    intros s' Hs'. apply (IH (pre ++ [x])); [|exact Hs'].
    rewrite <- app_assoc. exact Hall.
Qed.

Lemma returns_for_loop (I : list A -> S -> Prop) (body : S -> A -> Gen S)
  (xs : list A) (s0 : S) :
  I [] s0 ->
  (forall pre x post s, xs = pre ++ x :: post -> I pre s ->
                        returns (body s x) (I (pre ++ [x]))) ->
  returns (for_loop xs body s0) (I xs).
Proof.
  intros H0 Hbody.
  apply (returns_for_loop_from I body xs Hbody xs [] s0); auto.
Qed.

(** The same with an invariant that ignores the position. *)
Lemma returns_for_loop_inv (I : S -> Prop) (body : S -> A -> Gen S)
  (xs : list A) (s0 : S) :
  I s0 ->
  (forall x s, In x xs -> I s -> returns (body s x) I) ->
  returns (for_loop xs body s0) I.
Proof.
  intros H0 Hbody.
  apply (returns_for_loop (fun _ => I)); [exact H0|].
  intros pre x post s Hxs Hs. apply Hbody; [|exact Hs].
  rewrite Hxs. apply in_or_app. right. left. reflexivity.
Qed.

(** A loop raises as soon as it meets an element whose body raises,
    provided the bodies before it return. *)
Lemma raises_for_loop (ok : A -> bool) (body : S -> A -> Gen S) (e : exn)
  (xs : list A) :
  (forall x s, In x xs -> ok x = true -> returns (body s x) (fun _ => True)) ->
  (forall x s, In x xs -> ok x = false -> raises (body s x) e) ->
  (exists x, In x xs /\ ok x = false) ->
  forall s, raises (for_loop xs body s) e.
Proof.
  induction xs as [|x xs IH]; intros Hok Hbad (y & Hy & Hyb) s.
  - contradiction.
  - cbn [for_loop]. destruct (ok x) eqn:Ex.
    + intros r. unfold bind.
      destruct (Hok x s (or_introl eq_refl) Ex r) as (s' & r' & E & _).
      rewrite E. apply IH.
      * intros x' s'' Hin. apply Hok. right. exact Hin.
      * intros x' s'' Hin. apply Hbad. right. exact Hin.
      * destruct Hy as [<- | Hy]; [congruence|]. exists y. auto.
    + apply raises_bind. apply Hbad; [left; reflexivity|exact Ex].
Qed.
End LoopRules.

Section Builtins.

Lemma in_range (a b x : Z) : In x (range a b) <-> a <= x < b.
Proof.
  unfold range. rewrite in_map_iff. split.
  - intros (i & <- & Hi). apply in_seq in Hi. lia.
  - intros H. exists (Z.to_nat (x - a)). split; [lia|].
    apply in_seq. lia.
Qed.

Lemma length_range (a b : Z) : List.length (range a b) = Z.to_nat (b - a).
Proof. unfold range. rewrite length_map, length_seq. reflexivity. Qed.

Lemma range_empty (a b : Z) : b <= a -> range a b = [].
Proof.
  intros H. unfold range. replace (Z.to_nat (b - a)) with 0%nat by lia.
  reflexivity.
Qed.

Lemma in_range_step (a b s x : Z) :
  0 < s -> In x (range_step a b s) -> a <= x < b.
Proof.
  intros Hs. unfold range_step. rewrite in_map_iff.
  intros (i & <- & Hi). apply in_seq in Hi.
  pose proof (Z.mul_div_le (b - a + s - 1) s Hs).
  assert (Z.of_nat i < (b - a + s - 1) / s) by lia. nia.
Qed.

Section SortedFacts.
Context {A : Type} (key : A -> Z) (P : A -> Prop).

Lemma Forall_insert_by (x : A) (l : list A) :
  P x -> Forall P l -> Forall P (insert_by key x l).
Proof.
  intros Hx Hl. induction Hl as [|y l Hy Hl IH]; simpl.
  - constructor; [exact Hx|constructor].
  - destruct (key x <=? key y); repeat (constructor; auto).
Qed.

Lemma Forall_sorted (l : list A) : Forall P l -> Forall P (sorted key l).
Proof.
  induction 1 as [|x l Hx Hl IH]; simpl; [constructor|].
  apply Forall_insert_by; assumption.
Qed.

Lemma In_insert_by (x y : A) (l : list A) :
  In y (insert_by key x l) <-> y = x \/ In y l.
Proof.
  induction l as [|z l IH]; simpl.
  - intuition.
  - destruct (key x <=? key z); simpl; intuition.
Qed.

Lemma In_sorted (y : A) (l : list A) : In y (sorted key l) <-> In y l.
Proof.
  induction l as [|x l IH]; simpl; [tauto|].
  rewrite In_insert_by, IH. intuition.
Qed.
End SortedFacts.

(** The date subtraction succeeds exactly when the day it lands on
    exists. *)
Lemma datetime_sub_days_ok (today days : Z) :
  0 < days < today -> today <= MAXORDINAL ->
  datetime_sub_days today days = Ok (today - days).
Proof.
  unfold datetime_sub_days, MAXORDINAL. intros H Ht.
  destruct (Z.ltb_spec 999999999 (Z.abs days)); [lia|].
  destruct (Z.ltb_spec 0 (today - days)); [|lia].
  destruct (Z.leb_spec (today - days) 3652059); [reflexivity|lia].
Qed.

Lemma datetime_sub_days_overflow (today days : Z) :
  today <= days -> datetime_sub_days today days = Raise OverflowError.
Proof.
  unfold datetime_sub_days. intros H.
  destruct (Z.ltb_spec 999999999 (Z.abs days)); [reflexivity|].
  destruct (Z.ltb_spec 0 (today - days)); [lia|reflexivity].
Qed.

End Builtins.

(* ================================================================= *)
(** ** The LoL generator                                              *)
(* ================================================================= *)


(** Proof steps for a [bind]: run the first computation with the given
    rule, keeping or dropping what it establishes. *)
Ltac run_with lemma :=
  eapply returns_bind; [lemma|].
Ltac run_any lemma :=
  eapply (returns_bind _ _ (fun _ => True));
  [eapply returns_weaken; [lemma|intros; exact I]|intros ? _].

Section LolGenerator.
Import Lol LolSpec MockData.

Variable today : Z.
Variable team_name : string.

Lemma lol_kill_ok (gd : Z) (kills : list kill) (k : Z) :
  180 <= gd ->
  Forall (fun e => 0 <= k_timestamp e <= gd) kills ->
  returns (lol_kill team_name gd kills k)
          (Forall (fun e => 0 <= k_timestamp e <= gd)).
Proof.
  intros Hgd Hk. unfold lol_kill, LOL_MAP_SIZE.
  run_with ltac:(apply returns_randint; lia). intros t Ht. cbv beta in Ht.
  run_any ltac:(apply returns_randint; lia).
  run_any ltac:(apply returns_randint; lia).
  apply returns_ret. apply Forall_app. split; [exact Hk|].
  constructor; [cbv beta in *; simpl; lia|constructor].
Qed.

Lemma lol_dragon_ok (won : bool) (gd : Z) (dragons : list objective) (spawn : Z) :
  In spawn dragon_spawn_times ->
  Forall (fun e => 0 <= o_timestamp e <= gd + 119) dragons ->
  returns (lol_dragon team_name won gd dragons spawn)
          (Forall (fun e => 0 <= o_timestamp e <= gd + 119)).
Proof.
  intros Hs Hd. unfold lol_dragon.
  assert (300 <= spawn) by
    (unfold dragon_spawn_times in Hs; simpl in Hs; intuition lia).
  destruct (Z.ltb_spec spawn gd); [|apply returns_ret; exact Hd].
  run_with ltac:(apply returns_random_lt). intros spawned _.
  destruct spawned; [|apply returns_ret; exact Hd].
  run_any ltac:(apply returns_random_lt).
  run_with ltac:(apply returns_randint; lia). intros off Hoff. cbv beta in Hoff.
  run_any ltac:(apply returns_choice; discriminate).
  apply returns_ret. apply Forall_app. split; [exact Hd|].
  constructor; [cbv beta in *; simpl; lia|constructor].
Qed.

Lemma lol_baron_ok (won : bool) (gd : Z) (barons : list objective) (b : Z) :
  1500 <= gd ->
  Forall (fun e => 0 <= o_timestamp e <= gd) barons ->
  returns (lol_baron team_name won gd barons b)
          (Forall (fun e => 0 <= o_timestamp e <= gd)).
Proof.
  intros Hgd Hb. unfold lol_baron.
  run_with ltac:(apply returns_randint; lia). intros t Ht. cbv beta in Ht.
  run_any ltac:(apply returns_random_lt).
  apply returns_ret. apply Forall_app. split; [exact Hb|].
  constructor; [cbv beta in *; simpl; lia|constructor].
Qed.

Lemma lol_herald_ok (won : bool) (gd : Z) (heralds : list objective) (h : Z) :
  1500 <= gd ->
  Forall (fun e => 0 <= o_timestamp e <= gd) heralds ->
  returns (lol_herald team_name won gd heralds h)
          (Forall (fun e => 0 <= o_timestamp e <= gd)).
Proof.
  intros Hgd Hh. unfold lol_herald.
  run_with ltac:(apply returns_randint; lia). intros t Ht. cbv beta in Ht.
  run_any ltac:(apply returns_random_lt).
  apply returns_ret. apply Forall_app. split; [exact Hh|].
  constructor; [cbv beta in *; simpl; lia|constructor].
Qed.

Lemma lol_gold_ok (base gd : Z) (updates : list gold_update) (minute : Z) :
  In minute (range_step 5 (gd / 60 + 1) 5) ->
  Forall (fun e => 0 <= g_timestamp e <= gd) updates ->
  returns (lol_gold base updates minute)
          (Forall (fun e => 0 <= g_timestamp e <= gd)).
Proof.
  intros Hm Hu. unfold lol_gold.
  apply in_range_step in Hm; [|lia].
  pose proof (Z.mul_div_le gd 60 ltac:(lia)).
  run_any ltac:(apply returns_randint; lia).
  apply returns_ret. apply Forall_app. split; [exact Hu|].
  constructor; [cbv beta in *; simpl; lia|constructor].
Qed.

Lemma lol_jungle_ok (gd : Z) (positions : list jungle_position) (i : Z) :
  0 <= gd ->
  Forall (fun e => 0 <= j_timestamp e <= gd) positions ->
  returns (lol_jungle gd positions i)
          (Forall (fun e => 0 <= j_timestamp e <= gd)).
Proof.
  intros Hgd Hp. unfold lol_jungle.
  run_with ltac:(apply returns_randint; lia). intros t Ht. cbv beta in Ht.
  run_any ltac:(apply returns_random).
  eapply (returns_bind _ _ (fun _ => True)).
  { destruct (Qltb _ 0.35); [|destruct (Qltb _ 0.70)];
      run_any ltac:(apply returns_randint; lia);
      run_any ltac:(apply returns_randint; lia);
      apply returns_ret; exact I. }
  intros [[x y] lane] _.
  apply returns_ret. apply Forall_app. split; [exact Hp|].
  constructor; [cbv beta in *; simpl; lia|constructor].
Qed.

Lemma lol_match_body_ok (matches : list lol_match) (match_id : Z) :
  0 < match_id -> match_id * 3 < today -> today <= MAXORDINAL ->
  returns (lol_match_body today team_name matches match_id)
          (fun matches' =>
             exists m, matches' = matches ++ [m] /\ generated_match_ok team_name m).
Proof.
  intros Hid Hday Hmax. unfold lol_match_body.
  rewrite datetime_sub_days_ok by lia.
  run_any ltac:(apply (returns_lift _ (fun _ => True)); exact I).
  run_with ltac:(apply returns_random_lt). intros won _.
  run_with ltac:(apply returns_randint; lia). intros gd Hgd. cbv beta in Hgd.
  eapply (returns_bind _ _ (fun _ => True)).
  { destruct won; eapply returns_weaken;
      try (apply returns_randint; lia); intros; exact I. }
  intros num_kills _.
  run_with ltac:(apply (returns_for_loop_inv
                          (Forall (fun e => 0 <= k_timestamp e <= gd)));
                 [constructor|intros; apply lol_kill_ok; [lia|assumption]]).
  intros kills Hkills.
  run_with ltac:(apply (returns_for_loop_inv
                          (Forall (fun e => 0 <= o_timestamp e <= gd + 119)));
                 [constructor|intros; apply lol_dragon_ok; assumption]).
  intros dragons Hdragons.
  eapply (returns_bind _ _ (Forall (fun e => 0 <= o_timestamp e <= gd))).
  { destruct (gd >? 1200); [|apply returns_ret; constructor].
    run_any ltac:(apply returns_randint; lia).
    apply returns_for_loop_inv;
      [constructor|intros; apply lol_baron_ok; [lia|assumption]]. }
  intros barons Hbarons.
  eapply (returns_bind _ _ (Forall (fun e => 0 <= o_timestamp e <= gd))).
  { destruct (gd >? 480); [|apply returns_ret; constructor].
    run_any ltac:(apply returns_randint; lia).
    apply returns_for_loop_inv;
      [constructor|intros; apply lol_herald_ok; [lia|assumption]]. }
  intros heralds Hheralds.
  run_with ltac:(apply (returns_for_loop_inv
                          (Forall (fun e => 0 <= g_timestamp e <= gd)));
                 [constructor|intros; eapply lol_gold_ok; eassumption]).
  intros gold Hgold.
  run_any ltac:(apply returns_randint; lia).
  run_with ltac:(apply (returns_for_loop_inv
                          (Forall (fun e => 0 <= j_timestamp e <= gd)));
                 [constructor|intros; apply lol_jungle_ok; [lia|assumption]]).
  intros positions Hpositions.
  apply returns_ret. eexists. split; [reflexivity|].
  unfold generated_match_ok, timed_but_dragons, dragons_within_slack,
    timed, within.
  cbn [Lol.team Lol.duration Lol.kills Lol.dragons Lol.barons Lol.heralds
       Lol.gold_updates Lol.jungle_positions].
  repeat split; try lia; apply Forall_sorted; assumption.
Qed.

(** Every match the LoL generator returns, with the events it is known
    to place inside the match, and the dragons up to 119 seconds late. *)
Lemma generate_lol_ok (num_matches : Z) :
  num_matches * 3 < today -> today <= MAXORDINAL ->
  returns (generate_lol_match_data today team_name num_matches)
          (fun matches =>
             List.length matches = Z.to_nat num_matches
             /\ Forall (generated_match_ok team_name) matches).
Proof.
  intros Hday Hmax. unfold generate_lol_match_data.
  eapply returns_weaken.
  - apply (returns_for_loop
             (fun pre ms => List.length ms = List.length pre
                            /\ Forall (generated_match_ok team_name) ms)).
    + split; [reflexivity|constructor].
    + intros pre x post s Hsplit [Hlen Hall].
      assert (Hin : In x (range 1 (num_matches + 1))).
      { rewrite Hsplit. apply in_or_app. right. left. reflexivity. }
      apply in_range in Hin.
      eapply returns_weaken; [apply lol_match_body_ok; lia|].
      intros ms' (m & -> & Hm). split.
      * rewrite !length_app, Hlen. reflexivity.
      * apply Forall_app. split; [exact Hall|]. constructor; [exact Hm|constructor].
  - intros ms [Hlen Hall]. split; [|exact Hall].
    rewrite Hlen, length_range. f_equal. lia.
Qed.

(** Past the first representable day the generator raises. *)
Lemma generate_lol_overflow (num_matches : Z) :
  0 < today <= MAXORDINAL -> today <= num_matches * 3 ->
  raises (generate_lol_match_data today team_name num_matches) OverflowError.
Proof.
  intros Hday Hn. unfold generate_lol_match_data.
  apply (raises_for_loop (fun id => id * 3 <? today)).
  - intros id s Hin Hok. apply in_range in Hin. apply Z.ltb_lt in Hok.
    eapply returns_weaken; [apply lol_match_body_ok; lia|]. intros; exact I.
  - intros id s Hin Hbad. apply Z.ltb_ge in Hbad.
    unfold lol_match_body. rewrite datetime_sub_days_overflow by lia.
    apply raises_bind, raises_lift.
  - exists num_matches. split; [apply in_range; lia|apply Z.ltb_ge; lia].
Qed.

End LolGenerator.

(* ================================================================= *)
(** ** The VALORANT generator                                         *)
(* ================================================================= *)

Section ValorantGenerator.
Import Valorant ValorantSpec MockData.

Variable today : Z.
Variable team_name : string.

Lemma loadout_value_ok : returns loadout_value (fun _ => True).
Proof.
  unfold loadout_value.
  run_any ltac:(apply returns_randint; lia).
  run_any ltac:(apply returns_randint; lia).
  run_any ltac:(apply returns_randint; lia).
  eapply returns_weaken; [apply returns_choice; discriminate|].
  intros; exact I.
Qed.

Lemma val_round_ok (team_rounds_won total_rounds : Z)
  (rounds : list round_data) (round_num : Z) :
  total_rounds <> 0 ->
  returns (val_round team_name team_rounds_won total_rounds rounds round_num)
          (fun rounds' => exists r, rounds' = rounds ++ [r]).
Proof.
  intros Htotal. unfold val_round.
  run_any ltac:(apply returns_random).
  unfold truediv. destruct (Z.eqb_spec total_rounds 0); [contradiction|].
  run_any ltac:(apply (returns_lift _ (fun _ => True)); exact I).
  eapply (returns_bind _ _ (fun _ => True)).
  { destruct (_ || _).
    - apply returns_ret. exact I.
    - run_any ltac:(apply loadout_value_ok).
      run_any ltac:(apply loadout_value_ok).
      apply returns_ret. exact I. }
  intros [team_loadout enemy_loadout] _.
  run_any ltac:(apply returns_random_lt).
  eapply (returns_bind _ _ (fun _ => True)).
  { match goal with |- returns (if ?b then _ else _) _ => destruct b end.
    - run_any ltac:(apply returns_choice; discriminate).
      apply returns_ret. exact I.
    - apply returns_ret. exact I. }
  intros spike_site _.
  eapply (returns_bind _ _ (fun _ => True)).
  { destruct spike_site as [site|]; [|apply returns_ret; exact I].
    destruct (String.eqb site "A"); [|destruct (String.eqb site "B")];
      run_any ltac:(apply returns_randint; lia);
      run_any ltac:(apply returns_randint; lia);
      apply returns_ret; exact I. }
  intros spike_coords _.
  run_any ltac:(apply returns_choice; discriminate).
  run_any ltac:(apply returns_randint; lia).
  run_any ltac:(apply returns_randint; lia).
  run_any ltac:(apply returns_randint; lia).
  apply returns_ret. eexists. reflexivity.
Qed.

Lemma val_match_body_ok (matches : list val_match) (match_id : Z) :
  0 < match_id -> match_id * 2 < today -> today <= MAXORDINAL ->
  returns (val_match_body today team_name matches match_id)
          (fun matches' =>
             exists m, matches' = matches ++ [m]
                       /\ generated_match_ok team_name m).
Proof.
  intros Hid Hday Hmax. unfold val_match_body.
  rewrite datetime_sub_days_ok by lia.
  run_any ltac:(apply (returns_lift _ (fun _ => True)); exact I).
  run_with ltac:(apply returns_random_lt). intros favoured _.
  eapply (returns_bind _ _ (fun v => 8 <= v <= 15)).
  { destruct favoured; eapply returns_weaken;
      try (apply returns_randint; lia); cbv beta; intros; lia. }
  intros team_rounds_won Hteam.
  eapply (returns_bind _ _ (fun v => 8 <= v <= 13)).
  { destruct (team_rounds_won <? 13).
    - apply returns_ret. lia.
    - eapply returns_weaken; [apply returns_randint; lia|].
      cbv beta; intros; lia. }
  intros enemy_rounds_won Henemy.
  run_with ltac:(apply (returns_for_loop
                   (fun pre (rs : list round_data) =>
                      List.length rs = List.length pre));
                 [reflexivity
                 |intros pre x post s _ Hlen;
                  eapply returns_weaken;
                  [apply val_round_ok; lia
                  |intros rs' (r & ->); rewrite !length_app, Hlen; reflexivity]]).
  intros rounds Hrounds. cbv beta in Hrounds.
  run_any ltac:(apply returns_choice; discriminate).
  apply returns_ret. eexists. split; [reflexivity|].
  unfold generated_match_ok.
  cbn [Valorant.team Valorant.team_score Valorant.enemy_score Valorant.rounds].
  repeat split; try lia.
  rewrite Hrounds, length_range. lia.
Qed.

Lemma generate_valorant_ok (num_matches : Z) :
  num_matches * 2 < today -> today <= MAXORDINAL ->
  returns (generate_valorant_match_data today team_name num_matches)
          (fun matches =>
             List.length matches = Z.to_nat num_matches
             /\ Forall (generated_match_ok team_name) matches).
Proof.
  intros Hday Hmax. unfold generate_valorant_match_data.
  eapply returns_weaken.
  - apply (returns_for_loop
             (fun pre ms => List.length ms = List.length pre
                            /\ Forall (generated_match_ok team_name) ms)).
    + split; [reflexivity|constructor].
    + intros pre x post s Hsplit [Hlen Hall].
      assert (Hin : In x (range 1 (num_matches + 1))).
      { rewrite Hsplit. apply in_or_app. right. left. reflexivity. }
      apply in_range in Hin.
      eapply returns_weaken; [apply val_match_body_ok; lia|].
      intros ms' (m & -> & Hm). split.
      * rewrite !length_app, Hlen. reflexivity.
      * apply Forall_app. split; [exact Hall|]. constructor; [exact Hm|constructor].
  - intros ms [Hlen Hall]. split; [|exact Hall].
    rewrite Hlen, length_range. f_equal. lia.
Qed.

Lemma generate_valorant_overflow (num_matches : Z) :
  0 < today <= MAXORDINAL -> today <= num_matches * 2 ->
  raises (generate_valorant_match_data today team_name num_matches) OverflowError.
Proof.
  intros Hday Hn. unfold generate_valorant_match_data.
  apply (raises_for_loop (fun id => id * 2 <? today)).
  - intros id s Hin Hok. apply in_range in Hin. apply Z.ltb_lt in Hok.
    eapply returns_weaken; [apply val_match_body_ok; lia|]. intros; exact I.
  - intros id s Hin Hbad. apply Z.ltb_ge in Hbad.
    unfold val_match_body. rewrite datetime_sub_days_overflow by lia.
    apply raises_bind, raises_lift.
  - exists num_matches. split; [apply in_range; lia|apply Z.ltb_ge; lia].
Qed.

End ValorantGenerator.

(* ================================================================= *)
(** ** The generator: event timestamps and match counts               *)
(* ================================================================= *)

Section GeneratorClaims.
Import MockData.

(** C2, evaluated.  One LoL match generated from a random source that
    draws a game duration of 1501 seconds and, for the dragon spawning
    at 1500, an offset of 120: the dragon is stamped 1620, after the
    end of the match, so the dragon timestamps are not all within
    [0, duration]. *)
Theorem generated_dragon_after_match_end :
  exists m r',
    generate_lol_match_data Samples.a_day "Cloud9" 1 Samples.late_dragon_source
    = Ok ([m], r')
    /\ Lol.duration m = 1501
    /\ map Lol.o_timestamp (Lol.dragons m) = [300; 600; 900; 1200; 1620]
    /\ ~ LolSpec.timed Lol.o_timestamp m (Lol.dragons m).
Proof.
  eexists. eexists. split; [vm_compute; reflexivity|].
  split; [reflexivity|]. split; [reflexivity|].
  unfold LolSpec.timed, LolSpec.within. rewrite Forall_forall. intros H.
  match goal with
  | H : forall x, In x (Lol.dragons ?m) -> _ |- _ =>
      assert (Hin : In 1620 (map Lol.o_timestamp (Lol.dragons m)))
        by (simpl; tauto)
  end.
  apply in_map_iff in Hin. destruct Hin as (d & Hd & Hin).
  specialize (H d Hin). rewrite Hd in H. simpl in H. lia.
Qed.

(** C9, as the code has it.  For every team name, a zero or negative
    match count makes either generator return the empty list, whatever
    the random source and the date, and the random source is left
    untouched.  A positive count [n] makes the LoL generator return
    exactly [n] match records when the day [3 * n] days before today
    exists, that is when [3 * n] is less than today's day number, and
    the VALORANT generator when [2 * n] is. *)
Theorem generator_match_count (today : Z) (team_name : string) (num_matches : Z) :
  (num_matches <= 0 ->
   forall r,
     generate_lol_match_data today team_name num_matches r = Ok ([], r)
     /\ generate_valorant_match_data today team_name num_matches r = Ok ([], r))
  /\ (0 < num_matches -> today <= MAXORDINAL ->
      (num_matches * 3 < today ->
       returns (generate_lol_match_data today team_name num_matches)
               (fun matches => Z.of_nat (List.length matches) = num_matches))
      /\ (num_matches * 2 < today ->
          returns (generate_valorant_match_data today team_name num_matches)
                  (fun matches => Z.of_nat (List.length matches) = num_matches))).
Proof.
  split.
  - intros Hn r. unfold generate_lol_match_data, generate_valorant_match_data.
    rewrite range_empty by lia. split; reflexivity.
  - intros Hn Hmax. split; intros Hday.
    + eapply returns_weaken; [apply generate_lol_ok; assumption|].
      intros ms [Hlen _]. cbv beta. lia.
    + eapply returns_weaken; [apply generate_valorant_ok; assumption|].
      intros ms [Hlen _]. cbv beta. lia.
Qed.

Lemma generator_match_count_witness :
  (generate_lol_match_data Samples.a_day "Cloud9" 0 Samples.late_dragon_source
   = Ok ([], Samples.late_dragon_source)
   /\ generate_valorant_match_data Samples.a_day "Cloud9" 0
        Samples.late_dragon_source
      = Ok ([], Samples.late_dragon_source))
  /\ returns (generate_lol_match_data Samples.a_day "Cloud9" 10)
             (fun matches => Z.of_nat (List.length matches) = 10)
  /\ returns (generate_valorant_match_data Samples.a_day "Cloud9" 10)
             (fun matches => Z.of_nat (List.length matches) = 10).
Proof.
  split; [|split].
  - apply (proj1 (generator_match_count Samples.a_day "Cloud9" 0)). lia.
  - apply (proj2 (generator_match_count Samples.a_day "Cloud9" 10));
      unfold Samples.a_day, MAXORDINAL; lia.
  - apply (proj2 (generator_match_count Samples.a_day "Cloud9" 10));
      unfold Samples.a_day, MAXORDINAL; lia.
Defined.

(** C9, counterexample.  On 2026-11-03 a request for 246641 LoL matches, or for 369962
    VALORANT matches, asks for a match dated before 0001-01-01 and
    raises [OverflowError] instead of returning that many records. *)
Lemma generator_overflows_on_large_count :
  generate_lol_match_data Samples.a_day "Cloud9" 246641 (mk_rng (fun _ => 0) 0)
  = Raise OverflowError
  /\ generate_valorant_match_data Samples.a_day "Cloud9" 369962
       (mk_rng (fun _ => 0) 0)
     = Raise OverflowError.
Proof.
  split.
  - apply generate_lol_overflow; unfold Samples.a_day, MAXORDINAL; lia.
  - apply generate_valorant_overflow; unfold Samples.a_day, MAXORDINAL; lia.
Qed.

End GeneratorClaims.

(* ================================================================= *)
(** ** Percentages                                                    *)
(* ================================================================= *)

Section Percentages.

Lemma ratio_is_percentage (a b : Z) :
  0 <= a <= b -> 0 < b ->
  is_percentage (inject_Z a / inject_Z b * 100).
Proof.
  intros Ha Hb. unfold is_percentage.
  destruct b as [|p|p]; try lia.
  rewrite <- (Qmake_Qdiv a p).
  unfold Qle, Qmult. cbn [Qnum Qden]. split; nia.
Qed.

Lemma percent_or_zero_is_percentage (a b : Z) :
  0 <= a <= b -> is_percentage (num_to_Q (percent_or_zero a b)).
Proof.
  intros H. unfold percent_or_zero.
  destruct (Z.gtb_spec b 0) as [Hb|Hb].
  - unfold flt, num_to_Q, is_percentage. rewrite Qred_correct.
    apply ratio_is_percentage; lia.
  - unfold is_percentage. cbn. split; discriminate.
Qed.

(** Rounding to one decimal keeps a percentage a percentage. *)
Lemma py_round_1_is_percentage (x : num) :
  is_percentage (num_to_Q x) -> is_percentage (num_to_Q (py_round x 1)).
Proof.
  destruct x as [z|q]; [auto|]. unfold is_percentage. cbn [num_to_Q].
  intros [H0 H100]. rewrite py_round_1_value.
  pose proof (round_half_even_bound (q * 10)) as [Hl Hu].
  assert (Hz : 0 <= round_half_even (q * 10) <= 1000).
  { assert (H1 : (inject_Z (round_half_even (q * 10)) <= 2001 # 2)%Q) by lra.
    assert (H2 : (- (1 # 2) <= inject_Z (round_half_even (q * 10)))%Q) by lra.
    unfold Qle in H1, H2. cbn [Qnum Qden inject_Z Qopp] in H1, H2. lia. }
  set (R := round_half_even (q * 10)) in *.
  assert (Hq : (0 <= inject_Z R <= 1000)%Q).
  { split.
    - change 0%Q with (inject_Z 0). rewrite <- Zle_Qle. lia.
    - change 1000%Q with (inject_Z 1000). rewrite <- Zle_Qle. lia. }
  unfold Qdiv. change (/ 10)%Q with (1 # 10)%Q. split; lra.
Qed.

Lemma reported_rate_is_percentage (a b : Z) :
  0 <= a <= b ->
  is_percentage (num_to_Q (py_round (percent_or_zero a b) 1)).
Proof.
  intros H. apply py_round_1_is_percentage, percent_or_zero_is_percentage, H.
Qed.

End Percentages.

(* ================================================================= *)
(** ** LoL: capture counts and rates                                  *)
(* ================================================================= *)

Section CaptureCounts.
Import Lol LolSpec LolEvents.

Lemma tally_spec (name : string) (events : list objective) :
  forall total mine,
    tally name events (total, mine)
    = (total + Z.of_nat (List.length events), mine + count (credited name) events).
Proof.
  unfold tally. induction events as [|ev events IH]; intros total mine.
  - cbn [fold_left List.length]. rewrite count_nil. f_equal; lia.
  - cbn [fold_left]. rewrite IH, count_cons.
    change (List.length (ev :: events)) with (S (List.length events)).
    unfold credited at 2. destruct (String.eqb (o_team ev) name); f_equal; lia.
Qed.

Lemma objective_step_totals (name : string) (acc : objective_acc) (m : lol_match) :
  total_dragons (objective_step name acc m)
  = total_dragons acc + Z.of_nat (List.length (dragons m))
  /\ team_dragons (objective_step name acc m)
     = team_dragons acc + count (credited name) (dragons m)
  /\ total_heralds (objective_step name acc m)
     = total_heralds acc + Z.of_nat (List.length (heralds m))
  /\ team_heralds (objective_step name acc m)
     = team_heralds acc + count (credited name) (heralds m).
Proof.
  unfold objective_step. rewrite !tally_spec.
  destruct (dragons m) as [|d0 ds]; cbn; auto.
Qed.

Lemma objective_fold_totals (name : string) (ms : list lol_match) :
  forall acc,
    let acc' := fold_left (objective_step name) ms acc in
    total_dragons acc'
    = total_dragons acc + Z.of_nat (List.length (flat_map dragons ms))
    /\ team_dragons acc'
       = team_dragons acc + count (credited name) (flat_map dragons ms)
    /\ total_heralds acc'
       = total_heralds acc + Z.of_nat (List.length (flat_map heralds ms))
    /\ team_heralds acc'
       = team_heralds acc + count (credited name) (flat_map heralds ms).
Proof.
  induction ms as [|m ms IH]; intros acc; cbn [fold_left flat_map].
  - rewrite !count_nil. cbn. repeat split; lia.
  - specialize (IH (objective_step name acc m)). cbv zeta in IH.
    destruct IH as (H1 & H2 & H3 & H4).
    destruct (objective_step_totals name acc m) as (S1 & S2 & S3 & S4).
    cbv zeta. rewrite H1, H2, H3, H4, S1, S2, S3, S4.
    rewrite !length_app, !count_app. repeat split; lia.
Qed.

Lemma objective_loop_totals (self : analyzer) :
  let name := team_name self in
  total_dragons (objective_loop self) = Z.of_nat (List.length (all_dragons self))
  /\ team_dragons (objective_loop self) = count (credited name) (all_dragons self)
  /\ total_heralds (objective_loop self) = Z.of_nat (List.length (all_heralds self))
  /\ team_heralds (objective_loop self) = count (credited name) (all_heralds self).
Proof.
  unfold objective_loop, all_dragons, all_heralds.
  destruct (objective_fold_totals (team_name self) (matches self)
              (mk_acc 0 0 0 0 0 0)) as (H1 & H2 & H3 & H4).
  cbv zeta. rewrite H1, H2, H3, H4. cbn. auto.
Qed.

Lemma baron_loop_totals (self : analyzer) :
  baron_loop self
  = (Z.of_nat (List.length (all_barons self)),
     count (credited (team_name self)) (all_barons self)).
Proof.
  unfold baron_loop, all_barons.
  assert (H : forall ms total mine,
             fold_left (fun acc m => tally (team_name self) (barons m) acc)
                       ms (total, mine)
             = (total + Z.of_nat (List.length (flat_map barons ms)),
                mine + count (credited (team_name self)) (flat_map barons ms))).
  { induction ms as [|m ms IH]; intros total mine; cbn [fold_left flat_map].
    - rewrite count_nil. cbn. f_equal; lia.
    - rewrite tally_spec, IH, length_app, count_app. f_equal; lia. }
  rewrite H. reflexivity.
Qed.

Lemma objective_control_fields (self : analyzer) :
  let name := team_name self in
  let d := calculate_objective_control self in
  let events_of kind :=
    (Z.of_nat (List.length (kind self)), count (credited name) (kind self)) in
  let rate kind :=
    PNum (py_round (percent_or_zero (snd (events_of kind)) (fst (events_of kind))) 1) in
  (field "total_dragons" d = Some (PInt (fst (events_of all_dragons)))
   /\ field "team_dragons" d = Some (PInt (snd (events_of all_dragons)))
   /\ field "overall_dragon_rate" d = Some (rate all_dragons))
  /\ (field "total_heralds" d = Some (PInt (fst (events_of all_heralds)))
      /\ field "team_heralds" d = Some (PInt (snd (events_of all_heralds)))
      /\ field "herald_control_rate" d = Some (rate all_heralds))
  /\ (field "total_barons" d = Some (PInt (fst (events_of all_barons)))
      /\ field "team_barons" d = Some (PInt (snd (events_of all_barons)))
      /\ field "baron_control_rate" d = Some (rate all_barons)).
Proof.
  intros name d events_of rate. subst d rate events_of. cbv beta. cbn [fst snd].
  unfold calculate_objective_control. rewrite baron_loop_totals.
  destruct (objective_loop_totals self) as (H1 & H2 & H3 & H4).
  cbn [field dict_get String.eqb Ascii.eqb Bool.eqb].
  rewrite H1, H2, H3, H4. repeat split; reflexivity.
Qed.

(** X1.  The capture counters of the objective-control report count
    events over all matches together, not per match: each total is the
    number of dragon (herald, baron) events of all matches, each team
    counter the number of those credited to the analyzed team, and each
    control rate is 0 when there is no such event and otherwise team /
    total x 100 to one decimal (within half a step of the exact
    percentage). *)
Theorem objective_capture_counts (self : analyzer) :
  let name := team_name self in
  let d := calculate_objective_control self in
  let report kind total_key team_key rate_key :=
    let total := Z.of_nat (List.length (kind self)) in
    let mine := count (credited name) (kind self) in
    field total_key d = Some (PInt total)
    /\ field team_key d = Some (PInt mine)
    /\ 0 <= mine <= total
    /\ (total = 0 -> field rate_key d = Some (PInt 0))
    /\ (0 < total -> is_percent_of (reported rate_key d) mine total) in
  report all_dragons "total_dragons" "team_dragons" "overall_dragon_rate"
  /\ report all_heralds "total_heralds" "team_heralds" "herald_control_rate"
  /\ report all_barons "total_barons" "team_barons" "baron_control_rate".
Proof.
  intros name d report.
  pose proof (objective_control_fields self) as Hfields.
  cbv zeta in Hfields. cbn [fst snd] in Hfields. fold name d in Hfields.
  assert (Hreport : forall kind total_key team_key rate_key,
             field total_key d = Some (PInt (Z.of_nat (List.length (kind self))))
             /\ field team_key d = Some (PInt (count (credited name) (kind self)))
             /\ field rate_key d
                = Some (PNum (py_round
                                (percent_or_zero
                                   (count (credited name) (kind self))
                                   (Z.of_nat (List.length (kind self)))) 1)) ->
             report kind total_key team_key rate_key).
  { intros kind total_key team_key rate_key (Ht & Hm & Hr).
    subst report. cbv beta zeta.
    split; [exact Ht|]. split; [exact Hm|].
    split; [split; [apply count_nonneg|apply count_le_length]|].
    split.
    - intros H0. rewrite Hr, H0. reflexivity.
    - intros Hpos. unfold reported. rewrite Hr.
      apply reported_percent_close, Hpos. }
  destruct Hfields as (Hd & Hh & Hb).
  split; [|split]; apply Hreport; assumption.
Qed.

(** X2.  Every rate the LoL report holds is a percentage: the win rate,
    the first-dragon, dragon, herald and baron rates and the three lane
    percentages all lie between 0 and 100, for every match list. *)
Theorem lol_rates_are_percentages (matches : list lol_match) :
  let stats := analyze_lol_team matches in
  let self := init matches in
  is_percentage (reported "win_rate" stats)
  /\ (forall k, In k ["first_dragon_rate"; "overall_dragon_rate";
                      "herald_control_rate"; "baron_control_rate"] ->
                is_percentage (reported k (calculate_objective_control self)))
  /\ (forall k, In k ["top_lane_percent"; "mid_lane_percent"; "bot_lane_percent"] ->
                is_percentage (reported k (calculate_jungle_proximity self))).
Proof.
  intros stats self. split; [|split].
  - subst stats. unfold analyze_lol_team, reported. cbn [get_complete_analysis field dict_get String.eqb Ascii.eqb Bool.eqb].
    apply reported_rate_is_percentage.
    pose proof (count_le_length won (Lol.matches (init matches))).
    pose proof (count_nonneg won (Lol.matches (init matches))).
    unfold count in *. lia.
  - intros k Hk. unfold reported.
    pose proof (objective_control_fields self) as (Hd & Hh & Hb).
    cbv zeta in Hd, Hh, Hb. cbn [fst snd] in Hd, Hh, Hb.
    destruct Hd as (_ & _ & Hd). destruct Hh as (_ & _ & Hh).
    destruct Hb as (_ & _ & Hb).
    cbn [In] in Hk. destruct Hk as [<-|[<-|[<-|[<-|[]]]]].
    + rewrite objective_control_reports. cbn [num_to_Q].
      apply py_round_1_is_percentage. unfold first_dragon_rate.
      destruct (objective_loop_first self) as [-> ->].
      apply percent_or_zero_is_percentage. split; [apply count_nonneg|].
      apply count_le_impl. intros m. unfold team_took_first_dragon, has_dragon.
      destruct (dragons m); [discriminate|reflexivity].
    + rewrite Hd. apply reported_rate_is_percentage.
      split; [apply count_nonneg|apply count_le_length].
    + rewrite Hh. apply reported_rate_is_percentage.
      split; [apply count_nonneg|apply count_le_length].
    + rewrite Hb. apply reported_rate_is_percentage.
      split; [apply count_nonneg|apply count_le_length].
  - intros k Hk. unfold reported.
    destruct (samples self) as [|p ps] eqn:Hs.
    + rewrite (jungle_empty self Hs).
      cbn [In] in Hk. destruct Hk as [<-|[<-|[<-|[]]]];
        cbn; unfold is_percentage; split; discriminate.
    + assert (Hne : samples self <> []) by (rewrite Hs; discriminate).
      destruct (jungle_fields_nonempty self Hne) as (Ht & Hm & Hb & _).
      assert (Hlane : forall label,
                 is_percentage (num_to_Q (py_round (lane_percent label self) 1))).
      { intros label. apply py_round_1_is_percentage.
        rewrite lane_percent_value. unfold flt, num_to_Q, is_percentage.
        rewrite Qred_correct. apply ratio_is_percentage.
        - unfold lane_count. split; [apply count_nonneg|apply count_le_length].
        - rewrite Hs. cbn [List.length]. lia. }
      cbn [In] in Hk. destruct Hk as [<-|[<-|[<-|[]]]].
      * rewrite Ht. apply Hlane.
      * rewrite Hm. apply Hlane.
      * rewrite Hb. apply Hlane.
Qed.
End CaptureCounts.

(* ================================================================= *)
(** ** LoL: the gold buckets                                          *)
(* ================================================================= *)

Section GoldBuckets.
Import Lol LolSpec LolEvents.

Lemma gold_step_spec (b : gold_buckets) (u : gold_update) :
  gold_step b u
  = mk_buckets
      (gold_at_10 b ++ map gold_difference (filter (in_window 540 660) [u]))
      (gold_at_15 b ++ map gold_difference (filter (in_window 840 960) [u]))
      (gold_at_20 b ++ map gold_difference (filter (in_window 1140 1260) [u])).
Proof.
  unfold gold_step, in_window. cbn [filter].
  destruct b as [b10 b15 b20]. cbn [gold_at_10 gold_at_15 gold_at_20].
  case_compare; cbn [andb map]; rewrite ?app_nil_r; try reflexivity; lia.
Qed.

Lemma gold_fold_spec (us : list gold_update) :
  forall b,
    fold_left gold_step us b
    = mk_buckets
        (gold_at_10 b ++ map gold_difference (filter (in_window 540 660) us))
        (gold_at_15 b ++ map gold_difference (filter (in_window 840 960) us))
        (gold_at_20 b ++ map gold_difference (filter (in_window 1140 1260) us)).
Proof.
  induction us as [|u us IH]; intros b; cbn [fold_left].
  - cbn. rewrite !app_nil_r. destruct b; reflexivity.
  - rewrite IH, gold_step_spec. cbn [gold_at_10 gold_at_15 gold_at_20].
    rewrite <- !app_assoc, <- !map_app, <- !filter_app. reflexivity.
Qed.

Lemma gold_loop_spec (self : analyzer) :
  gold_loop self
  = mk_buckets (window_values 540 660 self) (window_values 840 960 self)
               (window_values 1140 1260 self).
Proof.
  unfold gold_loop.
  rewrite (fold_left_flat_map gold_updates gold_step (matches self)).
  rewrite gold_fold_spec. reflexivity.
Qed.

(** X3.  The three gold buckets are time windows over all snapshots of
    all matches, whatever match or position a snapshot has: the bucket
    for 10 minutes holds the differentials stamped 540..660 s, the one
    for 15 minutes 840..960 s, the one for 20 minutes 1140..1260 s, each
    in iteration order; the reported sample counts are their sizes, and
    an empty bucket reports the integer 0 as its gold difference. *)
Theorem gold_buckets_are_windows (self : analyzer) :
  let d := calculate_gold_efficiency self in
  (gold_at_10 (gold_loop self) = window_values 540 660 self
   /\ gold_at_15 (gold_loop self) = window_values 840 960 self
   /\ gold_at_20 (gold_loop self) = window_values 1140 1260 self)
  /\ (field "samples_at_10" d
      = Some (PInt (Z.of_nat (List.length (window_values 540 660 self))))
      /\ field "samples_at_15" d
         = Some (PInt (Z.of_nat (List.length (window_values 840 960 self))))
      /\ field "samples_at_20" d
         = Some (PInt (Z.of_nat (List.length (window_values 1140 1260 self)))))
  /\ ((window_values 540 660 self = [] ->
       field "gold_diff_at_10min" d = Some (PInt 0))
      /\ (window_values 840 960 self = [] ->
          field "gold_diff_at_15min" d = Some (PInt 0))
      /\ (window_values 1140 1260 self = [] ->
          field "gold_diff_at_20min" d = Some (PInt 0))).
Proof.
  intros d. subst d.
  unfold calculate_gold_efficiency, avg_gold_10, avg_gold_15, avg_gold_20.
  rewrite gold_loop_spec. cbn [gold_at_10 gold_at_15 gold_at_20].
  repeat split; try reflexivity; intros ->; reflexivity.
Qed.

End GoldBuckets.

(* ================================================================= *)
(** ** Counters: key order, totals and the plurality label            *)
(* ================================================================= *)

Section CounterTheory.

Lemma existsb_eqb_In (x : string) (ks : list string) :
  existsb (String.eqb x) ks = true <-> In x ks.
Proof.
  rewrite existsb_exists. split.
  - intros (k & Hk & E). apply String.eqb_eq in E. subst. exact Hk.
  - intros H. exists x. split; [exact H|apply String.eqb_refl].
Qed.

Lemma first_seen_snoc (p : list string) (x : string) :
  first_seen (p ++ [x])
  = if existsb (String.eqb x) (first_seen p) then first_seen p
    else first_seen p ++ [x].
Proof. unfold first_seen. rewrite fold_left_app. reflexivity. Qed.

Lemma first_seen_NoDup (l : list string) : NoDup (first_seen l).
Proof.
  induction l as [|x p IH] using rev_ind; [constructor|].
  rewrite first_seen_snoc.
  destruct (existsb (String.eqb x) (first_seen p)) eqn:E; [exact IH|].
  apply NoDup_app; [exact IH|repeat constructor; auto|].
  intros k Hk [<-|[]]. apply existsb_eqb_In in Hk. congruence.
Qed.

Lemma first_seen_In (l : list string) (k : string) :
  In k (first_seen l) <-> In k l.
Proof.
  revert k. induction l as [|x p IH] using rev_ind; intros k; [reflexivity|].
  rewrite first_seen_snoc, in_app_iff.
  destruct (existsb (String.eqb x) (first_seen p)) eqn:E.
  - apply existsb_eqb_In in E. apply IH in E. rewrite IH. cbn.
    intuition (subst; auto).
  - rewrite in_app_iff, IH. reflexivity.
Qed.

Lemma count_eqb_zero (k : string) (l : list string) :
  ~ In k l -> count (String.eqb k) l = 0.
Proof.
  induction l as [|x l IH]; intros H; [reflexivity|].
  rewrite count_cons, IH by (intros Hin; apply H; right; exact Hin).
  destruct (String.eqb_spec k x) as [->|_]; [|reflexivity].
  exfalso. apply H. left. reflexivity.
Qed.

Lemma count_eqb_pos (k : string) (l : list string) :
  In k l -> 0 < count (String.eqb k) l.
Proof.
  induction l as [|x l IH]; intros H; [contradiction|].
  rewrite count_cons. pose proof (count_nonneg (String.eqb k) l).
  destruct (String.eqb_spec k x) as [->|Hne]; [lia|].
  destruct H as [->|H]; [contradiction|]. specialize (IH H). lia.
Qed.

Lemma count_once (x : string) (ks : list string) :
  NoDup ks -> In x ks -> count (fun k => String.eqb k x) ks = 1.
Proof.
  induction 1 as [|k ks Hk Hnd IH]; intros Hin; [contradiction|].
  rewrite count_cons. destruct (String.eqb_spec k x) as [->|Hne].
  - rewrite (count_ext _ (String.eqb x)) by (intros; apply String.eqb_sym).
    rewrite count_eqb_zero by exact Hk. reflexivity.
  - destruct Hin as [->|Hin]; [contradiction|]. rewrite IH by exact Hin.
    reflexivity.
Qed.

(** Writing a key of a counter whose keys are distinct. *)
Lemma dict_set_on_keys (x : string) (v : Z) (g : string -> Z) (ks : list string) :
  NoDup ks ->
  dict_set x v (map (fun k => (k, g k)) ks)
  = if existsb (String.eqb x) ks
    then map (fun k => (k, if String.eqb k x then v else g k)) ks
    else map (fun k => (k, g k)) ks ++ [(x, v)].
Proof.
  induction 1 as [|k ks Hk Hnd IH]; [reflexivity|].
  cbn [map dict_set existsb].
  destruct (String.eqb_spec x k) as [->|Hne]; cbn [orb].
  - rewrite String.eqb_refl. f_equal.
    apply map_ext_in. intros k' Hk'.
    destruct (String.eqb_spec k' k) as [->|_]; [contradiction|reflexivity].
  - rewrite IH.
    destruct (String.eqb_spec k x) as [->|_]; [contradiction|].
    destruct (existsb (String.eqb x) ks); reflexivity.
Qed.

(** A counter lists the distinct labels in the order they were first
    seen, each with the number of its occurrences. *)
Lemma counter_of_first_seen (l : list string) :
  counter_of l = map (fun k => (k, count (String.eqb k) l)) (first_seen l).
Proof.
  induction l as [|x p IH] using rev_ind; [reflexivity|].
  assert (Hstep : counter_of (p ++ [x]) = counter_incr x (counter_of p)).
  { unfold counter_of. rewrite fold_left_app. reflexivity. }
  rewrite Hstep. unfold counter_incr. rewrite counter_get_of, IH.
  rewrite dict_set_on_keys by apply first_seen_NoDup.
  rewrite first_seen_snoc.
  destruct (existsb (String.eqb x) (first_seen p)) eqn:E.
  - apply map_ext. intros k. rewrite count_app, count_cons, count_nil.
    destruct (String.eqb_spec k x) as [->|_]; f_equal; lia.
  - rewrite map_app. cbn [map]. f_equal.
    + apply map_ext_in. intros k Hk. rewrite count_app, count_cons, count_nil.
      destruct (String.eqb_spec k x) as [->|_]; [|f_equal; lia].
      apply existsb_eqb_In in Hk. congruence.
    + rewrite count_app, count_cons, count_nil, String.eqb_refl. reflexivity.
Qed.

Lemma sumZ_app (l1 l2 : list Z) : sumZ (l1 ++ l2) = sumZ l1 + sumZ l2.
Proof.
  unfold sumZ. rewrite fold_left_app, sumZ_from. unfold sumZ. lia.
Qed.

Lemma sumZ_cons (x : Z) (l : list Z) : sumZ (x :: l) = x + sumZ l.
Proof. change (x :: l) with ([x] ++ l). rewrite sumZ_app. reflexivity. Qed.

(** The counts of a counter add up to the length of what was counted. *)
Lemma counter_of_total (l : list string) :
  sumZ (map snd (counter_of l)) = Z.of_nat (List.length l).
Proof.
  rewrite counter_of_first_seen, map_map. cbn [snd].
  induction l as [|x p IH] using rev_ind; [reflexivity|].
  rewrite first_seen_snoc, length_app. cbn [List.length].
  assert (Hsame : forall ks,
             sumZ (map (fun k => count (String.eqb k) (p ++ [x])) ks)
             = sumZ (map (fun k => count (String.eqb k) p) ks)
               + count (fun k => String.eqb k x) ks).
  { induction ks as [|k ks IHk]; [reflexivity|].
    cbn [map]. rewrite !sumZ_cons, IHk, count_cons, count_app, count_cons, count_nil.
    lia. }
  destruct (existsb (String.eqb x) (first_seen p)) eqn:E.
  - rewrite Hsame, IH.
    apply existsb_eqb_In in E.
    rewrite (count_once x (first_seen p) (first_seen_NoDup p) E). lia.
  - rewrite map_app, sumZ_app, Hsame, IH. cbn [map].
    rewrite sumZ_cons, count_app, count_cons, count_nil, String.eqb_refl.
    assert (Hzero : count (fun k => String.eqb k x) (first_seen p) = 0).
    { assert (Hnot : ~ In x (first_seen p)).
      { intros Hin. apply existsb_eqb_In in Hin. congruence. }
      rewrite (count_ext _ (String.eqb x)) by (intros; apply String.eqb_sym).
      apply count_eqb_zero. exact Hnot. }
    assert (Hp : count (String.eqb x) p = 0).
    { apply count_eqb_zero. intros Hin. apply first_seen_In in Hin.
      apply existsb_eqb_In in Hin. congruence. }
    change (sumZ []) with 0. lia.
Qed.

(** [max(c, key=c.get)]: the first key whose count is maximal. *)
Lemma counter_argmax_from_spec (g : string -> Z) (ks : list string) :
  forall done best mid,
    (forall k, In k done -> g k < g best) ->
    (forall k, In k mid -> g k <= g best) ->
    exists earlier later,
      done ++ best :: mid ++ ks
      = earlier
        ++ counter_argmax_from best (g best) (map (fun k => (k, g k)) ks)
        :: later
      /\ (forall k, In k earlier ->
            g k < g (counter_argmax_from best (g best) (map (fun k => (k, g k)) ks)))
      /\ (forall k, In k later ->
            g k <= g (counter_argmax_from best (g best) (map (fun k => (k, g k)) ks))).
Proof.
  induction ks as [|k ks IH]; intros done best mid Hdone Hmid.
  - exists done, mid. rewrite app_nil_r. auto.
  - cbn [map counter_argmax_from].
    destruct (Z.ltb_spec (g best) (g k)) as [Hlt|Hge].
    + destruct (IH (done ++ best :: mid) k []) as (e & l & E & He & Hl).
      * intros k' Hk'. apply in_app_iff in Hk'.
        destruct Hk' as [Hk'|[<-|Hk']]; [specialize (Hdone _ Hk')| |specialize (Hmid _ Hk')]; lia.
      * intros k' [].
      * exists e, l. split; [|auto].
        rewrite <- E. rewrite <- !app_assoc. reflexivity.
    + destruct (IH done best (mid ++ [k])) as (e & l & E & He & Hl).
      * exact Hdone.
      * intros k' Hk'. apply in_app_iff in Hk'.
        destruct Hk' as [Hk'|[<-|[]]]; [apply Hmid, Hk'|lia].
      * exists e, l. split; [|auto].
        rewrite <- E. rewrite <- !app_assoc. reflexivity.
Qed.

(** The label [max] picks from a counter is the plurality label. *)
Lemma counter_argmax_plurality (default : string) (l : list string) :
  l <> [] -> plurality (counter_argmax default (counter_of l)) l.
Proof.
  intros Hne. unfold plurality. rewrite counter_of_first_seen.
  destruct (first_seen l) as [|k ks] eqn:Hfs.
  - destruct l as [|x l]; [contradiction|].
    assert (Hin : In x (first_seen (x :: l))) by (apply first_seen_In; left; reflexivity).
    rewrite Hfs in Hin. contradiction.
  - cbn [map counter_argmax].
    destruct (counter_argmax_from_spec (fun k => count (String.eqb k) l) ks [] k [])
      as (e & la & E & He & Hl); try (intros ? []).
    exists e, la. auto.
Qed.

Lemma plurality_max (fav : string) (l : list string) :
  plurality fav l ->
  In fav l /\ forall k, count (String.eqb k) l <= count (String.eqb fav) l.
Proof.
  intros (e & la & E & He & Hl).
  assert (Hfav : In fav l).
  { apply first_seen_In. rewrite E. apply in_or_app. right. left. reflexivity. }
  split; [exact Hfav|]. intros k.
  destruct (in_dec String.string_dec k l) as [Hk|Hk].
  - apply first_seen_In in Hk. rewrite E in Hk. apply in_app_iff in Hk.
    destruct Hk as [Hk|[<-|Hk]]; [specialize (He _ Hk)| |specialize (Hl _ Hk)]; lia.
  - rewrite (count_eqb_zero k l Hk). apply count_nonneg.
Qed.

End CounterTheory.

(* ================================================================= *)
(** ** LoL: the lane named in the insight                             *)
(* ================================================================= *)

Section JungleInsight.
Import Lol LolSpec.

Lemma percent_ltb (a b total : Z) :
  0 < total ->
  Qltb (num_to_Q (flt (inject_Z a / inject_Z total * 100)))
       (num_to_Q (flt (inject_Z b / inject_Z total * 100)))
  = (a <? b).
Proof.
  intros Ht. unfold Qltb, flt, num_to_Q.
  destruct total as [|p|p]; try lia.
  destruct (Z.ltb_spec a b) as [Hlt|Hge].
  - apply negb_true_iff. apply not_true_is_false. intros H.
    apply Qle_bool_iff in H. rewrite !Qred_correct, <- !Qmake_Qdiv in H.
    unfold Qle, Qmult in H. cbn [Qnum Qden] in H. nia.
  - apply negb_false_iff. apply Qle_bool_iff.
    rewrite !Qred_correct, <- !Qmake_Qdiv.
    unfold Qle, Qmult. cbn [Qnum Qden]. nia.
Qed.

Lemma lane_counter_plurality (self : analyzer) :
  samples self <> [] ->
  plurality (counter_argmax "" (lane_counter self)) (map lane (samples self)).
Proof.
  intros Hne. unfold lane_counter. rewrite all_positions_samples.
  apply counter_argmax_plurality.
  destruct (samples self); [contradiction|discriminate].
Qed.

Lemma lane_count_labels (label : string) (self : analyzer) :
  lane_count label self = count (String.eqb label) (map lane (samples self)).
Proof.
  unfold lane_count. rewrite count_map. apply count_ext.
  intros p. apply String.eqb_sym.
Qed.

(** X4.  With at least one sample, the lane the jungle insight names is
    the plurality label of the samples: no label has more samples, and
    a label with as many was first seen later.  The insight prints a
    number to one decimal beside it; when every label is Top, Mid or
    Bot, that number is the lane's own share of the samples, as a
    percentage. *)
Theorem jungle_insight_names_plurality (self : analyzer) :
  samples self <> [] ->
  exists focus,
    plurality focus (map lane (samples self))
    /\ (forall label, lane_count label self <= lane_count focus self)
    /\ (exists shown,
          field "insight" (calculate_jungle_proximity self)
          = Some (PStr ("Jungler focuses " +++ fmt_fixed 1 shown
                        +++ "% on " +++ focus +++ " lane"))
          /\ (Forall lane_in_schema (samples self) ->
              (Qabs (num_to_Q shown
                     - inject_Z (lane_count focus self)
                       / inject_Z (Z.of_nat (List.length (samples self)))
                       * 100) <= float_slack)%Q)).
Proof.
  intros Hne. exists (counter_argmax "" (lane_counter self)).
  pose proof (lane_counter_plurality self Hne) as Hplu.
  destruct (plurality_max _ _ Hplu) as [Hin Hmax].
  set (focus := counter_argmax "" (lane_counter self)) in *.
  split; [exact Hplu|]. split.
  { intros label. rewrite !lane_count_labels. apply Hmax. }
  exists (num_max3 (lane_percent "Top" self) (lane_percent "Mid" self)
                   (lane_percent "Bot" self)).
  split.
  { unfold calculate_jungle_proximity. rewrite all_positions_samples.
    destruct (samples self) as [|p ps]; [contradiction|]. reflexivity. }
  intros Hschema.
  assert (Htotal : 0 < Z.of_nat (List.length (samples self))).
  { destruct (samples self); [contradiction|cbn [List.length]; lia]. }
  assert (Hexact : forall x : Q,
             (Qabs (num_to_Q (flt x) - x) <= float_slack)%Q).
  { intros x. unfold flt, num_to_Q, float_slack. rewrite Qred_correct.
    setoid_replace (x - x)%Q with 0%Q by ring. discriminate. }
  enough (Hshown : num_max3 (lane_percent "Top" self) (lane_percent "Mid" self)
                            (lane_percent "Bot" self)
                   = flt (inject_Z (lane_count focus self)
                          / inject_Z (Z.of_nat (List.length (samples self)))
                          * 100))
    by (rewrite Hshown; apply Hexact).
  assert (Hfocus : focus = "Top" \/ focus = "Mid" \/ focus = "Bot").
  { apply in_map_iff in Hin. destruct Hin as (p & <- & Hp).
    rewrite Forall_forall in Hschema. apply (Hschema p Hp). }
  pose proof (Hmax "Top") as HT. pose proof (Hmax "Mid") as HM.
  pose proof (Hmax "Bot") as HB.
  rewrite <- !lane_count_labels in HT, HM, HB.
  unfold num_max3, num_max2. rewrite !lane_percent_value.
  rewrite (percent_ltb _ _ _ Htotal).
  destruct (Z.ltb_spec (lane_count "Top" self) (lane_count "Mid" self));
    rewrite (percent_ltb _ _ _ Htotal);
    match goal with |- context [?a <? ?b] => destruct (Z.ltb_spec a b) end;
    destruct Hfocus as [E|[E|E]]; rewrite E in *; f_equal; f_equal; f_equal; f_equal; lia.
Qed.

Lemma jungle_insight_names_plurality_witness :
  exists focus,
    plurality focus (map lane (samples (init Samples.three_lanes)))
    /\ (forall label, lane_count label (init Samples.three_lanes)
                      <= lane_count focus (init Samples.three_lanes))
    /\ (exists shown,
          field "insight" (calculate_jungle_proximity (init Samples.three_lanes))
          = Some (PStr ("Jungler focuses " +++ fmt_fixed 1 shown
                        +++ "% on " +++ focus +++ " lane"))
          /\ (Forall lane_in_schema (samples (init Samples.three_lanes)) ->
              (Qabs (num_to_Q shown
                     - inject_Z (lane_count focus (init Samples.three_lanes))
                       / inject_Z (Z.of_nat (List.length
                                     (samples (init Samples.three_lanes))))
                       * 100) <= float_slack)%Q)).
Proof.
  apply (jungle_insight_names_plurality (init Samples.three_lanes)).
  discriminate.
Defined.

End JungleInsight.

(* ================================================================= *)
(** ** VALORANT: site bias                                            *)
(* ================================================================= *)

Section SiteBias.
Import Valorant ValorantSpec ValorantEvents.

Lemma append_length (a b : string) :
  String.length (a +++ b) = (String.length a + String.length b)%nat.
Proof. induction a as [|c a IH]; cbn; [reflexivity|rewrite IH; reflexivity]. Qed.

Lemma append_inj_suffix (a b t : string) : a +++ t = b +++ t -> a = b.
Proof.
  revert b. induction a as [|c a IH]; intros [|d b] H; cbn in H.
  - reflexivity.
  - apply (f_equal String.length) in H. cbn in H. rewrite append_length in H. lia.
  - apply (f_equal String.length) in H. cbn in H. rewrite append_length in H. lia.
  - injection H as -> H. f_equal. apply IH, H.
Qed.

Lemma site_key_eqb (fav site : string) :
  String.eqb ("site_" +++ fav +++ "_percent") ("site_" +++ site +++ "_percent")
  = String.eqb fav site.
Proof.
  destruct (String.eqb_spec fav site) as [->|Hne].
  - apply String.eqb_refl.
  - apply String.eqb_neq. intros H. apply Hne.
    cbn in H. injection H as H. exact (append_inj_suffix _ _ _ H).
Qed.

(** The two counters of the loop count the plants, and the plants of
    the rounds the team won. *)
Lemma site_step_spec (name : string) (attacks wins : counter) (r : round_data) :
  site_step name (attacks, wins) r
  = (fold_left (fun c k => counter_incr k c) (plant_sites [r]) attacks,
     fold_left (fun c k => counter_incr k c)
               (plant_sites (filter (won_round name) [r])) wins).
Proof.
  unfold site_step, won_round, plant_sites. cbn [filter flat_map].
  destruct (truthy_site (spike_site r)) as [site|] eqn:Es;
    destruct (String.eqb (winner r) name); cbn [flat_map]; rewrite ?Es;
    reflexivity.
Qed.

Lemma plant_sites_app (rs1 rs2 : list round_data) :
  plant_sites (rs1 ++ rs2) = plant_sites rs1 ++ plant_sites rs2.
Proof. unfold plant_sites. apply flat_map_app. Qed.

Lemma site_fold_spec (name : string) (rs : list round_data) :
  forall attacks wins,
    fold_left (site_step name) rs (attacks, wins)
    = (fold_left (fun c k => counter_incr k c) (plant_sites rs) attacks,
       fold_left (fun c k => counter_incr k c)
                 (plant_sites (filter (won_round name) rs)) wins).
Proof.
  induction rs as [|r rs IH]; intros attacks wins; [reflexivity|].
  cbn [fold_left]. rewrite site_step_spec, IH.
  change (r :: rs) with ([r] ++ rs).
  rewrite filter_app, !plant_sites_app, !fold_left_app. reflexivity.
Qed.

Lemma site_loop_spec (self : analyzer) :
  site_loop self
  = (counter_of (plant_sites (all_rounds self)),
     counter_of (plant_sites (filter (won_round (team_name self)) (all_rounds self)))).
Proof.
  unfold site_loop. rewrite for_rounds_all_rounds. apply site_fold_spec.
Qed.

Lemma count_plant_sites (site : string) (rs : list round_data) :
  count (String.eqb site) (plant_sites rs) = count (planted_on site) rs.
Proof.
  induction rs as [|r rs IH]; [reflexivity|].
  unfold plant_sites. cbn [flat_map]. fold (plant_sites rs).
  rewrite count_app, count_cons, IH. unfold planted_on at 2.
  destruct (truthy_site (spike_site r)) as [s|].
  - rewrite count_cons, count_nil, (String.eqb_sym site s). lia.
  - rewrite count_nil. reflexivity.
Qed.

Lemma length_plant_sites (rs : list round_data) :
  Z.of_nat (List.length (plant_sites rs)) = count planted rs.
Proof.
  induction rs as [|r rs IH]; [reflexivity|].
  unfold plant_sites. cbn [flat_map]. fold (plant_sites rs).
  rewrite length_app, count_cons, Nat2Z.inj_add, IH. unfold planted at 2.
  destruct (truthy_site (spike_site r)); cbn [List.length]; lia.
Qed.

Lemma plant_sites_nil (rs : list round_data) :
  plant_sites rs = [] <-> count planted rs = 0.
Proof.
  rewrite <- length_plant_sites. destruct (plant_sites rs); cbn [List.length].
  - tauto.
  - split; [discriminate|lia].
Qed.

End SiteBias.

Section SiteBiasReport.
Import Valorant ValorantSpec ValorantEvents.

Lemma dict_get_site_key {V : Type} (fav : string) (vA vB vC : V) :
  dict_get ("site_" +++ fav +++ "_percent")
    [("site_A_percent", vA); ("site_B_percent", vB); ("site_C_percent", vC)]
  = if String.eqb fav "A" then Some vA
    else if String.eqb fav "B" then Some vB
    else if String.eqb fav "C" then Some vC
    else None.
Proof.
  cbn [dict_get].
  change "site_A_percent" with ("site_" +++ "A" +++ "_percent").
  change "site_B_percent" with ("site_" +++ "B" +++ "_percent").
  change "site_C_percent" with ("site_" +++ "C" +++ "_percent").
  rewrite !site_key_eqb. reflexivity.
Qed.

Lemma site_attacks_get (site : string) (self : analyzer) :
  counter_get site (counter_of (plant_sites (all_rounds self)))
  = count (planted_on site) (all_rounds self).
Proof. rewrite counter_get_of. apply count_plant_sites. Qed.

Lemma site_wins_get (site : string) (self : analyzer) :
  counter_get site
    (counter_of (plant_sites (filter (won_round (team_name self)) (all_rounds self))))
  = count (fun r => planted_on site r && won_round (team_name self) r)
          (all_rounds self).
Proof.
  rewrite counter_get_of, count_plant_sites.
  induction (all_rounds self) as [|r rs IH]; [reflexivity|].
  cbn [filter]. rewrite count_cons.
  destruct (won_round (team_name self) r); rewrite ?count_cons, IH;
    destruct (planted_on site r); reflexivity.
Qed.

Lemma site_attacks_total (self : analyzer) :
  sumZ (map snd (counter_of (plant_sites (all_rounds self))))
  = count planted (all_rounds self).
Proof. rewrite counter_of_total. apply length_plant_sites. Qed.

Lemma favorite_site_cases (self : analyzer) :
  (count planted (all_rounds self) = 0 /\ favorite_site self = "Unknown")
  \/ (0 < count planted (all_rounds self)
      /\ plurality (favorite_site self) (plant_sites (all_rounds self))).
Proof.
  unfold favorite_site. rewrite site_loop_spec. cbn [fst].
  destruct (plant_sites (all_rounds self)) as [|s l] eqn:E.
  - left. split; [apply plant_sites_nil, E|reflexivity].
  - right. split.
    + rewrite <- length_plant_sites, E. cbn [List.length]. lia.
    + apply counter_argmax_plurality. discriminate.
Qed.

(** What the method returns, by the label of the favourite site. *)
Lemma site_bias_raises (self : analyzer) :
  let fav := favorite_site self in
  fav <> "A" -> fav <> "B" -> fav <> "C" ->
  calculate_site_bias self = Raise (KeyError ("site_" +++ fav +++ "_percent")).
Proof.
  intros fav HA HB HC. unfold calculate_site_bias.
  subst fav. unfold favorite_site in *. rewrite site_loop_spec in *. cbn [fst] in *.
  cbv beta iota. cbn [fold_left]. unfold site_rates_step.
  cbn [dict_set String.append String.eqb Ascii.eqb Bool.eqb andb].
  unfold dict_getitem.
  match goal with
  | |- context [dict_get ?k [(_, ?a); (_, ?b); (_, ?c)]] =>
      change (dict_get k [("site_A_percent", a); ("site_B_percent", b);
                          ("site_C_percent", c)])
        with (dict_get ("site_" +++ counter_argmax "Unknown"
                          (counter_of (plant_sites (all_rounds self)))
                        +++ "_percent")
                [("site_A_percent", a); ("site_B_percent", b);
                 ("site_C_percent", c)]);
      rewrite (dict_get_site_key _ a b c)
  end.
  apply String.eqb_neq in HA, HB, HC. rewrite HA, HB, HC. reflexivity.
Qed.

Lemma site_bias_fields (self : analyzer) :
  let rs := all_rounds self in
  let fav := favorite_site self in
  let total := count planted rs in
  let on site := count (planted_on site) rs in
  let won_on site :=
    count (fun r => planted_on site r && won_round (team_name self) r) rs in
  let pct site := py_round (flt (inject_Z (on site) / inject_Z total * 100)) 1 in
  fav = "A" \/ fav = "B" \/ fav = "C" ->
  0 < total
  /\ exists d,
      calculate_site_bias self = Ok d
      /\ field "total_spike_plants" d = Some (PInt total)
      /\ field "favorite_site" d = Some (PStr fav)
      /\ field "favorite_site_attacks" d = Some (PInt (on fav))
      /\ (field "site_A_percent" d = Some (PNum (pct "A"))
          /\ field "site_B_percent" d = Some (PNum (pct "B"))
          /\ field "site_C_percent" d = Some (PNum (pct "C")))
      /\ (forall site, In site ["A"; "B"; "C"] ->
            field ("site_" +++ site +++ "_winrate") d
            = Some (if on site >? 0
                    then PNum (py_round (flt (inject_Z (won_on site)
                                              / inject_Z (on site) * 100)) 1)
                    else PInt 0))
      /\ field "site_attack_distribution" d
         = Some (PDict (map (fun k => (k, PInt (on k)))
                            (first_seen (plant_sites rs))))
      /\ field "insight" d
         = Some (PStr ("HEAVILY favors " +++ fav +++ "-Site ("
                       +++ fmt_fixed 0 (pct fav) +++ "% of attacks)")).
Proof.
  intros rs fav total on won_on pct Hfav.
  assert (Hpos : 0 < total).
  { destruct (favorite_site_cases self) as [[_ E]|[H _]]; [|exact H].
    fold fav in E. rewrite E in Hfav. destruct Hfav as [H|[H|H]]; discriminate. }
  split; [exact Hpos|].
  assert (Hgt : (total >? 0) = true) by (apply Z.gtb_lt; lia).
  unfold calculate_site_bias.
  assert (Efav : fav = counter_argmax "Unknown"
                         (counter_of (plant_sites (all_rounds self)))).
  { subst fav. unfold favorite_site. rewrite site_loop_spec. reflexivity. }
  rewrite site_loop_spec.
  cbv beta iota. cbn [fold_left]. unfold site_rates_step.
  cbn [dict_set String.append String.eqb Ascii.eqb Bool.eqb andb].
  rewrite <- !Efav. rewrite !site_attacks_get, !site_wins_get, !site_attacks_total.
  fold rs total. rewrite Hgt.
  fold (on "A") (on "B") (on "C") (on fav)
       (won_on "A") (won_on "B") (won_on "C").
  fold (pct "A") (pct "B") (pct "C").
  assert (Hdist : map (fun kv : string * Z => (fst kv, PInt (snd kv)))
                      (counter_of (plant_sites rs))
                  = map (fun k => (k, PInt (on k))) (first_seen (plant_sites rs))).
  { rewrite counter_of_first_seen, map_map. apply map_ext. intros k. cbn [fst snd].
    subst on rs. cbv beta. rewrite count_plant_sites. reflexivity. }
  rewrite Hdist.
  unfold dict_getitem.
  change (String "s" (String "i" (String "t" (String "e"
            (String "_" (fav +++ "_percent"))))))
    with ("site_" +++ fav +++ "_percent").
  rewrite dict_get_site_key.
  destruct Hfav as [E|[E|E]]; rewrite E; cbn [String.eqb Ascii.eqb Bool.eqb andb];
    eexists; (split; [reflexivity|]);
    repeat split; try reflexivity;
    intros site Hs; cbn [In] in Hs; destruct Hs as [<-|[<-|[<-|[]]]]; reflexivity.
Qed.

End SiteBiasReport.

Section SiteBiasTheorems.
Import Valorant ValorantSpec ValorantEvents.

Lemma favorite_site_dec (self : analyzer) :
  (favorite_site self = "A" \/ favorite_site self = "B" \/ favorite_site self = "C")
  \/ (favorite_site self <> "A" /\ favorite_site self <> "B"
      /\ favorite_site self <> "C").
Proof.
  destruct (String.eqb_spec (favorite_site self) "A"); [auto|].
  destruct (String.eqb_spec (favorite_site self) "B"); [auto|].
  destruct (String.eqb_spec (favorite_site self) "C"); [auto|].
  right. auto.
Qed.

Lemma schema_favorite (self : analyzer) :
  0 < count planted (all_rounds self) ->
  Forall site_in_schema (all_rounds self) ->
  favorite_site self = "A" \/ favorite_site self = "B" \/ favorite_site self = "C".
Proof.
  intros Hpos Hschema.
  destruct (favorite_site_cases self) as [[H0 _]|[_ Hplu]]; [lia|].
  destruct (plurality_max _ _ Hplu) as [Hin _].
  unfold plant_sites in Hin. apply in_flat_map in Hin.
  destruct Hin as (r & Hr & Hin). rewrite Forall_forall in Hschema.
  specialize (Hschema r Hr). unfold site_in_schema in Hschema.
  destruct (truthy_site (spike_site r)) as [s|]; [|contradiction].
  destruct Hin as [<-|[]]. exact Hschema.
Qed.

Lemma complete_analysis_raises (self : analyzer) (e : exn) :
  calculate_site_bias self = Raise e -> get_complete_analysis self = Raise e.
Proof. intros H. unfold get_complete_analysis. rewrite H. reflexivity. Qed.

(** X5.  Whether [calculate_site_bias] returns depends on the favourite
    site alone.  With no plant the favourite is "Unknown"; with a plant
    it is the plurality site label.  A favourite A, B or C gives a
    result; any other gives [KeyError] for the key
    site_<favourite>_percent, from this method and from
    [get_complete_analysis].  Plants on A, B and C only, at least one of
    them, therefore always give a result. *)
Theorem site_bias_outcome (self : analyzer) :
  let fav := favorite_site self in
  let rs := all_rounds self in
  (count planted rs = 0 -> fav = "Unknown")
  /\ (0 < count planted rs -> plurality fav (plant_sites rs))
  /\ (fav = "A" \/ fav = "B" \/ fav = "C" ->
      exists d, calculate_site_bias self = Ok d)
  /\ (fav <> "A" -> fav <> "B" -> fav <> "C" ->
      calculate_site_bias self = Raise (KeyError ("site_" +++ fav +++ "_percent"))
      /\ get_complete_analysis self
         = Raise (KeyError ("site_" +++ fav +++ "_percent")))
  /\ (0 < count planted rs -> Forall site_in_schema rs ->
      exists d, calculate_site_bias self = Ok d).
Proof.
  intros fav rs. split; [|split; [|split; [|split]]].
  - intros H0. destruct (favorite_site_cases self) as [[_ E]|[H _]];
      [exact E|fold rs in H; lia].
  - intros Hpos. destruct (favorite_site_cases self) as [[H _]|[_ H]];
      [fold rs in H; lia|exact H].
  - intros Hfav. destruct (site_bias_fields self Hfav) as (_ & d & Hd & _).
    exists d. exact Hd.
  - intros HA HB HC. pose proof (site_bias_raises self HA HB HC) as H.
    split; [exact H|apply complete_analysis_raises, H].
  - intros Hpos Hschema.
    destruct (site_bias_fields self (schema_favorite self Hpos Hschema))
      as (_ & d & Hd & _).
    exists d. exact Hd.
Qed.

Lemma site_bias_outcome_witness :
  favorite_site (init MoreSamples.no_plant_rounds) = "Unknown"
  /\ (exists d, calculate_site_bias (init Samples.twenty_rounds) = Ok d)
  /\ calculate_site_bias (init MoreSamples.off_schema_rounds)
     = Raise (KeyError "site_D_percent").
Proof.
  split; [|split].
  - apply (proj1 (site_bias_outcome (init MoreSamples.no_plant_rounds))).
    reflexivity.
  - apply (proj2 (proj2 (proj2 (proj2
             (site_bias_outcome (init Samples.twenty_rounds)))))).
    + reflexivity.
    + cbn. repeat (apply Forall_cons || apply Forall_nil);
        unfold site_in_schema; cbn; auto.
  - apply (proj1 (proj2 (proj2 (proj2
             (site_bias_outcome (init MoreSamples.off_schema_rounds))))));
      discriminate.
Defined.

(** X6.  When [calculate_site_bias] returns, its counts are counts of
    rounds: the total is the number of rounds with a plant, the
    favourite site is the plurality label of the plants (ties go to the
    label planted first) and is reported with its own number of plants,
    no site has more, the distribution lists every planted label in the
    order of its first plant, and each site's win rate is 0 for a site
    never planted and otherwise its plants in rounds the team won over
    its plants x 100, to one decimal (within half a step of the exact
    percentage). *)
Theorem site_bias_report (self : analyzer) (d : pyval) :
  let rs := all_rounds self in
  let on site := count (planted_on site) rs in
  let won_on site :=
    count (fun r => planted_on site r && won_round (team_name self) r) rs in
  calculate_site_bias self = Ok d ->
  exists fav,
    field "favorite_site" d = Some (PStr fav)
    /\ plurality fav (plant_sites rs)
    /\ (forall site, on site <= on fav)
    /\ field "favorite_site_attacks" d = Some (PInt (on fav))
    /\ field "total_spike_plants" d = Some (PInt (count planted rs))
    /\ field "site_attack_distribution" d
       = Some (PDict (map (fun k => (k, PInt (on k)))
                          (first_seen (plant_sites rs))))
    /\ (forall site, In site ["A"; "B"; "C"] ->
          0 <= won_on site <= on site
          /\ (on site = 0 ->
              field ("site_" +++ site +++ "_winrate") d = Some (PInt 0))
          /\ (0 < on site ->
              is_percent_of (reported ("site_" +++ site +++ "_winrate") d)
                            (won_on site) (on site))).
Proof.
  intros rs on won_on Hok.
  destruct (favorite_site_dec self) as [Hfav|(HA & HB & HC)].
  2:{ rewrite (site_bias_raises self HA HB HC) in Hok. discriminate. }
  pose proof (site_bias_fields self Hfav) as Hfields. cbv zeta in Hfields.
  destruct Hfields as (Hpos & d' & Hd' & Ht & Hf & Hfa & _ & Hw & Hdist & _).
  rewrite Hok in Hd'. injection Hd' as <-.
  exists (favorite_site self).
  destruct (favorite_site_cases self) as [[H0 _]|[_ Hplu]]; [lia|].
  destruct (plurality_max _ _ Hplu) as [_ Hmax].
  split; [assumption|]. split; [assumption|]. split.
  { intros site. subst on. cbv beta. rewrite <- !count_plant_sites. apply Hmax. }
  split; [assumption|]. split; [assumption|]. split; [assumption|].
  intros site Hsite. specialize (Hw site Hsite). fold rs in Hw.
  change (count (planted_on site) rs) with (on site) in Hw.
  change (count (fun r => planted_on site r && won_round (team_name self) r) rs)
    with (won_on site) in Hw.
  split; [|split].
  - subst on won_on. cbv beta. split; [apply count_nonneg|].
    apply count_le_impl. intros r Hr. apply andb_true_iff in Hr. apply Hr.
  - intros H0. rewrite Hw, H0. reflexivity.
  - intros Hon. unfold reported. rewrite Hw.
    pose proof (reported_percent_close (won_on site) (on site) Hon) as Hclose.
    unfold percent_or_zero in Hclose.
    destruct (Z.gtb_spec (on site) 0) as [_|]; [exact Hclose|lia].
Qed.

Lemma site_bias_report_witness :
  exists d fav,
    calculate_site_bias (init Samples.twenty_rounds) = Ok d
    /\ field "favorite_site" d = Some (PStr fav)
    /\ field "total_spike_plants" d = Some (PInt 15).
Proof.
  destruct (calculate_site_bias (init Samples.twenty_rounds)) as [d|e] eqn:E;
    [|vm_compute in E; discriminate].
  destruct (site_bias_report (init Samples.twenty_rounds) d E)
    as (fav & Hf & _ & _ & _ & Ht & _).
  exists d, fav. repeat split; assumption.
Defined.

Lemma schema_plants_total (rs : list round_data) :
  Forall site_in_schema rs ->
  count (planted_on "A") rs + count (planted_on "B") rs
  + count (planted_on "C") rs = count planted rs.
Proof.
  induction 1 as [|r rs Hr _ IH]; [reflexivity|].
  rewrite !count_cons.
  assert (Hone : (if planted_on "A" r then 1 else 0)
                 + (if planted_on "B" r then 1 else 0)
                 + (if planted_on "C" r then 1 else 0)
                 = if planted r then 1 else 0).
  { unfold site_in_schema in Hr. unfold planted_on, planted.
    destruct (truthy_site (spike_site r)) as [s|]; [|reflexivity].
    destruct Hr as [-> | [-> | ->]]; reflexivity. }
  lia.
Qed.

(** Three shares of one total, each rounded to one decimal, add up to
    100 within one rounding step. *)
Lemma rounded_shares_sum (a b c total : Z) :
  0 < total -> a + b + c = total ->
  let share x := num_to_Q (py_round (flt (inject_Z x / inject_Z total * 100)) 1) in
  (Qabs (share a + share b + share c - 100) <= 1 # 10)%Q.
Proof.
  intros Hpos Hsum share. subst share. cbv beta.
  destruct (reported_lane_percent a total) as (Ra & Ea & Ba).
  destruct (reported_lane_percent b total) as (Rb & Eb & Bb).
  destruct (reported_lane_percent c total) as (Rc & Ec & Bc).
  rewrite Ea, Eb, Ec.
  assert (Hone : (inject_Z a / inject_Z total + inject_Z b / inject_Z total
                  + inject_Z c / inject_Z total == 1)%Q).
  { rewrite <- Hsum, !inject_Z_plus. field.
    rewrite <- !inject_Z_plus, Hsum.
    intros H0. unfold Qeq in H0. cbn [Qnum Qden inject_Z] in H0. lia. }
  set (qa := (inject_Z a / inject_Z total)%Q) in *.
  set (qb := (inject_Z b / inject_Z total)%Q) in *.
  set (qc := (inject_Z c / inject_Z total)%Q) in *.
  assert (Hz : 999 <= Ra + Rb + Rc <= 1001).
  { assert (H1 : (inject_Z (Ra + Rb + Rc) <= 2003 # 2)%Q)
      by (rewrite !inject_Z_plus; lra).
    assert (H2 : (1997 # 2 <= inject_Z (Ra + Rb + Rc))%Q)
      by (rewrite !inject_Z_plus; lra).
    unfold Qle in H1, H2. cbn [Qnum Qden inject_Z] in H1, H2. lia. }
  assert (Hq : (999 <= inject_Z Ra + inject_Z Rb + inject_Z Rc <= 1001)%Q).
  { rewrite <- !inject_Z_plus. split.
    - change 999%Q with (inject_Z 999). rewrite <- Zle_Qle. lia.
    - change 1001%Q with (inject_Z 1001). rewrite <- Zle_Qle. lia. }
  apply Qabs_Qle_condition. unfold Qdiv.
  change (/ 10)%Q with (1 # 10)%Q. split; lra.
Qed.

Lemma rounded_shares_sum_to_hundred (a b c total : Z) :
  0 < total -> a + b + c = total ->
  let share x := num_to_Q (py_round (flt (inject_Z x / inject_Z total * 100)) 1) in
  sum_to_hundred (share a) (share b) (share c).
Proof.
  intros Hpos Hsum share. unfold sum_to_hundred, float_slack.
  pose proof (rounded_shares_sum a b c total Hpos Hsum) as H. cbv zeta in H.
  subst share. cbv beta.
  set (x := Qabs _) in *. lra.
Qed.

(** X7.  When [calculate_site_bias] returns and every plant is on A, B
    or C, the three reported site percentages add up to 100 within one
    step (0.1). *)
Theorem site_percentages_sum (self : analyzer) (d : pyval) :
  calculate_site_bias self = Ok d ->
  Forall site_in_schema (all_rounds self) ->
  sum_to_hundred (reported "site_A_percent" d) (reported "site_B_percent" d)
                 (reported "site_C_percent" d).
Proof.
  intros Hok Hschema.
  destruct (favorite_site_dec self) as [Hfav|(HA & HB & HC)].
  2:{ rewrite (site_bias_raises self HA HB HC) in Hok. discriminate. }
  pose proof (site_bias_fields self Hfav) as Hfields. cbv zeta in Hfields.
  destruct Hfields as (Hpos & d' & Hd' & _ & _ & _ & (HpA & HpB & HpC) & _).
  rewrite Hok in Hd'. injection Hd' as <-.
  unfold reported. rewrite HpA, HpB, HpC.
  apply rounded_shares_sum_to_hundred;
    [exact Hpos|apply schema_plants_total, Hschema].
Qed.

Lemma site_percentages_sum_witness :
  exists d,
    calculate_site_bias (init Samples.twenty_rounds) = Ok d
    /\ sum_to_hundred (reported "site_A_percent" d)
                      (reported "site_B_percent" d)
                      (reported "site_C_percent" d).
Proof.
  destruct (calculate_site_bias (init Samples.twenty_rounds)) as [d|e] eqn:E;
    [|vm_compute in E; discriminate].
  exists d. split; [reflexivity|].
  apply (site_percentages_sum (init Samples.twenty_rounds) d E).
  cbn. repeat (apply Forall_cons || apply Forall_nil);
    unfold site_in_schema; cbn; auto.
Defined.

End SiteBiasTheorems.

(* ================================================================= *)
(** ** VALORANT: consistency of the report                            *)
(* ================================================================= *)

Section ValorantConsistency.
Import Valorant ValorantSpec ValorantEvents.

Lemma duel_fold_without (name : string) (rs : list round_data) :
  forall a,
    rounds_won_without_fb (fold_left (duel_step name) rs a)
    = rounds_won_without_fb a
      + count (fun r => negb (got_first_blood name r) && won_round name r) rs.
Proof.
  induction rs as [|r rs IH]; intros a; cbn [fold_left].
  - rewrite count_nil. lia.
  - rewrite IH, count_cons. unfold duel_step, got_first_blood, won_round.
    destruct (String.eqb (first_blood_team r) name),
             (String.eqb (winner r) name);
      cbn [rounds_won_without_fb andb negb]; lia.
Qed.

Lemma team_rounds_won_count (self : analyzer) :
  team_rounds_won self = count (won_round (team_name self)) (all_rounds self).
Proof.
  unfold team_rounds_won, all_rounds.
  induction (matches self) as [|m ms IH]; [reflexivity|].
  cbn [map flat_map]. rewrite sumZ_cons, IH, count_app. reflexivity.
Qed.

Lemma count_split {A : Type} (p q : A -> bool) (l : list A) :
  count (fun a => p a && q a) l + count (fun a => negb (p a) && q a) l
  = count q l.
Proof.
  induction l as [|a l IH]; [reflexivity|].
  rewrite !count_cons. destruct (p a), (q a); cbn [andb negb]; lia.
Qed.

(** X8.  The opening-duel report is consistent with the round totals of
    the full analysis: rounds won with and without first blood add up
    to the rounds the team won (the numerator of the round win rate),
    the rounds won with first blood are among the first-blood rounds,
    and those among the total rounds, which is the
    [total_rounds_played] of the full analysis. *)
Theorem opening_duel_consistency (self : analyzer) :
  let a := duel_loop self in
  let d := calculate_opening_duel_winrate self in
  (field "rounds_with_first_blood" d = Some (PInt (team_first_bloods a))
   /\ field "rounds_won_with_fb" d = Some (PInt (rounds_won_with_fb a))
   /\ field "rounds_won_without_fb" d = Some (PInt (rounds_won_without_fb a))
   /\ field "total_rounds" d = Some (PInt (total_rounds a)))
  /\ rounds_won_with_fb a + rounds_won_without_fb a = team_rounds_won self
  /\ 0 <= rounds_won_with_fb a <= team_first_bloods a
  /\ team_first_bloods a <= total_rounds a
  /\ total_rounds a = total_rounds_played self.
Proof.
  intros a d. split; [repeat split|].
  destruct (duel_loop_counts self) as (H1 & H2 & H3).
  assert (H4 : rounds_won_without_fb a
               = count (fun r => negb (got_first_blood (team_name self) r)
                                 && won_round (team_name self) r)
                       (all_rounds self)).
  { subst a. unfold duel_loop. rewrite for_rounds_all_rounds, duel_fold_without.
    cbn [rounds_won_without_fb]. lia. }
  fold a in H1, H2, H3. rewrite H1, H2, H3, H4.
  rewrite team_rounds_won_count, total_rounds_played_length.
  split; [apply count_split|]. split; [|split; [apply count_le_length|reflexivity]].
  split; [apply count_nonneg|].
  apply count_le_impl. intros r Hr. apply andb_true_iff in Hr. tauto.
Qed.

(** X9.  Every rate a returned VALORANT report holds is a percentage:
    the match and round win rates, the three site percentages and site
    win rates, the first-blood rate and conversion and the three economy
    win rates all lie between 0 and 100. *)
Theorem valorant_rates_are_percentages (matches : list val_match) (stats : pyval) :
  analyze_valorant_team matches = Ok stats ->
  (forall k, In k ["match_win_rate"; "round_win_rate"] ->
             is_percentage (reported k stats))
  /\ (exists opening sites economy,
        field "opening_duel_stats" stats = Some opening
        /\ field "site_bias_stats" stats = Some sites
        /\ field "economy_stats" stats = Some economy
        /\ (forall k, In k ["first_blood_rate"; "first_blood_conversion"] ->
                      is_percentage (reported k opening))
        /\ (forall k, In k ["site_A_percent"; "site_B_percent"; "site_C_percent";
                            "site_A_winrate"; "site_B_winrate"; "site_C_winrate"] ->
                      is_percentage (reported k sites))
        /\ (forall k, In k ["eco_conversion_rate"; "force_buy_winrate";
                            "full_buy_winrate"] ->
                      is_percentage (reported k economy))).
Proof.
  unfold analyze_valorant_team. set (self := init matches).
  unfold get_complete_analysis.
  destruct (calculate_site_bias self) as [sites|e] eqn:Hsites; [|discriminate].
  intros Hok. injection Hok as <-.
  split.
  { intros k Hk. unfold reported. cbn [In] in Hk.
    destruct Hk as [<-|[<-|[]]]; cbn [field dict_get String.eqb Ascii.eqb Bool.eqb].
    - apply reported_rate_is_percentage.
      pose proof (count_le_length won matches).
      pose proof (count_nonneg won matches).
      unfold count in *. cbn [Valorant.matches init] in *. lia.
    - apply reported_rate_is_percentage.
      rewrite team_rounds_won_count, total_rounds_played_length.
      split; [apply count_nonneg|apply count_le_length]. }
  exists (calculate_opening_duel_winrate self), sites,
         (calculate_eco_conversion self).
  split; [reflexivity|]. split; [reflexivity|]. split; [reflexivity|].
  destruct (duel_loop_counts self) as (H1 & H2 & H3).
  destruct (eco_loop_counts self) as (E1 & E2 & E3 & E4 & E5 & E6).
  split; [|split].
  - intros k Hk. unfold reported. cbn [In] in Hk.
    destruct Hk as [<-|[<-|[]]]; cbn [calculate_opening_duel_winrate field dict_get String.eqb Ascii.eqb Bool.eqb];
      unfold fb_rate, fb_conversion; rewrite ?H1, ?H2, ?H3;
      apply reported_rate_is_percentage.
    + split; [apply count_nonneg|apply count_le_length].
    + split; [apply count_nonneg|].
      apply count_le_impl. intros r Hr. apply andb_true_iff in Hr. tauto.
  - destruct (favorite_site_dec self) as [Hfav|(HA & HB & HC)].
    2:{ rewrite (site_bias_raises self HA HB HC) in Hsites. discriminate. }
    pose proof (site_bias_fields self Hfav) as Hfields. cbv zeta in Hfields.
    destruct Hfields as (Hpos & d' & Hd' & _ & _ & _ & (HpA & HpB & HpC) & Hw & _).
    rewrite Hsites in Hd'. injection Hd' as <-.
    assert (Hpct : forall site,
               is_percentage
                 (num_to_Q (py_round
                    (flt (inject_Z (count (planted_on site) (all_rounds self))
                          / inject_Z (count planted (all_rounds self)) * 100)) 1))).
    { intros site. apply py_round_1_is_percentage.
      unfold flt, num_to_Q, is_percentage. rewrite Qred_correct.
      apply ratio_is_percentage; [|exact Hpos].
      split; [apply count_nonneg|].
      apply count_le_impl. intros r. unfold planted_on, planted.
      destruct (truthy_site (spike_site r)); [reflexivity|discriminate]. }
    assert (Hwin : forall site, In site ["A"; "B"; "C"] ->
               is_percentage (reported ("site_" +++ site +++ "_winrate") sites)).
    { intros site Hs. unfold reported. rewrite (Hw site Hs).
      destruct (Z.gtb_spec (count (planted_on site) (all_rounds self)) 0).
      - cbn [num_to_Q]. apply py_round_1_is_percentage.
        unfold flt, num_to_Q, is_percentage. rewrite Qred_correct.
        apply ratio_is_percentage; [|lia].
        split; [apply count_nonneg|].
        apply count_le_impl. intros r Hr. apply andb_true_iff in Hr. tauto.
      - unfold is_percentage. cbn. split; discriminate. }
    intros k Hk. cbn [In] in Hk.
    destruct Hk as [<-|[<-|[<-|[<-|[<-|[<-|[]]]]]]].
    + unfold reported. rewrite HpA. apply Hpct.
    + unfold reported. rewrite HpB. apply Hpct.
    + unfold reported. rewrite HpC. apply Hpct.
    + apply (Hwin "A"). cbn. auto.
    + apply (Hwin "B"). cbn. auto.
    + apply (Hwin "C"). cbn. auto.
  - intros k Hk. unfold reported. cbn [In] in Hk.
    destruct Hk as [<-|[<-|[<-|[]]]]; cbn [calculate_eco_conversion field dict_get String.eqb Ascii.eqb Bool.eqb];
      unfold eco_conversion_rate, force_winrate, full_buy_winrate;
      rewrite ?E1, ?E2, ?E3, ?E4, ?E5, ?E6;
      apply reported_rate_is_percentage;
      (split; [apply count_nonneg|]);
      apply count_le_impl; intros r Hr; apply andb_true_iff in Hr; tauto.
Qed.

Lemma valorant_rates_are_percentages_witness :
  exists stats,
    analyze_valorant_team Samples.twenty_rounds = Ok stats
    /\ is_percentage (reported "round_win_rate" stats).
Proof.
  destruct (analyze_valorant_team Samples.twenty_rounds) as [stats|e] eqn:E;
    [|vm_compute in E; discriminate].
  exists stats. split; [reflexivity|].
  apply (proj1 (valorant_rates_are_percentages Samples.twenty_rounds stats E)).
  cbn. auto.
Defined.

End ValorantConsistency.

(* ================================================================= *)
(** ** Sorting, and loops that collect                                *)
(* ================================================================= *)

Section SortedMore.
Context {A : Type} (key : A -> Z).
Import Generated.

Lemma insert_by_sorted (x : A) (l : list A) :
  sorted_by key l -> sorted_by key (insert_by key x l).
Proof.
  unfold sorted_by. induction 1 as [|y l Hl IH Hy]; cbn [insert_by].
  - repeat constructor.
  - destruct (Z.leb_spec (key x) (key y)).
    + constructor; [constructor; assumption|].
      constructor; [assumption|].
      eapply Forall_impl; [|exact Hy]. cbv beta. intros; lia.
    + constructor; [exact IH|].
      apply Forall_insert_by; [lia|exact Hy].
Qed.

Lemma sorted_is_sorted (l : list A) : sorted_by key (sorted key l).
Proof.
  induction l as [|x l IH]; cbn [sorted]; [constructor|].
  apply insert_by_sorted, IH.
Qed.

Lemma length_insert_by (x : A) (l : list A) :
  List.length (insert_by key x l) = S (List.length l).
Proof.
  induction l as [|y l IH]; cbn [insert_by]; [reflexivity|].
  destruct (key x <=? key y); cbn [List.length]; [reflexivity|].
  rewrite IH. reflexivity.
Qed.

Lemma length_sorted (l : list A) : List.length (sorted key l) = List.length l.
Proof.
  induction l as [|x l IH]; cbn [sorted]; [reflexivity|].
  rewrite length_insert_by, IH. reflexivity.
Qed.

Lemma count_insert_by (p : A -> bool) (x : A) (l : list A) :
  count p (insert_by key x l) = count p (x :: l).
Proof.
  induction l as [|y l IH]; cbn [insert_by]; [reflexivity|].
  destruct (key x <=? key y); [reflexivity|].
  rewrite count_cons, IH, !count_cons. lia.
Qed.

(** Sorting only reorders: it keeps the number of elements of each kind. *)
Lemma count_sorted (p : A -> bool) (l : list A) :
  count p (sorted key l) = count p l.
Proof.
  induction l as [|x l IH]; cbn [sorted]; [reflexivity|].
  rewrite count_insert_by, !count_cons, IH. reflexivity.
Qed.

(** Sorting leaves a sorted list as it is. *)
Lemma sorted_fixed (l : list A) : sorted_by key l -> sorted key l = l.
Proof.
  unfold sorted_by. induction 1 as [|x l Hl IH Hx]; [reflexivity|].
  cbn [sorted]. rewrite IH. destruct l as [|y l]; [reflexivity|].
  cbn [insert_by]. inversion Hx as [|? ? Hxy _]; subst.
  destruct (Z.leb_spec (key x) (key y)); [reflexivity|lia].
Qed.

End SortedMore.

Section CollectingLoops.
Context {A E : Type}.

(** A loop whose body appends one element per iteration collects, in
    order, one element for each index. *)
Lemma returns_for_loop_collect (P : A -> E -> Prop)
  (body : list E -> A -> Gen (list E)) (xs : list A) :
  (forall s x, In x xs ->
               returns (body s x) (fun s' => exists e, s' = s ++ [e] /\ P x e)) ->
  returns (for_loop xs body []) (Forall2 P xs).
Proof.
  intros Hbody.
  apply (returns_for_loop (fun pre s => Forall2 P pre s)); [constructor|].
  intros pre x post s Hxs Hs.
  eapply returns_weaken.
  - apply Hbody. rewrite Hxs. apply in_or_app. right. left. reflexivity.
  - cbv beta. intros s' (e & -> & He).
    apply Forall2_app; [exact Hs|]. constructor; [exact He|constructor].
Qed.

Lemma Forall2_Forall_r (P : A -> E -> Prop) (Q : E -> Prop)
  (xs : list A) (s : list E) :
  Forall2 P xs s -> (forall x e, In x xs -> P x e -> Q e) -> Forall Q s.
Proof.
  induction 1 as [|x e xs s Hxe _ IH]; intros HQ; constructor.
  - apply (HQ x e); [left; reflexivity|exact Hxe].
  - apply IH. intros x' e' Hin. apply HQ. right. exact Hin.
Qed.

Lemma Forall2_map_eq {B : Type} (P : A -> E -> Prop) (f : E -> B) (g : A -> B)
  (xs : list A) (s : list E) :
  Forall2 P xs s -> (forall x e, P x e -> f e = g x) -> map f s = map g xs.
Proof.
  induction 1 as [|x e xs s Hxe _ IH]; intros Hfg; [reflexivity|].
  cbn [map]. rewrite (Hfg x e Hxe), IH by exact Hfg. reflexivity.
Qed.

Lemma Forall2_weaken (P Q : A -> E -> Prop) (xs : list A) (s : list E) :
  Forall2 P xs s -> (forall x e, In x xs -> P x e -> Q x e) -> Forall2 Q xs s.
Proof.
  induction 1 as [|x e xs s Hxe _ IH]; intros HQ; constructor.
  - apply HQ; [left; reflexivity|exact Hxe].
  - apply IH. intros x' e' Hin. apply HQ. right. exact Hin.
Qed.

End CollectingLoops.

Section RangeFacts.

Lemma range_cons (a b : Z) : a < b -> range a b = a :: range (a + 1) b.
Proof.
  intros H. unfold range.
  replace (Z.to_nat (b - a)) with (S (Z.to_nat (b - (a + 1)))) by lia.
  cbn [seq map]. f_equal; [lia|].
  rewrite <- seq_shift, map_map. apply map_ext. intros i. lia.
Qed.

Lemma count_range_first (a b : Z) :
  a < b -> count (fun k => k =? a) (range a b) = 1.
Proof.
  intros H. rewrite range_cons by exact H. rewrite count_cons, Z.eqb_refl.
  assert (Hz : count (fun k => k =? a) (range (a + 1) b) = 0).
  { assert (Hall : forall l, (forall k, In k l -> a < k) ->
                             count (fun k => k =? a) l = 0).
    { induction l as [|k l IH]; intros Hl; [reflexivity|].
      rewrite count_cons, IH by (intros; apply Hl; right; assumption).
      specialize (Hl k (or_introl eq_refl)).
      destruct (Z.eqb_spec k a); [lia|reflexivity]. }
    apply Hall. intros k Hk. apply in_range in Hk. lia. }
  lia.
Qed.

End RangeFacts.

(* ================================================================= *)
(** ** The LoL generator, in full                                     *)
(* ================================================================= *)

Section MonotoneLists.

Lemma sorted_by_map {E : Type} (key : E -> Z) (l : list E) :
  StronglySorted Z.le (map key l) -> Generated.sorted_by key l.
Proof.
  unfold Generated.sorted_by. induction l as [|x l IH]; intros H; [constructor|].
  cbn [map] in H. inversion H as [|? ? Hl Hx]; subst.
  constructor; [apply IH, Hl|].
  rewrite Forall_map in Hx. exact Hx.
Qed.

Lemma map_seq_sorted (f : nat -> Z) :
  (forall i j, (i <= j)%nat -> f i <= f j) ->
  forall n a, StronglySorted Z.le (map f (seq a n)).
Proof.
  intros Hmono. induction n as [|n IH]; intros a; cbn [seq map]; [constructor|].
  constructor; [apply IH|].
  rewrite Forall_map. apply Forall_forall. intros i Hi.
  apply in_seq in Hi. apply Hmono. lia.
Qed.

Lemma range_step_scaled_sorted (a b s c : Z) :
  0 <= s -> 0 <= c ->
  StronglySorted Z.le (map (fun m => m * c) (range_step a b s)).
Proof.
  intros Hs Hc. unfold range_step. rewrite map_map.
  apply map_seq_sorted. intros i j Hij.
  assert (Z.of_nat i * s <= Z.of_nat j * s) by nia.
  apply Z.mul_le_mono_nonneg_r; lia.
Qed.

End MonotoneLists.

Section LolGeneratorFacts.
Import Lol LolSpec MockData Generated.

Variable today : Z.
Variable team_name : string.

Lemma lol_kill_collect (gd : Z) (kills : list kill) (k : Z) :
  180 <= gd ->
  returns (lol_kill team_name gd kills k)
          (fun s => exists e, s = kills ++ [e]
                              /\ kill_ok team_name gd e
                              /\ is_first_blood e = (k =? 0)).
Proof.
  intros Hgd. unfold lol_kill, LOL_MAP_SIZE.
  run_with ltac:(apply returns_randint; lia). intros t Ht. cbv beta in Ht.
  run_with ltac:(apply returns_randint; lia). intros x Hx. cbv beta in Hx.
  run_with ltac:(apply returns_randint; lia). intros y Hy. cbv beta in Hy.
  apply returns_ret. eexists. split; [reflexivity|].
  unfold kill_ok. cbn. repeat split; lia.
Qed.

Lemma who_own_or_enemy (taken : bool) : own_or_enemy team_name (who team_name taken).
Proof. unfold own_or_enemy, who. destruct taken; auto. Qed.

Lemma lol_dragon_step (won : bool) (gd : Z) (dragons : list objective) (spawn : Z) :
  In spawn dragon_spawn_times ->
  Forall (dragon_ok team_name gd) dragons ->
  returns (lol_dragon team_name won gd dragons spawn)
          (fun s => Forall (dragon_ok team_name gd) s
                    /\ (List.length s <= S (List.length dragons))%nat).
Proof.
  intros Hs Hd. unfold lol_dragon.
  destruct (Z.ltb_spec spawn gd); [|apply returns_ret; auto].
  run_with ltac:(apply returns_random_lt). intros spawned _.
  destruct spawned; [|apply returns_ret; auto].
  run_with ltac:(apply returns_random_lt). intros taken _.
  run_with ltac:(apply returns_randint; lia). intros off Hoff. cbv beta in Hoff.
  run_with ltac:(apply returns_choice; discriminate). intros kind Hkind.
  apply returns_ret. split.
  - apply Forall_app. split; [exact Hd|]. constructor; [|constructor].
    unfold dragon_ok. cbn. repeat split; try reflexivity.
    + apply who_own_or_enemy.
    + exists spawn. repeat split; try assumption; lia.
    + exists kind. split; [reflexivity|exact Hkind].
  - rewrite length_app. cbn [List.length]. lia.
Qed.

Lemma lol_baron_collect (won : bool) (gd : Z) (barons : list objective) (b : Z) :
  1500 <= gd ->
  returns (lol_baron team_name won gd barons b)
          (fun s => exists e, s = barons ++ [e] /\ baron_ok team_name gd e).
Proof.
  intros Hgd. unfold lol_baron.
  run_with ltac:(apply returns_randint; lia). intros t Ht. cbv beta in Ht.
  run_with ltac:(apply returns_random_lt). intros taken _.
  apply returns_ret. eexists. split; [reflexivity|].
  unfold baron_ok. cbn. repeat split; try lia. apply who_own_or_enemy.
Qed.

Lemma lol_herald_collect (won : bool) (gd : Z) (heralds : list objective) (h : Z) :
  1500 <= gd ->
  returns (lol_herald team_name won gd heralds h)
          (fun s => exists e, s = heralds ++ [e] /\ herald_ok team_name e).
Proof.
  intros Hgd. unfold lol_herald.
  run_with ltac:(apply returns_randint; lia). intros t Ht. cbv beta in Ht.
  run_with ltac:(apply returns_random_lt). intros taken _.
  apply returns_ret. eexists. split; [reflexivity|].
  unfold herald_ok. cbn. repeat split; try lia. apply who_own_or_enemy.
Qed.

Lemma lol_gold_collect (won : bool) (updates : list gold_update) (minute : Z) :
  returns (lol_gold (if won then 500 else -500) updates minute)
          (fun s => exists e, s = updates ++ [e] /\ gold_ok won minute e).
Proof.
  unfold lol_gold.
  run_with ltac:(apply returns_randint; lia). intros v Hv. cbv beta in Hv.
  apply returns_ret. eexists. split; [reflexivity|].
  unfold gold_ok. cbn. repeat split; lia.
Qed.

Lemma lol_jungle_collect (gd : Z) (positions : list jungle_position) (i : Z) :
  0 <= gd ->
  returns (lol_jungle gd positions i)
          (fun s => exists e, s = positions ++ [e] /\ jungle_ok gd e).
Proof.
  intros Hgd. unfold lol_jungle.
  run_with ltac:(apply returns_randint; lia). intros t Ht. cbv beta in Ht.
  run_with ltac:(apply returns_random). intros bias _.
  eapply (returns_bind _ _
            (fun xyl => (snd xyl = "Top" /\ 1000 <= fst (fst xyl) <= 7000
                         /\ 10000 <= snd (fst xyl) <= 14000)
                        \/ (snd xyl = "Mid" /\ 5000 <= fst (fst xyl) <= 10000
                            /\ 5000 <= snd (fst xyl) <= 10000)
                        \/ (snd xyl = "Bot" /\ 8000 <= fst (fst xyl) <= 14000
                            /\ 1000 <= snd (fst xyl) <= 5000))).
  { destruct (Qltb bias 0.35); [|destruct (Qltb bias 0.70)];
      (run_with ltac:(apply returns_randint; lia); intros x Hx; cbv beta in Hx;
       run_with ltac:(apply returns_randint; lia); intros y Hy; cbv beta in Hy;
       apply returns_ret; cbn [fst snd]; intuition lia). }
  intros [[x y] lane] Hxyl. cbn [fst snd] in Hxyl.
  apply returns_ret. eexists. split; [reflexivity|].
  unfold jungle_ok. cbn. split; [lia|exact Hxyl].
Qed.

Lemma first_blood_once (n : Z) (raw : list kill) :
  0 < n ->
  Forall2 (fun k e => is_first_blood e = (k =? 0)) (range 0 n) raw ->
  count is_first_blood raw = 1.
Proof.
  intros Hn H.
  assert (Hmap : map is_first_blood raw = map (fun k => k =? 0) (range 0 n)).
  { apply (Forall2_map_eq _ _ _ _ _ H). auto. }
  rewrite <- (count_map is_first_blood (fun b => b)), Hmap, count_map.
  apply (count_range_first 0 n Hn).
Qed.

End LolGeneratorFacts.

Section LolGeneratorMaster.
Import Lol LolSpec MockData Generated.

Variable today : Z.
Variable team_name : string.

Lemma lol_match_body_full (matches : list lol_match) (match_id : Z) :
  0 < match_id -> match_id * 3 < today -> today <= MAXORDINAL ->
  returns (lol_match_body today team_name matches match_id)
          (fun matches' =>
             exists m, matches' = matches ++ [m]
                       /\ lol_generated today team_name match_id m).
Proof.
  intros Hid Hday Hmax. unfold lol_match_body.
  rewrite datetime_sub_days_ok by lia.
  run_with ltac:(apply (returns_lift _ (fun d => d = today - match_id * 3));
                 reflexivity).
  intros match_date ->.
  run_with ltac:(apply returns_random_lt). intros won _.
  run_with ltac:(apply returns_randint; lia). intros gd Hgd. cbv beta in Hgd.
  eapply (returns_bind _ _ (fun n => if won then 15 <= n <= 35 else 8 <= n <= 20)).
  { destruct won; apply returns_randint; lia. }
  intros num_kills Hnum.
  run_with ltac:(apply (returns_for_loop_collect
                          (fun k e => kill_ok team_name gd e
                                      /\ is_first_blood e = (k =? 0)));
                 intros; apply lol_kill_collect; lia).
  intros kills Hkills.
  run_with ltac:(apply (returns_for_loop
                          (fun pre s => Forall (dragon_ok team_name gd) s
                                        /\ (List.length s <= List.length pre)%nat));
                 [split; [constructor|reflexivity]
                 |intros pre x post s Hsplit [Hs Hlen];
                  eapply returns_weaken;
                  [apply lol_dragon_step;
                   [rewrite Hsplit; apply in_or_app; right; left; reflexivity
                   |exact Hs]
                  |cbv beta; intros s' [Hs' Hlen']; split;
                   [exact Hs'|rewrite length_app; cbn [List.length]; lia]]]).
  intros dragons [Hdragons Hdragon_count].
  eapply (returns_bind _ _ (fun s => Forall (baron_ok team_name gd) s
                                     /\ (List.length s <= 2)%nat)).
  { destruct (gd >? 1200); [|apply returns_ret; split; [constructor|cbn; lia]].
    run_with ltac:(apply returns_randint; lia). intros n Hn. cbv beta in Hn.
    eapply returns_weaken.
    - apply (returns_for_loop_collect (fun _ e => baron_ok team_name gd e)).
      intros. apply lol_baron_collect. lia.
    - cbv beta. intros s Hs. split.
      + apply (Forall2_Forall_r _ _ _ _ Hs). auto.
      + rewrite <- (Forall2_length Hs), length_range. lia. }
  intros barons [Hbarons Hbaron_count].
  eapply (returns_bind _ _ (fun s => Forall (herald_ok team_name) s
                                     /\ (List.length s <= 2)%nat)).
  { destruct (gd >? 480); [|apply returns_ret; split; [constructor|cbn; lia]].
    run_with ltac:(apply returns_randint; lia). intros n Hn. cbv beta in Hn.
    eapply returns_weaken.
    - apply (returns_for_loop_collect (fun _ e => herald_ok team_name e)).
      intros. apply lol_herald_collect. lia.
    - cbv beta. intros s Hs. split.
      + apply (Forall2_Forall_r _ _ _ _ Hs). auto.
      + rewrite <- (Forall2_length Hs), length_range. lia. }
  intros heralds [Hheralds Hherald_count].
  run_with ltac:(apply (returns_for_loop_collect (gold_ok won));
                 intros; apply lol_gold_collect).
  intros gold Hgold.
  run_with ltac:(apply returns_randint; lia). intros samples Hsamples.
  cbv beta in Hsamples.
  run_with ltac:(apply (returns_for_loop_collect (fun _ e => jungle_ok gd e));
                 intros; apply lol_jungle_collect; lia).
  intros positions Hpositions.
  apply returns_ret. eexists. split; [reflexivity|].
  assert (Hgold_fixed : sorted g_timestamp gold = gold).
  { apply sorted_fixed, sorted_by_map.
    rewrite (Forall2_map_eq _ _ (fun m => m * 60) _ _ Hgold)
      by (intros x e He; apply He).
    apply range_step_scaled_sorted; lia. }
  assert (Hlen_kills : Z.of_nat (List.length kills) = num_kills).
  { rewrite <- (Forall2_length Hkills), length_range.
    destruct won; lia. }
  split;
    cbn [Lol.match_id Lol.date Lol.team Lol.opponent Lol.won Lol.duration
         Lol.kills Lol.dragons Lol.barons Lol.heralds Lol.gold_updates
         Lol.jungle_positions].
  - reflexivity.
  - reflexivity.
  - reflexivity.
  - reflexivity.
  - lia.
  - repeat split; apply sorted_is_sorted.
  - apply Forall_sorted. apply (Forall2_Forall_r _ _ _ _ Hkills). tauto.
  - rewrite length_sorted, Hlen_kills. exact Hnum.
  - rewrite count_sorted. apply (first_blood_once num_kills).
    + destruct won; lia.
    + apply (Forall2_weaken _ _ _ _ Hkills). tauto.
  - apply Forall_sorted, Hdragons.
  - rewrite length_sorted. cbn [List.length dragon_spawn_times] in Hdragon_count.
    lia.
  - apply Forall_sorted, Hbarons.
  - rewrite length_sorted. lia.
  - apply Forall_sorted, Hheralds.
  - rewrite length_sorted. lia.
  - rewrite Hgold_fixed. exact Hgold.
  - apply Forall_sorted. apply (Forall2_Forall_r _ _ _ _ Hpositions). auto.
  - rewrite length_sorted, <- (Forall2_length Hpositions), length_range. lia.
Qed.

(** Every match of the LoL generator, with its number. *)
Lemma generate_lol_full (num_matches : Z) :
  num_matches * 3 < today -> today <= MAXORDINAL ->
  returns (generate_lol_match_data today team_name num_matches)
          (Forall2 (lol_generated today team_name) (range 1 (num_matches + 1))).
Proof.
  intros Hday Hmax. unfold generate_lol_match_data.
  apply returns_for_loop_collect. intros s id Hin. apply in_range in Hin.
  apply lol_match_body_full; lia.
Qed.

End LolGeneratorMaster.

(* ================================================================= *)
(** ** The VALORANT generator, in full                                *)
(* ================================================================= *)

Section ValorantGeneratorMaster.
Import Valorant ValorantSpec MockData Generated.

Variable today : Z.
Variable team_name : string.

Lemma loadout_value_band : returns loadout_value loadout_band.
Proof.
  unfold loadout_value.
  run_with ltac:(apply returns_randint; lia). intros eco Heco. cbv beta in Heco.
  run_with ltac:(apply returns_randint; lia). intros force Hforce. cbv beta in Hforce.
  run_with ltac:(apply returns_randint; lia). intros full Hfull. cbv beta in Hfull.
  eapply returns_weaken; [apply returns_choice; discriminate|].
  cbv beta. unfold loadout_band. intros v [<-|[<-|[<-|[]]]]; lia.
Qed.

Lemma val_round_collect (team_rounds_won total_rounds : Z)
  (rounds : list round_data) (round_num : Z) :
  total_rounds <> 0 ->
  returns (val_round team_name team_rounds_won total_rounds rounds round_num)
          (fun s => exists r, s = rounds ++ [r]
                              /\ round_generated team_name round_num r).
Proof.
  intros Htotal. unfold val_round.
  run_with ltac:(apply returns_random). intros u _.
  unfold truediv. destruct (Z.eqb_spec total_rounds 0); [contradiction|].
  run_any ltac:(apply (returns_lift _ (fun _ => True)); exact I).
  eapply (returns_bind _ _
            (fun te => (round_num = 1 \/ round_num = 13 ->
                        fst te = 800 /\ snd te = 800)
                       /\ loadout_band (fst te) /\ loadout_band (snd te))).
  { destruct (Z.eqb_spec round_num 1) as [E1|N1]; cbn [orb].
    - apply returns_ret. cbn [fst snd]. unfold loadout_band. intuition lia.
    - destruct (Z.eqb_spec round_num 13) as [E13|N13].
      + apply returns_ret. cbn [fst snd]. unfold loadout_band. intuition lia.
      + run_with ltac:(apply loadout_value_band). intros t Ht.
        run_with ltac:(apply loadout_value_band). intros e He.
        apply returns_ret. cbn [fst snd]. intuition lia. }
  intros [team_loadout enemy_loadout] (Hpistol & Hteam & Henemy).
  cbn [fst snd] in Hpistol, Hteam, Henemy.
  run_with ltac:(apply returns_random_lt). intros spike_planted _.
  eapply (returns_bind _ _
            (fun s => match s with
                      | Some site => spike_planted = true
                                     /\ In site ["A"; "B"; "C"]
                      | None => spike_planted = false
                      end)).
  { destruct spike_planted.
    - run_with ltac:(apply returns_choice; discriminate). intros site Hsite.
      apply returns_ret. auto.
    - apply returns_ret. reflexivity. }
  intros spike_site Hsite.
  eapply (returns_bind _ _
            (fun c => match spike_site, c with
                      | Some site, Some c => site_box site c
                      | None, None => True
                      | _, _ => False
                      end)).
  { destruct spike_site as [site|]; [|apply returns_ret; exact I].
    destruct Hsite as [_ Hsite]. cbn [In] in Hsite.
    destruct Hsite as [<-|[<-|[<-|[]]]]; cbn [String.eqb Ascii.eqb Bool.eqb];
      (run_with ltac:(apply returns_randint; lia); intros x Hx; cbv beta in Hx;
       run_with ltac:(apply returns_randint; lia); intros y Hy; cbv beta in Hy;
       apply returns_ret; unfold site_box; cbn; intuition lia). }
  intros spike_coords Hcoords.
  run_with ltac:(apply returns_choice; discriminate). intros fb Hfb.
  run_with ltac:(apply returns_randint; lia). intros fbx Hfbx. cbv beta in Hfbx.
  run_with ltac:(apply returns_randint; lia). intros fby Hfby. cbv beta in Hfby.
  run_with ltac:(apply returns_randint; lia). intros dur Hdur. cbv beta in Hdur.
  apply returns_ret. eexists. split; [reflexivity|].
  split; cbn [Valorant.round_number Valorant.winner Valorant.first_blood_team
              Valorant.team_loadout_value Valorant.enemy_loadout_value
              Valorant.is_team_eco Valorant.is_enemy_eco Valorant.spike_planted
              Valorant.spike_site Valorant.spike_coords
              Valorant.first_blood_location Valorant.round_duration
              Valorant.c_x Valorant.c_y].
  - reflexivity.
  - unfold own_or_enemy. destruct (Qltb u _); auto.
  - unfold own_or_enemy. cbn [In] in Hfb. destruct Hfb as [<-|[<-|[]]]; auto.
  - exact Hpistol.
  - auto.
  - auto.
  - destruct spike_site as [site|], spike_coords as [c|]; try contradiction.
    + destruct Hsite. auto.
    + exact Hsite.
  - lia.
  - lia.
Qed.

Lemma val_match_body_full (matches : list val_match) (match_id : Z) :
  0 < match_id -> match_id * 2 < today -> today <= MAXORDINAL ->
  returns (val_match_body today team_name matches match_id)
          (fun matches' =>
             exists m, matches' = matches ++ [m]
                       /\ val_generated today team_name match_id m).
Proof.
  intros Hid Hday Hmax. unfold val_match_body.
  rewrite datetime_sub_days_ok by lia.
  run_with ltac:(apply (returns_lift _ (fun d => d = today - match_id * 2));
                 reflexivity).
  intros match_date ->.
  run_with ltac:(apply returns_random_lt). intros favoured _.
  eapply (returns_bind _ _ (fun v => 13 <= v <= 15 \/ 8 <= v <= 12)).
  { destruct favoured; eapply returns_weaken;
      try (apply returns_randint; lia); cbv beta; intros; lia. }
  intros team_rounds_won Hteam.
  eapply (returns_bind _ _
            (fun e => (13 <= team_rounds_won <= 15 /\ 8 <= e <= 12)
                      \/ (8 <= team_rounds_won <= 12 /\ e = 13))).
  { destruct (Z.ltb_spec team_rounds_won 13).
    - apply returns_ret. lia.
    - eapply returns_weaken; [apply returns_randint; lia|].
      cbv beta; intros; lia. }
  intros enemy_rounds_won Hscores.
  run_with ltac:(apply (returns_for_loop_collect (round_generated team_name));
                 intros; apply val_round_collect; lia).
  intros rounds Hrounds.
  run_with ltac:(apply returns_choice; discriminate). intros map_name Hmap.
  apply returns_ret. eexists. split; [reflexivity|].
  split; cbn [Valorant.match_id Valorant.date Valorant.team Valorant.opponent
              Valorant.team_score Valorant.enemy_score Valorant.won
              Valorant.map_name Valorant.rounds].
  - reflexivity.
  - reflexivity.
  - reflexivity.
  - reflexivity.
  - destruct Hscores as [[Ht He]|[Ht He]]; [left|right];
      repeat split; lia.
  - exact Hmap.
  - exact Hrounds.
Qed.

(** Every match of the VALORANT generator, with its number. *)
Lemma generate_valorant_full (num_matches : Z) :
  num_matches * 2 < today -> today <= MAXORDINAL ->
  returns (generate_valorant_match_data today team_name num_matches)
          (Forall2 (val_generated today team_name) (range 1 (num_matches + 1))).
Proof.
  intros Hday Hmax. unfold generate_valorant_match_data.
  apply returns_for_loop_collect. intros s id Hin. apply in_range in Hin.
  apply val_match_body_full; lia.
Qed.

End ValorantGeneratorMaster.

(* ================================================================= *)
(** ** Generated matches: what every random source gives              *)
(* ================================================================= *)

Section GeneratedLolTheorems.
Import Lol LolSpec MockData Generated.

Variable today : Z.
Variable team_name : string.
Variable num_matches : Z.
Hypothesis in_calendar : num_matches * 3 < today <= MAXORDINAL.

Lemma lol_mock_data_each (Q : lol_match -> Prop) :
  (forall id m, lol_generated today team_name id m -> Q m) ->
  returns (get_lol_mock_data today team_name num_matches) (Forall Q).
Proof.
  intros HQ. unfold get_lol_mock_data.
  eapply returns_weaken; [apply generate_lol_full; lia|].
  intros ms Hms. apply (Forall2_Forall_r _ _ _ _ Hms).
  intros id m _. apply HQ.
Qed.

(** X10.  In every match the LoL generator returns, each of the six
    event lists (kills, dragons, barons, heralds, gold updates, jungle
    positions) is in non-decreasing order of timestamp. *)
Theorem generated_lol_events_sorted :
  returns (get_lol_mock_data today team_name num_matches)
          (Forall (fun m =>
             sorted_by k_timestamp (kills m)
             /\ sorted_by o_timestamp (dragons m)
             /\ sorted_by o_timestamp (barons m)
             /\ sorted_by o_timestamp (heralds m)
             /\ sorted_by g_timestamp (gold_updates m)
             /\ sorted_by j_timestamp (jungle_positions m))).
Proof. apply lol_mock_data_each. intros id m H. apply (lg_sorted _ _ _ _ H). Qed.

(** X11.  In every generated LoL match each kill is the analyzed team's,
    stamped between 3:00 and the end of the match; each dragon, baron
    and herald is credited to the analyzed team or to "Enemy Team", no
    third label; a dragon lies within 120 s after a spawn time that is
    before the end of the match, a baron between 20:00 and one minute
    before the end, a herald between 8:00 and 19:45. *)
Theorem generated_lol_objectives :
  returns (get_lol_mock_data today team_name num_matches)
          (Forall (fun m =>
             team m = team_name
             /\ Forall (kill_ok team_name (duration m)) (kills m)
             /\ Forall (dragon_ok team_name (duration m)) (dragons m)
             /\ Forall (baron_ok team_name (duration m)) (barons m)
             /\ Forall (herald_ok team_name) (heralds m))).
Proof.
  apply lol_mock_data_each. intros id m H.
  repeat split; apply H.
Qed.

(** X12.  In every generated LoL match the gold snapshots are exactly
    those of minutes 5, 10, 15, ... up to the duration, one each, in
    that order; the team's gold is the enemy's plus the differential,
    and in a match the team won every differential is at least 450. *)
Theorem generated_lol_gold :
  returns (get_lol_mock_data today team_name num_matches)
          (Forall (fun m =>
             map g_timestamp (gold_updates m)
             = map (fun minute => minute * 60)
                   (range_step 5 (duration m / 60 + 1) 5)
             /\ Forall (fun u => team_gold u = enemy_gold u + gold_difference u
                                 /\ 0 <= g_timestamp u <= duration m)
                       (gold_updates m)
             /\ (won m = true ->
                 Forall (fun u => 450 <= gold_difference u) (gold_updates m)))).
Proof.
  apply lol_mock_data_each. intros id m H.
  pose proof (lg_gold _ _ _ _ H) as Hgold. split; [|split].
  - apply (Forall2_map_eq _ _ _ _ _ Hgold). intros x e He. apply He.
  - apply (Forall2_Forall_r _ _ _ _ Hgold). intros minute u Hin Hu.
    apply in_range_step in Hin; [|lia].
    pose proof (Z.mul_div_le (duration m) 60 ltac:(lia)).
    unfold gold_ok in Hu. intuition lia.
  - intros Hwon. apply (Forall2_Forall_r _ _ _ _ Hgold). intros minute u Hin Hu.
    apply in_range_step in Hin; [|lia].
    unfold gold_ok in Hu. rewrite Hwon in Hu. intuition lia.
Qed.

(** X13.  Event volumes of a generated LoL match follow its outcome: a
    won match has 15 to 35 kills, a lost one 8 to 20, and exactly one
    kill is flagged first blood; there are at most 8 dragons, 2 barons
    and 2 heralds, and 100 to 200 jungle samples, each labelled Top, Mid
    or Bot with coordinates inside that lane's box. *)
Theorem generated_lol_volumes :
  returns (get_lol_mock_data today team_name num_matches)
          (Forall (fun m =>
             (if won m then 15 <= Z.of_nat (List.length (kills m)) <= 35
              else 8 <= Z.of_nat (List.length (kills m)) <= 20)
             /\ count is_first_blood (kills m) = 1
             /\ Z.of_nat (List.length (dragons m)) <= 8
             /\ Z.of_nat (List.length (barons m)) <= 2
             /\ Z.of_nat (List.length (heralds m)) <= 2
             /\ 100 <= Z.of_nat (List.length (jungle_positions m)) <= 200
             /\ Forall (jungle_ok (duration m)) (jungle_positions m)
             /\ Forall lane_in_schema (jungle_positions m))).
Proof.
  apply lol_mock_data_each. intros id m H.
  repeat split; try apply H.
  eapply Forall_impl; [|apply (lg_jungle _ _ _ _ H)].
  intros p [_ Hp]. unfold lane_in_schema. tauto.
Qed.

End GeneratedLolTheorems.

Section GeneratedLolWitnesses.
Import Lol LolSpec MockData Generated.

Lemma generated_lol_events_sorted_witness :
  returns (get_lol_mock_data Samples.a_day "Cloud9" 10)
          (Forall (fun m =>
             sorted_by k_timestamp (kills m)
             /\ sorted_by o_timestamp (dragons m)
             /\ sorted_by o_timestamp (barons m)
             /\ sorted_by o_timestamp (heralds m)
             /\ sorted_by g_timestamp (gold_updates m)
             /\ sorted_by j_timestamp (jungle_positions m))).
Proof.
  apply generated_lol_events_sorted. unfold Samples.a_day, MAXORDINAL. lia.
Defined.

Lemma generated_lol_objectives_witness :
  returns (get_lol_mock_data Samples.a_day "Cloud9" 10)
          (Forall (fun m =>
             team m = "Cloud9"
             /\ Forall (kill_ok "Cloud9" (duration m)) (kills m)
             /\ Forall (dragon_ok "Cloud9" (duration m)) (dragons m)
             /\ Forall (baron_ok "Cloud9" (duration m)) (barons m)
             /\ Forall (herald_ok "Cloud9") (heralds m))).
Proof.
  apply generated_lol_objectives. unfold Samples.a_day, MAXORDINAL. lia.
Defined.

Lemma generated_lol_gold_witness :
  returns (get_lol_mock_data Samples.a_day "Cloud9" 10)
          (Forall (fun m =>
             map g_timestamp (gold_updates m)
             = map (fun minute => minute * 60)
                   (range_step 5 (duration m / 60 + 1) 5)
             /\ Forall (fun u => team_gold u = enemy_gold u + gold_difference u
                                 /\ 0 <= g_timestamp u <= duration m)
                       (gold_updates m)
             /\ (won m = true ->
                 Forall (fun u => 450 <= gold_difference u) (gold_updates m)))).
Proof.
  apply generated_lol_gold. unfold Samples.a_day, MAXORDINAL. lia.
Defined.

Lemma generated_lol_volumes_witness :
  returns (get_lol_mock_data Samples.a_day "Cloud9" 10)
          (Forall (fun m =>
             (if won m then 15 <= Z.of_nat (List.length (kills m)) <= 35
              else 8 <= Z.of_nat (List.length (kills m)) <= 20)
             /\ count is_first_blood (kills m) = 1
             /\ Z.of_nat (List.length (dragons m)) <= 8
             /\ Z.of_nat (List.length (barons m)) <= 2
             /\ Z.of_nat (List.length (heralds m)) <= 2
             /\ 100 <= Z.of_nat (List.length (jungle_positions m)) <= 200
             /\ Forall (jungle_ok (duration m)) (jungle_positions m)
             /\ Forall lane_in_schema (jungle_positions m))).
Proof.
  apply generated_lol_volumes. unfold Samples.a_day, MAXORDINAL. lia.
Defined.

End GeneratedLolWitnesses.

Section GeneratedValorantTheorems.
Import Valorant ValorantSpec MockData Generated.

Variable today : Z.
Variable team_name : string.
Variable num_matches : Z.
Hypothesis in_calendar : num_matches * 2 < today <= MAXORDINAL.

Lemma valorant_mock_data_each (Q : val_match -> Prop) :
  (forall id m, val_generated today team_name id m -> Q m) ->
  returns (get_valorant_mock_data today team_name num_matches) (Forall Q).
Proof.
  intros HQ. unfold get_valorant_mock_data.
  eapply returns_weaken; [apply generate_valorant_full; lia|].
  intros ms Hms. apply (Forall2_Forall_r _ _ _ _ Hms).
  intros id m _. apply HQ.
Qed.

Lemma generated_round_count (id : Z) (m : val_match) :
  val_generated today team_name id m ->
  Z.of_nat (List.length (rounds m)) = team_score m + enemy_score m
  /\ 21 <= team_score m + enemy_score m <= 27.
Proof.
  intros H. pose proof (vg_scores _ _ _ _ H) as Hs.
  rewrite <- (Forall2_length (vg_rounds _ _ _ _ H)), length_range. lia.
Qed.

(** X14.  In every generated VALORANT match exactly one side reaches 13:
    either the team scores 13 to 15 against 8 to 12 and the match is
    recorded won, or it scores 8 to 12 against exactly 13 and the match
    is recorded lost.  The match has one round record per point scored
    (21 to 27 rounds), numbered 1, 2, 3, ... in order, and its map is
    one of the seven listed. *)
Theorem generated_valorant_scores :
  returns (get_valorant_mock_data today team_name num_matches)
          (Forall (fun m =>
             team m = team_name
             /\ ((13 <= team_score m <= 15 /\ 8 <= enemy_score m <= 12
                  /\ won m = true)
                 \/ (8 <= team_score m <= 12 /\ enemy_score m = 13
                     /\ won m = false))
             /\ map round_number (rounds m)
                = range 1 (team_score m + enemy_score m + 1)
             /\ Z.of_nat (List.length (rounds m)) = team_score m + enemy_score m
             /\ 21 <= Z.of_nat (List.length (rounds m)) <= 27
             /\ In (map_name m) ["Ascent"; "Bind"; "Haven"; "Split"; "Icebox";
                                 "Breeze"; "Fracture"])).
Proof.
  apply valorant_mock_data_each. intros id m H.
  destruct (generated_round_count id m H) as [Hlen Hrange].
  split; [apply H|]. split; [apply H|]. split; [|split; [exact Hlen|split; [lia|apply H]]].
  rewrite <- (map_id (range 1 _)).
  apply (Forall2_map_eq _ _ _ _ _ (vg_rounds _ _ _ _ H)).
  intros x r Hr. apply Hr.
Qed.

(** X15.  The economy of a generated VALORANT round: the pistol rounds
    1 and 13 give both sides a loadout of 800; every loadout lies in one
    of the three tiers 800..1500, 2000..3000, 3500..5000, never between
    them; and each eco flag says exactly whether that side's loadout is
    below 2000. *)
Theorem generated_valorant_economy :
  returns (get_valorant_mock_data today team_name num_matches)
          (Forall (fun m =>
             Forall (fun r =>
               (round_number r = 1 \/ round_number r = 13 ->
                team_loadout_value r = 800 /\ enemy_loadout_value r = 800)
               /\ loadout_band (team_loadout_value r)
               /\ loadout_band (enemy_loadout_value r)
               /\ is_team_eco r = is_eco r
               /\ is_enemy_eco r = (enemy_loadout_value r <? 2000))
             (rounds m))).
Proof.
  apply valorant_mock_data_each. intros id m H.
  apply (Forall2_Forall_r _ _ _ _ (vg_rounds _ _ _ _ H)).
  intros x r _ Hr. split; [|repeat split; apply Hr].
  rewrite (rg_num_ok _ _ _ Hr). apply Hr.
Qed.

(** X16.  The labels of a generated VALORANT round: the winner and the
    first-blood team are the analyzed team or "Enemy Team", no third
    value; the spike is recorded planted exactly when a site and plant
    coordinates are present, the site is then A, B or C and the
    coordinates lie in that site's box; without a plant both are
    absent. *)
Theorem generated_valorant_round_labels :
  returns (get_valorant_mock_data today team_name num_matches)
          (Forall (fun m =>
             Forall (fun r =>
               own_or_enemy team_name (winner r)
               /\ own_or_enemy team_name (first_blood_team r)
               /\ match spike_site r, spike_coords r with
                  | Some site, Some c => spike_planted r = true /\ site_box site c
                  | None, None => spike_planted r = false
                  | _, _ => False
                  end
               /\ ValorantEvents.site_in_schema r
               /\ 30 <= round_duration r <= 100)
             (rounds m))).
Proof.
  apply valorant_mock_data_each. intros id m H.
  apply (Forall2_Forall_r _ _ _ _ (vg_rounds _ _ _ _ H)).
  intros x r _ Hr. split; [apply Hr|]. split; [apply Hr|].
  split; [apply Hr|]. split; [|apply Hr].
  pose proof (rg_spike _ _ _ Hr) as Hs. unfold ValorantEvents.site_in_schema.
  destruct (spike_site r) as [site|]; [|exact I].
  destruct (spike_coords r) as [c|]; [|contradiction].
  destruct Hs as [_ [[-> _]|[[-> _]|[-> _]]]]; cbn; auto.
Qed.

End GeneratedValorantTheorems.

Section GeneratedValorantWitnesses.
Import Valorant ValorantSpec MockData Generated.

Lemma generated_valorant_scores_witness :
  returns (get_valorant_mock_data Samples.a_day "Cloud9" 10)
          (Forall (fun m =>
             team m = "Cloud9"
             /\ ((13 <= team_score m <= 15 /\ 8 <= enemy_score m <= 12
                  /\ won m = true)
                 \/ (8 <= team_score m <= 12 /\ enemy_score m = 13
                     /\ won m = false))
             /\ map round_number (rounds m)
                = range 1 (team_score m + enemy_score m + 1)
             /\ Z.of_nat (List.length (rounds m)) = team_score m + enemy_score m
             /\ 21 <= Z.of_nat (List.length (rounds m)) <= 27
             /\ In (map_name m) ["Ascent"; "Bind"; "Haven"; "Split"; "Icebox";
                                 "Breeze"; "Fracture"])).
Proof.
  apply generated_valorant_scores. unfold Samples.a_day, MAXORDINAL. lia.
Defined.

Lemma generated_valorant_economy_witness :
  returns (get_valorant_mock_data Samples.a_day "Cloud9" 10)
          (Forall (fun m =>
             Forall (fun r =>
               (round_number r = 1 \/ round_number r = 13 ->
                team_loadout_value r = 800 /\ enemy_loadout_value r = 800)
               /\ loadout_band (team_loadout_value r)
               /\ loadout_band (enemy_loadout_value r)
               /\ is_team_eco r = is_eco r
               /\ is_enemy_eco r = (enemy_loadout_value r <? 2000))
             (rounds m))).
Proof.
  apply generated_valorant_economy. unfold Samples.a_day, MAXORDINAL. lia.
Defined.

Lemma generated_valorant_round_labels_witness :
  returns (get_valorant_mock_data Samples.a_day "Cloud9" 10)
          (Forall (fun m =>
             Forall (fun r =>
               own_or_enemy "Cloud9" (winner r)
               /\ own_or_enemy "Cloud9" (first_blood_team r)
               /\ match spike_site r, spike_coords r with
                  | Some site, Some c => spike_planted r = true /\ site_box site c
                  | None, None => spike_planted r = false
                  | _, _ => False
                  end
               /\ ValorantEvents.site_in_schema r
               /\ 30 <= round_duration r <= 100)
             (rounds m))).
Proof.
  apply generated_valorant_round_labels. unfold Samples.a_day, MAXORDINAL. lia.
Defined.

End GeneratedValorantWitnesses.

Section GeneratedIdentity.
Import MockData Generated.

Lemma map_seq_strongly_sorted {B : Type} (R : B -> B -> Prop) (f : nat -> B) :
  (forall i j, (i < j)%nat -> R (f i) (f j)) ->
  forall n a, StronglySorted R (map f (seq a n)).
Proof.
  intros Hmono. induction n as [|n IH]; intros a; cbn [seq map]; [constructor|].
  constructor; [apply IH|].
  rewrite Forall_map. apply Forall_forall. intros i Hi.
  apply in_seq in Hi. apply Hmono. lia.
Qed.

Lemma strongly_sorted_of_map {E B : Type} (R : B -> B -> Prop) (f : E -> B)
  (l : list E) :
  StronglySorted R (map f l) -> StronglySorted (fun a b => R (f a) (f b)) l.
Proof.
  induction l as [|x l IH]; intros H; [constructor|].
  cbn [map] in H. inversion H as [|? ? Hl Hx]; subst.
  constructor; [apply IH, Hl|].
  rewrite Forall_map in Hx. exact Hx.
Qed.

Lemma dates_decrease {M : Type} (date : M -> Z) (today cadence n : Z)
  (ms : list M) :
  0 < cadence ->
  map date ms = map (fun id => today - id * cadence) (range 1 (n + 1)) ->
  StronglySorted (fun earlier later => date later < date earlier) ms.
Proof.
  intros Hc Hmap.
  apply (strongly_sorted_of_map (fun a b => b < a)).
  rewrite Hmap. unfold range. rewrite map_map.
  apply map_seq_strongly_sorted. intros i j Hij. nia.
Qed.

(** X17.  The matches either generator returns are numbered and dated:
    the k-th match of the list carries the identifier LOL_k (VAL_k), the
    opponent Team_k and the requested team name, and is dated 3 k days
    (2 k days for VALORANT) before today, so the list runs from the most
    recent match to the oldest, each dated strictly earlier than the one
    before. *)
Theorem generated_matches_identity (today : Z) (team_name : string)
  (num_matches : Z) :
  today <= MAXORDINAL ->
  (num_matches * 3 < today ->
   returns (get_lol_mock_data today team_name num_matches)
     (fun ms =>
        map (fun m => (Lol.match_id m, Lol.opponent m, Lol.team m, Lol.date m)) ms
        = map (fun k => ("LOL_" +++ str_of_Z k, "Team_" +++ str_of_Z k,
                         team_name, today - k * 3))
              (range 1 (num_matches + 1))
        /\ StronglySorted (fun earlier later => Lol.date later < Lol.date earlier)
                          ms))
  /\ (num_matches * 2 < today ->
      returns (get_valorant_mock_data today team_name num_matches)
        (fun ms =>
           map (fun m => (Valorant.match_id m, Valorant.opponent m,
                          Valorant.team m, Valorant.date m)) ms
           = map (fun k => ("VAL_" +++ str_of_Z k, "Team_" +++ str_of_Z k,
                            team_name, today - k * 2))
                 (range 1 (num_matches + 1))
           /\ StronglySorted
                (fun earlier later => Valorant.date later < Valorant.date earlier)
                ms)).
Proof.
  intros Hmax. split; intros Hday.
  - unfold get_lol_mock_data.
    eapply returns_weaken; [apply generate_lol_full; assumption|].
    intros ms Hms. split.
    + apply (Forall2_map_eq _ _ _ _ _ Hms). intros k m H.
      rewrite (lg_id _ _ _ _ H), (lg_opponent _ _ _ _ H), (lg_team _ _ _ _ H),
        (lg_date _ _ _ _ H). reflexivity.
    + apply (dates_decrease Lol.date today 3 num_matches); [lia|].
      apply (Forall2_map_eq _ _ _ _ _ Hms). intros k m H. apply H.
  - unfold get_valorant_mock_data.
    eapply returns_weaken; [apply generate_valorant_full; assumption|].
    intros ms Hms. split.
    + apply (Forall2_map_eq _ _ _ _ _ Hms). intros k m H.
      rewrite (vg_id _ _ _ _ H), (vg_opponent _ _ _ _ H), (vg_team _ _ _ _ H),
        (vg_date _ _ _ _ H). reflexivity.
    + apply (dates_decrease Valorant.date today 2 num_matches); [lia|].
      apply (Forall2_map_eq _ _ _ _ _ Hms). intros k m H. apply H.
Qed.

Lemma generated_matches_identity_witness :
  returns (get_lol_mock_data Samples.a_day "Cloud9" 10)
    (fun ms =>
       map (fun m => (Lol.match_id m, Lol.opponent m, Lol.team m, Lol.date m)) ms
       = map (fun k => ("LOL_" +++ str_of_Z k, "Team_" +++ str_of_Z k,
                        "Cloud9", Samples.a_day - k * 3))
             (range 1 (10 + 1))
       /\ StronglySorted (fun earlier later => Lol.date later < Lol.date earlier)
                         ms).
Proof.
  apply (generated_matches_identity Samples.a_day "Cloud9" 10);
    unfold Samples.a_day, MAXORDINAL; lia.
Defined.

End GeneratedIdentity.

(* ================================================================= *)
(** ** Analysing generated matches                                    *)
(* ================================================================= *)

Section FlatMapCounts.
Context {A B : Type} (f : A -> list B).

Lemma length_flat_map_bounds (lo hi : Z) (l : list A) :
  Forall (fun a => lo <= Z.of_nat (List.length (f a)) <= hi) l ->
  lo * Z.of_nat (List.length l) <= Z.of_nat (List.length (flat_map f l))
  <= hi * Z.of_nat (List.length l).
Proof.
  induction 1 as [|a l Ha _ IH]; cbn [flat_map List.length]; [lia|].
  rewrite length_app. lia.
Qed.

Lemma count_flat_map_each (p : B -> bool) (c : Z) (l : list A) :
  Forall (fun a => count p (f a) = c) l ->
  count p (flat_map f l) = c * Z.of_nat (List.length l).
Proof.
  induction 1 as [|a l Ha _ IH]; cbn [flat_map List.length]; [rewrite count_nil; lia|].
  rewrite count_app, IH, Ha. lia.
Qed.

Lemma count_flat_map_at_least (p : B -> bool) (c : Z) (l : list A) :
  Forall (fun a => c <= count p (f a)) l ->
  c * Z.of_nat (List.length l) <= count p (flat_map f l).
Proof.
  induction 1 as [|a l Ha _ IH]; cbn [flat_map List.length]; [rewrite count_nil; lia|].
  rewrite count_app. lia.
Qed.

End FlatMapCounts.

Section AnalysedLol.
Import Lol LolSpec LolEvents MockData Generated.

Lemma lane_sum_within_step (self : analyzer) :
  samples self <> [] -> Forall lane_in_schema (samples self) ->
  sum_to_hundred
    (reported "top_lane_percent" (calculate_jungle_proximity self))
    (reported "mid_lane_percent" (calculate_jungle_proximity self))
    (reported "bot_lane_percent" (calculate_jungle_proximity self)).
Proof.
  intros Hne Hschema.
  destruct (jungle_fields_nonempty self Hne) as (Ht & Hm & Hb & _).
  unfold reported. rewrite Ht, Hm, Hb, !lane_percent_value.
  apply rounded_shares_sum_to_hundred.
  - destruct (samples self); [contradiction|cbn [List.length]; lia].
  - apply lane_counts_total, Hschema.
Qed.

Lemma generated_gold_windows (today : Z) (team_name : string) (id : Z)
  (m : lol_match) :
  lol_generated today team_name id m ->
  count (in_window 540 660) (gold_updates m) = 1
  /\ count (in_window 840 960) (gold_updates m) = 1
  /\ count (in_window 1140 1260) (gold_updates m) = 1.
Proof.
  intros H.
  assert (Hmap : map g_timestamp (gold_updates m)
                 = map (fun minute => minute * 60)
                       (range_step 5 (duration m / 60 + 1) 5)).
  { apply (Forall2_map_eq _ _ _ _ _ (lg_gold _ _ _ _ H)).
    intros x e He. apply He. }
  pose proof (lg_duration _ _ _ _ H) as Hd.
  assert (Hwin : forall lo hi,
             count (in_window lo hi) (gold_updates m)
             = count (fun i => (lo <=? (5 + Z.of_nat i * 5) * 60)
                               && ((5 + Z.of_nat i * 5) * 60 <=? hi))
                     (seq 0 (Z.to_nat ((duration m / 60 + 1 - 5 + 5 - 1) / 5)))).
  { intros lo hi.
    change (count (in_window lo hi) (gold_updates m))
      with (count (fun u => (fun t => (lo <=? t) && (t <=? hi)) (g_timestamp u))
                  (gold_updates m)).
    rewrite <- (count_map g_timestamp), Hmap. unfold range_step.
    rewrite !count_map. reflexivity. }
  rewrite !Hwin.
  assert (Hk : (Z.to_nat ((duration m / 60 + 1 - 5 + 5 - 1) / 5) = 5
                \/ Z.to_nat ((duration m / 60 + 1 - 5 + 5 - 1) / 5) = 6
                \/ Z.to_nat ((duration m / 60 + 1 - 5 + 5 - 1) / 5) = 7
                \/ Z.to_nat ((duration m / 60 + 1 - 5 + 5 - 1) / 5) = 8)%nat).
  { assert (25 <= duration m / 60 <= 40).
    { split; [apply Z.div_le_lower_bound|apply Z.div_le_upper_bound]; lia. }
    assert (5 <= (duration m / 60 + 1 - 5 + 5 - 1) / 5 <= 8).
    { split; [apply Z.div_le_lower_bound|apply Z.div_le_upper_bound]; lia. }
    lia. }
  destruct Hk as [-> | [-> | [-> | ->]]]; repeat split; reflexivity.
Qed.

(** X18.  Analysing what the LoL generator returns, for at least one
    match and every random source: the report names the requested team
    and counts the requested matches; each of the three gold buckets
    holds exactly one snapshot per match; the jungle samples number
    between 100 and 200 per match, and the three lane percentages add
    up to 100 within one step (0.1). *)
Theorem analysis_of_generated_lol (today : Z) (team_name : string)
  (num_matches : Z) :
  0 < num_matches -> num_matches * 3 < today -> today <= MAXORDINAL ->
  returns (get_lol_mock_data today team_name num_matches)
    (fun ms =>
       let stats := analyze_lol_team ms in
       report_at ["team_name"] stats = Some (PStr team_name)
       /\ report_at ["matches_analyzed"] stats = Some (PInt num_matches)
       /\ (forall k, In k ["samples_at_10"; "samples_at_15"; "samples_at_20"] ->
             report_at ["gold_efficiency"; k] stats = Some (PInt num_matches))
       /\ (exists total,
             report_at ["jungle_proximity"; "total_samples"] stats
             = Some (PInt total)
             /\ 100 * num_matches <= total <= 200 * num_matches)
       /\ (exists jungle,
             report_at ["jungle_proximity"] stats = Some jungle
             /\ sum_to_hundred (reported "top_lane_percent" jungle)
                               (reported "mid_lane_percent" jungle)
                               (reported "bot_lane_percent" jungle))).
Proof.
  intros Hn Hday Hmax. unfold get_lol_mock_data.
  eapply returns_weaken; [apply generate_lol_full; assumption|].
  intros ms Hms. cbv zeta. unfold analyze_lol_team.
  set (self := init ms).
  assert (Hlen : Z.of_nat (List.length ms) = num_matches).
  { rewrite <- (Forall2_length Hms), length_range. lia. }
  assert (Hall : Forall (fun m => exists id, lol_generated today team_name id m) ms).
  { apply (Forall2_Forall_r _ _ _ _ Hms). intros id m _ H. exists id. exact H. }
  assert (Hteam : Lol.team_name self = team_name).
  { subst self. destruct ms as [|m ms]; [cbn [List.length] in Hlen; lia|].
    inversion Hall as [|? ? (id & H) _]; subst. cbn. apply H. }
  assert (Hsamples_len :
            100 * num_matches <= Z.of_nat (List.length (samples self))
            <= 200 * num_matches).
  { rewrite <- Hlen. unfold samples. subst self. cbn [Lol.matches init].
    apply length_flat_map_bounds.
    eapply Forall_impl; [|exact Hall]. intros m (id & H).
    apply (lg_jungle_count _ _ _ _ H). }
  assert (Hne : samples self <> []).
  { intros E. rewrite E in Hsamples_len. cbn [List.length] in Hsamples_len. lia. }
  assert (Hschema : Forall lane_in_schema (samples self)).
  { unfold samples. subst self. cbn [Lol.matches init].
    apply Forall_flat_map. eapply Forall_impl; [|exact Hall].
    intros m (id & H). eapply Forall_impl; [|apply (lg_jungle _ _ _ _ H)].
    intros p [_ Hp]. unfold lane_in_schema. tauto. }
  assert (Hwindows : forall lo hi,
             (forall id m, lol_generated today team_name id m ->
                           count (in_window lo hi) (gold_updates m) = 1) ->
             Z.of_nat (List.length (window_values lo hi self)) = num_matches).
  { intros lo hi Hone. unfold window_values, all_updates.
    rewrite length_map. fold (count (in_window lo hi)
                                (flat_map gold_updates (Lol.matches self))).
    subst self. cbn [Lol.matches init].
    rewrite (count_flat_map_each gold_updates (in_window lo hi) 1); [lia|].
    eapply Forall_impl; [|exact Hall]. intros m (id & H). apply (Hone id m H). }
  assert (Hcount : Z.of_nat (List.length (Lol.matches self)) = num_matches)
    by exact Hlen.
  clearbody self.
  split; [cbn; rewrite Hteam; reflexivity|].
  split; [cbn; rewrite Hcount; reflexivity|].
  split; [|split].
  - intros k Hk.
    cbn [report_at field get_complete_analysis dict_get String.eqb Ascii.eqb Bool.eqb].
    unfold calculate_gold_efficiency. rewrite gold_loop_spec.
    cbn [gold_at_10 gold_at_15 gold_at_20].
    cbn [In] in Hk. destruct Hk as [<-|[<-|[<-|[]]]];
      cbn [field dict_get String.eqb Ascii.eqb Bool.eqb].
    + rewrite (Hwindows 540 660); [reflexivity|].
      intros id m H. apply (generated_gold_windows _ _ _ _ H).
    + rewrite (Hwindows 840 960); [reflexivity|].
      intros id m H. apply (generated_gold_windows _ _ _ _ H).
    + rewrite (Hwindows 1140 1260); [reflexivity|].
      intros id m H. apply (generated_gold_windows _ _ _ _ H).
  - exists (Z.of_nat (List.length (samples self))). split; [|exact Hsamples_len].
    destruct (jungle_fields_nonempty self Hne) as (_ & _ & _ & Ht & _).
    change (match field "total_samples" (calculate_jungle_proximity self) with
            | Some v => Some v
            | None => None
            end = Some (PInt (Z.of_nat (List.length (samples self))))).
    rewrite Ht. reflexivity.
  - exists (calculate_jungle_proximity self). split; [reflexivity|].
    apply lane_sum_within_step; assumption.
Qed.

Lemma analysis_of_generated_lol_witness :
  returns (get_lol_mock_data Samples.a_day "Cloud9" 10)
    (fun ms =>
       let stats := analyze_lol_team ms in
       report_at ["team_name"] stats = Some (PStr "Cloud9")
       /\ report_at ["matches_analyzed"] stats = Some (PInt 10)
       /\ (forall k, In k ["samples_at_10"; "samples_at_15"; "samples_at_20"] ->
             report_at ["gold_efficiency"; k] stats = Some (PInt 10))
       /\ (exists total,
             report_at ["jungle_proximity"; "total_samples"] stats
             = Some (PInt total)
             /\ 100 * 10 <= total <= 200 * 10)
       /\ (exists jungle,
             report_at ["jungle_proximity"] stats = Some jungle
             /\ sum_to_hundred (reported "top_lane_percent" jungle)
                               (reported "mid_lane_percent" jungle)
                               (reported "bot_lane_percent" jungle))).
Proof.
  apply (analysis_of_generated_lol Samples.a_day "Cloud9" 10);
    unfold Samples.a_day, MAXORDINAL; lia.
Defined.

End AnalysedLol.

Section AnalysedValorant.
Import Valorant ValorantSpec ValorantEvents MockData Generated.

Lemma count_Forall2_le {A B : Type} (P : A -> B -> Prop) (p : A -> bool)
  (q : B -> bool) (xs : list A) (ys : list B) :
  Forall2 P xs ys -> (forall x y, P x y -> p x = true -> q y = true) ->
  count p xs <= count q ys.
Proof.
  intros H Hpq. induction H as [|x y xs ys Hxy _ IH]; [reflexivity|].
  rewrite !count_cons. specialize (Hpq x y Hxy).
  destruct (p x); [rewrite (Hpq eq_refl)|destruct (q y)]; lia.
Qed.

Lemma generated_pistol_rounds (today : Z) (team_name : string) (id : Z)
  (m : val_match) :
  val_generated today team_name id m ->
  21 <= Z.of_nat (List.length (rounds m)) <= 27
  /\ 2 <= count is_eco (rounds m).
Proof.
  intros H. pose proof (vg_scores _ _ _ _ H) as Hs.
  pose proof (vg_rounds _ _ _ _ H) as Hr.
  remember (team_score m + enemy_score m) as t eqn:Et.
  assert (Ht : t = 21 \/ t = 22 \/ t = 23 \/ t = 24 \/ t = 25 \/ t = 26 \/ t = 27)
    by lia.
  split.
  - rewrite <- (Forall2_length Hr), length_range. lia.
  - apply Z.le_trans
      with (count (fun k => (k =? 1) || (k =? 13)) (range 1 (t + 1))).
    + destruct Ht as [-> | [-> | [-> | [-> | [-> | [-> | ->]]]]]];
        vm_compute; discriminate.
    + apply (count_Forall2_le _ _ _ _ _ Hr). intros k r Hkr Hk.
      unfold is_eco. destruct (rg_pistol _ _ _ Hkr) as [-> _]; [lia|reflexivity].
Qed.

(** X19.  Analysing what the VALORANT generator returns, for at least
    one match and every random source.  If no generated round has a
    plant the analysis raises [KeyError] for "site_Unknown_percent".
    Otherwise it returns a report that names the requested team, counts
    the requested matches, counts 21 to 27 rounds per match and the
    plants among them, and counts at least two eco rounds per match (the
    two pistol rounds), never more than the rounds played. *)
Theorem analysis_of_generated_valorant (today : Z) (team_name : string)
  (num_matches : Z) :
  0 < num_matches -> num_matches * 2 < today -> today <= MAXORDINAL ->
  returns (get_valorant_mock_data today team_name num_matches)
    (fun ms =>
       let rs := flat_map rounds ms in
       (count planted rs = 0
        /\ analyze_valorant_team ms = Raise (KeyError "site_Unknown_percent"))
       \/ (0 < count planted rs
           /\ exists stats total eco,
               analyze_valorant_team ms = Ok stats
               /\ report_at ["team_name"] stats = Some (PStr team_name)
               /\ report_at ["matches_analyzed"] stats = Some (PInt num_matches)
               /\ report_at ["total_rounds_played"] stats = Some (PInt total)
               /\ report_at ["site_bias_stats"; "total_spike_plants"] stats
                  = Some (PInt (count planted rs))
               /\ report_at ["economy_stats"; "eco_rounds_played"] stats
                  = Some (PInt eco)
               /\ 21 * num_matches <= total <= 27 * num_matches
               /\ 2 * num_matches <= eco <= total)).
Proof.
  intros Hn Hday Hmax. unfold get_valorant_mock_data.
  eapply returns_weaken; [apply generate_valorant_full; assumption|].
  intros ms Hms. cbv zeta. unfold analyze_valorant_team.
  set (self := init ms).
  assert (Hlen : Z.of_nat (List.length (matches self)) = num_matches).
  { subst self. cbn [matches init].
    rewrite <- (Forall2_length Hms), length_range. lia. }
  assert (Hall : Forall (fun m => exists id, val_generated today team_name id m)
                        (matches self)).
  { apply (Forall2_Forall_r _ _ _ _ Hms). intros id m _ H. exists id. exact H. }
  assert (Hteam : Valorant.team_name self = team_name).
  { subst self. destruct ms as [|m ms]; [cbn in Hlen; lia|].
    inversion Hall as [|? ? (id & H) _]; subst. cbn. apply H. }
  change (flat_map rounds ms) with (all_rounds self).
  assert (Htotal : 21 * num_matches <= Z.of_nat (List.length (all_rounds self))
                   <= 27 * num_matches).
  { rewrite <- Hlen. unfold all_rounds. apply length_flat_map_bounds.
    eapply Forall_impl; [|exact Hall]. intros m (id & H).
    apply (generated_pistol_rounds _ _ _ _ H). }
  assert (Heco : 2 * num_matches <= count is_eco (all_rounds self)).
  { rewrite <- Hlen. unfold all_rounds. apply count_flat_map_at_least.
    eapply Forall_impl; [|exact Hall]. intros m (id & H).
    apply (generated_pistol_rounds _ _ _ _ H). }
  assert (Hschema : Forall site_in_schema (all_rounds self)).
  { unfold all_rounds. apply Forall_flat_map. eapply Forall_impl; [|exact Hall].
    intros m (id & H). apply (Forall2_Forall_r _ _ _ _ (vg_rounds _ _ _ _ H)).
    intros x r _ Hr. pose proof (rg_spike _ _ _ Hr) as Hs.
    unfold site_in_schema.
    destruct (spike_site r) as [site|]; [|exact I].
    destruct (spike_coords r) as [c|]; [|contradiction].
    destruct Hs as [_ [[-> _]|[[-> _]|[-> _]]]]; cbn; auto. }
  clearbody self.
  destruct (favorite_site_cases self) as [[H0 Hfav]|[Hpos _]].
  - left. split; [exact H0|].
    apply complete_analysis_raises.
    pose proof (site_bias_raises self) as Hraise. cbv zeta in Hraise.
    rewrite Hfav in Hraise. apply Hraise; discriminate.
  - right. split; [exact Hpos|].
    pose proof (site_bias_fields self) as Hfields. cbv zeta in Hfields.
    destruct (Hfields (schema_favorite self Hpos Hschema))
      as (_ & d & Hd & Hplants & _).
    destruct (eco_loop_counts self) as (Hrounds & _).
    pose proof (count_le_length is_eco (all_rounds self)) as Hle.
    exists (PDict [ ("team_name", PStr (Valorant.team_name self));
                    ("matches_analyzed", PInt (Z.of_nat (List.length (matches self))));
                    ("match_win_rate",
                     PNum (py_round (percent_or_zero
                                       (Z.of_nat (List.length (filter won (matches self))))
                                       (Z.of_nat (List.length (matches self)))) 1));
                    ("round_win_rate",
                     PNum (py_round (percent_or_zero (team_rounds_won self)
                                                     (total_rounds_played self)) 1));
                    ("total_rounds_played", PInt (total_rounds_played self));
                    ("opening_duel_stats", calculate_opening_duel_winrate self);
                    ("site_bias_stats", d);
                    ("economy_stats", calculate_eco_conversion self) ]),
      (total_rounds_played self), (eco_rounds (eco_loop self)).
    split; [unfold get_complete_analysis; rewrite Hd; reflexivity|].
    split; [cbn; rewrite Hteam; reflexivity|].
    split; [cbn; rewrite Hlen; reflexivity|].
    split; [reflexivity|].
    split.
    { change (match field "total_spike_plants" d with
              | Some v => Some v
              | None => None
              end = Some (PInt (count planted (all_rounds self)))).
      rewrite Hplants. reflexivity. }
    split; [reflexivity|].
    rewrite total_rounds_played_length, Hrounds. lia.
Qed.

Lemma analysis_of_generated_valorant_witness :
  returns (get_valorant_mock_data Samples.a_day "Cloud9" 10)
    (fun ms =>
       let rs := flat_map rounds ms in
       (count planted rs = 0
        /\ analyze_valorant_team ms = Raise (KeyError "site_Unknown_percent"))
       \/ (0 < count planted rs
           /\ exists stats total eco,
               analyze_valorant_team ms = Ok stats
               /\ report_at ["team_name"] stats = Some (PStr "Cloud9")
               /\ report_at ["matches_analyzed"] stats = Some (PInt 10)
               /\ report_at ["total_rounds_played"] stats = Some (PInt total)
               /\ report_at ["site_bias_stats"; "total_spike_plants"] stats
                  = Some (PInt (count planted rs))
               /\ report_at ["economy_stats"; "eco_rounds_played"] stats
                  = Some (PInt eco)
               /\ 21 * 10 <= total <= 27 * 10
               /\ 2 * 10 <= eco <= total)).
Proof.
  apply (analysis_of_generated_valorant Samples.a_day "Cloud9" 10);
    unfold Samples.a_day, MAXORDINAL; lia.
Defined.

End AnalysedValorant.

(* ================================================================= *)
(** ** [loaders.py]: matches relabelled from the statistics           *)
(* ================================================================= *)

Section RaisingLater.
Context {A B : Type}.

(** A computation that returns and is followed by one that raises. *)
Lemma raises_after (m : Gen A) (f : A -> Gen B) (P : A -> Prop) (e : exn) :
  returns m P -> (forall a, P a -> raises (f a) e) -> raises (bind m f) e.
Proof.
  intros Hm Hf r. destruct (Hm r) as (a & r1 & E & Ha).
  unfold bind. rewrite E. apply (Hf a Ha).
Qed.

End RaisingLater.

Section ShuffleRules.
Import Loaders.
Context {A : Type}.

Lemma set_item_permutes (x : list A) (i : nat) (a b : A) :
  nth_error x i = Some a -> Permutation (b :: x) (a :: set_item i b x).
Proof.
  revert i. induction x as [|c x IH]; intros [|i] H; cbn in H; try discriminate.
  - injection H as ->. cbn [set_item]. apply perm_swap.
  - cbn [set_item].
    apply perm_trans with (c :: b :: x); [apply perm_swap|].
    apply perm_trans with (c :: a :: set_item i b x); [|apply perm_swap].
    apply perm_skip, IH, H.
Qed.

Lemma nth_error_set_item_same (x : list A) (i : nat) (a b : A) :
  nth_error x i = Some a -> nth_error (set_item i b x) i = Some b.
Proof.
  revert i. induction x as [|c x IH]; intros [|i] H; cbn in H; try discriminate.
  - reflexivity.
  - cbn [set_item nth_error]. apply IH, H.
Qed.

Lemma nth_error_set_item_other (x : list A) (i j : nat) (b : A) :
  i <> j -> nth_error (set_item i b x) j = nth_error x j.
Proof.
  revert i j. induction x as [|c x IH]; intros [|i] [|j] H;
    cbn [set_item nth_error]; try reflexivity; [contradiction|].
  apply IH. intros ->. apply H. reflexivity.
Qed.

Lemma swap_permutes (x : list A) (i j : nat) :
  (i < List.length x)%nat -> (j < List.length x)%nat ->
  exists y, swap i j x = Ok y /\ Permutation x y.
Proof.
  intros Hi Hj. unfold swap.
  destruct (nth_error x j) as [xj|] eqn:Ej;
    [|apply nth_error_None in Ej; lia].
  destruct (nth_error x i) as [xi|] eqn:Ei;
    [|apply nth_error_None in Ei; lia].
  eexists. split; [reflexivity|].
  apply (Permutation_cons_inv (a := xj)).
  apply perm_trans with (xi :: set_item i xj x);
    [apply set_item_permutes, Ei|].
  apply set_item_permutes.
  destruct (Nat.eq_dec i j) as [<-|Hne].
  - apply (nth_error_set_item_same _ _ _ _ Ei).
  - rewrite nth_error_set_item_other by exact Hne. exact Ej.
Qed.

Lemma returns_randbelow (n : Z) :
  0 < n -> returns (randbelow n) (fun j => 0 <= j < n).
Proof.
  intros Hn. unfold randbelow. eapply returns_bind; [apply returns_draw|].
  intros k _. apply returns_ret. apply Z.mod_pos_bound, Hn.
Qed.

(** [random.shuffle] returns, with a rearrangement of its argument. *)
Lemma returns_shuffle (x : list A) : returns (shuffle x) (Permutation x).
Proof.
  unfold shuffle. apply returns_for_loop_inv; [apply Permutation_refl|].
  intros i y Hi Hy. apply in_rev, in_range in Hi.
  eapply returns_bind; [apply returns_randbelow; lia|].
  cbv beta. intros j Hj.
  pose proof (Permutation_length Hy) as Hlen.
  destruct (swap_permutes y (Z.to_nat i) (Z.to_nat j)) as (z & -> & Hz);
    [lia|lia|].
  apply returns_lift. apply perm_trans with y; assumption.
Qed.

End ShuffleRules.

Section PermutationCounts.
Context {A : Type}.

Lemma count_permutation (p : A -> bool) (x y : list A) :
  Permutation x y -> count p x = count p y.
Proof.
  induction 1 as [|a x y _ IH|a b x|x y z _ IH1 _ IH2];
    rewrite ?count_cons; lia.
Qed.

Lemma count_Forall2_eq {B : Type} (P : A -> B -> Prop) (p : A -> bool)
  (q : B -> bool) (xs : list A) (ys : list B) :
  Forall2 P xs ys -> (forall x y, P x y -> q y = p x) ->
  count q ys = count p xs.
Proof.
  intros H Hpq. induction H as [|x y xs ys Hxy _ IH]; [reflexivity|].
  rewrite !count_cons, (Hpq x y Hxy), IH. reflexivity.
Qed.

Lemma Forall2_map_r {B C : Type} (P : A -> C -> Prop) (f : B -> C)
  (xs : list A) (ys : list B) :
  Forall2 (fun x y => P x (f y)) xs ys -> Forall2 P xs (map f ys).
Proof. induction 1; constructor; assumption. Qed.

End PermutationCounts.

Lemma count_range_upto (k : Z) (len : nat) (a : Z) :
  count (fun id => id <=? k) (range a (a + Z.of_nat len))
  = Z.max 0 (Z.min (Z.of_nat len) (k - a + 1)).
Proof.
  revert a. induction len as [|len IH]; intros a.
  - rewrite range_empty by lia. rewrite count_nil. lia.
  - rewrite range_cons by lia.
    replace (a + Z.of_nat (S len)) with (a + 1 + Z.of_nat len) by lia.
    rewrite count_cons, IH. destruct (Z.leb_spec a k); lia.
Qed.

Section Relabelling.
Import Loaders Generated MockData.

Lemma won_set_won (b : bool) (m : match_dict) : won (set_won b m) = b.
Proof. destruct m; reflexivity. Qed.

Lemma relabel_fold (k : Z) (ms : list match_dict) :
  forall i done, 0 <= i ->
    fold_left (relabel_step k) ms (Z.min i (Z.max 0 k), done)
    = (Z.min (i + Z.of_nat (List.length ms)) (Z.max 0 k),
       done ++ relabelled k i ms).
Proof.
  induction ms as [|m ms IH]; intros i done Hi.
  - cbn [fold_left relabelled List.length]. rewrite app_nil_r. f_equal. lia.
  - cbn [fold_left relabelled]. unfold relabel_step at 2.
    assert (Hcmp : (Z.min i (Z.max 0 k) <? k) = (i <? k)).
    { destruct (Z.ltb_spec i k), (Z.ltb_spec (Z.min i (Z.max 0 k)) k);
        try reflexivity; lia. }
    rewrite Hcmp.
    assert (Hnext : (if i <? k then Z.min i (Z.max 0 k) + 1
                     else Z.min i (Z.max 0 k))
                    = Z.min (i + 1) (Z.max 0 k)).
    { destruct (Z.ltb_spec i k); lia. }
    replace (if i <? k
             then (Z.min i (Z.max 0 k) + 1, done ++ [set_won true m])
             else (Z.min i (Z.max 0 k), done ++ [set_won false m]))
      with (Z.min (i + 1) (Z.max 0 k), done ++ [set_won (i <? k) m])
      by (rewrite <- Hnext; destruct (i <? k); reflexivity).
    rewrite IH by lia. rewrite <- app_assoc. cbn [app List.length].
    f_equal. lia.
Qed.

Lemma relabel_spec (k : Z) (ms : list match_dict) :
  relabel k ms = relabelled k 0 ms.
Proof.
  unfold relabel.
  replace 0 with (Z.min 0 (Z.max 0 k)) at 1 by lia.
  rewrite relabel_fold by lia. reflexivity.
Qed.

Lemma relabelled_numbered (P : Z -> match_dict -> Prop) (k : Z) :
  (forall id m b, P id m -> P id (set_won b m)) ->
  forall ms i,
    Forall2 P (range (i + 1) (i + 1 + Z.of_nat (List.length ms))) ms ->
    Forall2 (fun id m => P id m /\ won m = (id <=? k))
            (range (i + 1) (i + 1 + Z.of_nat (List.length ms)))
            (relabelled k i ms).
Proof.
  intros Hset. induction ms as [|m ms IH]; intros i H.
  - cbn [List.length relabelled] in *. rewrite range_empty by lia. constructor.
  - change (List.length (m :: ms)) with (S (List.length ms)) in *.
    rewrite range_cons in * by lia.
    replace (i + 1 + Z.of_nat (S (List.length ms)))
      with (i + 1 + 1 + Z.of_nat (List.length ms)) in * by lia.
    inversion H as [|? ? ? ? Hm Hms]; subst.
    cbn [relabelled]. constructor.
    + split; [apply Hset, Hm|]. rewrite won_set_won.
      destruct (Z.ltb_spec i k), (Z.leb_spec (i + 1) k); try reflexivity; lia.
    + apply IH, Hms.
Qed.

Variable today : Z.
Variable int_of_product : Z -> PyFloat.pyfloat -> result Z.

Lemma numbered_set_won (team_name game_type : string) (id : Z)
  (m : match_dict) (b : bool) :
  numbered today team_name game_type id m ->
  numbered today team_name game_type id (set_won b m).
Proof.
  intros (Hgen & Hid & Hlol). split; [|split].
  - destruct m as [m|m]; exact Hgen.
  - destruct m; exact Hid.
  - destruct m; exact Hlol.
Qed.

Lemma generated_numbered (team_name : string) (num_matches : Z)
  (game_type : string) :
  0 <= num_matches -> num_matches * 3 < today -> today <= MAXORDINAL ->
  returns (if String.eqb game_type "lol"
           then ms <- generate_lol_match_data today team_name num_matches ;;
                ret (map LolMatch ms)
           else ms <- generate_valorant_match_data today team_name num_matches ;;
                ret (map ValorantMatch ms))
          (Forall2 (numbered today team_name game_type) (range 1 (num_matches + 1))).
Proof.
  intros Hn Hday Hmax. unfold numbered, id_prefix.
  destruct (String.eqb game_type "lol").
  - eapply returns_bind; [apply generate_lol_full; assumption|].
    intros ms Hms. apply returns_ret. apply Forall2_map_r.
    apply (Forall2_weaken _ _ _ _ Hms). intros id m _ H.
    split; [|split; [apply (lg_id _ _ _ _ H)|reflexivity]].
    exists (Lol.won m). destruct m. exact H.
  - eapply returns_bind; [apply generate_valorant_full; [lia|assumption]|].
    intros ms Hms. apply returns_ret. apply Forall2_map_r.
    apply (Forall2_weaken _ _ _ _ Hms). intros id m _ H.
    split; [|split; [apply (vg_id _ _ _ _ H)|reflexivity]].
    exists (Valorant.won m). destruct m. exact H.
Qed.

(** What [_transform_stats_to_matches] returns when [int] gives an
    integer. *)
Lemma transform_full (wins_data : list win_entry) (team_name : string)
  (num_matches : Z) (game_type : string) (num_wins_expected : Z) :
  0 <= num_matches -> num_matches * 3 < today -> today <= MAXORDINAL ->
  int_of_product num_matches (real_win_pct wins_data) = Ok num_wins_expected ->
  returns (transform_stats_to_matches today int_of_product wins_data team_name
             num_matches game_type)
    (fun out =>
       exists numbered_list,
         Permutation numbered_list out
         /\ Forall2 (fun id m =>
                       numbered today team_name game_type id m
                       /\ won m = (id <=? num_wins_expected))
                    (range 1 (num_matches + 1)) numbered_list).
Proof.
  intros Hn Hday Hmax Hint. unfold transform_stats_to_matches.
  eapply returns_bind; [apply generated_numbered; assumption|].
  cbv beta. intros ms Hms.
  assert (Hlen : Z.of_nat (List.length ms) = num_matches).
  { rewrite <- (Forall2_length Hms), length_range. lia. }
  rewrite Hlen, Hint.
  eapply returns_bind;
    [apply (returns_lift _ (fun k => k = num_wins_expected)); reflexivity|].
  intros k ->. rewrite relabel_spec.
  eapply returns_weaken; [apply returns_shuffle|].
  intros out Hout. exists (relabelled num_wins_expected 0 ms).
  split; [exact Hout|].
  replace (num_matches + 1) with (0 + 1 + Z.of_nat (List.length ms)) in * by lia.
  change 1 with (0 + 1) in Hms at 1. change 1 with (0 + 1) at 1.
  apply (relabelled_numbered (numbered today team_name game_type)); [|exact Hms].
  intros id m b. apply numbered_set_won.
Qed.

(** When [int] raises, so does [_transform_stats_to_matches]. *)
Lemma transform_raises (wins_data : list win_entry) (team_name : string)
  (num_matches : Z) (game_type : string) (e : exn) :
  0 <= num_matches -> num_matches * 3 < today -> today <= MAXORDINAL ->
  int_of_product num_matches (real_win_pct wins_data) = Raise e ->
  raises (transform_stats_to_matches today int_of_product wins_data team_name
            num_matches game_type) e.
Proof.
  intros Hn Hday Hmax Hint. unfold transform_stats_to_matches.
  eapply raises_after; [apply generated_numbered; eassumption|].
  cbv beta. intros ms Hms.
  assert (Hlen : Z.of_nat (List.length ms) = num_matches).
  { rewrite <- (Forall2_length Hms), length_range. lia. }
  rewrite Hlen, Hint. apply raises_bind, raises_lift.
Qed.

(** X20.  [_transform_stats_to_matches], for every wins list and every
    random source.  If [int(len(matches) * (real_win_pct / 100.0))]
    raises (the product is infinite or NaN), the function raises the
    same exception.  Otherwise, whatever integer it gives: the function
    returns the requested number of matches of the requested game; each
    generated identifier occurs exactly once; every match is the
    generated one of its number with only the [won] flag rewritten
    (kills, gold and scores stay as drawn, whatever the flag says); a
    match is flagged won exactly when its number is at most the expected
    wins, so the won matches number the expected wins clamped to 0 and
    the match count. *)
Theorem transform_applies_win_rate (wins_data : list win_entry)
  (team_name : string) (num_matches : Z) (game_type : string) :
  0 <= num_matches -> num_matches * 3 < today -> today <= MAXORDINAL ->
  match int_of_product num_matches (real_win_pct wins_data) with
  | Raise e =>
      raises (transform_stats_to_matches today int_of_product wins_data
                team_name num_matches game_type) e
  | Ok num_wins_expected =>
      returns (transform_stats_to_matches today int_of_product wins_data
                 team_name num_matches game_type)
        (fun out =>
           Z.of_nat (List.length out) = num_matches
           /\ count won out = Z.max 0 (Z.min num_matches num_wins_expected)
           /\ Permutation
                (map match_id out)
                (map (fun id =>
                        (if String.eqb game_type "lol" then "LOL_" else "VAL_")
                        +++ str_of_Z id)
                     (range 1 (num_matches + 1)))
           /\ Forall (fun m =>
                        is_lol m = String.eqb game_type "lol"
                        /\ exists id,
                            1 <= id <= num_matches
                            /\ generated_but_won today team_name id m
                            /\ won m = (id <=? num_wins_expected))
                     out)
  end.
Proof.
  intros Hn Hday Hmax.
  destruct (int_of_product num_matches (real_win_pct wins_data))
    as [num_wins_expected|e] eqn:Hint;
    [|apply transform_raises; assumption].
  eapply returns_weaken; [apply transform_full; eassumption|].
  cbv beta. intros out (x & Hperm & Hx).
  split; [|split; [|split]].
  - rewrite <- (Permutation_length Hperm), <- (Forall2_length Hx), length_range.
    lia.
  - rewrite <- (count_permutation won _ _ Hperm).
    rewrite (count_Forall2_eq _ (fun id => id <=? num_wins_expected) won _ _ Hx)
      by (intros id m H; apply H).
    replace (num_matches + 1) with (1 + Z.of_nat (Z.to_nat num_matches)) by lia.
    rewrite count_range_upto. lia.
  - apply Permutation_sym.
    apply perm_trans with (map match_id x); [|apply Permutation_map, Hperm].
    rewrite (Forall2_map_eq _ match_id
               (fun id => id_prefix game_type +++ str_of_Z id) _ _ Hx)
      by (intros id m H; apply H).
    apply Permutation_refl.
  - apply (Permutation_Forall Hperm).
    apply (Forall2_Forall_r _ _ _ _ Hx). intros id m Hin ((Hgen & _ & Hlol) & Hwon).
    apply in_range in Hin. split; [exact Hlol|].
    exists id. split; [lia|]. split; [exact Hgen|exact Hwon].
Qed.

Variable fetch_team_statistics : loader -> string -> string -> option (list win_entry).

Lemma generated_team (team_name : string) (id : Z) (m : match_dict) :
  generated_but_won today team_name id m -> team m = team_name.
Proof.
  destruct m as [m|m]; cbn.
  - intros (b & H). apply (lg_team _ _ _ _ H).
  - intros (b & H). apply (vg_team _ _ _ _ H).
Qed.

Lemma numbered_loaded (team_name game_type : string) (num_matches : Z)
  (P : Z -> match_dict -> Prop) (x out : list match_dict) :
  0 <= num_matches ->
  Permutation x out ->
  Forall2 (fun id m => numbered today team_name game_type id m /\ P id m)
          (range 1 (num_matches + 1)) x ->
  loaded team_name game_type num_matches out.
Proof.
  intros Hn Hperm Hx. split.
  - rewrite <- (Permutation_length Hperm), <- (Forall2_length Hx), length_range.
    lia.
  - apply (Permutation_Forall Hperm).
    apply (Forall2_Forall_r _ _ _ _ Hx). intros id m _ ((Hgen & _ & Hlol) & _).
    split; [exact Hlol|apply (generated_team _ _ _ Hgen)].
Qed.

Lemma mock_matches_loaded (team_name : string) (num_matches : Z)
  (game_type : string) :
  0 <= num_matches -> num_matches * 3 < today -> today <= MAXORDINAL ->
  returns (mock_matches today team_name num_matches game_type)
          (loaded team_name game_type num_matches).
Proof.
  intros Hn Hday Hmax.
  eapply returns_weaken; [apply (generated_numbered team_name); eassumption|].
  intros out Hout.
  apply (numbered_loaded _ _ _ (fun _ _ => True) out out Hn (Permutation_refl _)).
  apply (Forall2_weaken _ _ _ _ Hout). intros; split; [assumption|exact I].
Qed.

Lemma fetch_loaded (self : loader) (team_name : string) (num_matches : Z)
  (game_type : string) :
  no_key (api_key self) = false ->
  0 <= num_matches -> num_matches * 3 < today -> today <= MAXORDINAL ->
  (forall e, ~ int_fails int_of_product fetch_team_statistics self team_name
                 num_matches game_type e) ->
  returns (fetch_from_grid_api today int_of_product fetch_team_statistics self
             team_name num_matches game_type)
    (fun out =>
       exists shown,
         loaded shown game_type num_matches out
         /\ (shown = team_name
             \/ (String.prefix "TeamID:" team_name = true
                 /\ shown = "Team " +++ str_remove "TeamID:" team_name))).
Proof.
  intros Hkey Hn Hday Hmax Hfine. unfold fetch_from_grid_api. rewrite Hkey.
  destruct (String.prefix "TeamID:" team_name) eqn:Hprefix.
  - destruct (fetch_team_statistics self (str_remove "TeamID:" team_name)
                game_type) as [wins_data|] eqn:Hfetch.
    + destruct (int_of_product num_matches (real_win_pct wins_data))
        as [k|e] eqn:Hint.
      * eapply returns_weaken; [apply transform_full; eassumption|].
        cbv beta. intros out (x & Hperm & Hx).
        exists ("Team " +++ str_remove "TeamID:" team_name).
        split; [|right; split; reflexivity].
        apply (numbered_loaded _ _ _ _ x out Hn Hperm Hx).
      * exfalso. apply (Hfine e). split; [exact Hprefix|].
        exists wins_data. split; assumption.
    + eapply returns_weaken; [apply mock_matches_loaded; assumption|].
      intros out Hout. exists team_name. split; [exact Hout|left; reflexivity].
  - eapply returns_weaken; [apply mock_matches_loaded; assumption|].
    intros out Hout. exists team_name. split; [exact Hout|left; reflexivity].
Qed.

Lemma fetch_raises (self : loader) (team_name : string) (num_matches : Z)
  (game_type : string) (e : exn) :
  no_key (api_key self) = false ->
  0 <= num_matches -> num_matches * 3 < today -> today <= MAXORDINAL ->
  int_fails int_of_product fetch_team_statistics self team_name num_matches
            game_type e ->
  raises (fetch_from_grid_api today int_of_product fetch_team_statistics self
            team_name num_matches game_type) e.
Proof.
  intros Hkey Hn Hday Hmax (Hprefix & wins_data & Hfetch & Hint).
  unfold fetch_from_grid_api. rewrite Hkey, Hprefix, Hfetch.
  apply transform_raises; assumption.
Qed.

(** X21.  A loader that [GridDataLoader.__init__] accepted fails on
    loading in one case only: it is live, statistics are found for a
    "TeamID:..." request, and [int] raises on their win percentage (an
    infinite or NaN product); the load then raises the same exception.
    In every other case, whatever the statistics service answers and
    for every random source, [load_lol_matches] and
    [load_valorant_matches] return exactly the requested number of
    matches, all of the requested game and all under one team name.
    That name is the requested one, except that statistics found for a
    "TeamID:..." request rename the team to "Team " followed by the
    request without its "TeamID:" parts; in mock mode it is always the
    requested one. *)
Theorem loader_returns_requested_matches (key : option string) (mock : bool)
  (self : loader) (team_name : string) (num_matches : Z) :
  init key mock = Ok self ->
  0 <= num_matches -> num_matches * 3 < today -> today <= MAXORDINAL ->
  let fails game_type e :=
    mock = false
    /\ int_fails int_of_product fetch_team_statistics self team_name
                 num_matches game_type e in
  let loads (load : Gen (list match_dict)) (game_type : string) :=
    (forall e, fails game_type e -> raises load e)
    /\ ((forall e, ~ fails game_type e) ->
        returns load
          (fun out =>
             Z.of_nat (List.length out) = num_matches
             /\ exists shown,
                 Forall (fun m => is_lol m = String.eqb game_type "lol"
                                  /\ team m = shown) out
                 /\ (shown = team_name
                     \/ (mock = false
                         /\ String.prefix "TeamID:" team_name = true
                         /\ shown
                            = "Team " +++ str_remove "TeamID:" team_name)))) in
  loads (load_lol_matches today int_of_product fetch_team_statistics self
           team_name num_matches) "lol"
  /\ loads (load_valorant_matches today int_of_product fetch_team_statistics self
              team_name num_matches) "valorant".
Proof.
  intros Hinit Hn Hday Hmax fails loads. unfold init in Hinit.
  assert (Hself : use_mock self = mock
                  /\ (mock = false -> no_key (api_key self) = false)).
  { destruct mock, (no_key key) eqn:Hk; cbn in Hinit; try discriminate;
      injection Hinit as <-; cbn; split; try reflexivity; try discriminate.
    intros _. exact Hk. }
  destruct Hself as [Hmock Hkey].
  assert (Hload : forall game_type load,
             load = (if mock
                     then mock_matches today team_name num_matches game_type
                     else fetch_from_grid_api today int_of_product
                            fetch_team_statistics self team_name num_matches
                            game_type) ->
             loads load game_type).
  { intros game_type load ->. unfold loads, fails. split.
    - intros e [-> Hfails]. apply fetch_raises; auto.
    - intros Hfine. destruct mock.
      + eapply returns_weaken; [apply mock_matches_loaded; assumption|].
        intros out [Hlen Hall]. split; [exact Hlen|].
        exists team_name. split; [exact Hall|left; reflexivity].
      + eapply returns_weaken.
        * apply fetch_loaded; auto. intros e He. apply (Hfine e). auto.
        * cbv beta. intros out (shown & [Hlen Hall] & Hshown).
          split; [exact Hlen|]. exists shown. split; [exact Hall|].
          destruct Hshown as [->|[Hp ->]]; [left; reflexivity|right; auto]. }
  split.
  - apply (Hload "lol"). unfold load_lol_matches. rewrite Hmock. reflexivity.
  - apply (Hload "valorant"). unfold load_valorant_matches. rewrite Hmock.
    reflexivity.
Qed.

End Relabelling.

Section LoaderWitnesses.
Import Loaders Generated MockData.

Lemma transform_applies_win_rate_witness :
  returns (transform_stats_to_matches Samples.a_day int_of_small_product
             [mk_win false (PyFloat.Finite 42); mk_win true (PyFloat.Finite 58)]
             "Team 83" 10 "lol")
    (fun out =>
       Z.of_nat (List.length out) = 10
       /\ count won out = Z.max 0 (Z.min 10 5)
       /\ Permutation
            (map match_id out)
            (map (fun id => "LOL_" +++ str_of_Z id) (range 1 (10 + 1)))
       /\ Forall (fun m =>
                    is_lol m = true
                    /\ exists id,
                        1 <= id <= 10
                        /\ generated_but_won Samples.a_day "Team 83" id m
                        /\ won m = (id <=? 5))
                 out)
  /\ raises (transform_stats_to_matches Samples.a_day int_of_small_product
               [mk_win true PyFloat.NaN] "Team 83" 10 "lol")
       ValueError.
Proof.
  split.
  - apply (transform_applies_win_rate Samples.a_day int_of_small_product
             [mk_win false (PyFloat.Finite 42); mk_win true (PyFloat.Finite 58)]
             "Team 83" 10 "lol");
      unfold Samples.a_day, MAXORDINAL; lia.
  - apply (transform_applies_win_rate Samples.a_day int_of_small_product
             [mk_win true PyFloat.NaN] "Team 83" 10 "lol");
      unfold Samples.a_day, MAXORDINAL; lia.
Defined.

Lemma loader_returns_requested_matches_witness :
  returns (load_lol_matches Samples.a_day int_of_small_product
             (fun _ _ _ => Some [mk_win true (PyFloat.Finite 58)])
             (mk_loader (Some "key") false) "TeamID:83" 10)
    (fun out =>
       Z.of_nat (List.length out) = 10
       /\ exists shown,
           Forall (fun m => is_lol m = true /\ team m = shown) out
           /\ (shown = "TeamID:83"
               \/ (false = false
                   /\ String.prefix "TeamID:" "TeamID:83" = true
                   /\ shown = "Team " +++ str_remove "TeamID:" "TeamID:83")))
  /\ raises (load_valorant_matches Samples.a_day int_of_small_product
               (fun _ _ _ => Some [mk_win true (PyFloat.Infinity false)])
               (mk_loader (Some "key") false) "TeamID:83" 10)
       OverflowError.
Proof.
  split.
  - apply (loader_returns_requested_matches Samples.a_day int_of_small_product
             (fun _ _ _ => Some [mk_win true (PyFloat.Finite 58)])
             (Some "key") false (mk_loader (Some "key") false) "TeamID:83" 10);
      [reflexivity|unfold Samples.a_day, MAXORDINAL; lia..|].
    intros e (_ & _ & wins_data & Hfetch & Hint).
    injection Hfetch as <-. discriminate Hint.
  - apply (loader_returns_requested_matches Samples.a_day int_of_small_product
             (fun _ _ _ => Some [mk_win true (PyFloat.Infinity false)])
             (Some "key") false (mk_loader (Some "key") false) "TeamID:83" 10);
      [reflexivity|unfold Samples.a_day, MAXORDINAL; lia..|].
    split; [reflexivity|]. split; [reflexivity|].
    exists [mk_win true (PyFloat.Infinity false)]. split; reflexivity.
Defined.

End LoaderWitnesses.

(* ================================================================= *)
(** ** [utils.py]: the colour of a metric                             *)
(* ================================================================= *)

Section Colours.
Import PyFloat Utils.

Lemma Qle_bool_false (x y : Q) : Qle_bool x y = false <-> (y < x)%Q.
Proof.
  split.
  - intros H. apply Qnot_le_lt. intros Hle. apply Qle_bool_iff in Hle. congruence.
  - intros H. apply not_true_is_false. intros Hle. apply Qle_bool_iff in Hle. lra.
Qed.

Ltac compare_all :=
  repeat match goal with
         | H : Qle_bool _ _ = true |- _ => apply Qle_bool_iff in H
         | H : Qle_bool _ _ = false |- _ => apply Qle_bool_false in H
         | |- Qle_bool _ _ = true => apply Qle_bool_iff
         | |- Qle_bool _ _ = false => apply Qle_bool_false
         end.

Lemma fle_trans (a b c : pyfloat) :
  fle a b = true -> fle b c = true -> fle a c = true.
Proof.
  destruct a as [x|[]|], b as [y|[]|], c as [z|[]|]; cbn [fle];
    intros H1 H2; try reflexivity; try discriminate.
  compare_all. lra.
Qed.

Lemma fle_total (a b : pyfloat) :
  a <> NaN -> b <> NaN -> fle a b = true \/ fle b a = true.
Proof.
  destruct a as [x|[]|], b as [y|[]|]; cbn [fle]; intros Ha Hb;
    try contradiction; auto.
  destruct (Qle_bool x y) eqn:E; [auto|]. right. compare_all. lra.
Qed.

Lemma fle_nan (a b : pyfloat) : fle a b = true -> a <> NaN /\ b <> NaN.
Proof.
  destruct a as [x|[]|], b as [y|[]|]; cbn [fle]; intros H;
    try discriminate; split; discriminate.
Qed.

Lemma fle_neg (a b : pyfloat) : fle (fneg a) (fneg b) = fle b a.
Proof.
  destruct a as [x|[]|], b as [y|[]|]; cbn [fle fneg negb]; try reflexivity.
  destruct (Qle_bool y x) eqn:E; compare_all; lra.
Qed.

(** X22.  [get_color_by_performance] for all values and thresholds,
    infinities and NaN included: it answers green, orange or red; with
    higher-is-better a larger value never gets a worse colour (green
    stays green upwards, red stays red downwards), with lower-is-better
    the order is reversed, and the lower-is-better colour is the
    higher-is-better colour of the negated value and thresholds.  A NaN
    value is always orange.  With higher-is-better and the good
    threshold at or below the bad one, orange is the colour of NaN alone
    and green wins where both thresholds apply; with the bad threshold
    strictly below the good one, orange is the colour of NaN and of the
    values strictly between the two. *)
Theorem performance_colour_order (v good bad : pyfloat) (higher : bool) :
  let colour x := get_color_by_performance x good bad higher in
  In (colour v) [green; orange; red]
  /\ (forall v', fle v v' = true ->
        if higher
        then (colour v = green -> colour v' = green)
             /\ (colour v' = red -> colour v = red)
        else (colour v' = green -> colour v = green)
             /\ (colour v = red -> colour v' = red))
  /\ get_color_by_performance v good bad false
     = get_color_by_performance (fneg v) (fneg good) (fneg bad) true
  /\ (v = NaN -> colour v = orange)
  /\ (higher = true -> fle good bad = true ->
      (colour v = orange <-> v = NaN)
      /\ (colour v = green <-> fle good v = true))
  /\ (higher = true -> strictly_below bad good ->
      (colour v = green <-> fle good v = true)
      /\ (colour v = red <-> fle v bad = true)
      /\ (colour v = orange
          <-> v = NaN \/ (strictly_below bad v /\ strictly_below v good))).
Proof.
  intros colour. subst colour. cbv beta.
  unfold get_color_by_performance, fge, green, orange, red.
  split; [|split; [|split; [|split; [|split]]]].
  - destruct higher;
      repeat match goal with |- context [fle ?a ?b] => destruct (fle a b) end;
      cbn; auto.
  - intros v' Hv. destruct higher; split.
    + destruct (fle good v) eqn:E1.
      * intros _. rewrite (fle_trans _ _ _ E1 Hv). reflexivity.
      * destruct (fle v bad); discriminate.
    + destruct (fle good v') eqn:E1; [discriminate|].
      destruct (fle v' bad) eqn:E2; [|discriminate]. intros _.
      destruct (fle good v) eqn:E3;
        [rewrite (fle_trans _ _ _ E3 Hv) in E1; discriminate|].
      rewrite (fle_trans _ _ _ Hv E2). reflexivity.
    + destruct (fle v' good) eqn:E1.
      * intros _. rewrite (fle_trans _ _ _ Hv E1). reflexivity.
      * destruct (fle bad v'); discriminate.
    + destruct (fle v good) eqn:E1; [discriminate|].
      destruct (fle bad v) eqn:E2; [|discriminate]. intros _.
      destruct (fle v' good) eqn:E3;
        [rewrite (fle_trans _ _ _ Hv E3) in E1; discriminate|].
      rewrite (fle_trans _ _ _ E2 Hv). reflexivity.
  - rewrite !fle_neg. reflexivity.
  - intros ->. destruct higher, good as [g|[]|], bad as [b|[]|]; reflexivity.
  - intros -> Hgb. split; split.
    + destruct (fle good v) eqn:E1; [discriminate|].
      destruct (fle v bad) eqn:E2; [discriminate|]. intros _.
      destruct v as [x|n|]; [| |reflexivity]; exfalso.
      * destruct (fle_nan _ _ Hgb) as [Hg Hb].
        destruct (fle_total (Finite x) good ltac:(discriminate) Hg) as [H|H];
          [|congruence].
        rewrite (fle_trans _ _ _ H Hgb) in E2. discriminate.
      * destruct (fle_nan _ _ Hgb) as [Hg Hb].
        destruct (fle_total (Infinity n) good ltac:(discriminate) Hg) as [H|H];
          [|congruence].
        rewrite (fle_trans _ _ _ H Hgb) in E2. discriminate.
    + intros ->. destruct good as [g|[]|], bad as [b|[]|]; reflexivity.
    + destruct (fle good v); [reflexivity|].
      destruct (fle v bad); discriminate.
    + intros ->. reflexivity.
  - intros -> [Hbg Hgb]. split; [|split]; split.
    + destruct (fle good v); [reflexivity|]. destruct (fle v bad); discriminate.
    + intros ->. reflexivity.
    + destruct (fle good v); [discriminate|].
      destruct (fle v bad); [reflexivity|discriminate].
    + intros Hvb. destruct (fle good v) eqn:E1; [|rewrite Hvb; reflexivity].
      rewrite (fle_trans _ _ _ E1 Hvb) in Hgb. discriminate.
    + destruct (fle good v) eqn:E1; [discriminate|].
      destruct (fle v bad) eqn:E2; [discriminate|]. intros _.
      destruct v as [x|n|]; [| |left; reflexivity]; right.
      * destruct (fle_nan _ _ Hbg) as [Hb Hg]. unfold strictly_below.
        destruct (fle_total (Finite x) good ltac:(discriminate) Hg) as [H|H];
          [|congruence].
        destruct (fle_total (Finite x) bad ltac:(discriminate) Hb) as [H'|H'];
          [congruence|]. auto.
      * destruct (fle_nan _ _ Hbg) as [Hb Hg]. unfold strictly_below.
        destruct (fle_total (Infinity n) good ltac:(discriminate) Hg) as [H|H];
          [|congruence].
        destruct (fle_total (Infinity n) bad ltac:(discriminate) Hb) as [H'|H'];
          [congruence|]. auto.
    + intros [->|[[_ Hvb] [_ Hgv]]].
      * destruct good as [g|[]|], bad as [b|[]|]; reflexivity.
      * rewrite Hgv, Hvb. reflexivity.
Qed.

End Colours.

(* ================================================================= *)
(** ** [agent.py]: the weakest lane of an analysis                    *)
(* ================================================================= *)

Section WeakestLane.
Import Lol LolSpec Agent.

Lemma Qltb_cases (a b : Q) :
  (Qltb a b = true /\ (a < b)%Q) \/ (Qltb a b = false /\ (b <= a)%Q).
Proof.
  unfold Qltb. destruct (Qle_bool b a) eqn:E.
  - right. split; [reflexivity|apply Qle_bool_iff, E].
  - left. split; [reflexivity|]. apply Qnot_le_lt. intros H.
    apply Qle_bool_iff in H. congruence.
Qed.

Lemma rounded_le_counts (a b total : Z) :
  0 < total ->
  (num_to_Q (py_round (flt (inject_Z a / inject_Z total * 100)) 1)
   <= num_to_Q (py_round (flt (inject_Z b / inject_Z total * 100)) 1))%Q ->
  1000 * a <= 1000 * b + total.
Proof.
  intros Hpos H.
  destruct (reported_lane_percent a total) as (Ra & Ea & Ba).
  destruct (reported_lane_percent b total) as (Rb & Eb & Bb).
  rewrite Ea, Eb in H.
  assert (Ht : (0 < inject_Z total)%Q).
  { change 0%Q with (inject_Z 0). rewrite <- Zlt_Qlt. exact Hpos. }
  assert (Ha : (inject_Z a / inject_Z total * inject_Z total == inject_Z a)%Q)
    by (field; lra).
  assert (Hb : (inject_Z b / inject_Z total * inject_Z total == inject_Z b)%Q)
    by (field; lra).
  set (qa := (inject_Z a / inject_Z total)%Q) in *.
  set (qb := (inject_Z b / inject_Z total)%Q) in *.
  assert (Hq : (qa * 1000 <= qb * 1000 + 1)%Q).
  { unfold Qdiv in H. change (/ 10)%Q with (1 # 10)%Q in H. lra. }
  assert (Hm : ((qa * 1000) * inject_Z total
                <= (qb * 1000 + 1) * inject_Z total)%Q).
  { apply Qmult_le_compat_r; [exact Hq|lra]. }
  assert (Hz : (inject_Z (1000 * a) <= inject_Z (1000 * b + total))%Q).
  { rewrite inject_Z_plus, !inject_Z_mult.
    setoid_replace (inject_Z 1000 * inject_Z a)%Q
      with ((qa * 1000) * inject_Z total)%Q by (rewrite <- Ha; ring).
    setoid_replace (inject_Z 1000 * inject_Z b + inject_Z total)%Q
      with ((qb * 1000 + 1) * inject_Z total)%Q by (rewrite <- Hb at 1; ring).
    exact Hm. }
  rewrite <- Zle_Qle in Hz. exact Hz.
Qed.

Lemma lane_share_value (self : analyzer) (lane : string) :
  samples self <> [] -> In lane ["Top"; "Mid"; "Bot"] ->
  lane_share (calculate_jungle_proximity self) lane
  = num_to_Q (py_round
                (flt (inject_Z (lane_count lane self)
                      / inject_Z (Z.of_nat (List.length (samples self))) * 100))
                1).
Proof.
  intros Hne Hin.
  destruct (jungle_fields_nonempty self Hne) as (Ht & Hm & Hb & _).
  cbn [In] in Hin. destruct Hin as [<-|[<-|[<-|[]]]];
    unfold lane_share, reported; cbn [String.eqb Ascii.eqb Bool.eqb];
    rewrite ?Ht, ?Hm, ?Hb, lane_percent_value; reflexivity.
Qed.

(** X23.  The lane the mock scouting report calls the weakest, for the
    analysis of any match list: it is Top, Mid or Bot, and no lane has a
    smaller reported percentage.  Without samples it is Top.  With
    samples its sample count exceeds no other lane's by more than a
    thousandth of all samples: the choice is made on the percentages
    rounded to one decimal, so among lanes that round alike the first of
    Top, Mid, Bot is named, even when it has more samples. *)
Theorem weakest_lane_of_analysis (self : analyzer) :
  let jungle := calculate_jungle_proximity self in
  let w := weakest_lane (get_complete_analysis self) in
  In w ["Top"; "Mid"; "Bot"]
  /\ (forall lane, In lane ["Top"; "Mid"; "Bot"] ->
        (lane_share jungle w <= lane_share jungle lane)%Q)
  /\ (samples self = [] -> w = "Top")
  /\ (samples self <> [] ->
      forall lane, In lane ["Top"; "Mid"; "Bot"] ->
        1000 * lane_count w self
        <= 1000 * lane_count lane self + Z.of_nat (List.length (samples self))).
Proof.
  intros jungle w.
  assert (Hmin : In w ["Top"; "Mid"; "Bot"]
                 /\ forall lane, In lane ["Top"; "Mid"; "Bot"] ->
                      (lane_share jungle w <= lane_share jungle lane)%Q).
  { subst w. unfold weakest_lane.
    change (get_dict "jungle_proximity" (get_complete_analysis self)) with jungle.
    cbv zeta. unfold min_by_value. cbn [fold_left snd fst].
    set (t := reported "top_lane_percent" jungle).
    set (m := reported "mid_lane_percent" jungle).
    set (b := reported "bot_lane_percent" jungle).
    assert (Hshare : lane_share jungle "Top" = t /\ lane_share jungle "Mid" = m
                     /\ lane_share jungle "Bot" = b) by (repeat split).
    destruct Hshare as (HT & HM & HB).
    destruct (Qltb_cases m t) as [[-> Hmt]|[-> Hmt]]; cbn [snd fst].
    - destruct (Qltb_cases b m) as [[-> Hbm]|[-> Hbm]]; cbn [fst];
        (split; [cbn; auto|]); intros lane Hl; cbn [In] in Hl;
        destruct Hl as [<-|[<-|[<-|[]]]]; rewrite ?HT, ?HM, ?HB; lra.
    - destruct (Qltb_cases b t) as [[-> Hbt]|[-> Hbt]]; cbn [fst];
        (split; [cbn; auto|]); intros lane Hl; cbn [In] in Hl;
        destruct Hl as [<-|[<-|[<-|[]]]]; rewrite ?HT, ?HM, ?HB; lra. }
  destruct Hmin as [Hin Hle].
  split; [exact Hin|]. split; [exact Hle|]. split.
  - intros Hempty. subst w. unfold weakest_lane.
    change (get_dict "jungle_proximity" (get_complete_analysis self))
      with (calculate_jungle_proximity self).
    rewrite (jungle_empty self Hempty). reflexivity.
  - intros Hne lane Hl. apply rounded_le_counts.
    + destruct (samples self); [contradiction|cbn [List.length]; lia].
    + rewrite <- !(lane_share_value self) by assumption. apply Hle, Hl.
Qed.

End WeakestLane.

(* ================================================================= *)
(** ** [utils.py]: the objective timeline                             *)
(* ================================================================= *)

Section Timeline.
Import Lol LolSpec LolEvents Loaders Utils Generated MockData.

Lemma count_none {A : Type} (l : list A) : count (fun _ => false) l = 0.
Proof. induction l as [|a l IH]; [reflexivity|]. rewrite count_cons, IH. lia. Qed.

Lemma count_rows_of (name label type' : string)
  (specific : objective -> string) (type : string) (captured : bool)
  (evs : list objective) :
  count (is_row type (row_label captured))
        (map (row_of name label type' specific) evs)
  = if String.eqb type' type
    then count (fun ev => Bool.eqb (credited name ev) captured) evs
    else 0.
Proof.
  rewrite count_map. destruct (String.eqb type' type) eqn:E.
  - apply count_ext. intros ev. unfold is_row, row_of, credited.
    cbn [row_type row_team]. rewrite E.
    destruct (String.eqb (o_team ev) name), captured; reflexivity.
  - rewrite <- (count_none evs). apply count_ext. intros ev.
    unfold is_row, row_of. cbn [row_type]. rewrite E. reflexivity.
Qed.

Lemma count_match_rows (name type : string) (captured : bool) (i : Z)
  (m : lol_match) :
  count (is_row type (row_label captured)) (match_rows name i (LolMatch m))
  = (if String.eqb "Dragon" type
     then count (fun ev => Bool.eqb (credited name ev) captured) (dragons m)
     else 0)
    + (if String.eqb "Herald" type
       then count (fun ev => Bool.eqb (credited name ev) captured) (heralds m)
       else 0)
    + (if String.eqb "Baron" type
       then count (fun ev => Bool.eqb (credited name ev) captured) (barons m)
       else 0).
Proof.
  unfold match_rows. cbv zeta. rewrite !count_app, !count_rows_of.
  cbn [events_of]. lia.
Qed.

Lemma count_all_rows (name type : string) (captured : bool)
  (ms : list lol_match) :
  forall idx,
    List.length idx = List.length ms ->
    count (is_row type (row_label captured))
          (flat_map (fun im => match_rows name (fst im) (snd im))
                    (combine idx (map LolMatch ms)))
    = (if String.eqb "Dragon" type
       then count (fun ev => Bool.eqb (credited name ev) captured)
                  (flat_map dragons ms)
       else 0)
      + (if String.eqb "Herald" type
         then count (fun ev => Bool.eqb (credited name ev) captured)
                    (flat_map heralds ms)
         else 0)
      + (if String.eqb "Baron" type
         then count (fun ev => Bool.eqb (credited name ev) captured)
                    (flat_map barons ms)
         else 0).
Proof.
  induction ms as [|m ms IH]; intros idx Hlen.
  - destruct idx; [|discriminate]. cbn [map combine flat_map].
    rewrite !count_nil.
    destruct (String.eqb "Dragon" type), (String.eqb "Herald" type),
      (String.eqb "Baron" type); reflexivity.
  - destruct idx as [|i idx]; [discriminate|].
    cbn [map combine flat_map fst snd].
    rewrite count_app, count_match_rows, (IH idx)
      by (cbn [List.length] in Hlen; lia).
    rewrite !count_app.
    destruct (String.eqb "Dragon" type), (String.eqb "Herald" type),
      (String.eqb "Baron" type); lia.
Qed.

Lemma count_credited_split (name : string) (evs : list objective) :
  count (fun ev => Bool.eqb (credited name ev) true) evs
  = count (credited name) evs
  /\ count (fun ev => Bool.eqb (credited name ev) true) evs
     + count (fun ev => Bool.eqb (credited name ev) false) evs
     = Z.of_nat (List.length evs).
Proof.
  induction evs as [|ev evs [IH1 IH2]]; [split; reflexivity|].
  rewrite !count_cons. cbn [List.length].
  destruct (credited name ev); cbn [Bool.eqb]; lia.
Qed.

(** The rows of one kind against the two counters of that kind. *)
Lemma timeline_report_fields (self : analyzer) :
  let d := calculate_objective_control self in
  let rows := all_objectives (map LolMatch (matches self)) (team_name self) in
  forall type team_key total_key,
    In (type, team_key, total_key)
       [("Dragon", "team_dragons", "total_dragons");
        ("Herald", "team_heralds", "total_heralds");
        ("Baron", "team_barons", "total_barons")] ->
    field team_key d = Some (PInt (count (is_row type "Captured") rows))
    /\ field total_key d
       = Some (PInt (count (is_row type "Captured") rows
                     + count (is_row type "Lost") rows)).
Proof.
  intros d rows type team_key total_key Hin.
  pose proof (objective_control_fields self) as Hfields. cbv zeta in Hfields.
  cbn [fst snd] in Hfields.
  destruct Hfields as ((Hd1 & Hd2 & _) & (Hh1 & Hh2 & _) & (Hb1 & Hb2 & _)).
  assert (Hrows : forall captured,
             count (is_row type (row_label captured)) rows
             = (if String.eqb "Dragon" type
                then count (fun ev => Bool.eqb (credited (team_name self) ev) captured)
                           (all_dragons self)
                else 0)
               + (if String.eqb "Herald" type
                  then count (fun ev => Bool.eqb (credited (team_name self) ev) captured)
                             (all_heralds self)
                  else 0)
               + (if String.eqb "Baron" type
                  then count (fun ev => Bool.eqb (credited (team_name self) ev) captured)
                             (all_barons self)
                  else 0)).
  { intros captured. subst rows. unfold all_objectives.
    apply count_all_rows. rewrite length_range, length_map. lia. }
  pose proof (Hrows true) as Hc. pose proof (Hrows false) as Hl.
  cbn [row_label] in Hc, Hl. rewrite Hc, Hl. subst d.
  destruct (count_credited_split (team_name self) (all_dragons self)) as [D1 D2].
  destruct (count_credited_split (team_name self) (all_heralds self)) as [H1 H2].
  destruct (count_credited_split (team_name self) (all_barons self)) as [B1 B2].
  cbn [In] in Hin.
  destruct Hin as [E|[E|[E|[]]]]; injection E as <- <- <-;
    cbn [String.eqb Ascii.eqb Bool.eqb].
  - rewrite Hd1, Hd2. split; do 2 f_equal; lia.
  - rewrite Hh1, Hh2. split; do 2 f_equal; lia.
  - rewrite Hb1, Hb2. split; do 2 f_equal; lia.
Qed.

(** X24.  The objective timeline agrees with the objective-control
    report when it is handed the analyzer's team name: for dragons,
    heralds and barons the rows labelled "Captured" number the report's
    team count, and together with the rows labelled "Lost" they number
    the report's total. *)
Theorem timeline_agrees_with_report (self : analyzer) :
  let d := calculate_objective_control self in
  let rows := all_objectives (map LolMatch (matches self)) (team_name self) in
  (field "team_dragons" d = Some (PInt (count (is_row "Dragon" "Captured") rows))
   /\ field "total_dragons" d
      = Some (PInt (count (is_row "Dragon" "Captured") rows
                    + count (is_row "Dragon" "Lost") rows)))
  /\ (field "team_heralds" d = Some (PInt (count (is_row "Herald" "Captured") rows))
      /\ field "total_heralds" d
         = Some (PInt (count (is_row "Herald" "Captured") rows
                       + count (is_row "Herald" "Lost") rows)))
  /\ (field "team_barons" d = Some (PInt (count (is_row "Baron" "Captured") rows))
      /\ field "total_barons" d
         = Some (PInt (count (is_row "Baron" "Captured") rows
                       + count (is_row "Baron" "Lost") rows))).
Proof.
  intros d rows. split; [|split].
  - apply (timeline_report_fields self "Dragon"). left. reflexivity.
  - apply (timeline_report_fields self "Herald"). right. left. reflexivity.
  - apply (timeline_report_fields self "Baron"). right. right. left. reflexivity.
Qed.

End Timeline.

Section RenamedTeam.
Import Lol Loaders Utils Generated MockData.

Variable today : Z.
Variable int_of_product : Z -> PyFloat.pyfloat -> result Z.
Variable fetch_team_statistics : loader -> string -> string -> option (list win_entry).

Lemma team_id_request_differs (request id : string) :
  String.prefix "TeamID:" request = true ->
  request <> "Team " +++ id /\ request <> "Enemy Team".
Proof.
  intros H. apply prefix_correct in H. cbn [String.length] in H.
  destruct request as [|c0 [|c1 [|c2 [|c3 [|c4 request]]]]];
    cbn [substring] in H; try discriminate.
  inversion H; subst.
  split; intros E; cbn [String.append] in E; discriminate E.
Qed.

Lemma generated_event_labels (shown : string) (id : Z) (m : match_dict) :
  generated_but_won today shown id m ->
  Forall (fun ev => own_or_enemy shown (o_team ev))
         (events_of dragons m ++ events_of heralds m ++ events_of barons m).
Proof.
  destruct m as [m|m]; cbn [generated_but_won events_of app]; [|constructor].
  intros (b & H).
  pose proof (lg_dragons _ _ _ _ H) as Hd.
  pose proof (lg_heralds _ _ _ _ H) as Hh.
  pose proof (lg_barons _ _ _ _ H) as Hb.
  cbn [dragons heralds barons duration] in Hd, Hh, Hb.
  rewrite !Forall_app. split; [|split].
  - eapply Forall_impl; [|exact Hd]. intros ev Hev. apply Hev.
  - eapply Forall_impl; [|exact Hh]. intros ev Hev. apply Hev.
  - eapply Forall_impl; [|exact Hb]. intros ev Hev. apply Hev.
Qed.

Lemma rows_all_lost (name : string) (ms : list match_dict) :
  Forall (fun m =>
            Forall (fun ev => o_team ev <> name)
                   (events_of dragons m ++ events_of heralds m
                    ++ events_of barons m)) ms ->
  Forall (fun r => row_team r = "Lost") (all_objectives ms name).
Proof.
  intros Hms. unfold all_objectives. apply Forall_flat_map.
  apply Forall_forall. intros [i m] Him. apply in_combine_r in Him.
  rewrite Forall_forall in Hms. specialize (Hms m Him).
  rewrite !Forall_app in Hms. destruct Hms as (Hd & Hh & Hb).
  cbn [fst snd]. unfold match_rows. cbv zeta. rewrite !Forall_app.
  assert (Hrow : forall label type specific evs,
             Forall (fun ev => o_team ev <> name) evs ->
             Forall (fun r => row_team r = "Lost")
                    (map (row_of name label type specific) evs)).
  { intros label type specific evs Hevs. apply Forall_map.
    eapply Forall_impl; [|exact Hevs]. intros ev Hev.
    unfold row_of. cbn [row_team].
    destruct (String.eqb_spec (o_team ev) name); [contradiction|reflexivity]. }
  split; [|split]; apply Hrow; assumption.
Qed.

(** X25.  A live loader asked for "TeamID:..." that finds statistics
    either fails on [int] (an infinite or NaN win percentage; loading
    then raises the same exception), or returns matches under the name
    "Team ...", with their events credited to that name or to
    "Enemy Team".  The objective timeline drawn for the requested name
    (as [main.py] calls it) therefore labels every row "Lost", whatever
    the statistics say and for every random source. *)
Theorem timeline_of_renamed_team (self : loader) (team_name : string)
  (num_matches : Z) (wins_data : list win_entry) :
  use_mock self = false -> no_key (api_key self) = false ->
  String.prefix "TeamID:" team_name = true ->
  fetch_team_statistics self (str_remove "TeamID:" team_name) "lol"
  = Some wins_data ->
  0 <= num_matches -> num_matches * 3 < today -> today <= MAXORDINAL ->
  match int_of_product num_matches (real_win_pct wins_data) with
  | Raise e =>
      raises (load_lol_matches today int_of_product fetch_team_statistics self
                team_name num_matches) e
  | Ok _ =>
      returns (load_lol_matches today int_of_product fetch_team_statistics self
                 team_name num_matches)
        (fun out =>
           Z.of_nat (List.length out) = num_matches
           /\ Forall (fun m =>
                        is_lol m = true
                        /\ team m = "Team " +++ str_remove "TeamID:" team_name)
                     out
           /\ Forall (fun r => row_team r = "Lost")
                     (all_objectives out team_name))
  end.
Proof.
  intros Hlive Hkey Hprefix Hstats Hn Hday Hmax.
  unfold load_lol_matches, fetch_from_grid_api.
  rewrite Hlive, Hkey, Hprefix, Hstats.
  destruct (int_of_product num_matches (real_win_pct wins_data))
    as [num_wins_expected|e] eqn:Hint;
    [|apply transform_raises; assumption].
  eapply returns_weaken; [apply transform_full; eassumption|].
  cbv beta. intros out (x & Hperm & Hx).
  destruct (numbered_loaded today _ _ _ _ x out Hn Hperm Hx) as [Hlen Hteam].
  split; [exact Hlen|]. split; [exact Hteam|].
  apply rows_all_lost. apply (Permutation_Forall Hperm).
  apply (Forall2_Forall_r _ _ _ _ Hx). intros id m _ ((Hgen & _) & _).
  eapply Forall_impl; [|apply (generated_event_labels _ _ _ Hgen)].
  intros ev [Hown|Henemy] E; rewrite E in *;
    destruct (team_id_request_differs team_name
                (str_remove "TeamID:" team_name) Hprefix) as [H1 H2];
    contradiction.
Qed.

End RenamedTeam.

Section RenamedTeamWitness.
Import Lol Loaders Utils Generated MockData.

Lemma timeline_of_renamed_team_witness :
  returns (load_lol_matches Samples.a_day int_of_small_product
             (fun _ _ _ => Some [mk_win true (PyFloat.Finite 58)])
             (mk_loader (Some "key") false) "TeamID:83" 10)
    (fun out =>
       Z.of_nat (List.length out) = 10
       /\ Forall (fun m => is_lol m = true
                           /\ team m = "Team " +++ str_remove "TeamID:" "TeamID:83")
                 out
       /\ Forall (fun r => row_team r = "Lost") (all_objectives out "TeamID:83")).
Proof.
  apply (timeline_of_renamed_team Samples.a_day int_of_small_product
           (fun _ _ _ => Some [mk_win true (PyFloat.Finite 58)])
           (mk_loader (Some "key") false) "TeamID:83" 10
           [mk_win true (PyFloat.Finite 58)]);
    try reflexivity; unfold Samples.a_day, MAXORDINAL; lia.
Defined.

End RenamedTeamWitness.
